(** * simple-gb-emu: a shallow embedding of the Game Boy emulator core

    The C sources keep every component in process-wide globals ([cpu],
    [memory], [current_cartridge], [timer_state], [ppu]).  The embedding
    gathers them in one record, [Machine], and every C function that
    mutates a global becomes a function from [Machine] to [Machine].

    Fixed-width integers are values of [Z]; the conversion that C performs
    when a value is stored in a [uint8_t] or [uint16_t] object (or passed
    as such an argument) is written out with [u8] and [u16]. *)

From Stdlib Require Import ZArith List Bool Lia String Ascii.
Import ListNotations.
Local Open Scope Z_scope.

(** ** Fixed-width conversions *)

Definition u8 (x : Z) : Z := x mod 256.
Definition u16 (x : Z) : Z := x mod 65536.

(** [(int8_t) x] for a byte [x]: two's complement reinterpretation. *)
Definition int8_t (x : Z) : Z :=
  let y := u8 x in if y <? 128 then y else y - 256.

(** ** gameboy.h: flag register bits *)

Definition FLAG_Z : Z := 0x80.
Definition FLAG_N : Z := 0x40.
Definition FLAG_H : Z := 0x20.
Definition FLAG_C : Z := 0x10.

(** ** gameboy.h: data model *)

(** [Cartridge]: [data] holds the ROM image; the C field [size] is the
    number of bytes read into [data], so it is derived from the list.
    [title] and [type] are only filled in for images of at least 0x150
    bytes. *)
Record Cartridge := mkCartridge {
  data : list Z;
  title : list Z;
  type : Z
}.

Definition size (cart : Cartridge) : Z := Z.of_nat (List.length (data cart)).

Record CPU_State := mkCPU {
  a : Z; f : Z; b : Z; c : Z; d : Z; e : Z; h : Z; l : Z;
  pc : Z; sp : Z;
  halted : bool;
  interrupts_enabled : bool
}.

(** timer.c *)
Record Timer_State := mkTimer {
  divider_cycles : Z;
  timer_cycles : Z
}.

(** The PPU state.  ppu.c declares [cycles], [mode] and [line]; the
    revision with the terminal renderer adds [framebuffer] (144 rows of
    320 characters), [frame_ready] and [frame_count].  The functions of
    ppu.c never read or write the last three. *)
Record PPU_State := mkPPU {
  cycles : Z;
  mode : Z;
  line : Z;
  framebuffer : Z -> Z -> ascii;
  frame_ready : bool;
  frame_count : Z
}.

(** What the emulator prints or logs while it runs. *)
Inductive Output :=
| Unimplemented_opcode (opcode : Z) (at_pc : Z)
    (* printf("Unimplemented opcode: 0x%02X at PC: 0x%04X\n", opcode, cpu.pc - 1) *)
| Unimplemented_CB_opcode (cb_opcode : Z) (at_pc : Z)
    (* printf("Unimplemented CB opcode: 0x%02X at PC: 0x%04X\n", cb_opcode, cpu.pc - 2) *)
| Debug_instruction (current_pc : Z) (opcode : Z) (name : string) (regs : CPU_State)
    (* LOG_DEBUG("PC: 0x%04X OP: 0x%02X (%s) A:%02X ...", ...) *)
| Info_cpu_initialized (at_pc : Z) (at_sp : Z).
    (* LOG_INFO("CPU initialized. PC: 0x%04X, SP: 0x%04X", cpu.pc, cpu.sp) *)

(** All globals of the program.  [stdout] collects the [printf] calls of
    the CPU, newest first; [log_file] is [None] while the logger's file
    handle is NULL and otherwise holds the lines written, newest first. *)
Record Machine := mkMachine {
  cpu : CPU_State;
  memory : Z -> Z;
  current_cartridge : option Cartridge;
  timer_state : Timer_State;
  ppu : PPU_State;
  stdout : list Output;
  log_file : option (list Output)
}.

(** Field updates. *)
Definition set_cpu (x : CPU_State) (m : Machine) : Machine :=
  mkMachine x (memory m) (current_cartridge m) (timer_state m) (ppu m) (stdout m) (log_file m).
Definition set_memory (x : Z -> Z) (m : Machine) : Machine :=
  mkMachine (cpu m) x (current_cartridge m) (timer_state m) (ppu m) (stdout m) (log_file m).
Definition set_timer_state (x : Timer_State) (m : Machine) : Machine :=
  mkMachine (cpu m) (memory m) (current_cartridge m) x (ppu m) (stdout m) (log_file m).
Definition set_ppu (x : PPU_State) (m : Machine) : Machine :=
  mkMachine (cpu m) (memory m) (current_cartridge m) (timer_state m) x (stdout m) (log_file m).
Definition set_stdout (x : list Output) (m : Machine) : Machine :=
  mkMachine (cpu m) (memory m) (current_cartridge m) (timer_state m) (ppu m) x (log_file m).
Definition set_log_file (x : option (list Output)) (m : Machine) : Machine :=
  mkMachine (cpu m) (memory m) (current_cartridge m) (timer_state m) (ppu m) (stdout m) x.

(** ** cartridge.c *)

(** [cartridge_read]: 0xFF when no cartridge is loaded or the address is
    not below the image size. *)
Definition cartridge_read (m : Machine) (address : Z) : Z :=
  let address := u16 address in
  match current_cartridge m with
  | None => 0xFF
  | Some cart =>
      if address >=? size cart then 0xFF
      else nth (Z.to_nat address) (data cart) 0
  end.

(** ** memory.c *)

Definition memory_init (m : Machine) : Machine :=
  set_memory (fun _ => 0) m.

Definition memory_read (m : Machine) (address : Z) : Z :=
  let address := u16 address in
  if address <? 0x8000 then cartridge_read m address
  else memory m address.

(** [memory[address] = value] *)
Definition store (address value : Z) (mem : Z -> Z) : Z -> Z :=
  fun i => if i =? address then value else mem i.

Definition memory_write (address value : Z) (m : Machine) : Machine :=
  let address := u16 address in
  let value := u8 value in
  if address <? 0x8000 then m
  else if (address >=? 0xE000) && (address <? 0xFE00) then
    let m := set_memory (store address value (memory m)) m in
    set_memory (store (address - 0x2000) value (memory m)) m
  else set_memory (store address value (memory m)) m.

(** C's truth value of an integer used as a condition. *)
Definition nonzero (x : Z) : bool := negb (x =? 0).

(** ** timer.c *)

Definition set_divider_cycles (x : Z) (m : Machine) : Machine :=
  set_timer_state (mkTimer x (timer_cycles (timer_state m))) m.
Definition set_timer_cycles (x : Z) (m : Machine) : Machine :=
  set_timer_state (mkTimer (divider_cycles (timer_state m)) x) m.

Definition timer_init (m : Machine) : Machine :=
  let m := set_divider_cycles 0 m in
  let m := set_timer_cycles 0 m in
  let m := memory_write 0xFF04 0x00 m in (* DIV *)
  let m := memory_write 0xFF05 0x00 m in (* TIMA *)
  let m := memory_write 0xFF06 0x00 m in (* TMA *)
  memory_write 0xFF07 0x00 m.            (* TAC *)

(** The [switch (tac & 0x03)] that selects the TIMA period. *)
Definition timer_threshold (tac : Z) : Z :=
  match Z.land tac 0x03 with
  | 0 => 1024
  | 1 => 16
  | 2 => 64
  | _ => 256
  end.

Definition timer_update (cycles : Z) (m : Machine) : Machine :=
  let cycles := u16 cycles in
  (* Update DIV register *)
  let m := set_divider_cycles (u16 (divider_cycles (timer_state m) + cycles)) m in
  let m :=
    if divider_cycles (timer_state m) >=? 256 then
      let m := set_divider_cycles (u16 (divider_cycles (timer_state m) - 256)) m in
      let div := u8 (memory_read m 0xFF04) in
      memory_write 0xFF04 (div + 1) m
    else m in
  (* Update timer if enabled *)
  let tac := u8 (memory_read m 0xFF07) in
  if nonzero (Z.land tac 0x04) then
    let m := set_timer_cycles (u16 (timer_cycles (timer_state m) + cycles)) m in
    let threshold := timer_threshold tac in
    if timer_cycles (timer_state m) >=? threshold then
      let m := set_timer_cycles (u16 (timer_cycles (timer_state m) - threshold)) m in
      let tima := u8 (memory_read m 0xFF05) in
      if tima =? 0xFF then
        memory_write 0xFF05 (memory_read m 0xFF06) m (* Reset to TMA *)
      else
        memory_write 0xFF05 (tima + 1) m
    else m
  else m.

Definition update_timer (m : Machine) : Machine := timer_update 4 m.

(** ** PPU registers (memory mapped) *)

Definition LCDC : Z := 0xFF40.
Definition STAT : Z := 0xFF41.
Definition SCY : Z := 0xFF42.
Definition SCX : Z := 0xFF43.
Definition LY : Z := 0xFF44.
Definition LYC : Z := 0xFF45.
Definition BGP : Z := 0xFF47.

Definition set_cycles (x : Z) (m : Machine) : Machine :=
  let p := ppu m in
  set_ppu (mkPPU x (mode p) (line p) (framebuffer p) (frame_ready p) (frame_count p)) m.
Definition set_mode (x : Z) (m : Machine) : Machine :=
  let p := ppu m in
  set_ppu (mkPPU (cycles p) x (line p) (framebuffer p) (frame_ready p) (frame_count p)) m.
Definition set_line (x : Z) (m : Machine) : Machine :=
  let p := ppu m in
  set_ppu (mkPPU (cycles p) (mode p) x (framebuffer p) (frame_ready p) (frame_count p)) m.
Definition set_framebuffer (x : Z -> Z -> ascii) (m : Machine) : Machine :=
  let p := ppu m in
  set_ppu (mkPPU (cycles p) (mode p) (line p) x (frame_ready p) (frame_count p)) m.
Definition set_frame_ready (x : bool) (m : Machine) : Machine :=
  let p := ppu m in
  set_ppu (mkPPU (cycles p) (mode p) (line p) (framebuffer p) x (frame_count p)) m.
Definition set_frame_count (x : Z) (m : Machine) : Machine :=
  let p := ppu m in
  set_ppu (mkPPU (cycles p) (mode p) (line p) (framebuffer p) (frame_ready p) x) m.

(** ** ppu.c (src/gameboy-emulator/src/ppu.c) *)

Module ppu_c.

Definition ppu_init (m : Machine) : Machine :=
  let m := set_cycles 0 m in
  let m := set_mode 0 m in
  let m := set_line 0 m in
  let m := memory_write LCDC 0x91 m in (* LCD on, background on *)
  let m := memory_write STAT 0x00 m in
  let m := memory_write SCY 0x00 m in
  let m := memory_write SCX 0x00 m in
  let m := memory_write LY 0x00 m in
  memory_write LYC 0x00 m.

Definition ppu_update (cycles_arg : Z) (m : Machine) : Machine :=
  let cycles_arg := u16 cycles_arg in
  (* Check if LCD is enabled *)
  if negb (nonzero (Z.land (memory_read m LCDC) 0x80)) then m
  else
    let m := set_cycles (u16 (cycles (ppu m) + cycles_arg)) m in
    let m :=
      match mode (ppu m) with
      | 0 => (* H-Blank *)
          if cycles (ppu m) >=? 204 then
            let m := set_cycles (u16 (cycles (ppu m) - 204)) m in
            let m := set_line (u8 (line (ppu m) + 1)) m in
            let m := if line (ppu m) =? 144 then set_mode 1 m (* Enter V-Blank *)
                     else set_mode 2 m (* Next line *) in
            memory_write LY (line (ppu m)) m
          else m
      | 1 => (* V-Blank *)
          if cycles (ppu m) >=? 456 then
            let m := set_cycles (u16 (cycles (ppu m) - 456)) m in
            let m := set_line (u8 (line (ppu m) + 1)) m in
            let m := if line (ppu m) >? 153 then
                       let m := set_line 0 m in (* Back to line 0 *)
                       set_mode 2 m
                     else m in
            memory_write LY (line (ppu m)) m
          else m
      | 2 => (* OAM Scan *)
          if cycles (ppu m) >=? 80 then
            let m := set_cycles (u16 (cycles (ppu m) - 80)) m in
            set_mode 3 m
          else m
      | 3 => (* Pixel Transfer *)
          if cycles (ppu m) >=? 172 then
            let m := set_cycles (u16 (cycles (ppu m) - 172)) m in
            set_mode 0 m
          else m
      | _ => m
      end in
    (* Update STAT register *)
    let stat := u8 (Z.land (memory_read m STAT) 0xF8) in
    let stat := u8 (Z.lor stat (mode (ppu m))) in
    memory_write STAT stat m.

Definition update_ppu (m : Machine) : Machine := ppu_update 4 m.

End ppu_c.

(** ** The PPU revision with the terminal renderer
    (third document of src/gameboy-emulator/src/main.c, "ppu.c") *)

Module ppu_renderer.

Definition GB_SCREEN_WIDTH : Z := 160.
Definition GB_SCREEN_HEIGHT : Z := 144.

Definition TILE_DATA_TABLE_0 : Z := 0x8000.
Definition TILE_DATA_TABLE_1 : Z := 0x8800.
Definition TILE_DATA_TABLE_2 : Z := 0x9000.

Definition BG_MAP_0 : Z := 0x9800.
Definition BG_MAP_1 : Z := 0x9C00.

(** [pixel_chars[color]]: the two characters drawn for a shade. *)
Definition pixel_chars (color : Z) : ascii * ascii :=
  match color with
  | 0 => (" ", " ")%char (* White *)
  | 1 => (".", ".")%char (* Light gray *)
  | 2 => ("#", "#")%char (* Dark gray *)
  | _ => ("@", "@")%char (* Black *)
  end.

(** [framebuffer[y][x] = ch] *)
Definition fb_store (y x : Z) (ch : ascii) (fb : Z -> Z -> ascii) : Z -> Z -> ascii :=
  fun i j => if (i =? y) && (j =? x) then ch else fb i j.

(** The two nested loops of [ppu_init] that blank the frame buffer and
    terminate every row. *)
Definition cleared_framebuffer : Z -> Z -> ascii :=
  fun y x =>
    if (0 <=? y) && (y <? GB_SCREEN_HEIGHT) && (x =? GB_SCREEN_WIDTH * 2)
    then Ascii.zero else " "%char.

Definition ppu_init (m : Machine) : Machine :=
  let m := set_cycles 0 m in
  let m := set_mode 0 m in
  let m := set_line 0 m in
  let m := set_frame_ready false m in
  let m := set_frame_count 0 m in
  let m := set_framebuffer cleared_framebuffer m in
  let m := memory_write LCDC 0x91 m in (* LCD on, background on *)
  let m := memory_write STAT 0x00 m in
  let m := memory_write SCY 0x00 m in
  let m := memory_write SCX 0x00 m in
  let m := memory_write LY 0x00 m in
  let m := memory_write LYC 0x00 m in
  memory_write BGP 0xFC m.

Definition get_color (palette color_id : Z) : Z :=
  let palette := u8 palette in
  let color_id := u8 color_id in
  u8 (Z.land (Z.shiftr palette (color_id * 2)) 0x03).

(** One iteration of the pixel loop of [render_scanline]. *)
Definition render_pixel (line_arg scroll_x palette : Z)
    (bg_map_addr : Z) (tile_data_unsigned : bool) (tile_data_base : Z)
    (tile_row tile_y : Z) (m : Machine) (pixel : Z) : Machine :=
  (* Calculate the x position within the entire background *)
  let bg_x := u8 (Z.land (pixel + scroll_x) 0xFF) in
  let tile_col := u8 (bg_x / 8) in
  let tile_x := u8 (bg_x mod 8) in
  (* Get the tile number from the tile map *)
  let tile_map_addr := u16 (bg_map_addr + tile_row * 32 + tile_col) in
  let tile_num := u8 (memory_read m tile_map_addr) in
  (* Calculate the actual tile data address *)
  let tile_addr :=
    if tile_data_unsigned then u16 (tile_data_base + tile_num * 16)
    else u16 (tile_data_base + (int8_t tile_num + 128) * 16) in
  (* Each tile has 8 rows, each row is 2 bytes *)
  let line_addr := u16 (tile_addr + tile_y * 2) in
  let low_byte := u8 (memory_read m line_addr) in
  let high_byte := u8 (memory_read m (line_addr + 1)) in
  (* Combine bits to get the color ID for this pixel (0-3) *)
  let bit_position := u8 (7 - tile_x) in
  let color_id := u8 (Z.shiftl (Z.land (Z.shiftr high_byte bit_position) 0x01) 1) in
  let color_id := u8 (Z.lor color_id (Z.land (Z.shiftr low_byte bit_position) 0x01)) in
  let color := get_color palette color_id in
  let pixel_ascii := pixel_chars color in
  let m := set_framebuffer
             (fb_store line_arg (pixel * 2) (fst pixel_ascii) (framebuffer (ppu m))) m in
  set_framebuffer
    (fb_store line_arg (pixel * 2 + 1) (snd pixel_ascii) (framebuffer (ppu m))) m.

(** [render_scanline(line)].  The C array has 144 rows; the function is
    only called with [ppu.line - 1] after an H-Blank, which is a row of
    the array whenever the H-Blank started on a visible line. *)
Definition render_scanline (line_arg : Z) (m : Machine) : Machine :=
  let line_arg := u8 line_arg in
  let lcdc := u8 (memory_read m LCDC) in
  (* Check if LCD and background are enabled *)
  if negb (nonzero (Z.land lcdc 0x80)) || negb (nonzero (Z.land lcdc 0x01)) then m
  else
    let scroll_y := u8 (memory_read m SCY) in
    let scroll_x := u8 (memory_read m SCX) in
    let palette := u8 (memory_read m BGP) in
    (* Determine which background map to use *)
    let bg_map_addr := if nonzero (Z.land lcdc 0x08) then BG_MAP_1 else BG_MAP_0 in
    (* Determine which tile data table to use *)
    let tile_data_unsigned := nonzero (Z.land lcdc 0x10) in
    let tile_data_base :=
      if tile_data_unsigned then TILE_DATA_TABLE_0 else TILE_DATA_TABLE_2 in
    let bg_y := u8 (Z.land (line_arg + scroll_y) 0xFF) in
    let tile_row := u8 (bg_y / 8) in
    let tile_y := u8 (bg_y mod 8) in
    fold_left (render_pixel line_arg scroll_x palette bg_map_addr tile_data_unsigned
                 tile_data_base tile_row tile_y)
              (map Z.of_nat (seq 0 (Z.to_nat GB_SCREEN_WIDTH))) m.

(** [ppu_render_frame]: draws the buffer on the terminal (not modelled),
    counts the frame and resets the frame-ready flag. *)
Definition ppu_render_frame (m : Machine) : Machine :=
  let m := set_frame_count (frame_count (ppu m) + 1) m in
  set_frame_ready false m.

Definition ppu_update (cycles_arg : Z) (m : Machine) : Machine :=
  let cycles_arg := u16 cycles_arg in
  (* Add cycles to PPU counter *)
  let m := set_cycles (u16 (cycles (ppu m) + cycles_arg)) m in
  (* LCD is disabled, don't update *)
  if negb (nonzero (Z.land (memory_read m LCDC) 0x80)) then m
  else
    let m :=
      match mode (ppu m) with
      | 0 => (* H-Blank *)
          if cycles (ppu m) >=? 204 then
            let m := set_cycles (u16 (cycles (ppu m) - 204)) m in
            let m := set_line (u8 (line (ppu m) + 1)) m in
            let m := memory_write LY (line (ppu m)) m in
            (* Render the completed scanline *)
            let m := render_scanline (line (ppu m) - 1) m in
            if line (ppu m) =? 144 then
              let m := set_mode 1 m in (* Enter V-Blank *)
              set_frame_ready true m
            else set_mode 2 m (* Next line *)
          else m
      | 1 => (* V-Blank *)
          if cycles (ppu m) >=? 456 then
            let m := set_cycles (u16 (cycles (ppu m) - 456)) m in
            let m := set_line (u8 (line (ppu m) + 1)) m in
            let m := memory_write LY (line (ppu m)) m in
            if line (ppu m) >? 153 then
              let m := set_line 0 m in (* Back to line 0 *)
              let m := memory_write LY 0 m in
              set_mode 2 m
            else m
          else m
      | 2 => (* OAM Scan *)
          if cycles (ppu m) >=? 80 then
            let m := set_cycles (u16 (cycles (ppu m) - 80)) m in
            set_mode 3 m
          else m
      | 3 => (* Pixel Transfer *)
          if cycles (ppu m) >=? 172 then
            let m := set_cycles (u16 (cycles (ppu m) - 172)) m in
            set_mode 0 m
          else m
      | _ => m
      end in
    (* Update STAT register *)
    let stat := u8 (Z.land (memory_read m STAT) 0xF8) in
    let stat := u8 (Z.lor stat (mode (ppu m))) in
    memory_write STAT stat m.

Definition update_ppu (m : Machine) : Machine := ppu_update 4 m.

Definition ppu_is_frame_ready (m : Machine) : bool := frame_ready (ppu m).

End ppu_renderer.

(** ** cpu.c *)

(** The CPU exists in two revisions that share every opcode case:
    - [cpu_c], src/gameboy-emulator/src/cpu.c: logs every instruction
      with [LOG_DEBUG]; its [switch] has no HALT case and no [default];
      [execute_cpu_cycle] tests [cpu.halted];
    - [part_001], the first document of src/unnamed/part_001:
      [cpu_execute_instruction] tests [cpu.halted] itself, and the
      [switch] ends with the HALT case and a [default] that prints the
      unimplemented opcode. *)
Inductive Revision := cpu_c | part_001.

Definition set_a (x : Z) (s : Machine) : Machine :=
  let r := cpu s in
  set_cpu (mkCPU x (f r) (b r) (c r) (d r) (e r) (h r) (l r) (pc r) (sp r)
             (halted r) (interrupts_enabled r)) s.
Definition set_f (x : Z) (s : Machine) : Machine :=
  let r := cpu s in
  set_cpu (mkCPU (a r) x (b r) (c r) (d r) (e r) (h r) (l r) (pc r) (sp r)
             (halted r) (interrupts_enabled r)) s.
Definition set_b (x : Z) (s : Machine) : Machine :=
  let r := cpu s in
  set_cpu (mkCPU (a r) (f r) x (c r) (d r) (e r) (h r) (l r) (pc r) (sp r)
             (halted r) (interrupts_enabled r)) s.
Definition set_c (x : Z) (s : Machine) : Machine :=
  let r := cpu s in
  set_cpu (mkCPU (a r) (f r) (b r) x (d r) (e r) (h r) (l r) (pc r) (sp r)
             (halted r) (interrupts_enabled r)) s.
Definition set_d (x : Z) (s : Machine) : Machine :=
  let r := cpu s in
  set_cpu (mkCPU (a r) (f r) (b r) (c r) x (e r) (h r) (l r) (pc r) (sp r)
             (halted r) (interrupts_enabled r)) s.
Definition set_e (x : Z) (s : Machine) : Machine :=
  let r := cpu s in
  set_cpu (mkCPU (a r) (f r) (b r) (c r) (d r) x (h r) (l r) (pc r) (sp r)
             (halted r) (interrupts_enabled r)) s.
Definition set_h (x : Z) (s : Machine) : Machine :=
  let r := cpu s in
  set_cpu (mkCPU (a r) (f r) (b r) (c r) (d r) (e r) x (l r) (pc r) (sp r)
             (halted r) (interrupts_enabled r)) s.
Definition set_l (x : Z) (s : Machine) : Machine :=
  let r := cpu s in
  set_cpu (mkCPU (a r) (f r) (b r) (c r) (d r) (e r) (h r) x (pc r) (sp r)
             (halted r) (interrupts_enabled r)) s.
Definition set_pc (x : Z) (s : Machine) : Machine :=
  let r := cpu s in
  set_cpu (mkCPU (a r) (f r) (b r) (c r) (d r) (e r) (h r) (l r) x (sp r)
             (halted r) (interrupts_enabled r)) s.
Definition set_sp (x : Z) (s : Machine) : Machine :=
  let r := cpu s in
  set_cpu (mkCPU (a r) (f r) (b r) (c r) (d r) (e r) (h r) (l r) (pc r) x
             (halted r) (interrupts_enabled r)) s.
Definition set_halted (x : bool) (s : Machine) : Machine :=
  let r := cpu s in
  set_cpu (mkCPU (a r) (f r) (b r) (c r) (d r) (e r) (h r) (l r) (pc r) (sp r)
             x (interrupts_enabled r)) s.
Definition set_interrupts_enabled (x : bool) (s : Machine) : Machine :=
  let r := cpu s in
  set_cpu (mkCPU (a r) (f r) (b r) (c r) (d r) (e r) (h r) (l r) (pc r) (sp r)
             (halted r) x) s.

(** logger.c: [logger_log] returns at once while [log_file] is NULL. *)
Definition logger_log (entry : Output) (s : Machine) : Machine :=
  match log_file s with
  | None => s
  | Some entries => set_log_file (Some (entry :: entries)) s
  end.

Definition printf (entry : Output) (s : Machine) : Machine :=
  set_stdout (entry :: stdout s) s.

Definition cpu_init (rev : Revision) (s : Machine) : Machine :=
  (* Initial register values for Game Boy after boot ROM *)
  let s :=
    set_cpu (mkCPU 0x01 0xB0 0x00 0x13 0x00 0xD8 0x01 0x4D 0x0100 0xFFFE false false) s in
  match rev with
  | cpu_c => logger_log (Info_cpu_initialized (pc (cpu s)) (sp (cpu s))) s
  | part_001 => s
  end.

(** [memory_read(cpu.pc++)] *)
Definition cpu_fetch_byte (s : Machine) : Z * Machine :=
  (memory_read s (pc (cpu s)), set_pc (u16 (pc (cpu s) + 1)) s).

Definition cpu_fetch_word (s : Machine) : Z * Machine :=
  let '(low, s) := cpu_fetch_byte s in
  let low := u8 low in
  let '(high, s) := cpu_fetch_byte s in
  let high := u8 high in
  (u16 (Z.lor (Z.shiftl high 8) low), s).

(** [memory_read(cpu.sp++)] *)
Definition pop_byte (s : Machine) : Z * Machine :=
  (memory_read s (sp (cpu s)), set_sp (u16 (sp (cpu s) + 1)) s).

(** Helper functions for register pairs *)
Definition get_bc (s : Machine) : Z := u16 (Z.lor (Z.shiftl (b (cpu s)) 8) (c (cpu s))).
Definition get_de (s : Machine) : Z := u16 (Z.lor (Z.shiftl (d (cpu s)) 8) (e (cpu s))).
Definition get_hl (s : Machine) : Z := u16 (Z.lor (Z.shiftl (h (cpu s)) 8) (l (cpu s))).

Definition set_bc (value : Z) (s : Machine) : Machine :=
  let value := u16 value in
  let s := set_b (u8 (Z.shiftr value 8)) s in
  set_c (u8 (Z.land value 0xFF)) s.
Definition set_de (value : Z) (s : Machine) : Machine :=
  let value := u16 value in
  let s := set_d (u8 (Z.shiftr value 8)) s in
  set_e (u8 (Z.land value 0xFF)) s.
Definition set_hl (value : Z) (s : Machine) : Machine :=
  let value := u16 value in
  let s := set_h (u8 (Z.shiftr value 8)) s in
  set_l (u8 (Z.land value 0xFF)) s.

(** Flag operations *)
Definition set_flag (flag : Z) (s : Machine) : Machine :=
  set_f (u8 (Z.lor (f (cpu s)) (u8 flag))) s.
Definition clear_flag (flag : Z) (s : Machine) : Machine :=
  set_f (u8 (Z.land (f (cpu s)) (Z.lnot (u8 flag)))) s.
Definition get_flag (flag : Z) (s : Machine) : bool :=
  nonzero (Z.land (f (cpu s)) (u8 flag)).


(** Bit operators, written as in C. *)
Local Notation "x .& y" := (Z.land x y) (at level 40, left associativity).
Local Notation "x .| y" := (Z.lor x y) (at level 50, left associativity).
Local Notation "x .^ y" := (Z.lxor x y) (at level 50, left associativity).
Local Notation "x << n" := (Z.shiftl x n) (at level 32, left associativity).
Local Notation "x >> n" := (Z.shiftr x n) (at level 32, left associativity).

Definition u32 (x : Z) : Z := x mod 4294967296.

(** [get_opcode_name] of cpu.c: the mnemonic used in the debug log. *)
Definition get_opcode_name (opcode : Z) : string :=
  match opcode with
  | 0x00 => "NOP"
  | 0x01 => "LD BC, d16"
  | 0x02 => "LD (BC), A"
  | 0x03 => "INC BC"
  | 0x04 => "INC B"
  | 0x05 => "DEC B"
  | 0x06 => "LD B, d8"
  | 0x07 => "RLCA"
  | 0x08 => "LD (a16), SP"
  | 0x09 => "ADD HL, BC"
  | 0x0A => "LD A, (BC)"
  | 0x0B => "DEC BC"
  | 0x0C => "INC C"
  | 0x0D => "DEC C"
  | 0x0E => "LD C, d8"
  | 0x0F => "RRCA"
  | 0x11 => "LD DE, d16"
  | 0x12 => "LD (DE), A"
  | 0x13 => "INC DE"
  | 0x14 => "INC D"
  | 0x15 => "DEC D"
  | 0x16 => "LD D, d8"
  | 0x17 => "RLA"
  | 0x18 => "JR r8"
  | 0x19 => "ADD HL, DE"
  | 0x1A => "LD A, (DE)"
  | 0x1B => "DEC DE"
  | 0x1C => "INC E"
  | 0x1D => "DEC E"
  | 0x1E => "LD E, d8"
  | 0x1F => "RRA"
  | 0x20 => "JR NZ, r8"
  | 0x21 => "LD HL, d16"
  | 0x22 => "LD (HL+), A"
  | 0x23 => "INC HL"
  | 0x24 => "INC H"
  | 0x25 => "DEC H"
  | 0x26 => "LD H, d8"
  | 0x27 => "DAA"
  | 0x28 => "JR Z, r8"
  | 0x29 => "ADD HL, HL"
  | 0x2A => "LD A, (HL+)"
  | 0x2C => "INC L"
  | 0x2F => "CPL"
  | 0x31 => "LD SP, d16"
  | 0x32 => "LD (HL-), A"
  | 0x35 => "DEC (HL)"
  | 0x36 => "LD (HL), d8"
  | 0x37 => "SCF"
  | 0x3D => "DEC A"
  | 0x3E => "LD A, d8"
  | 0x44 => "LD B, H"
  | 0x47 => "LD B, A"
  | 0x4F => "LD C, A"
  | 0x56 => "LD D, (HL)"
  | 0x57 => "LD D, A"
  | 0x5E => "LD E, (HL)"
  | 0x5F => "LD E, A"
  | 0x67 => "LD H, A"
  | 0x6F => "LD L, A"
  | 0x77 => "LD (HL), A"
  | 0x78 => "LD A, B"
  | 0x79 => "LD A, C"
  | 0x7A => "LD A, D"
  | 0x7B => "LD A, E"
  | 0x7C => "LD A, H"
  | 0x7D => "LD A, L"
  | 0x7E => "LD A, (HL)"
  | 0x7F => "LD A, A"
  | 0x87 => "ADD A, A"
  | 0xA1 => "AND C"
  | 0xA7 => "AND A"
  | 0xA9 => "XOR C"
  | 0xAE => "XOR (HL)"
  | 0xAF => "XOR A"
  | 0xB0 => "OR B"
  | 0xB1 => "OR C"
  | 0xB7 => "OR A"
  | 0xBE => "CP (HL)"
  | 0xC0 => "RET NZ"
  | 0xC1 => "POP BC"
  | 0xC2 => "JP NZ, a16"
  | 0xC3 => "JP a16"
  | 0xC5 => "PUSH BC"
  | 0xC6 => "ADD A, d8"
  | 0xC8 => "RET Z"
  | 0xC9 => "RET"
  | 0xCA => "JP Z, a16"
  | 0xCB => "CB PREFIX"
  | 0xCC => "CALL Z, a16"
  | 0xCD => "CALL a16"
  | 0xCE => "ADC A, d8"
  | 0xD0 => "RET NC"
  | 0xD1 => "POP DE"
  | 0xD2 => "JP NC, a16"
  | 0xD4 => "CALL NC, a16"
  | 0xD5 => "PUSH DE"
  | 0xD6 => "SUB d8"
  | 0xD8 => "RET C"
  | 0xDA => "JP C, a16"
  | 0xDC => "CALL C, a16"
  | 0xDE => "SBC A, d8"
  | 0xE0 => "LDH (a8), A"
  | 0xE1 => "POP HL"
  | 0xE2 => "LD (C), A"
  | 0xE5 => "PUSH HL"
  | 0xE6 => "AND d8"
  | 0xE9 => "JP (HL)"
  | 0xEA => "LD (a16), A"
  | 0xEF => "RST 28H"
  | 0xF0 => "LDH A, (a8)"
  | 0xF2 => "LD A, (C)"
  | 0xF3 => "DI"
  | 0xF5 => "PUSH AF"
  | 0xFA => "LD A, (a16)"
  | 0xFB => "EI"
  | 0xFE => "CP d8"
  | _ => "UNKNOWN"
  end%string.

(** The inner [switch (cb_opcode)] of the 0xCB case. *)
Definition execute_cb (cb_opcode : Z) (s : Machine) : Machine :=
  match cb_opcode with
  | 0x07 => (* RLC A *)
      let s := set_f (u8 (if nonzero (a (cpu s) .& 0x80) then FLAG_C else 0)) s in
      let s := set_a (u8 ((a (cpu s) << 1) .| (if nonzero (f (cpu s) .& FLAG_C) then 0x01 else 0))) s in
      set_f (u8 (f (cpu s) .| (if a (cpu s) =? 0 then FLAG_Z else 0))) s
  | 0x0F => (* RRC A *)
      let s := set_f (u8 (if nonzero (a (cpu s) .& 0x01) then FLAG_C else 0)) s in
      let s := set_a (u8 ((a (cpu s) >> 1) .| (if nonzero (f (cpu s) .& FLAG_C) then 0x80 else 0))) s in
      set_f (u8 (f (cpu s) .| (if a (cpu s) =? 0 then FLAG_Z else 0))) s
  | 0x17 => (* RL A *)
      let old_carry := if get_flag FLAG_C s then 1 else 0 in
      let s := set_f (u8 (if nonzero (a (cpu s) .& 0x80) then FLAG_C else 0)) s in
      let s := set_a (u8 ((a (cpu s) << 1) .| old_carry)) s in
      set_f (u8 (f (cpu s) .| (if a (cpu s) =? 0 then FLAG_Z else 0))) s
  | 0x1F => (* RR A *)
      let old_carry := if get_flag FLAG_C s then 0x80 else 0 in
      let s := set_f (u8 (if nonzero (a (cpu s) .& 0x01) then FLAG_C else 0)) s in
      let s := set_a (u8 ((a (cpu s) >> 1) .| old_carry)) s in
      set_f (u8 (f (cpu s) .| (if a (cpu s) =? 0 then FLAG_Z else 0))) s
  | 0x27 => (* SLA A *)
      let s := set_f (u8 (if nonzero (a (cpu s) .& 0x80) then FLAG_C else 0)) s in
      let s := set_a (u8 (a (cpu s) << 1)) s in
      set_f (u8 (f (cpu s) .| (if a (cpu s) =? 0 then FLAG_Z else 0))) s
  | 0x2F => (* SRA A *)
      let s := set_f (u8 (if nonzero (a (cpu s) .& 0x01) then FLAG_C else 0)) s in
      let s := set_a (u8 ((a (cpu s) >> 1) .| (a (cpu s) .& 0x80))) s in
      set_f (u8 (f (cpu s) .| (if a (cpu s) =? 0 then FLAG_Z else 0))) s
  | 0x37 => (* SWAP A *)
      let s := set_a (u8 (((a (cpu s) .& 0x0F) << 4) .| ((a (cpu s) .& 0xF0) >> 4))) s in
      set_f (u8 (if a (cpu s) =? 0 then FLAG_Z else 0)) s
  | 0x3F => (* SRL A *)
      let s := set_f (u8 (if nonzero (a (cpu s) .& 0x01) then FLAG_C else 0)) s in
      let s := set_a (u8 (a (cpu s) >> 1)) s in
      set_f (u8 (f (cpu s) .| (if a (cpu s) =? 0 then FLAG_Z else 0))) s
  | 0x7C => (* BIT 7, H *)
      set_f (u8 (((f (cpu s) .& FLAG_C) .| FLAG_H)
                 .| (if nonzero (h (cpu s) .& 0x80) then 0 else FLAG_Z))) s
  | 0x40 | 0x41 | 0x42 | 0x43 | 0x44 | 0x45 | 0x46 | 0x47
  | 0x48 | 0x49 | 0x4A | 0x4B | 0x4C | 0x4D | 0x4E | 0x4F
  | 0x50 | 0x51 | 0x52 | 0x53 | 0x54 | 0x55 | 0x56 | 0x57
  | 0x58 | 0x59 | 0x5A | 0x5B | 0x5C | 0x5D | 0x5E | 0x5F
  | 0x60 | 0x61 | 0x62 | 0x63 | 0x64 | 0x65 | 0x66 | 0x67
  | 0x68 | 0x69 | 0x6A | 0x6B | 0x6C | 0x6D | 0x6E | 0x6F
  | 0x70 | 0x71 | 0x72 | 0x73 | 0x74 | 0x75 | 0x76 | 0x77
  | 0x78 | 0x79 | 0x7A | 0x7B | 0x7D | 0x7E | 0x7F => (* BIT b, r *)
      let bit := u8 ((cb_opcode - 0x40) / 8) in
      let reg := u8 ((cb_opcode - 0x40) mod 8) in
      let value :=
        match reg with
        | 0 => u8 (b (cpu s))
        | 1 => u8 (c (cpu s))
        | 2 => u8 (d (cpu s))
        | 3 => u8 (e (cpu s))
        | 4 => u8 (h (cpu s))
        | 5 => u8 (l (cpu s))
        | 6 => u8 (memory_read s (get_hl s))
        | 7 => u8 (a (cpu s))
        | _ => 0
        end in
      set_f (u8 (((f (cpu s) .& FLAG_C) .| FLAG_H)
                 .| (if nonzero (value .& (1 << bit)) then 0 else FLAG_Z))) s
  | 0x87 => (* RES 0, A *)
      set_a (u8 (a (cpu s) .& Z.lnot 0x01)) s
  | 0xC7 => (* SET 0, A *)
      set_a (u8 (a (cpu s) .| 0x01)) s
  | _ =>
      printf (Unimplemented_CB_opcode cb_opcode (pc (cpu s) - 2)) s
  end.

(** The [switch (opcode)] of [cpu_execute_instruction]. *)
Definition execute_opcode (rev : Revision) (opcode : Z) (s : Machine) : Machine :=
  match opcode with
  | 0x00 => (* NOP *)
      s
  | 0x01 => (* LD BC, d16 *)
      let '(value, s) := cpu_fetch_word s in
      set_bc value s
  | 0x02 => (* LD (BC), A *)
      memory_write (get_bc s) (a (cpu s)) s
  | 0x03 => (* INC BC *)
      set_bc (get_bc s + 1) s
  | 0x04 => (* INC B *)
      let s := set_b (u8 (b (cpu s) + 1)) s in
      set_f (u8 (((f (cpu s) .& FLAG_C) .| (if b (cpu s) =? 0 then FLAG_Z else 0))
                 .| (if (b (cpu s) .& 0x0F) =? 0 then FLAG_H else 0))) s
  | 0x05 => (* DEC B *)
      let s := set_f (u8 (((f (cpu s) .& FLAG_C) .| FLAG_N)
                            .| (if (b (cpu s) .& 0x0F) =? 0 then FLAG_H else 0))) s in
      let s := set_b (u8 (b (cpu s) - 1)) s in
      if b (cpu s) =? 0 then set_f (u8 (f (cpu s) .| FLAG_Z)) s else s
  | 0x06 => (* LD B, d8 *)
      let '(value, s) := cpu_fetch_byte s in
      set_b (u8 value) s
  | 0x07 => (* RLCA (Rotate Left Circular Accumulator) *)
      let s := set_f (u8 (if nonzero (a (cpu s) .& 0x80) then FLAG_C else 0)) s in
      set_a (u8 ((a (cpu s) << 1) .| (if nonzero (f (cpu s) .& FLAG_C) then 0x01 else 0))) s
  | 0x08 => (* LD (a16), SP *)
      let '(addr, s) := cpu_fetch_word s in
      let s := memory_write addr (sp (cpu s) .& 0xFF) s in
      memory_write (addr + 1) (sp (cpu s) >> 8) s
  | 0x09 => (* ADD HL, BC *)
      let result := u32 (get_hl s + get_bc s) in
      let s := set_f (u8 (((f (cpu s) .& FLAG_Z) .| (if result >? 0xFFFF then FLAG_C else 0))
                            .| (if ((get_hl s .& 0x0FFF) + (get_bc s .& 0x0FFF)) >? 0x0FFF
                                then FLAG_H else 0))) s in
      set_hl (result .& 0xFFFF) s
  | 0x0A => (* LD A, (BC) *)
      set_a (u8 (memory_read s (get_bc s))) s
  | 0x0B => (* DEC BC *)
      set_bc (get_bc s - 1) s
  | 0x0C => (* INC C *)
      let s := set_c (u8 (c (cpu s) + 1)) s in
      set_f (u8 (((f (cpu s) .& FLAG_C) .| (if c (cpu s) =? 0 then FLAG_Z else 0))
                 .| (if (c (cpu s) .& 0x0F) =? 0 then FLAG_H else 0))) s
  | 0x0D => (* DEC C *)
      let s := set_f (u8 (((f (cpu s) .& FLAG_C) .| FLAG_N)
                            .| (if (c (cpu s) .& 0x0F) =? 0 then FLAG_H else 0))) s in
      let s := set_c (u8 (c (cpu s) - 1)) s in
      if c (cpu s) =? 0 then set_f (u8 (f (cpu s) .| FLAG_Z)) s else s
  | 0x0E => (* LD C, d8 *)
      let '(value, s) := cpu_fetch_byte s in
      set_c (u8 value) s
  | 0x0F => (* RRCA (Rotate Right Circular Accumulator) *)
      let s := set_f (u8 (if nonzero (a (cpu s) .& 0x01) then FLAG_C else 0)) s in
      set_a (u8 ((a (cpu s) >> 1) .| (if nonzero (f (cpu s) .& FLAG_C) then 0x80 else 0))) s
  | 0x11 => (* LD DE, d16 *)
      let '(value, s) := cpu_fetch_word s in
      set_de value s
  | 0x12 => (* LD (DE), A *)
      memory_write (get_de s) (a (cpu s)) s
  | 0x13 => (* INC DE *)
      set_de (get_de s + 1) s
  | 0x14 => (* INC D *)
      let s := set_d (u8 (d (cpu s) + 1)) s in
      set_f (u8 (((f (cpu s) .& FLAG_C) .| (if d (cpu s) =? 0 then FLAG_Z else 0))
                 .| (if (d (cpu s) .& 0x0F) =? 0 then FLAG_H else 0))) s
  | 0x15 => (* DEC D *)
      let s := set_f (u8 (((f (cpu s) .& FLAG_C) .| FLAG_N)
                            .| (if (d (cpu s) .& 0x0F) =? 0 then FLAG_H else 0))) s in
      let s := set_d (u8 (d (cpu s) - 1)) s in
      if d (cpu s) =? 0 then set_f (u8 (f (cpu s) .| FLAG_Z)) s else s
  | 0x16 => (* LD D, d8 *)
      let '(value, s) := cpu_fetch_byte s in
      set_d (u8 value) s
  | 0x19 => (* ADD HL, DE *)
      let result := u32 (get_hl s + get_de s) in
      let s := set_f (u8 (((f (cpu s) .& FLAG_Z) .| (if result >? 0xFFFF then FLAG_C else 0))
                            .| (if ((get_hl s .& 0x0FFF) + (get_de s .& 0x0FFF)) >? 0x0FFF
                                then FLAG_H else 0))) s in
      set_hl (result .& 0xFFFF) s
  | 0x1A => (* LD A, (DE) *)
      set_a (u8 (memory_read s (get_de s))) s
  | 0x1B => (* DEC DE *)
      set_de (get_de s - 1) s
  | 0x1C => (* INC E *)
      let s := set_e (u8 (e (cpu s) + 1)) s in
      set_f (u8 (((f (cpu s) .& FLAG_C) .| (if e (cpu s) =? 0 then FLAG_Z else 0))
                 .| (if (e (cpu s) .& 0x0F) =? 0 then FLAG_H else 0))) s
  | 0x1D => (* DEC E *)
      let s := set_f (u8 (((f (cpu s) .& FLAG_C) .| FLAG_N)
                            .| (if (e (cpu s) .& 0x0F) =? 0 then FLAG_H else 0))) s in
      let s := set_e (u8 (e (cpu s) - 1)) s in
      if e (cpu s) =? 0 then set_f (u8 (f (cpu s) .| FLAG_Z)) s else s
  | 0x1E => (* LD E, d8 *)
      let '(value, s) := cpu_fetch_byte s in
      set_e (u8 value) s
  | 0x17 => (* RLA (Rotate Left through Carry) *)
      let old_carry := if get_flag FLAG_C s then 1 else 0 in
      let s := set_f (u8 (if nonzero (a (cpu s) .& 0x80) then FLAG_C else 0)) s in
      set_a (u8 ((a (cpu s) << 1) .| old_carry)) s
  | 0x18 => (* JR r8 (relative jump) *)
      let '(value, s) := cpu_fetch_byte s in
      let offset := int8_t value in
      set_pc (u16 (pc (cpu s) + offset)) s
  | 0x1F => (* RRA (Rotate Right through Carry) *)
      let old_carry := if get_flag FLAG_C s then 0x80 else 0 in
      let s := set_f (u8 (if nonzero (a (cpu s) .& 0x01) then FLAG_C else 0)) s in
      set_a (u8 ((a (cpu s) >> 1) .| old_carry)) s
  | 0x20 => (* JR NZ, r8 *)
      let '(value, s) := cpu_fetch_byte s in
      let offset := int8_t value in
      if negb (get_flag FLAG_Z s) then set_pc (u16 (pc (cpu s) + offset)) s else s
  | 0x21 => (* LD HL, d16 *)
      let '(value, s) := cpu_fetch_word s in
      set_hl value s
  | 0x22 => (* LD (HL+), A *)
      let s := memory_write (get_hl s) (a (cpu s)) s in
      set_hl (get_hl s + 1) s
  | 0x23 => (* INC HL *)
      set_hl (get_hl s + 1) s
  | 0x24 => (* INC H *)
      let s := set_h (u8 (h (cpu s) + 1)) s in
      set_f (u8 (((f (cpu s) .& FLAG_C) .| (if h (cpu s) =? 0 then FLAG_Z else 0))
                 .| (if (h (cpu s) .& 0x0F) =? 0 then FLAG_H else 0))) s
  | 0x25 => (* DEC H *)
      let s := set_f (u8 (((f (cpu s) .& FLAG_C) .| FLAG_N)
                            .| (if (h (cpu s) .& 0x0F) =? 0 then FLAG_H else 0))) s in
      let s := set_h (u8 (h (cpu s) - 1)) s in
      if h (cpu s) =? 0 then set_f (u8 (f (cpu s) .| FLAG_Z)) s else s
  | 0x26 => (* LD H, d8 *)
      let '(value, s) := cpu_fetch_byte s in
      set_h (u8 value) s
  | 0x27 => (* DAA (Decimal Adjust Accumulator) *)
      let correction := 0 in
      let set_carry := false in
      let correction :=
        if get_flag FLAG_H s || (negb (get_flag FLAG_N s) && ((a (cpu s) .& 0x0F) >? 9))
        then u8 (correction .| 0x06) else correction in
      let '(correction, set_carry) :=
        if get_flag FLAG_C s || (negb (get_flag FLAG_N s) && (a (cpu s) >? 0x99))
        then (u8 (correction .| 0x60), true) else (correction, set_carry) in
      let s :=
        if get_flag FLAG_N s then set_a (u8 (a (cpu s) - correction)) s
        else set_a (u8 (a (cpu s) + correction)) s in
      let s := set_f (u8 ((f (cpu s) .& FLAG_N) .| (if a (cpu s) =? 0 then FLAG_Z else 0))) s in
      if set_carry then set_f (u8 (f (cpu s) .| FLAG_C)) s else s
  | 0x28 => (* JR Z, r8 *)
      let '(value, s) := cpu_fetch_byte s in
      let offset := int8_t value in
      if get_flag FLAG_Z s then set_pc (u16 (pc (cpu s) + offset)) s else s
  | 0x29 => (* ADD HL, HL *)
      let result := u32 (get_hl s + get_hl s) in
      let s := set_f (u8 (((f (cpu s) .& FLAG_Z) .| (if result >? 0xFFFF then FLAG_C else 0))
                            .| (if ((get_hl s .& 0x0FFF) + (get_hl s .& 0x0FFF)) >? 0x0FFF
                                then FLAG_H else 0))) s in
      set_hl (result .& 0xFFFF) s
  | 0x2A => (* LD A, (HL+) *)
      let s := set_a (u8 (memory_read s (get_hl s))) s in
      set_hl (get_hl s + 1) s
  | 0x2C => (* INC L *)
      let s := set_l (u8 (l (cpu s) + 1)) s in
      set_f (u8 (((f (cpu s) .& FLAG_C) .| (if l (cpu s) =? 0 then FLAG_Z else 0))
                 .| (if (l (cpu s) .& 0x0F) =? 0 then FLAG_H else 0))) s
  | 0x2F => (* CPL (Complement A) *)
      let s := set_a (u8 (Z.lnot (a (cpu s)))) s in
      set_f (u8 (f (cpu s) .| (FLAG_N .| FLAG_H))) s
  | 0x31 => (* LD SP, d16 *)
      let '(value, s) := cpu_fetch_word s in
      set_sp value s
  | 0x32 => (* LD (HL-), A *)
      let s := memory_write (get_hl s) (a (cpu s)) s in
      set_hl (get_hl s - 1) s
  | 0x35 => (* DEC (HL) *)
      let value := u8 (memory_read s (get_hl s)) in
      let s := set_f (u8 (((f (cpu s) .& FLAG_C) .| FLAG_N)
                            .| (if (value .& 0x0F) =? 0 then FLAG_H else 0))) s in
      let value := u8 (value - 1) in
      let s := if value =? 0 then set_f (u8 (f (cpu s) .| FLAG_Z)) s else s in
      memory_write (get_hl s) value s
  | 0x36 => (* LD (HL), d8 *)
      let '(value, s) := cpu_fetch_byte s in
      let value := u8 value in
      memory_write (get_hl s) value s
  | 0x37 => (* SCF (Set Carry Flag) *)
      set_f (u8 ((f (cpu s) .& FLAG_Z) .| FLAG_C)) s
  | 0x3D => (* DEC A *)
      let s := set_f (u8 (((f (cpu s) .& FLAG_C) .| FLAG_N)
                            .| (if (a (cpu s) .& 0x0F) =? 0 then FLAG_H else 0))) s in
      let s := set_a (u8 (a (cpu s) - 1)) s in
      if a (cpu s) =? 0 then set_f (u8 (f (cpu s) .| FLAG_Z)) s else s
  | 0x3E => (* LD A, d8 *)
      let '(value, s) := cpu_fetch_byte s in
      set_a (u8 value) s
  | 0x44 => (* LD B, H *)
      set_b (u8 (h (cpu s))) s
  | 0x47 => (* LD B, A *)
      set_b (u8 (a (cpu s))) s
  | 0x4F => (* LD C, A *)
      set_c (u8 (a (cpu s))) s
  | 0x56 => (* LD D, (HL) *)
      set_d (u8 (memory_read s (get_hl s))) s
  | 0x57 => (* LD D, A *)
      set_d (u8 (a (cpu s))) s
  | 0x5E => (* LD E, (HL) *)
      set_e (u8 (memory_read s (get_hl s))) s
  | 0x5F => (* LD E, A *)
      set_e (u8 (a (cpu s))) s
  | 0x67 => (* LD H, A *)
      set_h (u8 (a (cpu s))) s
  | 0x6F => (* LD L, A *)
      set_l (u8 (a (cpu s))) s
  | 0x77 => (* LD (HL), A *)
      memory_write (get_hl s) (a (cpu s)) s
  | 0x78 => (* LD A, B *)
      set_a (u8 (b (cpu s))) s
  | 0x79 => (* LD A, C *)
      set_a (u8 (c (cpu s))) s
  | 0x7A => (* LD A, D *)
      set_a (u8 (d (cpu s))) s
  | 0x7B => (* LD A, E *)
      set_a (u8 (e (cpu s))) s
  | 0x7C => (* LD A, H *)
      set_a (u8 (h (cpu s))) s
  | 0x7D => (* LD A, L *)
      set_a (u8 (l (cpu s))) s
  | 0x7E => (* LD A, (HL) *)
      set_a (u8 (memory_read s (get_hl s))) s
  | 0x7F => (* LD A, A (essentially NOP) *)
      s
  | 0x87 => (* ADD A, A *)
      let result := u16 (a (cpu s) + a (cpu s)) in
      let s := set_f (u8 (if (result .& 0xFF) =? 0 then FLAG_Z else 0)) s in
      let s := set_f (u8 (f (cpu s) .| (if result >? 0xFF then FLAG_C else 0))) s in
      let s := set_f (u8 (f (cpu s) .| (if ((a (cpu s) .& 0x0F) + (a (cpu s) .& 0x0F)) >? 0x0F
                                       then FLAG_H else 0))) s in
      set_a (u8 (result .& 0xFF)) s
  | 0xA1 => (* AND C *)
      let s := set_a (u8 (a (cpu s) .& c (cpu s))) s in
      set_f (u8 ((if a (cpu s) =? 0 then FLAG_Z else 0) .| FLAG_H)) s
  | 0xA7 => (* AND A *)
      set_f (u8 ((if a (cpu s) =? 0 then FLAG_Z else 0) .| FLAG_H)) s
  | 0xA9 => (* XOR C *)
      let s := set_a (u8 (a (cpu s) .^ c (cpu s))) s in
      set_f (u8 (if a (cpu s) =? 0 then FLAG_Z else 0)) s
  | 0xAE => (* XOR (HL) *)
      let s := set_a (u8 (a (cpu s) .^ memory_read s (get_hl s))) s in
      set_f (u8 (if a (cpu s) =? 0 then FLAG_Z else 0)) s
  | 0xAF => (* XOR A *)
      let s := set_a 0 s in
      set_f FLAG_Z s
  | 0xB0 => (* OR B *)
      let s := set_a (u8 (a (cpu s) .| b (cpu s))) s in
      set_f (u8 (if a (cpu s) =? 0 then FLAG_Z else 0)) s
  | 0xB1 => (* OR C *)
      let s := set_a (u8 (a (cpu s) .| c (cpu s))) s in
      set_f (u8 (if a (cpu s) =? 0 then FLAG_Z else 0)) s
  | 0xB7 => (* OR A *)
      set_f (u8 (if a (cpu s) =? 0 then FLAG_Z else 0)) s
  | 0xBE => (* CP (HL) *)
      let value := u8 (memory_read s (get_hl s)) in
      let result := u8 (a (cpu s) - value) in
      set_f (u8 (((FLAG_N .| (if result =? 0 then FLAG_Z else 0))
                  .| (if (a (cpu s) .& 0x0F) <? (value .& 0x0F) then FLAG_H else 0))
                 .| (if a (cpu s) <? value then FLAG_C else 0))) s
  | 0xC0 => (* RET NZ *)
      if negb (get_flag FLAG_Z s) then
        let '(low, s) := pop_byte s in
        let low := u8 low in
        let '(high, s) := pop_byte s in
        let high := u8 high in
        set_pc (u16 ((high << 8) .| low)) s
      else s
  | 0xC1 => (* POP BC *)
      let '(low, s) := pop_byte s in
      let low := u8 low in
      let '(high, s) := pop_byte s in
      let high := u8 high in
      set_bc ((high << 8) .| low) s
  | 0xC2 => (* JP NZ, a16 *)
      let '(addr, s) := cpu_fetch_word s in
      if negb (get_flag FLAG_Z s) then set_pc addr s else s
  | 0xC3 => (* JP a16 *)
      let '(addr, s) := cpu_fetch_word s in
      set_pc addr s
  | 0xC5 => (* PUSH BC *)
      let s := set_sp (u16 (sp (cpu s) - 1)) s in
      let s := memory_write (sp (cpu s)) (b (cpu s)) s in
      let s := set_sp (u16 (sp (cpu s) - 1)) s in
      memory_write (sp (cpu s)) (c (cpu s)) s
  | 0xC6 => (* ADD A, d8 *)
      let '(value, s) := cpu_fetch_byte s in
      let value := u8 value in
      let result := u16 (a (cpu s) + value) in
      let s := set_f (u8 (if (result .& 0xFF) =? 0 then FLAG_Z else 0)) s in
      let s := set_f (u8 (f (cpu s) .| (if result >? 0xFF then FLAG_C else 0))) s in
      let s := set_f (u8 (f (cpu s) .| (if ((a (cpu s) .& 0x0F) + (value .& 0x0F)) >? 0x0F
                                       then FLAG_H else 0))) s in
      set_a (u8 (result .& 0xFF)) s
  | 0xC8 => (* RET Z *)
      if get_flag FLAG_Z s then
        let '(low, s) := pop_byte s in
        let low := u8 low in
        let '(high, s) := pop_byte s in
        let high := u8 high in
        set_pc (u16 ((high << 8) .| low)) s
      else s
  | 0xCA => (* JP Z, a16 *)
      let '(addr, s) := cpu_fetch_word s in
      if get_flag FLAG_Z s then set_pc addr s else s
  | 0xCC => (* CALL Z, a16 *)
      let '(addr, s) := cpu_fetch_word s in
      if get_flag FLAG_Z s then
        let s := set_sp (u16 (sp (cpu s) - 1)) s in
        let s := memory_write (sp (cpu s)) (pc (cpu s) >> 8) s in
        let s := set_sp (u16 (sp (cpu s) - 1)) s in
        let s := memory_write (sp (cpu s)) (pc (cpu s) .& 0xFF) s in
        set_pc addr s
      else s
  | 0xD0 => (* RET NC *)
      if negb (get_flag FLAG_C s) then
        let '(low, s) := pop_byte s in
        let low := u8 low in
        let '(high, s) := pop_byte s in
        let high := u8 high in
        set_pc (u16 ((high << 8) .| low)) s
      else s
  | 0xD1 => (* POP DE *)
      let '(low, s) := pop_byte s in
      let low := u8 low in
      let '(high, s) := pop_byte s in
      let high := u8 high in
      set_de ((high << 8) .| low) s
  | 0xD2 => (* JP NC, a16 *)
      let '(addr, s) := cpu_fetch_word s in
      if negb (get_flag FLAG_C s) then set_pc addr s else s
  | 0xD4 => (* CALL NC, a16 *)
      let '(addr, s) := cpu_fetch_word s in
      if negb (get_flag FLAG_C s) then
        let s := set_sp (u16 (sp (cpu s) - 1)) s in
        let s := memory_write (sp (cpu s)) (pc (cpu s) >> 8) s in
        let s := set_sp (u16 (sp (cpu s) - 1)) s in
        let s := memory_write (sp (cpu s)) (pc (cpu s) .& 0xFF) s in
        set_pc addr s
      else s
  | 0xD6 => (* SUB d8 *)
      let '(value, s) := cpu_fetch_byte s in
      let value := u8 value in
      let result := u8 (a (cpu s) - value) in
      let s := set_f (u8 (((FLAG_N .| (if result =? 0 then FLAG_Z else 0))
                           .| (if (a (cpu s) .& 0x0F) <? (value .& 0x0F) then FLAG_H else 0))
                          .| (if a (cpu s) <? value then FLAG_C else 0))) s in
      set_a result s
  | 0xD8 => (* RET C *)
      if get_flag FLAG_C s then
        let '(low, s) := pop_byte s in
        let low := u8 low in
        let '(high, s) := pop_byte s in
        let high := u8 high in
        set_pc (u16 ((high << 8) .| low)) s
      else s
  | 0xDA => (* JP C, a16 *)
      let '(addr, s) := cpu_fetch_word s in
      if get_flag FLAG_C s then set_pc addr s else s
  | 0xDC => (* CALL C, a16 *)
      let '(addr, s) := cpu_fetch_word s in
      if get_flag FLAG_C s then
        let s := set_sp (u16 (sp (cpu s) - 1)) s in
        let s := memory_write (sp (cpu s)) (pc (cpu s) >> 8) s in
        let s := set_sp (u16 (sp (cpu s) - 1)) s in
        let s := memory_write (sp (cpu s)) (pc (cpu s) .& 0xFF) s in
        set_pc addr s
      else s
  | 0xDE => (* SBC A, d8 *)
      let '(value, s) := cpu_fetch_byte s in
      let value := u8 value in
      let carry := if get_flag FLAG_C s then 1 else 0 in
      let result := u8 (a (cpu s) - value - carry) in
      let s := set_f (u8 (((FLAG_N .| (if result =? 0 then FLAG_Z else 0))
                           .| (if (a (cpu s) .& 0x0F) <? ((value .& 0x0F) + carry)
                               then FLAG_H else 0))
                          .| (if a (cpu s) <? (value + carry) then FLAG_C else 0))) s in
      set_a result s
  | 0xC9 => (* RET *)
      let '(low, s) := pop_byte s in
      let low := u8 low in
      let '(high, s) := pop_byte s in
      let high := u8 high in
      set_pc (u16 ((high << 8) .| low)) s
  | 0xCB => (* CB prefix instructions *)
      let '(cb_opcode, s) := cpu_fetch_byte s in
      let cb_opcode := u8 cb_opcode in
      execute_cb cb_opcode s
  | 0xCD => (* CALL a16 *)
      let '(addr, s) := cpu_fetch_word s in
      (* Push return address onto stack *)
      let s := set_sp (u16 (sp (cpu s) - 1)) s in
      let s := memory_write (sp (cpu s)) (pc (cpu s) >> 8) s in
      let s := set_sp (u16 (sp (cpu s) - 1)) s in
      let s := memory_write (sp (cpu s)) (pc (cpu s) .& 0xFF) s in
      set_pc addr s
  | 0xCE => (* ADC A, d8 *)
      let '(value, s) := cpu_fetch_byte s in
      let value := u8 value in
      let carry := if get_flag FLAG_C s then 1 else 0 in
      let result := u16 (a (cpu s) + value + carry) in
      let s := set_f (u8 (if (result .& 0xFF) =? 0 then FLAG_Z else 0)) s in
      let s := set_f (u8 (f (cpu s) .| (if result >? 0xFF then FLAG_C else 0))) s in
      let s := set_f (u8 (f (cpu s) .| (if ((a (cpu s) .& 0x0F) + (value .& 0x0F) + carry) >? 0x0F
                                       then FLAG_H else 0))) s in
      set_a (u8 (result .& 0xFF)) s
  | 0xD5 => (* PUSH DE *)
      let s := set_sp (u16 (sp (cpu s) - 1)) s in
      let s := memory_write (sp (cpu s)) (d (cpu s)) s in
      let s := set_sp (u16 (sp (cpu s) - 1)) s in
      memory_write (sp (cpu s)) (e (cpu s)) s
  | 0xE0 => (* LDH (a8), A *)
      let '(addr, s) := cpu_fetch_byte s in
      let addr := u8 addr in
      memory_write (0xFF00 + addr) (a (cpu s)) s
  | 0xE1 => (* POP HL *)
      let '(low, s) := pop_byte s in
      let low := u8 low in
      let '(high, s) := pop_byte s in
      let high := u8 high in
      set_hl ((high << 8) .| low) s
  | 0xE2 => (* LD (C), A *)
      memory_write (0xFF00 + c (cpu s)) (a (cpu s)) s
  | 0xE5 => (* PUSH HL *)
      let s := set_sp (u16 (sp (cpu s) - 1)) s in
      let s := memory_write (sp (cpu s)) (h (cpu s)) s in
      let s := set_sp (u16 (sp (cpu s) - 1)) s in
      memory_write (sp (cpu s)) (l (cpu s)) s
  | 0xE6 => (* AND d8 *)
      let '(value, s) := cpu_fetch_byte s in
      let value := u8 value in
      let s := set_a (u8 (a (cpu s) .& value)) s in
      set_f (u8 ((if a (cpu s) =? 0 then FLAG_Z else 0) .| FLAG_H)) s
  | 0xE9 => (* JP (HL) *)
      set_pc (get_hl s) s
  | 0xEA => (* LD (a16), A *)
      let '(addr, s) := cpu_fetch_word s in
      memory_write addr (a (cpu s)) s
  | 0xEF => (* RST 28H *)
      (* Push return address onto stack *)
      let s := set_sp (u16 (sp (cpu s) - 1)) s in
      let s := memory_write (sp (cpu s)) (pc (cpu s) >> 8) s in
      let s := set_sp (u16 (sp (cpu s) - 1)) s in
      let s := memory_write (sp (cpu s)) (pc (cpu s) .& 0xFF) s in
      set_pc 0x0028 s
  | 0xF0 => (* LDH A, (a8) *)
      let '(addr, s) := cpu_fetch_byte s in
      let addr := u8 addr in
      set_a (u8 (memory_read s (0xFF00 + addr))) s
  | 0xF2 => (* LD A, (C) *)
      set_a (u8 (memory_read s (0xFF00 + c (cpu s)))) s
  | 0xF3 => (* DI (Disable Interrupts) *)
      set_interrupts_enabled false s
  | 0xF5 => (* PUSH AF *)
      let s := set_sp (u16 (sp (cpu s) - 1)) s in
      let s := memory_write (sp (cpu s)) (a (cpu s)) s in
      let s := set_sp (u16 (sp (cpu s) - 1)) s in
      memory_write (sp (cpu s)) (f (cpu s)) s
  | 0xFA => (* LD A, (a16) *)
      let '(addr, s) := cpu_fetch_word s in
      set_a (u8 (memory_read s addr)) s
  | 0xFB => (* EI (Enable Interrupts) *)
      set_interrupts_enabled true s
  | 0xFE => (* CP d8 *)
      let '(value, s) := cpu_fetch_byte s in
      let value := u8 value in
      let result := u8 (a (cpu s) - value) in
      set_f (u8 (((FLAG_N .| (if result =? 0 then FLAG_Z else 0))
                  .| (if (a (cpu s) .& 0x0F) <? (value .& 0x0F) then FLAG_H else 0))
                 .| (if a (cpu s) <? value then FLAG_C else 0))) s
  | 0x76 => (* HALT; the case exists in part_001 only *)
      match rev with
      | part_001 => set_halted true s
      | cpu_c => s
      end
  | _ => (* default; the label exists in part_001 only *)
      match rev with
      | part_001 => printf (Unimplemented_opcode opcode (pc (cpu s) - 1)) s
      | cpu_c => s
      end
  end.

Definition cpu_execute_instruction (rev : Revision) (s : Machine) : Machine :=
  if match rev with part_001 => halted (cpu s) | cpu_c => false end then
    s (* CPU is halted, do nothing *)
  else
  let current_pc := pc (cpu s) in (* Save for logging *)
  let '(opcode, s) := cpu_fetch_byte s in
  let opcode := u8 opcode in
  (* Log instruction execution *)
  let s :=
    match rev with
    | cpu_c =>
        logger_log (Debug_instruction current_pc opcode (get_opcode_name opcode) (cpu s)) s
    | part_001 => s
    end in
  execute_opcode rev opcode s.

Definition execute_cpu_cycle (rev : Revision) (s : Machine) : Machine :=
  match rev with
  | cpu_c =>
      if halted (cpu s) then s (* CPU is halted, do nothing *)
      else cpu_execute_instruction rev s
  | part_001 => cpu_execute_instruction rev s
  end.

(** ** Start-up *)

(** The globals before any initialisation: C zero-initialises them,
    [current_cartridge] is NULL and the logger's file handle is NULL. *)
Definition power_on : Machine :=
  mkMachine
    (mkCPU 0 0 0 0 0 0 0 0 0 0 false false)
    (fun _ => 0)
    None
    (mkTimer 0 0)
    (mkPPU 0 0 0 (fun _ _ => Ascii.zero) false 0)
    []
    None.

(** ** Vocabulary of the timer *)

(** The TIMA periods in T-cycles, indexed by the low two bits of TAC. *)
Definition tima_periods : list Z := [1024; 16; 64; 256].

Definition tima_period (tac : Z) : Z :=
  nth (Z.to_nat (tac mod 4)) tima_periods 0.

(** ** Vocabulary of the PPU timing *)

(** The modes, as stored in [ppu.mode] and in the low bits of STAT. *)
Definition HBlank : Z := 0.
Definition VBlank : Z := 1.
Definition OAMScan : Z := 2.
Definition PixelTransfer : Z := 3.

Definition lcd_enabled (m : Machine) : bool := Z.testbit (memory_read m LCDC) 7.

(** The fields the timing state machine works on:
    cycle accumulator, mode, line counter, frame-ready flag. *)
Definition Timing : Type := Z * Z * Z * bool.

Definition timing_of (m : Machine) : Timing :=
  (cycles (ppu m), mode (ppu m), line (ppu m), frame_ready (ppu m)).

(** What [ppu_renderer.ppu_update] does to these fields while the LCD is
    on (lemma [ppu_update_timing] proves it from the code). *)
Definition timing_update (cycles_arg : Z) (t : Timing) : Timing :=
  let '(cy, md, ln, fr) := t in
  let cy := u16 (cy + u16 cycles_arg) in
  match md with
  | 0 => if cy >=? 204 then
           let ln := u8 (ln + 1) in
           if ln =? 144 then (u16 (cy - 204), 1, ln, true)
           else (u16 (cy - 204), 2, ln, fr)
         else (cy, md, ln, fr)
  | 1 => if cy >=? 456 then
           let ln := u8 (ln + 1) in
           if ln >? 153 then (u16 (cy - 456), 2, 0, fr)
           else (u16 (cy - 456), md, ln, fr)
         else (cy, md, ln, fr)
  | 2 => if cy >=? 80 then (u16 (cy - 80), 3, ln, fr) else (cy, md, ln, fr)
  | 3 => if cy >=? 172 then (u16 (cy - 172), 0, ln, fr) else (cy, md, ln, fr)
  | _ => (cy, md, ln, fr)
  end.

(** The states met when [step] is applied [n] times:
    [x; step x; ...; step^(n-1) x]. *)
Fixpoint trace {A : Type} (step : A -> A) (n : nat) (x : A) : list A :=
  match n with
  | O => []
  | S k => x :: trace step k (step x)
  end.

(** The state after [step] has been applied [n] times. *)
Fixpoint iterate {A : Type} (step : A -> A) (n : nat) (x : A) : A :=
  match n with
  | O => x
  | S k => iterate step k (step x)
  end.

(** A schedule lists (mode, line, duration in cycles). *)
Definition Schedule : Type := list (Z * Z * Z).

Definition lines (first count : nat) : list Z := map Z.of_nat (seq first count).

Definition visible_line (ln : Z) : Schedule :=
  [(OAMScan, ln, 80); (PixelTransfer, ln, 172); (HBlank, ln, 204)].

Definition vblank_lines : Schedule :=
  map (fun ln => (VBlank, ln, 456)) (lines 144 10).

(** One frame: 144 visible lines, then 10 V-Blank lines. *)
Definition frame_schedule : Schedule :=
  flat_map visible_line (lines 0 144) ++ vblank_lines.

(** What follows [ppu_init], which leaves the PPU in H-Blank on line 0. *)
Definition reset_schedule : Schedule :=
  (HBlank, 0, 204) :: flat_map visible_line (lines 1 143) ++ vblank_lines.

(** The (mode, line) seen at each call when every call adds 4 cycles. *)
Definition ticks (sched : Schedule) : list (Z * Z) :=
  flat_map (fun entry => let '(md, ln, duration) := entry in
                         repeat (md, ln) (Z.to_nat (duration / 4))) sched.

Definition mode_line (t : Timing) : Z * Z :=
  let '(_, md, ln, _) := t in (md, ln).

Definition flag_of (t : Timing) : bool :=
  let '(_, _, _, fr) := t in fr.

(** Calls of [update_ppu] in a frame, and those before line 144. *)
Definition frame_calls : nat := Z.to_nat (154 * 456 / 4).
Definition visible_calls : nat := Z.to_nat (144 * 456 / 4).
Definition reset_calls : nat := Z.to_nat ((204 + 143 * 456 + 10 * 456) / 4).
Definition reset_visible_calls : nat := Z.to_nat ((204 + 143 * 456) / 4).

(** The timing fields without the frame-ready flag. *)
Definition clock (t : Timing) : Z * Z * Z :=
  let '(cy, md, ln, _) := t in (cy, md, ln).

(** The call [ppu_update cycles_arg] is the one that ends an H-Blank and
    moves the line counter to 144: the LCD is on, the PPU is in mode 0,
    the accumulator reaches 204 with the cycles of the call, and the line
    after this one is 144. *)
Definition enters_vblank (cycles_arg : Z) (m : Machine) : bool :=
  lcd_enabled m
  && (mode (ppu m) =? HBlank)
  && (204 <=? u16 (cycles (ppu m) + u16 cycles_arg))
  && (u8 (line (ppu m) + 1) =? 144).

(** The consumer in the loop of [main]: a frame that is ready is drawn,
    and [ppu_render_frame] resets the flag. *)
Definition consume_frame (m : Machine) : Machine :=
  if ppu_renderer.ppu_is_frame_ready m then ppu_renderer.ppu_render_frame m else m.

(** One call of [update_ppu], then the consumer. *)
Definition frame_step (m : Machine) : Machine :=
  consume_frame (ppu_renderer.update_ppu m).

(** The flag right after each of the [n] calls of [update_ppu] in such
    a run, before the consumer sees it. *)
Definition flags_raised (n : nat) (m : Machine) : list bool :=
  map (fun m => frame_ready (ppu (ppu_renderer.update_ppu m))) (trace frame_step n m).

(** The same on the timing fields. *)
Definition timing_step (t : Timing) : Timing :=
  let '(cy, md, ln, _) := timing_update 4 t in (cy, md, ln, false).

Definition raised (t : Timing) : bool := flag_of (timing_update 4 t).

Definition count_true (flags : list bool) : Z :=
  Z.of_nat (count_occ Bool.bool_dec flags true).

(** ** Vocabulary of the CPU properties *)

(** A byte with its low nibble clear. *)
Definition high_nibble (x : Z) : Prop := Z.land x 0x0F = 0.

(** The register-file invariant of gameboy.h's [CPU_State]: the low
    nibble of [f] is clear, [pc] and [sp] are 16-bit values. *)
Definition cpu_invariant (s : Machine) : Prop :=
  high_nibble (f (cpu s)) /\
  0 <= pc (cpu s) < 65536 /\
  0 <= sp (cpu s) < 65536.

(** The machine states met after [cpu_init]: the driver alternates
    [execute_cpu_cycle] with the other components (timer, PPU, input,
    cartridge loader), none of which writes a CPU register. *)
Inductive reachable (rev : Revision) : Machine -> Prop :=
| reachable_reset m : reachable rev (cpu_init rev m)
| reachable_step s : reachable rev s -> reachable rev (execute_cpu_cycle rev s)
| reachable_other s s' : reachable rev s -> cpu s' = cpu s -> reachable rev s'.

Inductive IncDec := INC | DEC.

(** The operand of an 8-bit instruction: a register or the byte at (HL). *)
Inductive Operand8 := Reg_B | Reg_C | Reg_D | Reg_E | Reg_H | Reg_L | Mem_HL | Reg_A.

Definition operand_value (r : Operand8) (s : Machine) : Z :=
  match r with
  | Reg_B => b (cpu s)
  | Reg_C => c (cpu s)
  | Reg_D => d (cpu s)
  | Reg_E => e (cpu s)
  | Reg_H => h (cpu s)
  | Reg_L => l (cpu s)
  | Mem_HL => memory_read s (get_hl s)
  | Reg_A => a (cpu s)
  end.

(** A register can always be written; the byte at (HL) only at or above
    0x8000. *)
Definition operand_writable (r : Operand8) (s : Machine) : bool :=
  match r with
  | Mem_HL => 0x8000 <=? get_hl s
  | _ => true
  end.

(** The 8-bit INC and DEC cases of the opcode switch. *)
Definition inc_dec_opcodes : list (Z * (IncDec * Operand8)) :=
  [ (0x04, (INC, Reg_B)); (0x05, (DEC, Reg_B));
    (0x0C, (INC, Reg_C)); (0x0D, (DEC, Reg_C));
    (0x14, (INC, Reg_D)); (0x15, (DEC, Reg_D));
    (0x1C, (INC, Reg_E)); (0x1D, (DEC, Reg_E));
    (0x24, (INC, Reg_H)); (0x25, (DEC, Reg_H));
    (0x2C, (INC, Reg_L));
    (0x35, (DEC, Mem_HL));
    (0x3D, (DEC, Reg_A)) ].

(** The machine between the opcode fetch and the switch: [pc] has moved
    past the opcode and cpu.c has written its debug line. *)
Definition fetched (rev : Revision) (s : Machine) : Machine :=
  let opcode := u8 (memory_read s (pc (cpu s))) in
  let s1 := set_pc (u16 (pc (cpu s) + 1)) s in
  match rev with
  | cpu_c =>
      logger_log (Debug_instruction (pc (cpu s)) opcode (get_opcode_name opcode) (cpu s1)) s1
  | part_001 => s1
  end.

(** The conditions tested by conditional jumps and calls. *)
Inductive Condition := Cond_NZ | Cond_Z | Cond_NC | Cond_C.

Definition condition_holds (cc : Condition) (s : Machine) : bool :=
  match cc with
  | Cond_NZ => negb (get_flag FLAG_Z s)
  | Cond_Z => get_flag FLAG_Z s
  | Cond_NC => negb (get_flag FLAG_C s)
  | Cond_C => get_flag FLAG_C s
  end.

(** The conditional absolute jumps and calls of the opcode switch:
    JP NZ, JP Z, JP NC, JP C, CALL Z, CALL NC, CALL C. *)
Definition conditional_jump_opcodes : list (Z * Condition) :=
  [ (0xC2, Cond_NZ); (0xCA, Cond_Z); (0xD2, Cond_NC); (0xDA, Cond_C);
    (0xCC, Cond_Z); (0xD4, Cond_NC); (0xDC, Cond_C) ].

(** The case labels of [switch (opcode)] in cpu.c, in source order. *)
Definition opcode_cases : list Z :=
  [ 0x00; 0x01; 0x02; 0x03; 0x04; 0x05; 0x06; 0x07; 0x08; 0x09; 0x0A; 0x0B;
    0x0C; 0x0D; 0x0E; 0x0F; 0x11; 0x12; 0x13; 0x14; 0x15; 0x16; 0x19; 0x1A;
    0x1B; 0x1C; 0x1D; 0x1E; 0x17; 0x18; 0x1F; 0x20; 0x21; 0x22; 0x23; 0x24;
    0x25; 0x26; 0x27; 0x28; 0x29; 0x2A; 0x2C; 0x2F; 0x31; 0x32; 0x35; 0x36;
    0x37; 0x3D; 0x3E; 0x44; 0x47; 0x4F; 0x56; 0x57; 0x5E; 0x5F; 0x67; 0x6F;
    0x77; 0x78; 0x79; 0x7A; 0x7B; 0x7C; 0x7D; 0x7E; 0x7F; 0x87; 0xA1; 0xA7;
    0xA9; 0xAE; 0xAF; 0xB0; 0xB1; 0xB7; 0xBE; 0xC0; 0xC1; 0xC2; 0xC3; 0xC5;
    0xC6; 0xC8; 0xCA; 0xCC; 0xD0; 0xD1; 0xD2; 0xD4; 0xD6; 0xD8; 0xDA; 0xDC;
    0xDE; 0xC9; 0xCB; 0xCD; 0xCE; 0xD5; 0xE0; 0xE1; 0xE2; 0xE5; 0xE6; 0xE9;
    0xEA; 0xEF; 0xF0; 0xF2; 0xF3; 0xF5; 0xFA; 0xFB; 0xFE ].

(** The case labels of [switch (cb_opcode)], in source order. *)
Definition cb_opcode_cases : list Z :=
  [ 0x07; 0x0F; 0x17; 0x1F; 0x27; 0x2F; 0x37; 0x3F; 0x7C; 0x40; 0x41; 0x42;
    0x43; 0x44; 0x45; 0x46; 0x47; 0x48; 0x49; 0x4A; 0x4B; 0x4C; 0x4D; 0x4E;
    0x4F; 0x50; 0x51; 0x52; 0x53; 0x54; 0x55; 0x56; 0x57; 0x58; 0x59; 0x5A;
    0x5B; 0x5C; 0x5D; 0x5E; 0x5F; 0x60; 0x61; 0x62; 0x63; 0x64; 0x65; 0x66;
    0x67; 0x68; 0x69; 0x6A; 0x6B; 0x6C; 0x6D; 0x6E; 0x6F; 0x70; 0x71; 0x72;
    0x73; 0x74; 0x75; 0x76; 0x77; 0x78; 0x79; 0x7A; 0x7B; 0x7D; 0x7E; 0x7F;
    0x87; 0xC7 ].

(** An opcode is implemented when the switch has a case for it; the
    HALT case (0x76) exists in part_001 only. *)
Definition implemented (rev : Revision) (opcode : Z) : bool :=
  existsb (Z.eqb opcode) opcode_cases
  || match rev with part_001 => opcode =? 0x76 | cpu_c => false end.

Definition implemented_cb (cb_opcode : Z) : bool :=
  existsb (Z.eqb cb_opcode) cb_opcode_cases.

(** The register pairs that PUSH and POP move. *)
Inductive RegisterPair := BC | DE | HL | AF.

Definition pair_high (rp : RegisterPair) (s : Machine) : Z :=
  match rp with
  | BC => b (cpu s)
  | DE => d (cpu s)
  | HL => h (cpu s)
  | AF => a (cpu s)
  end.

Definition pair_low (rp : RegisterPair) (s : Machine) : Z :=
  match rp with
  | BC => c (cpu s)
  | DE => e (cpu s)
  | HL => l (cpu s)
  | AF => f (cpu s)
  end.

(** The 16-bit value of a pair, high byte first. *)
Definition pair_value (rp : RegisterPair) (s : Machine) : Z :=
  u16 (Z.lor (Z.shiftl (pair_high rp s) 8) (pair_low rp s)).

(** The PUSH and POP cases of the opcode switch. *)
Definition push_opcodes : list (Z * RegisterPair) :=
  [ (0xC5, BC); (0xD5, DE); (0xE5, HL); (0xF5, AF) ].

Definition pop_opcodes : list (Z * RegisterPair) :=
  [ (0xC1, BC); (0xD1, DE); (0xE1, HL) ].

(** * The rest of the code *)

(** ** cartridge.c: loading and freeing *)

Definition set_current_cartridge (x : option Cartridge) (m : Machine) : Machine :=
  mkMachine (cpu m) (memory m) x (timer_state m) (ppu m) (stdout m) (log_file m).

Definition cartridge_free (m : Machine) : Machine :=
  match current_cartridge m with
  | Some _ => set_current_cartridge None m
  | None => m
  end.

(** What the C library does during [cartridge_load]: [fopen] fails, one
    of the two [malloc] calls fails, [fread] returns fewer bytes than the
    file holds, or the whole file is read. *)
Inductive Load_outcome :=
| Open_fails
| Cartridge_alloc_fails
| Data_alloc_fails
| Read_fails
| Read_succeeds (bytes : list Z).

(** The lines [cartridge_load] prints. *)
Inductive Load_message :=
| Failed_to_open
| Failed_to_allocate_cartridge
| Failed_to_allocate_rom_data
| Failed_to_read_rom_data
| Loaded_rom (rom_title : list Z) (rom_type : Z).

(** [array[i] = value] for an index inside the array. *)
Fixpoint array_store (i : nat) (value : Z) (array : list Z) : list Z :=
  match array, i with
  | [], _ => []
  | _ :: rest, O => value :: rest
  | x :: rest, S k => x :: array_store k value rest
  end.

(** The characters of a C string: the bytes before the first NUL. *)
Fixpoint c_string (bytes : list Z) : list Z :=
  match bytes with
  | [] => []
  | x :: rest => if x =? 0 then [] else x :: c_string rest
  end.

(** The title loop,
    [for (i = 0; i < 15; i++) { title[i] = data[0x134 + i]; if (title[i] == 0) break; }],
    entered at [i] with [remaining = 15 - i] iterations to go. *)
Fixpoint copy_title (rom : list Z) (remaining i : nat) (title_buf : list Z) : list Z :=
  match remaining with
  | O => title_buf
  | S k =>
      let title_buf := array_store i (nth (0x134 + i) rom 0) title_buf in
      if nth i title_buf 0 =? 0 then title_buf
      else copy_title rom k (S i) title_buf
  end.

(** [cartridge_load].  [malloc] does not clear the [Cartridge] it
    returns: [fresh_title] (16 bytes) and [fresh_type] are what the block
    holds before the header is parsed.  The result is the return value,
    what was printed, and the machine. *)
Definition cartridge_load (outcome : Load_outcome) (fresh_title : list Z) (fresh_type : Z)
    (m : Machine) : bool * list Load_message * Machine :=
  match outcome with
  | Open_fails => (false, [Failed_to_open], m)
  | Cartridge_alloc_fails =>
      (* current_cartridge = malloc(...) has stored NULL *)
      (false, [Failed_to_allocate_cartridge], set_current_cartridge None m)
  | Data_alloc_fails =>
      (false, [Failed_to_allocate_rom_data], set_current_cartridge None m)
  | Read_fails =>
      let m := set_current_cartridge (Some (mkCartridge [] fresh_title fresh_type)) m in
      (false, [Failed_to_read_rom_data], cartridge_free m)
  | Read_succeeds bytes =>
      (* Extract cartridge info *)
      if Z.of_nat (List.length bytes) >=? 0x150 then
        let title_buf := copy_title bytes 15 0 fresh_title in
        let title_buf := array_store 15 0 title_buf in
        let rom_type := nth 0x147 bytes 0 in
        (true, [Loaded_rom (c_string title_buf) rom_type],
         set_current_cartridge (Some (mkCartridge bytes title_buf rom_type)) m)
      else
        (true, [], set_current_cartridge (Some (mkCartridge bytes fresh_title fresh_type)) m)
  end.

Definition load_cartridge := cartridge_load.

(** ** timer.c: the counters over many calls *)

(** What a tick does to TIMA:
    [if (tima == 0xFF) memory_write(0xFF05, memory_read(0xFF06)); else memory_write(0xFF05, tima + 1);] *)
Definition tima_tick (tma tima : Z) : Z :=
  if tima =? 0xFF then u8 tma else tima + 1.

(** ** ppu.c: what holds in every state *)

(** The states of the PPU: [ppu_init], then calls of [ppu_update] with
    any number of cycles, between writes of the rest of the program to
    the addresses it may write ([writable]). *)
Inductive ppu_reachable (ppu_init : Machine -> Machine) (ppu_update : Z -> Machine -> Machine)
    (writable : Z -> Prop) : Machine -> Prop :=
| reach_init m0 : ppu_reachable ppu_init ppu_update writable (ppu_init m0)
| reach_update n m :
    ppu_reachable ppu_init ppu_update writable m ->
    ppu_reachable ppu_init ppu_update writable (ppu_update n m)
| reach_write address value m :
    writable (u16 address) ->
    ppu_reachable ppu_init ppu_update writable m ->
    ppu_reachable ppu_init ppu_update writable (memory_write address value m).

(** Lines 0..143 are drawn in modes 0, 2 and 3; lines 144..153 are the
    vertical blank, mode 1. *)
Definition mode_line_invariant (m : Machine) : Prop :=
  0 <= cycles (ppu m) < 65536
  /\ ((mode (ppu m) = VBlank /\ 144 <= line (ppu m) <= 153)
      \/ ((mode (ppu m) = HBlank \/ mode (ppu m) = OAMScan \/ mode (ppu m) = PixelTransfer)
          /\ 0 <= line (ppu m) <= 143)).

(** LY shows the line counter and the low three bits of STAT the mode. *)
Definition registers_agree (m : Machine) : Prop :=
  memory_read m LY = line (ppu m)
  /\ Z.land (memory_read m STAT) 0x07 = mode (ppu m).

(** The characters of [pixel_chars]. *)
Definition shades : list ascii := [" "; "."; "#"; "@"]%char.

(** The C array is [framebuffer[144][160 * 2 + 1]]: a cell outside the
    144 rows of 320 picture cells holds what [ppu_init] left there (the
    NUL that ends each row), and each pixel is two equal characters of
    [pixel_chars]. *)
Definition picture_invariant (fb : Z -> Z -> ascii) : Prop :=
  (forall y x, ~ (0 <= y < 144 /\ 0 <= x < 320) ->
     fb y x = ppu_renderer.cleared_framebuffer y x)
  /\ (forall y pixel, 0 <= y < 144 -> 0 <= pixel < 160 ->
        fb y (pixel * 2) = fb y (pixel * 2 + 1) /\ In (fb y (pixel * 2)) shades).

(** The same on the timing fields alone. *)
Definition timing_invariant (t : Timing) : Prop :=
  let '(cy, md, ln, _) := t in
  0 <= cy < 65536
  /\ ((md = VBlank /\ 144 <= ln <= 153)
      \/ ((md = HBlank \/ md = OAMScan \/ md = PixelTransfer) /\ 0 <= ln <= 143)).

(** ** input.c (second and third document of src/unnamed/part_000) *)

Definition JOYPAD_REG : Z := 0xFF00.

Definition BUTTON_A : Z := 0x01.
Definition BUTTON_B : Z := 0x02.
Definition BUTTON_SELECT : Z := 0x04.
Definition BUTTON_START : Z := 0x08.
Definition DPAD_RIGHT : Z := 0x01.
Definition DPAD_LEFT : Z := 0x02.
Definition DPAD_UP : Z := 0x04.
Definition DPAD_DOWN : Z := 0x08.

Record Input_State := mkInput {
  buttons : Z;    (* A, B, Select, Start *)
  directions : Z  (* Right, Left, Up, Down *)
}.

(** The global [input_state] lives beside the machine. *)
Definition Console : Type := Input_State * Machine.

(** [input_init]; the terminal set-up of the first revision has no
    effect on the emulated machine. *)
Definition input_init (s : Console) : Console :=
  (mkInput 0x0F 0x0F, memory_write JOYPAD_REG 0xFF (snd s)).

(** [x &= ~bit] and [x |= bit] on a [uint8_t]. *)
Definition press (bit x : Z) : Z := u8 (Z.land x (Z.lnot bit)).
Definition release (bit x : Z) : Z := u8 (Z.lor x bit).

(** The [switch (ch)] of the first revision. *)
Definition process_key (ch : Z) (st : Input_State) : Input_State :=
  match ch with
  | 119 (* 'w' *) => mkInput (buttons st) (press DPAD_UP (directions st))
  | 115 (* 's' *) => mkInput (buttons st) (press DPAD_DOWN (directions st))
  | 97  (* 'a' *) => mkInput (buttons st) (press DPAD_LEFT (directions st))
  | 100 (* 'd' *) => mkInput (buttons st) (press DPAD_RIGHT (directions st))
  | 106 (* 'j' *) => mkInput (press BUTTON_B (buttons st)) (directions st)
  | 107 (* 'k' *) => mkInput (press BUTTON_A (buttons st)) (directions st)
  | 110 (* 'n' *) => mkInput (press BUTTON_SELECT (buttons st)) (directions st)
  | 109 (* 'm' *) => mkInput (press BUTTON_START (buttons st)) (directions st)
  | 87 (* 'W' *) => mkInput (buttons st) (release DPAD_UP (directions st))
  | 83 (* 'S' *) => mkInput (buttons st) (release DPAD_DOWN (directions st))
  | 65 (* 'A' *) => mkInput (buttons st) (release DPAD_LEFT (directions st))
  | 68 (* 'D' *) => mkInput (buttons st) (release DPAD_RIGHT (directions st))
  | 74 (* 'J' *) => mkInput (release BUTTON_B (buttons st)) (directions st)
  | 75 (* 'K' *) => mkInput (release BUTTON_A (buttons st)) (directions st)
  | 78 (* 'N' *) => mkInput (release BUTTON_SELECT (buttons st)) (directions st)
  | 77 (* 'M' *) => mkInput (release BUTTON_START (buttons st)) (directions st)
  | _ => st
  end.

(** [input_update].  [ch] is what [getchar] returned when [select] found
    input waiting, and [None] when it did not; the second revision reads
    no keys and is [input_update None]. *)
Definition input_update (ch : option Z) (s : Console) : Console :=
  let '(st, m) := s in
  let st := match ch with
            | Some ch => process_key ch st
            | None => st
            end in
  let joypad := u8 (memory_read m JOYPAD_REG) in
  (* Check which button group is selected *)
  let joypad :=
    if negb (nonzero (Z.land joypad 0x10)) then
      (* Direction keys selected *)
      u8 (Z.lor (Z.land joypad 0xF0) (directions st))
    else if negb (nonzero (Z.land joypad 0x20)) then
      (* Button keys selected *)
      u8 (Z.lor (Z.land joypad 0xF0) (buttons st))
    else
      (* No keys selected *)
      u8 (Z.lor joypad 0x0F) in
  (st, memory_write JOYPAD_REG joypad m).

Definition input_get_joypad (s : Console) : Z := u8 (memory_read (snd s) JOYPAD_REG).

Definition handle_input := input_update.
Definition init_input := input_init.

(** The key bindings of the first revision: the key that presses, the
    key that releases, whether it is a direction, and the bit. *)
Definition key_bindings : list (Z * Z * bool * Z) :=
  [ (119, 87, true, 2);  (* w W: up *)
    (115, 83, true, 3);  (* s S: down *)
    (97, 65, true, 1);   (* a A: left *)
    (100, 68, true, 0);  (* d D: right *)
    (106, 74, false, 1); (* j J: B *)
    (107, 75, false, 0); (* k K: A *)
    (110, 78, false, 2); (* n N: select *)
    (109, 77, false, 3)  (* m M: start *) ].

(** A state of the keys: two nibbles. *)
Definition input_invariant (st : Input_State) : Prop :=
  0 <= buttons st < 16 /\ 0 <= directions st < 16.

(** ** cpu.c: what no instruction touches *)

(** The state of the other components: the PPU, the timer's
    accumulators and the cartridge. *)
Definition devices_kept (s s' : Machine) : Prop :=
  ppu s' = ppu s
  /\ timer_state s' = timer_state s
  /\ current_cartridge s' = current_cartridge s.

(** The same and the halt flag. *)
Definition untouched (s s' : Machine) : Prop :=
  devices_kept s s' /\ halted (cpu s') = halted (cpu s).

(** ** cpu.c: arithmetic *)

(** A byte that holds two decimal digits, and the number they spell. *)
Definition bcd_digits (x : Z) : bool := (x / 16 <? 10) && (x mod 16 <? 10).
Definition bcd_value (x : Z) : Z := 10 * (x / 16) + x mod 16.

(** The additions and subtractions with an immediate operand, and
    whether they take the carry flag in: ADD A,d8 and ADC A,d8;
    SUB d8 and SBC A,d8. *)
Definition add_d8_opcodes : list (Z * bool) := [ (0xC6, false); (0xCE, true) ].
Definition sub_d8_opcodes : list (Z * bool) := [ (0xD6, false); (0xDE, true) ].

(** The arithmetic of these cases on the accumulator [x], the operand
    [y] and the carry taken in, giving the new accumulator and flags
    (lemmas [add_d8_effect], [sub_d8_effect] and [daa_effect] prove that
    the cases of the switch compute them). *)
Definition alu_add (x y carry : Z) : Z * Z :=
  let result := u16 (x + y + carry) in
  let flags := u8 (if (result .& 0xFF) =? 0 then FLAG_Z else 0) in
  let flags := u8 (flags .| (if result >? 0xFF then FLAG_C else 0)) in
  let flags := u8 (flags .| (if ((x .& 0x0F) + (y .& 0x0F) + carry) >? 0x0F
                             then FLAG_H else 0)) in
  (u8 (result .& 0xFF), flags).

Definition alu_sub (x y carry : Z) : Z * Z :=
  let result := u8 (x - y - carry) in
  (result,
   u8 (((FLAG_N .| (if result =? 0 then FLAG_Z else 0))
        .| (if (x .& 0x0F) <? ((y .& 0x0F) + carry) then FLAG_H else 0))
       .| (if x <? (y + carry) then FLAG_C else 0))).

Definition alu_daa (x flags : Z) : Z * Z :=
  let flag_n := nonzero (flags .& u8 FLAG_N) in
  let correction := 0 in
  let correction :=
    if nonzero (flags .& u8 FLAG_H) || (negb flag_n && ((x .& 0x0F) >? 9))
    then u8 (correction .| 0x06) else correction in
  let set_carry := nonzero (flags .& u8 FLAG_C) || (negb flag_n && (x >? 0x99)) in
  let correction := if set_carry then u8 (correction .| 0x60) else correction in
  let x := if flag_n then u8 (x - correction) else u8 (x + correction) in
  let flags := u8 ((flags .& FLAG_N) .| (if x =? 0 then FLAG_Z else 0)) in
  (x, if set_carry then u8 (flags .| FLAG_C) else flags).

(** The registers after an instruction that only writes A, F and [pc]. *)
Definition with_a_f_pc (result : Z * Z) (next_pc : Z) (r : CPU_State) : CPU_State :=
  mkCPU (fst result) (snd result) (b r) (c r) (d r) (e r) (h r) (l r) next_pc (sp r)
    (halted r) (interrupts_enabled r).

(** Where an 8-bit instruction takes its second operand from: the byte
    after the opcode, or a register or (HL). *)
Inductive Source8 := Immediate | Operand (r : Operand8).

Definition source_value (src : Source8) (s : Machine) : Z :=
  match src with
  | Immediate => memory_read s (u16 (pc (cpu s) + 1))
  | Operand r => operand_value r s
  end.

Definition source_length (src : Source8) : Z :=
  match src with
  | Immediate => 2
  | Operand _ => 1
  end.

(** The compare cases of the switch: CP d8 and CP (HL). *)
Definition compare_opcodes : list (Z * Source8) :=
  [ (0xFE, Immediate); (0xBE, Operand Mem_HL) ].

Inductive Logic := AND | XOR | OR.

Definition logic_value (op : Logic) (x y : Z) : Z :=
  match op with
  | AND => Z.land x y
  | XOR => Z.lxor x y
  | OR => Z.lor x y
  end.

(** The logic cases of the switch: AND C, AND A, AND d8, XOR C, XOR (HL),
    XOR A, OR B, OR C, OR A. *)
Definition logic_opcodes : list (Z * (Logic * Source8)) :=
  [ (0xA1, (AND, Operand Reg_C)); (0xA7, (AND, Operand Reg_A)); (0xE6, (AND, Immediate));
    (0xA9, (XOR, Operand Reg_C)); (0xAE, (XOR, Operand Mem_HL)); (0xAF, (XOR, Operand Reg_A));
    (0xB0, (OR, Operand Reg_B)); (0xB1, (OR, Operand Reg_C)); (0xB7, (OR, Operand Reg_A)) ].

(** The registers with [a], [f] and [pc] replaced. *)
Definition with_a (x : Z) (r : CPU_State) : CPU_State :=
  mkCPU x (f r) (b r) (c r) (d r) (e r) (h r) (l r) (pc r) (sp r)
    (halted r) (interrupts_enabled r).
Definition with_f (x : Z) (r : CPU_State) : CPU_State :=
  mkCPU (a r) x (b r) (c r) (d r) (e r) (h r) (l r) (pc r) (sp r)
    (halted r) (interrupts_enabled r).
Definition with_pc (x : Z) (r : CPU_State) : CPU_State :=
  mkCPU (a r) (f r) (b r) (c r) (d r) (e r) (h r) (l r) x (sp r)
    (halted r) (interrupts_enabled r).

(** The operand that the low three bits of a CB opcode select. *)
Definition bit_operands : list Operand8 :=
  [Reg_B; Reg_C; Reg_D; Reg_E; Reg_H; Reg_L; Mem_HL; Reg_A].

(** The 16-bit cases of the switch: ADD HL,BC, ADD HL,DE and ADD HL,HL;
    INC BC, DEC BC, INC DE, DEC DE and INC HL. *)
Definition add_hl_opcodes : list (Z * RegisterPair) :=
  [ (0x09, BC); (0x19, DE); (0x29, HL) ].

Definition inc_dec16_opcodes : list (Z * (IncDec * RegisterPair)) :=
  [ (0x03, (INC, BC)); (0x0B, (DEC, BC));
    (0x13, (INC, DE)); (0x1B, (DEC, DE));
    (0x23, (INC, HL)) ].

(** ** cpu.c: calls and returns *)

(** The calls to an address given in the instruction, and the returns,
    with the condition they test, if any. *)
Definition call_opcodes : list (Z * option Condition) :=
  [ (0xCD, None); (0xCC, Some Cond_Z); (0xD4, Some Cond_NC); (0xDC, Some Cond_C) ].

Definition ret_opcodes : list (Z * option Condition) :=
  [ (0xC9, None); (0xC0, Some Cond_NZ); (0xC8, Some Cond_Z);
    (0xD0, Some Cond_NC); (0xD8, Some Cond_C) ].

Definition taken (cc : option Condition) (s : Machine) : bool :=
  match cc with
  | None => true
  | Some cc => condition_holds cc s
  end.

(** The 16-bit operand of a three-byte instruction at [pc]. *)
Definition operand16 (s : Machine) : Z :=
  u16 ((u8 (memory_read s (u16 (pc (cpu s) + 2))) << 8)
       .| u8 (memory_read s (u16 (pc (cpu s) + 1)))).

(** ** cpu.c: instruction sequences *)

(** The bytes of a program in memory from [address] on. *)
Fixpoint code_at (s : Machine) (address : Z) (bytes : list Z) : Prop :=
  match bytes with
  | [] => True
  | byte :: rest => u8 (memory_read s (u16 address)) = byte /\ code_at s (address + 1) rest
  end.

(** Pairs of instructions on A of which the second undoes the first, and
    whether the carry flag is restored too: RLCA and RRCA, RLA and RRA,
    CPL twice, and after the CB prefix RLC A and RRC A, RL A and RR A,
    SWAP A twice. *)
Definition inverse_pairs : list (list Z * list Z * bool) :=
  [ ([0x07], [0x0F], false); ([0x0F], [0x07], false);
    ([0x17], [0x1F], true); ([0x1F], [0x17], true);
    ([0x2F], [0x2F], false);
    ([0xCB; 0x07], [0xCB; 0x0F], false); ([0xCB; 0x0F], [0xCB; 0x07], false);
    ([0xCB; 0x17], [0xCB; 0x1F], true); ([0xCB; 0x1F], [0xCB; 0x17], true);
    ([0xCB; 0x37], [0xCB; 0x37], false) ].

(** ** main.c: start-up and the emulation loop *)

(** The five initialisers that [main] calls before it loads the ROM. *)
Definition emulator_init (rev : Revision) (s : Console) : Console :=
  let '(st, m) := s in
  let m := memory_init m in               (* init_memory *)
  let m := cpu_init rev m in              (* init_cpu *)
  let m := ppu_renderer.ppu_init m in     (* init_ppu *)
  let m := timer_init m in                (* init_timer *)
  init_input (st, m).

(** One pass through the body of the emulation loop; [ch] is the key
    that [handle_input] finds, if any. *)
Definition emulation_step (rev : Revision) (ch : option Z) (s : Console) : Console :=
  let '(st, m) := s in
  let m := execute_cpu_cycle rev m in
  let m := ppu_renderer.update_ppu m in
  let '(st, m) := handle_input ch (st, m) in
  (st, update_timer m).

(** The loop of the first document of main.c: steps until a frame is
    ready, then [ppu_render_frame]. *)
Definition main_iteration (rev : Revision) (ch : option Z) (s : Console) : Console :=
  let '(st, m) := emulation_step rev ch s in
  if ppu_renderer.ppu_is_frame_ready m then (st, ppu_renderer.ppu_render_frame m)
  else (st, m).

(** The console after the keys [keys] have arrived, one per pass. *)
Definition emulate (rev : Revision) (keys : list (option Z)) (s : Console) : Console :=
  fold_left (fun s ch => main_iteration rev ch s) keys s.

(** What every component relies on. *)
Definition console_invariant (s : Console) : Prop :=
  let '(st, m) := s in
  cpu_invariant m
  /\ mode_line_invariant m
  /\ picture_invariant (framebuffer (ppu m))
  /\ input_invariant st
  /\ 0 <= divider_cycles (timer_state m) < 256
  /\ 0 <= timer_cycles (timer_state m) < 1024.

(** [main] up to the loop: the initialisers, then the ROM; [None] when
    the ROM cannot be loaded and [main] returns 1. *)
Definition emulator_start (rev : Revision) (outcome : Load_outcome)
    (fresh_title : list Z) (fresh_type : Z) (s : Console) : option Console :=
  let '(st, m) := emulator_init rev s in
  let '(ok, _, m) := load_cartridge outcome fresh_title fresh_type m in
  if ok then Some (st, m) else None.

(** ** ppu.c (renderer): what a scanline shows *)

(** The shade (0..3) that one iteration of the pixel loop of
    [render_scanline] computes, before it draws it. *)
Definition pixel_shade (scroll_x palette : Z)
    (bg_map_addr : Z) (tile_data_unsigned : bool) (tile_data_base : Z)
    (tile_row tile_y : Z) (m : Machine) (pixel : Z) : Z :=
  let bg_x := u8 (Z.land (pixel + scroll_x) 0xFF) in
  let tile_col := u8 (bg_x / 8) in
  let tile_x := u8 (bg_x mod 8) in
  let tile_map_addr := u16 (bg_map_addr + tile_row * 32 + tile_col) in
  let tile_num := u8 (memory_read m tile_map_addr) in
  let tile_addr :=
    if tile_data_unsigned then u16 (tile_data_base + tile_num * 16)
    else u16 (tile_data_base + (int8_t tile_num + 128) * 16) in
  let line_addr := u16 (tile_addr + tile_y * 2) in
  let low_byte := u8 (memory_read m line_addr) in
  let high_byte := u8 (memory_read m (line_addr + 1)) in
  let bit_position := u8 (7 - tile_x) in
  let color_id := u8 (Z.shiftl (Z.land (Z.shiftr high_byte bit_position) 0x01) 1) in
  let color_id := u8 (Z.lor color_id (Z.land (Z.shiftr low_byte bit_position) 0x01)) in
  ppu_renderer.get_color palette color_id.

(** The same for a pixel of a line, from the registers: the position in
    the 256 x 256 background after scrolling, the tile there, the two
    bytes of the tile's row, and the palette. *)
Definition background_shade (m : Machine) (row pixel : Z) : Z :=
  let lcdc := u8 (memory_read m LCDC) in
  let bg_x := (pixel + u8 (memory_read m SCX)) mod 256 in
  let bg_y := (row + u8 (memory_read m SCY)) mod 256 in
  let map_base := if Z.testbit lcdc 3 then 0x9C00 else 0x9800 in
  let tile_num := u8 (memory_read m (map_base + 32 * (bg_y / 8) + bg_x / 8)) in
  let tile_addr :=
    if Z.testbit lcdc 4 then 0x8000 + 16 * tile_num
    else 0x9000 + 16 * ((tile_num + 128) mod 256) in
  let line_addr := tile_addr + 2 * (bg_y mod 8) in
  let low_byte := u8 (memory_read m line_addr) in
  let high_byte := u8 (memory_read m (line_addr + 1)) in
  let bit := 7 - bg_x mod 8 in
  let color_id := 2 * Z.b2z (Z.testbit high_byte bit) + Z.b2z (Z.testbit low_byte bit) in
  (u8 (memory_read m BGP) / 4 ^ color_id) mod 4.

(** ** cpu.c: relative jumps and register loads *)

(** The relative jumps of the switch: JR r8, JR NZ and JR Z. *)
Definition jr_opcodes : list (Z * option Condition) :=
  [ (0x18, None); (0x20, Some Cond_NZ); (0x28, Some Cond_Z) ].

(** The signed operand of a two-byte instruction at [pc]. *)
Definition displacement (s : Machine) : Z :=
  int8_t (memory_read s (u16 (pc (cpu s) + 1))).

(** The operand a three-bit field of an opcode stands for. *)
Definition operand_of_index (i : Z) : Operand8 :=
  match i with
  | 0 => Reg_B
  | 1 => Reg_C
  | 2 => Reg_D
  | 3 => Reg_E
  | 4 => Reg_H
  | 5 => Reg_L
  | 6 => Mem_HL
  | _ => Reg_A
  end.

(** The cases of the switch in the block 0x40 .. 0x7F, HALT apart. *)
Definition load_opcodes : list Z :=
  [ 0x44; 0x47; 0x4F; 0x56; 0x57; 0x5E; 0x5F; 0x67; 0x6F; 0x77;
    0x78; 0x79; 0x7A; 0x7B; 0x7C; 0x7D; 0x7E; 0x7F ].

(** * Properties *)

(** ** Fixed-width arithmetic *)

Lemma u8_range x : 0 <= u8 x < 256.
Proof. unfold u8. apply Z.mod_pos_bound. lia. Qed.

Lemma u16_range x : 0 <= u16 x < 65536.
Proof. unfold u16. apply Z.mod_pos_bound. lia. Qed.

Lemma u8_small x : 0 <= x < 256 -> u8 x = x.
Proof. intros. unfold u8. apply Z.mod_small. assumption. Qed.

Lemma u16_small x : 0 <= x < 65536 -> u16 x = x.
Proof. intros. unfold u16. apply Z.mod_small. assumption. Qed.

Lemma u8_idem x : u8 (u8 x) = u8 x.
Proof. apply u8_small, u8_range. Qed.

Lemma u16_idem x : u16 (u16 x) = u16 x.
Proof. apply u16_small, u16_range. Qed.

Lemma u16_add_l x y : u16 (u16 x + y) = u16 (x + y).
Proof. unfold u16. apply Zplus_mod_idemp_l. Qed.

Lemma u16_sub_l x y : u16 (u16 x - y) = u16 (x - y).
Proof. unfold u16. apply Zminus_mod_idemp_l. Qed.

(** ** memory.c and cartridge.c *)

Lemma memory_read_set_cpu x m address :
  memory_read (set_cpu x m) address = memory_read m address.
Proof. reflexivity. Qed.

Lemma memory_read_rom m address :
  0 <= address < 0x8000 -> memory_read m address = cartridge_read m address.
Proof.
  intros H. unfold memory_read, cartridge_read.
  rewrite !u16_small by lia.
  destruct (Z.ltb_spec address 0x8000); [reflexivity | lia].
Qed.

Lemma memory_read_ram m address :
  0x8000 <= address < 65536 -> memory_read m address = memory m address.
Proof.
  intros H. unfold memory_read. rewrite u16_small by lia.
  destruct (Z.ltb_spec address 0x8000); [lia | reflexivity].
Qed.

(** Writes below 0x8000 are discarded. *)
Lemma memory_write_rom address value m :
  0 <= address < 0x8000 -> memory_write address value m = m.
Proof.
  intros H. unfold memory_write. rewrite u16_small by lia.
  destruct (Z.ltb_spec address 0x8000); [reflexivity | lia].
Qed.

(** A write at or above 0x8000 is read back at the same address. *)
Lemma memory_read_write_same address value m :
  0x8000 <= address < 65536 ->
  memory_read (memory_write address value m) address = u8 value.
Proof.
  intros H. rewrite memory_read_ram by assumption.
  unfold memory_write. rewrite u16_small by lia.
  destruct (Z.ltb_spec address 0x8000); [lia |].
  destruct ((address >=? 0xE000) && (address <? 0xFE00)); cbn [memory set_memory];
    unfold store.
  - destruct (Z.eqb_spec address (address - 0x2000)); [lia |].
    rewrite Z.eqb_refl. reflexivity.
  - rewrite Z.eqb_refl. reflexivity.
Qed.

(** A write leaves every cell other than the target and its mirror
    0x2000 below untouched. *)
Lemma memory_write_other address value m i :
  0 <= address < 65536 -> i <> address -> i <> address - 0x2000 ->
  memory (memory_write address value m) i = memory m i.
Proof.
  intros H H1 H2. unfold memory_write. rewrite u16_small by lia.
  destruct (address <? 0x8000); [reflexivity |].
  destruct ((address >=? 0xE000) && (address <? 0xFE00)); cbn [memory set_memory];
    unfold store.
  - destruct (Z.eqb_spec i (address - 0x2000)); [lia |].
    destruct (Z.eqb_spec i address); [lia | reflexivity].
  - destruct (Z.eqb_spec i address); [lia | reflexivity].
Qed.

Lemma memory_write_cartridge address value m :
  current_cartridge (memory_write address value m) = current_cartridge m.
Proof.
  unfold memory_write.
  destruct (u16 address <? 0x8000); [reflexivity |].
  destruct ((u16 address >=? 0xE000) && (u16 address <? 0xFE00)); reflexivity.
Qed.

Lemma memory_write_cpu address value m :
  cpu (memory_write address value m) = cpu m.
Proof.
  unfold memory_write.
  destruct (u16 address <? 0x8000); [reflexivity |].
  destruct ((u16 address >=? 0xE000) && (u16 address <? 0xFE00)); reflexivity.
Qed.

Lemma memory_write_ppu address value m :
  ppu (memory_write address value m) = ppu m.
Proof.
  unfold memory_write.
  destruct (u16 address <? 0x8000); [reflexivity |].
  destruct ((u16 address >=? 0xE000) && (u16 address <? 0xFE00)); reflexivity.
Qed.

Lemma memory_write_timer_state address value m :
  timer_state (memory_write address value m) = timer_state m.
Proof.
  unfold memory_write.
  destruct (u16 address <? 0x8000); [reflexivity |].
  destruct ((u16 address >=? 0xE000) && (u16 address <? 0xFE00)); reflexivity.
Qed.

(** A write into echo RAM lands at the address and 0x2000 below it, and
    both cells read back the byte written. *)
Lemma memory_write_echo_mirror address value m :
  0xE000 <= address < 0xFE00 -> 0 <= value < 256 ->
  memory_read (memory_write address value m) address = value /\
  memory_read (memory_write address value m) (address - 0x2000) = value.
Proof.
  intros H Hv. split.
  - rewrite memory_read_write_same by lia. apply u8_small; assumption.
  - rewrite memory_read_ram by lia.
    unfold memory_write. rewrite u16_small by lia. rewrite u8_small by assumption.
    destruct (Z.ltb_spec address 0x8000); [lia |].
    destruct (Z.geb_spec address 0xE000); [| lia].
    destruct (Z.ltb_spec address 0xFE00); [| lia].
    cbn [andb memory set_memory]. unfold store.
    rewrite Z.eqb_refl. reflexivity.
Qed.

(** C2.  The mirror is one-directional.  Echo RAM is documented in
    [memory_write] as mirroring WRAM, and a write into echo RAM is copied
    to WRAM ([memory_write_echo_mirror]); but a write to the WRAM address
    0xC010 is stored there only, so the echo address 0xE010 still reads
    the old byte (0 after [memory_init]) and not the 0xAB written. *)
Theorem C2_wram_write_not_mirrored_to_echo :
  let m := memory_write 0xC010 0xAB (memory_init power_on) in
  memory_read m 0xC010 = 0xAB /\
  memory_read m 0xE010 = 0 /\
  memory_read m 0xE010 <> 0xAB.
Proof.
  cbv zeta. repeat split; try reflexivity.
  vm_compute. discriminate.
Qed.

(** C9.  A cartridge read with no cartridge loaded, or at an address not
    below the length of the loaded image, yields 0xFF; so does a bus read
    below 0x8000 while no cartridge is loaded.  Both functions are total:
    there is no error result. *)
Theorem C9_unmapped_cartridge_read_is_0xFF m address :
  0 <= address < 65536 ->
  (current_cartridge m = None \/
   exists cart, current_cartridge m = Some cart /\ size cart <= address) ->
  cartridge_read m address = 0xFF /\
  (address < 0x8000 -> current_cartridge m = None -> memory_read m address = 0xFF).
Proof.
  intros Ha Hc.
  assert (Hr : cartridge_read m address = 0xFF).
  { unfold cartridge_read. rewrite u16_small by assumption.
    destruct Hc as [-> | (cart & -> & Hs)]; [reflexivity |].
    destruct (Z.geb_spec address (size cart)); [reflexivity | lia]. }
  split; [exact Hr |].
  intros Hlt _. rewrite memory_read_rom by lia. exact Hr.
Qed.

Lemma C9_witness :
  cartridge_read power_on 0x0150 = 0xFF /\ memory_read power_on 0x0150 = 0xFF.
Proof.
  destruct (C9_unmapped_cartridge_read_is_0xFF power_on 0x0150) as [H1 H2].
  - lia.
  - left. reflexivity.
  - split; [exact H1 | apply H2; [lia | reflexivity]].
Defined.

(** ** timer.c *)

Lemma memory_write_io address value m :
  0xFE00 <= address < 65536 ->
  memory_write address value m = set_memory (store address (u8 value) (memory m)) m.
Proof.
  intros H. unfold memory_write. rewrite u16_small by lia.
  destruct (Z.ltb_spec address 0x8000); [lia |].
  destruct (Z.ltb_spec address 0xFE00); [lia |].
  rewrite andb_false_r. reflexivity.
Qed.

Lemma timer_threshold_period tac :
  timer_threshold (u8 tac) = tima_period (u8 tac).
Proof.
  unfold timer_threshold, tima_period.
  change 0x03 with (Z.ones 2). rewrite Z.land_ones by lia.
  change (2 ^ 2) with 4.
  pose proof (Z.mod_pos_bound (u8 tac) 4 ltac:(lia)) as Hb.
  assert (Hc : u8 tac mod 4 = 0 \/ u8 tac mod 4 = 1 \/ u8 tac mod 4 = 2 \/ u8 tac mod 4 = 3)
    by lia.
  destruct Hc as [-> | [-> | [-> | ->]]]; reflexivity.
Qed.

Lemma land_pow2 x k :
  0 <= k -> Z.land x (2 ^ k) = if Z.testbit x k then 2 ^ k else 0.
Proof.
  intros Hk. apply Z.bits_inj'. intros i Hi.
  rewrite Z.land_spec.
  destruct (Z.eq_dec i k) as [-> | Hne].
  - rewrite Z.pow2_bits_true by lia. rewrite andb_true_r.
    destruct (Z.testbit x k) eqn:Hb.
    + rewrite Z.pow2_bits_true by lia. reflexivity.
    + rewrite Z.bits_0. reflexivity.
  - rewrite Z.pow2_bits_false by lia. rewrite andb_false_r.
    destruct (Z.testbit x k).
    + rewrite Z.pow2_bits_false by lia. reflexivity.
    + rewrite Z.bits_0. reflexivity.
Qed.

Lemma nonzero_land_pow2 x k :
  0 <= k -> nonzero (Z.land x (2 ^ k)) = Z.testbit x k.
Proof.
  intros Hk. rewrite land_pow2 by assumption. unfold nonzero.
  destruct (Z.testbit x k).
  - destruct (Z.eqb_spec (2 ^ k) 0) as [H0 | H0]; [| reflexivity].
    pose proof (Z.pow_pos_nonneg 2 k ltac:(lia) Hk). lia.
  - reflexivity.
Qed.

Lemma testbit_u8 x k : 0 <= k < 8 -> Z.testbit (u8 x) k = Z.testbit x k.
Proof.
  intros Hk. unfold u8. change 256 with (2 ^ 8).
  apply Z.mod_pow2_bits_low. lia.
Qed.

Lemma memory_read_ext m1 m2 address :
  current_cartridge m1 = current_cartridge m2 ->
  memory m1 (u16 address) = memory m2 (u16 address) ->
  memory_read m1 address = memory_read m2 address.
Proof.
  intros Hc Hm. unfold memory_read, cartridge_read. rewrite Hc, Hm. reflexivity.
Qed.

Ltac timer_simpl :=
  rewrite ?memory_read_ram by lia;
  cbn [memory set_memory set_timer_state timer_state divider_cycles timer_cycles
       current_cartridge];
  unfold store; cbn [Z.eqb Pos.eqb].

Ltac timer_frame :=
  let i := fresh "i" in
  let Hi := fresh "Hi" in
  intros i Hi ? ?; apply memory_read_ext;
  [ reflexivity
  | rewrite (u16_small i) by exact Hi; timer_simpl;
    repeat match goal with
           | |- context [?x =? ?y] => destruct (Z.eqb_spec x y); [lia |]
           end; reflexivity ].

Lemma u8_add_l x y : u8 (u8 x + y) = u8 (x + y).
Proof. unfold u8. apply Zplus_mod_idemp_l. Qed.

(** One call of [timer_update] with [n] cycles: each accumulator is
    compared with its threshold once. *)
Lemma timer_update_call n m :
  0 <= n < 65536 ->
  let m' := timer_update n m in
  let tac := u8 (memory_read m 0xFF07) in
  let tima := u8 (memory_read m 0xFF05) in
  let acc := u16 (divider_cycles (timer_state m) + n) in
  let tacc := u16 (timer_cycles (timer_state m) + n) in
  (* divider *)
  divider_cycles (timer_state m') = (if 256 <=? acc then acc - 256 else acc) /\
  memory_read m' 0xFF04 =
    (if 256 <=? acc then u8 (memory_read m 0xFF04 + 1) else memory_read m 0xFF04) /\
  (* counter *)
  (if Z.testbit tac 2 then
     timer_cycles (timer_state m') =
       (if tima_period tac <=? tacc then tacc - tima_period tac else tacc) /\
     memory_read m' 0xFF05 =
       (if tima_period tac <=? tacc then
          if tima =? 0xFF then u8 (memory_read m 0xFF06) else tima + 1
        else memory_read m 0xFF05)
   else
     timer_cycles (timer_state m') = timer_cycles (timer_state m) /\
     memory_read m' 0xFF05 = memory_read m 0xFF05) /\
  (* frame *)
  (forall i, 0 <= i < 65536 -> i <> 0xFF04 -> i <> 0xFF05 ->
     memory_read m' i = memory_read m i).
Proof.
  intros Hn m' tac tima acc tacc. subst m' tac tima.
  unfold timer_update. rewrite (u16_small n) by assumption.
  cbv zeta.
  unfold set_divider_cycles, set_timer_cycles.
  cbn [timer_state set_timer_state divider_cycles timer_cycles].
  fold acc. 
  rewrite !memory_write_io by lia.
  pose proof (u16_range (divider_cycles (timer_state m) + n)) as Hacc. fold acc in Hacc.
  pose proof (u16_range (timer_cycles (timer_state m) + n)) as Htacc. fold tacc in Htacc.
  assert (Hper : 0 < tima_period (u8 (memory m 0xFF07)) <= 1024).
  { unfold tima_period.
    pose proof (Z.mod_pos_bound (u8 (memory m 0xFF07)) 4 ltac:(lia)) as Hb.
    assert (Hc : u8 (memory m 0xFF07) mod 4 = 0 \/ u8 (memory m 0xFF07) mod 4 = 1 \/
                 u8 (memory m 0xFF07) mod 4 = 2 \/ u8 (memory m 0xFF07) mod 4 = 3) by lia.
    destruct Hc as [-> | [-> | [-> | ->]]]; unfold tima_periods; simpl; lia. }
  change 0x04 with (2 ^ 2).
  destruct (Z.geb_spec acc 256) as [Hd | Hd];
    (destruct (Z.leb_spec 256 acc); [| try lia]; try lia); timer_simpl;
    rewrite nonzero_land_pow2 by lia;
    (destruct (Z.testbit (u8 (memory m 65287)) 2) eqn:Hen);
    rewrite ?timer_threshold_period; fold tacc;
    try (destruct (Z.geb_spec tacc (tima_period (u8 (memory m 65287)))) as [Ht | Ht];
         (destruct (Z.leb_spec (tima_period (u8 (memory m 65287))) tacc); [| try lia]; try lia));
    try (destruct (Z.eqb_spec (u8 (memory m 65285)) 255) as [He | He]);
    timer_simpl.
  all: repeat split; try timer_frame.
  all: rewrite ?u8_idem, ?u16_small by lia; try reflexivity.
  all: try apply u8_add_l.
  all: apply u8_small; pose proof (u8_range (memory m 65285)); lia.
Qed.

Lemma tima_period_bounds tac : 0 < tima_period tac <= 1024.
Proof.
  unfold tima_period.
  pose proof (Z.mod_pos_bound tac 4 ltac:(lia)) as Hb.
  assert (Hc : tac mod 4 = 0 \/ tac mod 4 = 1 \/ tac mod 4 = 2 \/ tac mod 4 = 3) by lia.
  destruct Hc as [-> | [-> | [-> | ->]]]; unfold tima_periods; simpl; lia.
Qed.

(** C5 as stated fails for a call that takes an accumulator to its
    threshold more than once, and for one that wraps it.  After
    [timer_init], 600 cycles reach 256 twice, but the call subtracts 256
    once and increments DIV once: the accumulator is left at 344, not
    below 256, and DIV is 1.  With TAC = 5 (period 16) the same call
    leaves the TIMA accumulator at 584 with TIMA at 1.  And from an
    accumulator of 252 a call of 65535 cycles wraps the 16-bit sum to 251:
    nothing is subtracted and DIV does not move. *)
Lemma C5_counterexample :
  let m := timer_init power_on in
  let m' := timer_update 600 m in
  let t' := timer_update 600 (memory_write 0xFF07 0x05 m) in
  let wrapped := timer_update 65535 (set_divider_cycles 252 m) in
  divider_cycles (timer_state m) = 0 /\ memory_read m 0xFF04 = 0 /\
  divider_cycles (timer_state m') = 344 /\ memory_read m' 0xFF04 = 1 /\
  ~ divider_cycles (timer_state m') < 256 /\
  timer_cycles (timer_state t') = 584 /\ memory_read t' 0xFF05 = 1 /\
  ~ timer_cycles (timer_state t') < 16 /\
  divider_cycles (timer_state wrapped) = 251 /\ memory_read wrapped 0xFF04 = 0.
Proof.
  cbv zeta. repeat split; try reflexivity; vm_compute; intros H; discriminate H.
Qed.

(** C5, amended.  One call of [timer_update] with [n] cycles.  The
    divider accumulator grows by [n] as a 16-bit value; if it has then
    reached 256 it drops by 256, once, and DIV (0xFF04) is incremented
    once, as a byte.  With bit 2 of TAC (0xFF07) set, the TIMA
    accumulator grows by [n] as a 16-bit value; the period is picked from
    1024, 16, 64, 256 by the low two bits of TAC; if the accumulator has
    then reached the period it drops by the period, once, and TIMA
    (0xFF05) is incremented once, except that a TIMA of 0xFF is reloaded
    from TMA (0xFF06).  With bit 2 clear, the TIMA accumulator and TIMA
    keep their values.  No other byte of memory changes.  So for a call
    that cannot reach the threshold twice (the accumulator was below the
    threshold and [n] is at most the threshold, as with the 4 cycles of
    [update_timer]) the accumulator ends below the threshold again, at
    the sum modulo the threshold. *)
Theorem C5_timer_update n m :
  0 <= n < 65536 ->
  let m' := timer_update n m in
  let tac := u8 (memory_read m 0xFF07) in
  let tima := u8 (memory_read m 0xFF05) in
  let acc := u16 (divider_cycles (timer_state m) + n) in
  let tacc := u16 (timer_cycles (timer_state m) + n) in
  (* divider *)
  divider_cycles (timer_state m') = (if 256 <=? acc then acc - 256 else acc) /\
  memory_read m' 0xFF04 =
    (if 256 <=? acc then u8 (memory_read m 0xFF04 + 1) else memory_read m 0xFF04) /\
  (* counter *)
  (if Z.testbit tac 2 then
     timer_cycles (timer_state m') =
       (if tima_period tac <=? tacc then tacc - tima_period tac else tacc) /\
     memory_read m' 0xFF05 =
       (if tima_period tac <=? tacc then
          if tima =? 0xFF then u8 (memory_read m 0xFF06) else tima + 1
        else memory_read m 0xFF05)
   else
     timer_cycles (timer_state m') = timer_cycles (timer_state m) /\
     memory_read m' 0xFF05 = memory_read m 0xFF05) /\
  (* frame *)
  (forall i, 0 <= i < 65536 -> i <> 0xFF04 -> i <> 0xFF05 ->
     memory_read m' i = memory_read m i) /\
  (* calls that cannot reach a threshold twice *)
  (0 <= divider_cycles (timer_state m) < 256 -> n <= 256 ->
     divider_cycles (timer_state m') = (divider_cycles (timer_state m) + n) mod 256) /\
  (Z.testbit tac 2 = true ->
   0 <= timer_cycles (timer_state m) < tima_period tac -> n <= tima_period tac ->
     timer_cycles (timer_state m') = (timer_cycles (timer_state m) + n) mod tima_period tac).
Proof.
  intros Hn m' tac tima acc tacc.
  destruct (timer_update_call n m Hn) as (Hdiv & Hreg & Htima & Hframe).
  fold m' tac tima acc tacc in Hdiv, Hreg, Htima, Hframe.
  split; [exact Hdiv |]. split; [exact Hreg |]. split; [exact Htima |].
  split; [exact Hframe |]. split.
  - intros Hd Hle. rewrite Hdiv. subst acc.
    rewrite u16_small by lia.
    destruct (Z.leb_spec 256 (divider_cycles (timer_state m) + n)).
    + apply Z.mod_unique with (q := 1); lia.
    + symmetry. apply Z.mod_small. lia.
  - intros Hen Ht Hle. rewrite Hen in Htima. destruct Htima as [Hacc _].
    rewrite Hacc. subst tacc.
    pose proof (tima_period_bounds tac) as Hp.
    rewrite u16_small by lia.
    destruct (Z.leb_spec (tima_period tac) (timer_cycles (timer_state m) + n)).
    + apply Z.mod_unique with (q := 1); lia.
    + symmetry. apply Z.mod_small. lia.
Qed.

Lemma C5_witness :
  let m := set_divider_cycles 252 (memory_write 0xFF07 0x05 (timer_init power_on)) in
  0 <= 4 < 65536 /\
  divider_cycles (timer_state (timer_update 4 m)) = 0 /\
  memory_read (timer_update 4 m) 0xFF04 = 1.
Proof.
  intros m. split; [lia |].
  destruct (C5_timer_update 4 m ltac:(lia)) as (H1 & H2 & _).
  split; [rewrite H1 | rewrite H2]; reflexivity.
Defined.

(** ** The PPU *)

Lemma nonzero_land_0x80 x : nonzero (Z.land x 0x80) = Z.testbit x 7.
Proof. change 0x80 with (2 ^ 7). apply nonzero_land_pow2. lia. Qed.

(** C4.  [ppu_update] with bit 7 of LCDC (0xFF40) clear, in the two
    revisions.  ppu.c tests the bit first and returns before it touches
    anything: the whole machine state is the one before the call.  The
    revision with the renderer, the one that has the frame-ready flag and
    the frame buffer, adds the cycles to the accumulator before the test
    (under the comment "LCD is disabled, don't update"): the call is not
    a no-op there, the accumulator advances by the cycles modulo 65536;
    mode, line counter, frame-ready flag, frame buffer and memory stay as
    they were and no scanline is rendered. *)
Theorem C4_lcd_off_renderer_accumulates n m :
  Z.testbit (memory_read m LCDC) 7 = false ->
  ppu_c.ppu_update n m = m /\
  ppu_renderer.ppu_update n m = set_cycles (u16 (cycles (ppu m) + u16 n)) m.
Proof.
  intros Hoff. split.
  - unfold ppu_c.ppu_update. cbv zeta.
    rewrite nonzero_land_0x80, Hoff. reflexivity.
  - unfold ppu_renderer.ppu_update. cbv zeta.
    change (memory_read (set_cycles (u16 (cycles (ppu m) + u16 n)) m) LCDC)
      with (memory_read m LCDC).
    rewrite nonzero_land_0x80, Hoff. reflexivity.
Qed.

Lemma C4_witness :
  let m := memory_write LCDC 0x11 (ppu_renderer.ppu_init power_on) in
  Z.testbit (memory_read m LCDC) 7 = false /\
  cycles (ppu m) = 0 /\
  cycles (ppu (ppu_renderer.ppu_update 4 m)) = 4 /\
  ppu_renderer.ppu_update 4 m <> m /\
  ppu_c.ppu_update 4 m = m.
Proof.
  intros m.
  assert (Hoff : Z.testbit (memory_read m LCDC) 7 = false) by reflexivity.
  destruct (C4_lcd_off_renderer_accumulates 4 m Hoff) as [Hc Hr].
  split; [exact Hoff |]. split; [reflexivity |].
  split; [rewrite Hr; reflexivity |].
  split; [| exact Hc].
  intros H. apply (f_equal (fun x => cycles (ppu x))) in H.
  rewrite Hr in H. vm_compute in H. discriminate H.
Defined.

(** In the revision with the renderer the cycles are added before the
    LCD test, so with the LCD off the accumulator still advances; nothing
    else changes and no scanline is rendered. *)
Lemma renderer_ppu_update_lcd_off n m :
  Z.testbit (memory_read m LCDC) 7 = false ->
  ppu_renderer.ppu_update n m = set_cycles (u16 (cycles (ppu m) + u16 n)) m.
Proof.
  intros Hoff. unfold ppu_renderer.ppu_update. cbv zeta.
  change (memory_read (set_cycles (u16 (cycles (ppu m) + u16 n)) m) LCDC)
    with (memory_read m LCDC).
  rewrite nonzero_land_0x80, Hoff. reflexivity.
Qed.

Lemma set_framebuffer_twice fb1 fb2 m :
  set_framebuffer fb2 (set_framebuffer fb1 m) = set_framebuffer fb2 m.
Proof. reflexivity. Qed.

Lemma set_framebuffer_same m : set_framebuffer (framebuffer (ppu m)) m = m.
Proof. destruct m as [? ? ? ? [] ? ?]. reflexivity. Qed.

(** Rendering only draws into the frame buffer. *)
Lemma render_pixels_frame line_arg scroll_x palette bg_map_addr tdu tdb tile_row tile_y pixels :
  forall m, exists fb,
    fold_left (ppu_renderer.render_pixel line_arg scroll_x palette bg_map_addr tdu tdb
                 tile_row tile_y) pixels m
    = set_framebuffer fb m.
Proof.
  induction pixels as [| pixel pixels IH]; intros m; cbn [fold_left].
  - exists (framebuffer (ppu m)). symmetry. apply set_framebuffer_same.
  - unfold ppu_renderer.render_pixel at 2. cbv zeta.
    match goal with
    | |- context [fold_left _ pixels (set_framebuffer ?fb2 (set_framebuffer ?fb1 m))] =>
        destruct (IH (set_framebuffer fb2 (set_framebuffer fb1 m))) as [fb ->]
    end.
    eexists. reflexivity.
Qed.

Lemma render_scanline_frame line_arg m :
  exists fb, ppu_renderer.render_scanline line_arg m = set_framebuffer fb m.
Proof.
  unfold ppu_renderer.render_scanline. cbv zeta.
  match goal with |- context [if ?c then _ else _] => destruct c end.
  - exists (framebuffer (ppu m)). symmetry. apply set_framebuffer_same.
  - apply render_pixels_frame.
Qed.

Lemma memory_read_write_io_other a v m i :
  0xFE00 <= a < 65536 -> u16 i <> a ->
  memory_read (memory_write a v m) i = memory_read m i.
Proof.
  intros Ha Hne. rewrite memory_write_io by assumption.
  apply memory_read_ext; [reflexivity |].
  cbn [memory set_memory]. unfold store.
  destruct (Z.eqb_spec (u16 i) a); [contradiction | reflexivity].
Qed.

Lemma timing_of_memory_write a v m :
  timing_of (memory_write a v m) = timing_of m.
Proof. unfold timing_of. rewrite memory_write_ppu. reflexivity. Qed.

Lemma ppu_update_timing n m :
  lcd_enabled m = true ->
  timing_of (ppu_renderer.ppu_update n m) = timing_update n (timing_of m) /\
  lcd_enabled (ppu_renderer.ppu_update n m) = true.
Proof.
  unfold lcd_enabled. intros Hon.
  unfold ppu_renderer.ppu_update. cbv zeta.
  change (memory_read (set_cycles (u16 (cycles (ppu m) + u16 n)) m) LCDC)
    with (memory_read m LCDC).
  rewrite nonzero_land_0x80, Hon. cbn [negb].
  rewrite timing_of_memory_write.
  rewrite (memory_read_write_io_other STAT) by (unfold STAT, LCDC; cbn; lia).
  destruct m as [cp mem cart tim [cy md ln fb fr fc] out lg].
  unfold timing_of, timing_update, set_cycles, set_line, set_mode, set_frame_ready.
  cbn [ppu set_ppu cycles mode line framebuffer frame_ready frame_count].
  unfold LY in *. rewrite !memory_write_io by lia.
  repeat match goal with
         | |- context [ppu_renderer.render_scanline ?ln' ?mm] =>
             let fb' := fresh "fb" in
             destruct (render_scanline_frame ln' mm) as [fb' ->]
         end.
  unfold set_framebuffer.
  cbn [ppu set_ppu set_memory memory cycles mode line framebuffer frame_ready frame_count].
  split.
  - destruct md as [| p | p]; [| | reflexivity].
    + destruct (u16 (cy + u16 n) >=? 204); [| reflexivity].
      destruct (u8 (ln + 1) =? 144); reflexivity.
    + destruct p as [[p | p |] | [p | p |] |]; try reflexivity.
      * destruct (u16 (cy + u16 n) >=? 172); reflexivity.
      * destruct (u16 (cy + u16 n) >=? 80); reflexivity.
      * destruct (u16 (cy + u16 n) >=? 456); [| reflexivity].
        destruct (u8 (ln + 1) >? 153); reflexivity.
  - rewrite <- Hon. f_equal. apply memory_read_ext.
    + destruct md as [| p | p]; [| | reflexivity].
      * destruct (u16 (cy + u16 n) >=? 204); [| reflexivity].
        destruct (u8 (ln + 1) =? 144); reflexivity.
      * destruct p as [[p | p |] | [p | p |] |]; try reflexivity.
        -- destruct (u16 (cy + u16 n) >=? 172); reflexivity.
        -- destruct (u16 (cy + u16 n) >=? 80); reflexivity.
        -- destruct (u16 (cy + u16 n) >=? 456); [| reflexivity].
           destruct (u8 (ln + 1) >? 153); reflexivity.
    + change (u16 LCDC) with 0xFF40.
      destruct md as [| p | p]; [| | reflexivity].
      * destruct (u16 (cy + u16 n) >=? 204); [| reflexivity].
        destruct (u8 (ln + 1) =? 144); reflexivity.
      * destruct p as [[p | p |] | [p | p |] |]; try reflexivity.
        -- destruct (u16 (cy + u16 n) >=? 172); reflexivity.
        -- destruct (u16 (cy + u16 n) >=? 80); reflexivity.
        -- destruct (u16 (cy + u16 n) >=? 456); [| reflexivity].
           destruct (u8 (ln + 1) >? 153); reflexivity.
Qed.

Lemma iterate_ppu_update_timing cycles_arg n : forall m,
  lcd_enabled m = true ->
  timing_of (iterate (ppu_renderer.ppu_update cycles_arg) n m)
  = iterate (timing_update cycles_arg) n (timing_of m) /\
  lcd_enabled (iterate (ppu_renderer.ppu_update cycles_arg) n m) = true.
Proof.
  induction n as [| n IH]; intros m Hon; cbn [iterate].
  - split; [reflexivity | assumption].
  - destruct (ppu_update_timing cycles_arg m Hon) as [Ht Hl].
    destruct (IH (ppu_renderer.ppu_update cycles_arg m) Hl) as [Ht' Hl'].
    split; [| exact Hl'].
    rewrite Ht'. f_equal. exact Ht.
Qed.

Lemma iterate_timing n m :
  lcd_enabled m = true ->
  timing_of (iterate ppu_renderer.update_ppu n m)
  = iterate (timing_update 4) n (timing_of m) /\
  lcd_enabled (iterate ppu_renderer.update_ppu n m) = true.
Proof. exact (iterate_ppu_update_timing 4 n m). Qed.

Lemma trace_timing n : forall m,
  lcd_enabled m = true ->
  map timing_of (trace ppu_renderer.update_ppu n m)
  = trace (timing_update 4) n (timing_of m).
Proof.
  induction n as [| n IH]; intros m Hon; cbn [trace map].
  - reflexivity.
  - destruct (ppu_update_timing 4 m Hon) as [Ht Hl].
    rewrite IH by exact Hl.
    f_equal. f_equal. exact Ht.
Qed.

Lemma ppu_init_reset m0 :
  lcd_enabled (ppu_renderer.ppu_init m0) = true /\
  timing_of (ppu_renderer.ppu_init m0) = (0, HBlank, 0, false).
Proof.
  unfold ppu_renderer.ppu_init. cbv zeta. split.
  - unfold lcd_enabled.
    unfold BGP, LYC, LY, SCX, SCY, STAT, LCDC.
    rewrite !memory_read_write_io_other by (cbn; lia).
    rewrite memory_read_write_same by lia. reflexivity.
  - rewrite !timing_of_memory_write. reflexivity.
Qed.

(** Schedules of the pure timing function, by evaluation. *)
Lemma timing_frame_schedule fr :
  map mode_line (trace (timing_update 4) frame_calls (0, OAMScan, 0, fr))
  = ticks frame_schedule.
Proof. destruct fr; vm_compute; reflexivity. Qed.

Lemma timing_frame_flags fr :
  map flag_of (trace (timing_update 4) frame_calls (0, OAMScan, 0, fr))
  = repeat fr visible_calls ++ repeat true (frame_calls - visible_calls).
Proof. destruct fr; vm_compute; reflexivity. Qed.

Lemma timing_frame_vblank fr :
  iterate (timing_update 4) visible_calls (0, OAMScan, 0, fr) = (0, VBlank, 144, true).
Proof. destruct fr; vm_compute; reflexivity. Qed.

Lemma timing_frame_end fr :
  iterate (timing_update 4) frame_calls (0, OAMScan, 0, fr) = (0, OAMScan, 0, true).
Proof. destruct fr; vm_compute; reflexivity. Qed.

Lemma timing_reset_schedule :
  map mode_line (trace (timing_update 4) reset_calls (0, HBlank, 0, false))
  = ticks reset_schedule.
Proof. vm_compute; reflexivity. Qed.

Lemma timing_reset_end :
  iterate (timing_update 4) reset_calls (0, HBlank, 0, false) = (0, OAMScan, 0, true).
Proof. vm_compute; reflexivity. Qed.

(** ppu.c itself runs the same clock; it has no frame-ready flag. *)
Lemma ppu_c_update_timing n m :
  lcd_enabled m = true ->
  clock (timing_of (ppu_c.ppu_update n m)) = clock (timing_update n (timing_of m)) /\
  lcd_enabled (ppu_c.ppu_update n m) = true.
Proof.
  unfold lcd_enabled. intros Hon.
  unfold ppu_c.ppu_update. cbv zeta.
  rewrite nonzero_land_0x80, Hon. cbn [negb].
  rewrite timing_of_memory_write.
  rewrite (memory_read_write_io_other STAT) by (unfold STAT, LCDC; cbn; lia).
  destruct m as [cp mem cart tim [cy md ln fb fr fc] out lg].
  unfold timing_of, timing_update, clock, set_cycles, set_line, set_mode.
  cbn [ppu set_ppu cycles mode line framebuffer frame_ready frame_count].
  unfold LY in *. rewrite !memory_write_io by lia.
  cbn [ppu set_ppu set_memory memory cycles mode line framebuffer frame_ready frame_count].
  split.
  - destruct md as [| p | p]; [| | reflexivity].
    + destruct (u16 (cy + u16 n) >=? 204); [| reflexivity].
      destruct (u8 (ln + 1) =? 144); reflexivity.
    + destruct p as [[p | p |] | [p | p |] |]; try reflexivity.
      * destruct (u16 (cy + u16 n) >=? 172); reflexivity.
      * destruct (u16 (cy + u16 n) >=? 80); reflexivity.
      * destruct (u16 (cy + u16 n) >=? 456); [| reflexivity].
        destruct (u8 (ln + 1) >? 153); reflexivity.
  - rewrite <- Hon. f_equal. apply memory_read_ext.
    + destruct md as [| p | p]; [| | reflexivity].
      * destruct (u16 (cy + u16 n) >=? 204); [| reflexivity].
        destruct (u8 (ln + 1) =? 144); reflexivity.
      * destruct p as [[p | p |] | [p | p |] |]; try reflexivity.
        -- destruct (u16 (cy + u16 n) >=? 172); reflexivity.
        -- destruct (u16 (cy + u16 n) >=? 80); reflexivity.
        -- destruct (u16 (cy + u16 n) >=? 456); [| reflexivity].
           destruct (u8 (ln + 1) >? 153); reflexivity.
    + change (u16 LCDC) with 0xFF40.
      destruct md as [| p | p]; [| | reflexivity].
      * destruct (u16 (cy + u16 n) >=? 204); [| reflexivity].
        destruct (u8 (ln + 1) =? 144); reflexivity.
      * destruct p as [[p | p |] | [p | p |] |]; try reflexivity.
        -- destruct (u16 (cy + u16 n) >=? 172); reflexivity.
        -- destruct (u16 (cy + u16 n) >=? 80); reflexivity.
        -- destruct (u16 (cy + u16 n) >=? 456); [| reflexivity].
           destruct (u8 (ln + 1) >? 153); reflexivity.
Qed.

Lemma timing_update_clock n t1 t2 :
  clock t1 = clock t2 -> clock (timing_update n t1) = clock (timing_update n t2).
Proof.
  destruct t1 as [[[cy1 md1] ln1] fr1], t2 as [[[cy2 md2] ln2] fr2].
  cbn [clock]. intros H. injection H as -> -> ->.
  unfold timing_update.
  destruct md2 as [| p | p]; [| | reflexivity].
  - destruct (u16 (cy2 + u16 n) >=? 204); [| reflexivity].
    destruct (u8 (ln2 + 1) =? 144); reflexivity.
  - destruct p as [[p | p |] | [p | p |] |]; try reflexivity.
    + destruct (u16 (cy2 + u16 n) >=? 172); reflexivity.
    + destruct (u16 (cy2 + u16 n) >=? 80); reflexivity.
    + destruct (u16 (cy2 + u16 n) >=? 456); [| reflexivity].
      destruct (u8 (ln2 + 1) >? 153); reflexivity.
Qed.

Lemma mode_line_clock t1 t2 : clock t1 = clock t2 -> mode_line t1 = mode_line t2.
Proof.
  destruct t1 as [[[cy1 md1] ln1] fr1], t2 as [[[cy2 md2] ln2] fr2].
  cbn [clock mode_line]. intros H. injection H as -> -> ->. reflexivity.
Qed.

Lemma ppu_c_trace_timing n : forall m t,
  lcd_enabled m = true ->
  clock (timing_of m) = clock t ->
  map mode_line (map timing_of (trace ppu_c.update_ppu n m))
  = map mode_line (trace (timing_update 4) n t).
Proof.
  induction n as [| n IH]; intros m t Hon Hc; cbn [trace map].
  - reflexivity.
  - destruct (ppu_c_update_timing 4 m Hon) as [Ht Hl].
    f_equal.
    + apply mode_line_clock. exact Hc.
    + apply IH; [exact Hl |].
      unfold ppu_c.update_ppu. rewrite Ht. apply timing_update_clock. exact Hc.
Qed.

Lemma frame_ready_sticky n m :
  frame_ready (ppu m) = true ->
  frame_ready (ppu (ppu_renderer.ppu_update n m)) = true.
Proof.
  intros Hfr. unfold ppu_renderer.ppu_update. cbv zeta.
  match goal with |- context [if ?c then _ else _] => destruct c end;
    [exact Hfr |].
  rewrite memory_write_ppu.
  destruct m as [cp mem cart tim [cy md ln fb fr fc] out lg].
  cbn [ppu frame_ready] in Hfr. subst fr.
  unfold set_cycles, set_line, set_mode, set_frame_ready.
  cbn [ppu set_ppu cycles mode line framebuffer frame_ready frame_count].
  unfold LY. rewrite !memory_write_io by lia.
  repeat match goal with
         | |- context [ppu_renderer.render_scanline ?ln' ?mm] =>
             let fb' := fresh "fb" in
             destruct (render_scanline_frame ln' mm) as [fb' ->]
         end.
  unfold set_framebuffer.
  cbn [ppu set_ppu set_memory memory cycles mode line framebuffer frame_ready frame_count].
  destruct md as [| p | p]; [| | reflexivity].
  - destruct (u16 (cy + u16 n) >=? 204); [| reflexivity].
    destruct (u8 (ln + 1) =? 144); reflexivity.
  - destruct p as [[p | p |] | [p | p |] |]; try reflexivity.
    + destruct (u16 (cy + u16 n) >=? 172); reflexivity.
    + destruct (u16 (cy + u16 n) >=? 80); reflexivity.
    + destruct (u16 (cy + u16 n) >=? 456); [| reflexivity].
      destruct (u8 (ln + 1) >? 153); reflexivity.
Qed.

Lemma flag_of_timing_update n cy md ln fr :
  flag_of (timing_update n (cy, md, ln, fr))
  = fr || ((md =? HBlank) && (204 <=? u16 (cy + u16 n)) && (u8 (ln + 1) =? 144)).
Proof.
  unfold timing_update, flag_of, HBlank.
  destruct md as [| p | p]; cbn [Z.eqb andb]; rewrite ?orb_false_r; [| | reflexivity].
  - destruct (Z.geb_spec (u16 (cy + u16 n)) 204);
      destruct (Z.leb_spec 204 (u16 (cy + u16 n))); try lia; cbn [andb];
      rewrite ?orb_false_r; [| reflexivity].
    destruct (u8 (ln + 1) =? 144); rewrite ?orb_true_r, ?orb_false_r; reflexivity.
  - destruct p as [[p | p |] | [p | p |] |]; cbn [Pos.eqb andb]; rewrite ?orb_false_r;
      try reflexivity.
    + destruct (u16 (cy + u16 n) >=? 172); reflexivity.
    + destruct (u16 (cy + u16 n) >=? 80); reflexivity.
    + destruct (u16 (cy + u16 n) >=? 456); [| reflexivity].
      destruct (u8 (ln + 1) >? 153); reflexivity.
Qed.

(** A call sets the frame-ready flag exactly when it enters V-Blank, and
    leaves it as it is otherwise. *)
Lemma ppu_update_flag n m :
  frame_ready (ppu (ppu_renderer.ppu_update n m))
  = frame_ready (ppu m) || enters_vblank n m.
Proof.
  unfold enters_vblank.
  destruct (lcd_enabled m) eqn:Hon.
  - destruct (ppu_update_timing n m Hon) as [Ht _].
    apply (f_equal flag_of) in Ht. unfold timing_of at 1 in Ht. cbn [flag_of] in Ht.
    rewrite Ht. unfold timing_of. rewrite flag_of_timing_update. reflexivity.
  - unfold lcd_enabled in Hon. rewrite renderer_ppu_update_lcd_off by exact Hon.
    cbn [andb]. rewrite orb_false_r. reflexivity.
Qed.

Lemma frame_count_ppu_update n m :
  frame_count (ppu (ppu_renderer.ppu_update n m)) = frame_count (ppu m).
Proof.
  unfold ppu_renderer.ppu_update. cbv zeta.
  match goal with |- context [if ?c then _ else _] => destruct c end;
    [reflexivity |].
  rewrite memory_write_ppu.
  destruct m as [cp mem cart tim [cy md ln fb fr fc] out lg].
  unfold set_cycles, set_line, set_mode, set_frame_ready.
  cbn [ppu set_ppu cycles mode line framebuffer frame_ready frame_count].
  unfold LY. rewrite !memory_write_io by lia.
  repeat match goal with
         | |- context [ppu_renderer.render_scanline ?ln' ?mm] =>
             let fb' := fresh "fb" in
             destruct (render_scanline_frame ln' mm) as [fb' ->]
         end.
  unfold set_framebuffer.
  cbn [ppu set_ppu set_memory memory cycles mode line framebuffer frame_ready frame_count].
  destruct md as [| p | p]; [| | reflexivity].
  - destruct (u16 (cy + u16 n) >=? 204); [| reflexivity].
    destruct (u8 (ln + 1) =? 144); reflexivity.
  - destruct p as [[p | p |] | [p | p |] |]; try reflexivity.
    + destruct (u16 (cy + u16 n) >=? 172); reflexivity.
    + destruct (u16 (cy + u16 n) >=? 80); reflexivity.
    + destruct (u16 (cy + u16 n) >=? 456); [| reflexivity].
      destruct (u8 (ln + 1) >? 153); reflexivity.
Qed.

(** One call and the consumer, on the timing fields and the frame
    counter. *)
Lemma frame_step_timing m :
  lcd_enabled m = true ->
  frame_ready (ppu (ppu_renderer.update_ppu m)) = raised (timing_of m)
  /\ timing_of (frame_step m) = timing_step (timing_of m)
  /\ lcd_enabled (frame_step m) = true
  /\ frame_count (ppu (frame_step m))
     = frame_count (ppu m) + Z.b2z (raised (timing_of m)).
Proof.
  intros Hon. unfold ppu_renderer.update_ppu, frame_step, consume_frame, raised, timing_step.
  destruct (ppu_update_timing 4 m Hon) as [Ht Hl].
  pose proof (frame_count_ppu_update 4 m) as Hfc.
  unfold ppu_renderer.update_ppu, ppu_renderer.ppu_is_frame_ready.
  set (m1 := ppu_renderer.ppu_update 4 m) in *.
  rewrite <- Ht. unfold timing_of at 1 2 3. cbn [flag_of].
  split; [reflexivity |].
  destruct (frame_ready (ppu m1)) eqn:Hfr.
  - split; [reflexivity |]. split; [exact Hl |].
    unfold timing_of. cbn [flag_of]. rewrite Hfr. cbn [Z.b2z].
    rewrite <- Hfc. reflexivity.
  - split; [unfold timing_of; rewrite Hfr; reflexivity |]. split; [exact Hl |].
    unfold timing_of. cbn [flag_of]. rewrite Hfr. cbn [Z.b2z].
    rewrite <- Hfc. lia.
Qed.

Lemma count_true_cons flag flags : count_true (flag :: flags) = Z.b2z flag + count_true flags.
Proof.
  unfold count_true. destruct flag; cbn [count_occ Z.b2z].
  - destruct (Bool.bool_dec true true) as [_ | H]; [lia | contradiction H; reflexivity].
  - destruct (Bool.bool_dec false true) as [H | _]; [discriminate H | lia].
Qed.

Lemma frame_steps_timing n : forall m,
  lcd_enabled m = true ->
  flags_raised n m = map raised (trace timing_step n (timing_of m))
  /\ timing_of (iterate frame_step n m) = iterate timing_step n (timing_of m)
  /\ frame_count (ppu (iterate frame_step n m))
     = frame_count (ppu m) + count_true (map raised (trace timing_step n (timing_of m))).
Proof.
  unfold flags_raised.
  induction n as [| n IH]; intros m Hon; cbn [trace map iterate].
  - split; [reflexivity |]. split; [reflexivity |]. unfold count_true. cbn. lia.
  - destruct (frame_step_timing m Hon) as (Hflag & Ht & Hl & Hfc).
    destruct (IH (frame_step m) Hl) as (Hflags & Hts & Hcount).
    rewrite Ht in Hflags, Hts, Hcount.
    split; [rewrite Hflag, Hflags; reflexivity |].
    split; [exact Hts |].
    rewrite Hcount, Hfc, count_true_cons. lia.
Qed.

Lemma timing_frame_raised :
  map raised (trace timing_step frame_calls (0, OAMScan, 0, false))
  = repeat false (visible_calls - 1) ++ true :: repeat false (frame_calls - visible_calls).
Proof. vm_compute; reflexivity. Qed.

Lemma timing_frame_consumed :
  iterate timing_step frame_calls (0, OAMScan, 0, false) = (0, OAMScan, 0, false).
Proof. vm_compute; reflexivity. Qed.

Lemma timing_frame_count :
  count_true (map raised (trace timing_step frame_calls (0, OAMScan, 0, false))) = 1.
Proof. vm_compute; reflexivity. Qed.

Lemma timing_reset_raised :
  map raised (trace timing_step reset_calls (0, HBlank, 0, false))
  = repeat false (reset_visible_calls - 1)
    ++ true :: repeat false (reset_calls - reset_visible_calls).
Proof. vm_compute; reflexivity. Qed.

Lemma timing_reset_consumed :
  iterate timing_step reset_calls (0, HBlank, 0, false) = (0, OAMScan, 0, false).
Proof. vm_compute; reflexivity. Qed.

(** C3 as stated fails in two ways.  At reset [ppu_init] leaves the PPU
    in H-Blank (mode 0), so the run that starts at reset does not begin
    with the 80 cycles of OAM scan.  And a call makes one transition at
    most, whatever the number of cycles it adds: fed a frame's worth of
    cycles (154 * 456) in calls of 456 from the start of a frame, the PPU
    is on line 51, in pixel transfer, and no frame is ready. *)
Lemma C3_counterexample :
  let m := ppu_renderer.ppu_init power_on in
  let start := set_mode OAMScan m in
  lcd_enabled m = true /\
  mode (ppu m) = HBlank /\
  map mode_line (map timing_of (trace ppu_renderer.update_ppu frame_calls m))
  <> ticks frame_schedule /\
  timing_of start = (0, OAMScan, 0, false) /\
  timing_of (iterate (ppu_renderer.ppu_update 456) 154 start)
  = (46888, PixelTransfer, 51, false).
Proof.
  intros m start. destruct (ppu_init_reset power_on) as [Hon Ht]. fold m in Hon, Ht.
  split; [exact Hon |]. split; [reflexivity |]. split.
  - rewrite trace_timing by exact Hon. rewrite Ht.
    intros H.
    apply (f_equal (fun xs => hd (0, 0) xs)) in H.
    vm_compute in H. discriminate H.
  - split; [reflexivity |].
    assert (Hon' : lcd_enabled start = true) by exact Hon.
    destruct (iterate_ppu_update_timing 456 154 start Hon') as [-> _].
    vm_compute. reflexivity.
Qed.

(** C3, amended.  The run is driven by [update_ppu], which adds four
    cycles a call, with the LCD on.
    - From reset the PPU is in H-Blank on line 0: the first line is the
      204 cycles of H-Blank alone, lines 1..143 go OAM scan (80), pixel
      transfer (172), H-Blank (204), lines 144..153 are V-Blank (456
      each), and the PPU arrives at OAM scan on line 0 with the
      accumulator at zero.
    - From there (accumulator 0, OAM scan, line 0) every frame is
      exactly 144 times OAM scan, pixel transfer, H-Blank, then ten
      V-Blank lines, and ends in the same state.  Within the frame the
      frame-ready flag keeps its value until the H-Blank of line 143
      ends, is set by the call that moves the line counter to 144, and is
      set from then on.
    - [ppu_update] never clears the flag; the consumer's
      [ppu_render_frame] does.
    - [ppu_update] of ppu.c, which has no frame-ready flag, goes through
      the same frame.
    - Whatever the state and the cycles of a call, the flag after the
      call is the flag before it, or set because the call is the one
      that ends an H-Blank and moves the line counter to 144: no other
      call raises the flag, so a flag the consumer has cleared stays
      clear until the next such call.
    - With the consumer of [main]'s loop behind every call (a ready
      frame is drawn and the flag reset), the flag is raised by exactly
      one call of the frame, the one that ends the H-Blank of line 143;
      the frame ends as it began, with the flag clear, and one frame has
      been counted.  The same holds for the run from reset. *)
Theorem C3_frame_timing :
  (forall m0,
     let m := ppu_renderer.ppu_init m0 in
     lcd_enabled m = true /\
     timing_of m = (0, HBlank, 0, false) /\
     map mode_line (map timing_of (trace ppu_renderer.update_ppu reset_calls m))
       = ticks reset_schedule /\
     timing_of (iterate ppu_renderer.update_ppu reset_calls m) = (0, OAMScan, 0, true)) /\
  (forall m fr,
     lcd_enabled m = true ->
     timing_of m = (0, OAMScan, 0, fr) ->
     let run := map timing_of (trace ppu_renderer.update_ppu frame_calls m) in
     map mode_line run = ticks frame_schedule /\
     map flag_of run
       = repeat fr visible_calls ++ repeat true (frame_calls - visible_calls) /\
     timing_of (iterate ppu_renderer.update_ppu visible_calls m) = (0, VBlank, 144, true) /\
     timing_of (iterate ppu_renderer.update_ppu frame_calls m) = (0, OAMScan, 0, true)) /\
  (forall n m,
     frame_ready (ppu m) = true ->
     frame_ready (ppu (ppu_renderer.ppu_update n m)) = true) /\
  (forall m, frame_ready (ppu (ppu_renderer.ppu_render_frame m)) = false) /\
  (forall m,
     lcd_enabled m = true ->
     clock (timing_of m) = (0, OAMScan, 0) ->
     map mode_line (map timing_of (trace ppu_c.update_ppu frame_calls m))
       = ticks frame_schedule) /\
  (forall n m,
     frame_ready (ppu (ppu_renderer.ppu_update n m))
     = frame_ready (ppu m) || enters_vblank n m) /\
  (forall m,
     lcd_enabled m = true ->
     timing_of m = (0, OAMScan, 0, false) ->
     flags_raised frame_calls m
       = repeat false (visible_calls - 1)
         ++ true :: repeat false (frame_calls - visible_calls) /\
     timing_of (iterate frame_step frame_calls m) = (0, OAMScan, 0, false) /\
     frame_count (ppu (iterate frame_step frame_calls m)) = frame_count (ppu m) + 1) /\
  (forall m0,
     let m := ppu_renderer.ppu_init m0 in
     flags_raised reset_calls m
       = repeat false (reset_visible_calls - 1)
         ++ true :: repeat false (reset_calls - reset_visible_calls) /\
     timing_of (iterate frame_step reset_calls m) = (0, OAMScan, 0, false)).
Proof.
  split; [| split; [| split; [| split; [| split; [| split; [| split]]]]]].
  - intros m0 m. destruct (ppu_init_reset m0) as [Hon Ht]. fold m in Hon, Ht.
    split; [exact Hon |]. split; [exact Ht |]. split.
    + rewrite trace_timing by exact Hon. rewrite Ht. apply timing_reset_schedule.
    + destruct (iterate_timing reset_calls m Hon) as [-> _].
      rewrite Ht. apply timing_reset_end.
  - intros m fr Hon Ht run. subst run.
    rewrite trace_timing by exact Hon. rewrite Ht.
    split; [apply timing_frame_schedule |].
    split; [apply timing_frame_flags |].
    split.
    + destruct (iterate_timing visible_calls m Hon) as [-> _].
      rewrite Ht. apply timing_frame_vblank.
    + destruct (iterate_timing frame_calls m Hon) as [-> _].
      rewrite Ht. apply timing_frame_end.
  - apply frame_ready_sticky.
  - reflexivity.
  - intros m Hon Hc.
    rewrite (ppu_c_trace_timing frame_calls m (0, OAMScan, 0, false) Hon Hc).
    apply timing_frame_schedule.
  - apply ppu_update_flag.
  - intros m Hon Ht.
    destruct (frame_steps_timing frame_calls m Hon) as (Hflags & Hend & Hcount).
    rewrite Ht in Hflags, Hend, Hcount.
    split; [rewrite Hflags; apply timing_frame_raised |].
    split; [rewrite Hend; apply timing_frame_consumed |].
    rewrite Hcount, timing_frame_count. reflexivity.
  - intros m0 m. destruct (ppu_init_reset m0) as [Hon Ht]. fold m in Hon, Ht.
    destruct (frame_steps_timing reset_calls m Hon) as (Hflags & Hend & _).
    rewrite Ht in Hflags, Hend.
    split; [rewrite Hflags; apply timing_reset_raised |].
    rewrite Hend. apply timing_reset_consumed.
Qed.

Lemma C3_witness :
  let m := set_mode OAMScan (ppu_renderer.ppu_init power_on) in
  lcd_enabled m = true /\
  timing_of m = (0, OAMScan, 0, false) /\
  timing_of (iterate ppu_renderer.update_ppu frame_calls m) = (0, OAMScan, 0, true) /\
  frame_count (ppu (iterate frame_step frame_calls m)) = 1.
Proof.
  intros m.
  assert (Hon : lcd_enabled m = true) by reflexivity.
  assert (Ht : timing_of m = (0, OAMScan, 0, false)) by reflexivity.
  split; [exact Hon |]. split; [exact Ht |].
  destruct C3_frame_timing as (_ & Hframe & _ & _ & _ & _ & Hconsumed & _).
  destruct (Hframe m false Hon Ht) as (_ & _ & _ & Hend).
  split; [exact Hend |].
  destruct (Hconsumed m Hon Ht) as (_ & _ & Hcount).
  exact Hcount.
Defined.

(** ** The CPU: register-file invariant *)

Lemma high_nibble_0 : high_nibble 0.
Proof. reflexivity. Qed.
Lemma high_nibble_FLAG_Z : high_nibble FLAG_Z.
Proof. reflexivity. Qed.
Lemma high_nibble_FLAG_N : high_nibble FLAG_N.
Proof. reflexivity. Qed.
Lemma high_nibble_FLAG_H : high_nibble FLAG_H.
Proof. reflexivity. Qed.
Lemma high_nibble_FLAG_C : high_nibble FLAG_C.
Proof. reflexivity. Qed.

Lemma high_nibble_lor x y : high_nibble x -> high_nibble y -> high_nibble (Z.lor x y).
Proof.
  unfold high_nibble. intros Hx Hy.
  rewrite Z.land_lor_distr_l, Hx, Hy. reflexivity.
Qed.

Lemma high_nibble_land_l x y : high_nibble x -> high_nibble (Z.land x y).
Proof.
  unfold high_nibble. intros Hx.
  rewrite <- Z.land_assoc, (Z.land_comm y), Z.land_assoc, Hx. apply Z.land_0_l.
Qed.

Lemma high_nibble_land_r x y : high_nibble y -> high_nibble (Z.land x y).
Proof.
  unfold high_nibble. intros Hy.
  rewrite <- Z.land_assoc, Hy. apply Z.land_0_r.
Qed.

Lemma high_nibble_if (cond : bool) x y :
  high_nibble x -> high_nibble y -> high_nibble (if cond then x else y).
Proof. destruct cond; auto. Qed.

Lemma high_nibble_u8 x : high_nibble x -> high_nibble (u8 x).
Proof.
  unfold high_nibble, u8. intros Hx.
  change 256 with (2 ^ 8). rewrite <- Z.land_ones by lia.
  rewrite <- Z.land_assoc, (Z.land_comm (Z.ones 8)), Z.land_assoc, Hx.
  apply Z.land_0_l.
Qed.

Lemma cpu_invariant_f s : cpu_invariant s -> high_nibble (f (cpu s)).
Proof. intros H. apply H. Qed.

Lemma cpu_invariant_ext s s' :
  f (cpu s') = f (cpu s) -> pc (cpu s') = pc (cpu s) -> sp (cpu s') = sp (cpu s) ->
  cpu_invariant s -> cpu_invariant s'.
Proof. unfold cpu_invariant. intros -> -> ->. trivial. Qed.

Lemma cpu_invariant_set_a x s : cpu_invariant s -> cpu_invariant (set_a x s).
Proof. apply cpu_invariant_ext; reflexivity. Qed.
Lemma cpu_invariant_set_b x s : cpu_invariant s -> cpu_invariant (set_b x s).
Proof. apply cpu_invariant_ext; reflexivity. Qed.
Lemma cpu_invariant_set_c x s : cpu_invariant s -> cpu_invariant (set_c x s).
Proof. apply cpu_invariant_ext; reflexivity. Qed.
Lemma cpu_invariant_set_d x s : cpu_invariant s -> cpu_invariant (set_d x s).
Proof. apply cpu_invariant_ext; reflexivity. Qed.
Lemma cpu_invariant_set_e x s : cpu_invariant s -> cpu_invariant (set_e x s).
Proof. apply cpu_invariant_ext; reflexivity. Qed.
Lemma cpu_invariant_set_h x s : cpu_invariant s -> cpu_invariant (set_h x s).
Proof. apply cpu_invariant_ext; reflexivity. Qed.
Lemma cpu_invariant_set_l x s : cpu_invariant s -> cpu_invariant (set_l x s).
Proof. apply cpu_invariant_ext; reflexivity. Qed.
Lemma cpu_invariant_set_halted x s : cpu_invariant s -> cpu_invariant (set_halted x s).
Proof. apply cpu_invariant_ext; reflexivity. Qed.
Lemma cpu_invariant_set_interrupts_enabled x s :
  cpu_invariant s -> cpu_invariant (set_interrupts_enabled x s).
Proof. apply cpu_invariant_ext; reflexivity. Qed.
Lemma cpu_invariant_set_bc x s : cpu_invariant s -> cpu_invariant (set_bc x s).
Proof. apply cpu_invariant_ext; reflexivity. Qed.
Lemma cpu_invariant_set_de x s : cpu_invariant s -> cpu_invariant (set_de x s).
Proof. apply cpu_invariant_ext; reflexivity. Qed.
Lemma cpu_invariant_set_hl x s : cpu_invariant s -> cpu_invariant (set_hl x s).
Proof. apply cpu_invariant_ext; reflexivity. Qed.
Lemma cpu_invariant_printf x s : cpu_invariant s -> cpu_invariant (printf x s).
Proof. apply cpu_invariant_ext; reflexivity. Qed.
Lemma cpu_invariant_logger_log x s : cpu_invariant s -> cpu_invariant (logger_log x s).
Proof. unfold logger_log. destruct (log_file s); [apply cpu_invariant_ext; reflexivity | trivial]. Qed.
Lemma cpu_invariant_memory_write x y s :
  cpu_invariant s -> cpu_invariant (memory_write x y s).
Proof. apply cpu_invariant_ext; rewrite memory_write_cpu; reflexivity. Qed.

Lemma cpu_invariant_set_f x s :
  high_nibble x -> cpu_invariant s -> cpu_invariant (set_f (u8 x) s).
Proof.
  intros Hx (_ & Hpc & Hsp).
  split; [apply high_nibble_u8; exact Hx | split; [exact Hpc | exact Hsp]].
Qed.
Lemma cpu_invariant_set_f_FLAG_Z s : cpu_invariant s -> cpu_invariant (set_f FLAG_Z s).
Proof. intros (_ & Hpc & Hsp). split; [reflexivity | split; [exact Hpc | exact Hsp]]. Qed.
Lemma cpu_invariant_set_pc x s : cpu_invariant s -> cpu_invariant (set_pc (u16 x) s).
Proof.
  intros (Hf & _ & Hsp). split; [exact Hf | split; [apply u16_range | exact Hsp]].
Qed.
Lemma cpu_invariant_set_pc_get_hl s s' :
  cpu_invariant s -> cpu_invariant (set_pc (get_hl s') s).
Proof. apply cpu_invariant_set_pc. Qed.
Lemma cpu_invariant_set_pc_0x28 s : cpu_invariant s -> cpu_invariant (set_pc 0x0028 s).
Proof. apply (cpu_invariant_set_pc 0x0028). Qed.
Lemma cpu_invariant_set_sp x s : cpu_invariant s -> cpu_invariant (set_sp (u16 x) s).
Proof.
  intros (Hf & Hpc & _). split; [exact Hf | split; [exact Hpc | apply u16_range]].
Qed.
Lemma cpu_invariant_if (cond : bool) s s' :
  cpu_invariant s -> cpu_invariant s' -> cpu_invariant (if cond then s else s').
Proof. destruct cond; auto. Qed.

Create HintDb gb_inv.
#[local] Hint Resolve
  high_nibble_0 high_nibble_FLAG_Z high_nibble_FLAG_N high_nibble_FLAG_H high_nibble_FLAG_C
  high_nibble_lor high_nibble_land_l high_nibble_land_r high_nibble_if
  cpu_invariant_f
  cpu_invariant_set_a cpu_invariant_set_b cpu_invariant_set_c cpu_invariant_set_d
  cpu_invariant_set_e cpu_invariant_set_h cpu_invariant_set_l
  cpu_invariant_set_halted cpu_invariant_set_interrupts_enabled
  cpu_invariant_set_bc cpu_invariant_set_de cpu_invariant_set_hl
  cpu_invariant_printf cpu_invariant_logger_log cpu_invariant_memory_write
  cpu_invariant_set_f cpu_invariant_set_f_FLAG_Z
  cpu_invariant_set_pc cpu_invariant_set_pc_get_hl cpu_invariant_set_pc_0x28
  cpu_invariant_set_sp cpu_invariant_if : gb_inv.

Ltac unfold_fetch :=
  cbv beta iota zeta delta [cpu_fetch_word cpu_fetch_byte pop_byte].

Ltac split_opcode :=
  repeat match goal with
         | |- context [match ?x with _ => _ end] => is_var x; destruct x
         end.

Lemma execute_cb_invariant cb_opcode s :
  cpu_invariant s -> cpu_invariant (execute_cb cb_opcode s).
Proof.
  intros Hs. unfold execute_cb. split_opcode; unfold_fetch; auto 12 with gb_inv.
Qed.

#[local] Hint Resolve execute_cb_invariant : gb_inv.

Lemma execute_opcode_invariant rev opcode s :
  cpu_invariant s -> cpu_invariant (execute_opcode rev opcode s).
Proof.
  intros Hs. unfold execute_opcode.
  split_opcode; unfold_fetch; auto 12 with gb_inv.
  all: repeat match goal with
         | |- context [if ?cond then _ else _] => destruct cond
         end; auto 12 with gb_inv.
Qed.

Lemma cpu_execute_instruction_invariant rev s :
  cpu_invariant s -> cpu_invariant (cpu_execute_instruction rev s).
Proof.
  intros Hs. unfold cpu_execute_instruction.
  destruct (match rev with part_001 => halted (cpu s) | cpu_c => false end);
    [exact Hs |].
  unfold_fetch.
  apply execute_opcode_invariant.
  destruct rev; auto with gb_inv.
Qed.

(** The registers at reset: f = 0xB0, pc = 0x0100, sp = 0xFFFE. *)
Lemma cpu_init_registers rev m :
  cpu (cpu_init rev m)
  = mkCPU 0x01 0xB0 0x00 0x13 0x00 0xD8 0x01 0x4D 0x0100 0xFFFE false false.
Proof.
  unfold cpu_init. cbv zeta. destruct rev; [| reflexivity].
  unfold logger_log. cbn [log_file set_cpu]. destruct (log_file m); reflexivity.
Qed.

(** C7.  Every machine state met after [cpu_init], whatever instructions
    have been executed, has the low nibble of [f] clear and holds [pc]
    and [sp] in the range 0..65535. *)
Theorem C7_cpu_invariant rev s : reachable rev s -> cpu_invariant s.
Proof.
  induction 1 as [m | s Hr IH | s s' Hr IH Hcpu].
  - unfold cpu_invariant. rewrite cpu_init_registers. cbn [f pc sp].
    split; [reflexivity | split; lia].
  - unfold execute_cpu_cycle. destruct rev.
    + destruct (halted (cpu s)); [exact IH |].
      apply cpu_execute_instruction_invariant. exact IH.
    + apply cpu_execute_instruction_invariant. exact IH.
  - unfold cpu_invariant in *. rewrite Hcpu. exact IH.
Qed.

Lemma C7_witness :
  let s := execute_cpu_cycle cpu_c (cpu_init cpu_c power_on) in
  reachable cpu_c s /\ cpu_invariant s.
Proof.
  intros s.
  assert (Hr : reachable cpu_c s).
  { apply reachable_step. apply reachable_reset. }
  split; [exact Hr |].
  apply (C7_cpu_invariant cpu_c s Hr).
Defined.

(** ** The CPU: one instruction *)

Lemma cpu_execute_instruction_fetched rev s :
  halted (cpu s) = false ->
  cpu_execute_instruction rev s
  = execute_opcode rev (u8 (memory_read s (pc (cpu s)))) (fetched rev s).
Proof.
  intros Hh. unfold cpu_execute_instruction, fetched. rewrite Hh.
  destruct rev; reflexivity.
Qed.

Lemma fetched_cpu rev s :
  cpu (fetched rev s) = cpu (set_pc (u16 (pc (cpu s) + 1)) s).
Proof.
  unfold fetched. cbv zeta. destruct rev; [| reflexivity].
  unfold logger_log. cbn [log_file set_pc set_cpu].
  destruct (log_file s); reflexivity.
Qed.

Lemma fetched_memory rev s : memory (fetched rev s) = memory s.
Proof.
  unfold fetched. cbv zeta. destruct rev; [| reflexivity].
  unfold logger_log. cbn [log_file set_pc set_cpu].
  destruct (log_file s); reflexivity.
Qed.

Lemma fetched_cartridge rev s : current_cartridge (fetched rev s) = current_cartridge s.
Proof.
  unfold fetched. cbv zeta. destruct rev; [| reflexivity].
  unfold logger_log. cbn [log_file set_pc set_cpu].
  destruct (log_file s); reflexivity.
Qed.

Lemma fetched_stdout rev s : stdout (fetched rev s) = stdout s.
Proof.
  unfold fetched. cbv zeta. destruct rev; [| reflexivity].
  unfold logger_log. cbn [log_file set_pc set_cpu].
  destruct (log_file s); reflexivity.
Qed.

Lemma fetched_memory_read rev s address :
  memory_read (fetched rev s) address = memory_read s address.
Proof.
  apply memory_read_ext; [apply fetched_cartridge | rewrite fetched_memory; reflexivity].
Qed.

(** ** The CPU: 8-bit INC and DEC *)

Lemma land_15_mod x : Z.land x 0x0F = x mod 16.
Proof. change 0x0F with (Z.ones 4). rewrite Z.land_ones by lia. reflexivity. Qed.

Lemma inc_half x :
  (Z.land (u8 (x + 1)) 0x0F =? 0) = (Z.land (u8 x) 0x0F =? 0x0F).
Proof.
  rewrite !land_15_mod. unfold u8.
  destruct (Z.eqb_spec ((x + 1) mod 256 mod 16) 0) as [H0 | H0];
    destruct (Z.eqb_spec (x mod 256 mod 16) 15) as [H1 | H1];
    try reflexivity; exfalso; Z.div_mod_to_equations; lia.
Qed.

Lemma dec_half x :
  (Z.land x 0x0F =? 0) = (Z.land (u8 x) 0x0F =? 0).
Proof.
  rewrite !land_15_mod. unfold u8.
  destruct (Z.eqb_spec (x mod 16) 0) as [H0 | H0];
    destruct (Z.eqb_spec (x mod 256 mod 16) 0) as [H1 | H1];
    try reflexivity; exfalso; Z.div_mod_to_equations; lia.
Qed.

Lemma u8_sub_l x y : u8 (u8 x - y) = u8 (x - y).
Proof. unfold u8. apply Zminus_mod_idemp_l. Qed.

Lemma inc_flags f0 x :
  let r := u8 (x + 1) in
  let f' := u8 (((f0 .& FLAG_C) .| (if r =? 0 then FLAG_Z else 0))
                .| (if (r .& 0x0F) =? 0 then FLAG_H else 0)) in
  nonzero (f' .& u8 FLAG_Z) = (r =? 0) /\
  nonzero (f' .& u8 FLAG_H) = ((u8 x .& 0x0F) =? 0x0F) /\
  nonzero (f' .& u8 FLAG_N) = false /\
  nonzero (f' .& u8 FLAG_C) = nonzero (f0 .& u8 FLAG_C).
Proof.
  intros r f'. subst f'. rewrite <- inc_half. fold r.
  change (u8 FLAG_C) with (2 ^ 4). change FLAG_C with (2 ^ 4).
  rewrite !(land_pow2 f0 4) by lia.
  destruct (Z.testbit f0 4); destruct (r =? 0); destruct ((r .& 0x0F) =? 0);
    repeat split; reflexivity.
Qed.

Lemma dec_flags f0 x :
  let r := u8 (x - 1) in
  let f1 := u8 (((f0 .& FLAG_C) .| FLAG_N) .| (if (x .& 0x0F) =? 0 then FLAG_H else 0)) in
  let f' := if r =? 0 then u8 (f1 .| FLAG_Z) else f1 in
  nonzero (f' .& u8 FLAG_Z) = (r =? 0) /\
  nonzero (f' .& u8 FLAG_H) = ((u8 x .& 0x0F) =? 0) /\
  nonzero (f' .& u8 FLAG_N) = true /\
  nonzero (f' .& u8 FLAG_C) = nonzero (f0 .& u8 FLAG_C).
Proof.
  intros r f1 f'. subst f1 f'. rewrite <- dec_half.
  change (u8 FLAG_C) with (2 ^ 4). change FLAG_C with (2 ^ 4).
  rewrite !(land_pow2 f0 4) by lia.
  destruct (Z.testbit f0 4); destruct (r =? 0); destruct ((x .& 0x0F) =? 0);
    repeat split; reflexivity.
Qed.

Lemma get_hl_set_f x s : get_hl (set_f x s) = get_hl s.
Proof. reflexivity. Qed.

Lemma get_hl_memory_write address value s :
  get_hl (memory_write address value s) = get_hl s.
Proof. unfold get_hl. rewrite memory_write_cpu. reflexivity. Qed.

Ltac inc_dec_simpl Hcpu :=
  cbn [cpu a f b c d e h l set_f set_a set_b set_c set_d set_e set_h set_l set_cpu];
  rewrite ?Hcpu;
  cbn [cpu a f b c d e h l set_pc set_cpu].

Ltac inc_reg s Hcpu :=
  cbv beta iota zeta delta [execute_opcode];
  unfold get_flag, operand_value;
  inc_dec_simpl Hcpu; rewrite ?u8_add_l;
  match goal with
  | |- context [u8 (?x + 1) =? 0] =>
      let H := fresh "H" in
      pose proof (inc_flags (f (cpu s)) x) as H; cbv zeta in H;
      destruct H as (? & ? & ? & ?)
  end;
  repeat split; auto.

Ltac dec_reg s Hcpu :=
  cbv beta iota zeta delta [execute_opcode];
  unfold get_flag, operand_value;
  inc_dec_simpl Hcpu; rewrite ?u8_sub_l;
  match goal with
  | |- context [u8 (?x - 1) =? 0] =>
      let H := fresh "H" in
      pose proof (dec_flags (f (cpu s)) x) as H; cbv zeta in H;
      destruct (u8 (x - 1) =? 0);
      inc_dec_simpl Hcpu;
      destruct H as (? & ? & ? & ?)
  end;
  repeat split; auto.

(** C1.  For each 8-bit INC and DEC case of the switch, after the
    instruction: Z is set iff the 8-bit result is zero; H is set iff the
    low nibble of the operand was 0xF before an INC, or 0x0 before a DEC;
    N is clear after INC and set after DEC; C keeps its value.  The
    result is the operand plus or minus one modulo 256, and it is what
    the operand holds afterwards. *)
Theorem C1_inc_dec_flags rev s opcode kind r :
  halted (cpu s) = false ->
  u8 (memory_read s (pc (cpu s))) = opcode ->
  In (opcode, (kind, r)) inc_dec_opcodes ->
  let old := u8 (operand_value r s) in
  let result := match kind with INC => u8 (old + 1) | DEC => u8 (old - 1) end in
  let s' := cpu_execute_instruction rev s in
  get_flag FLAG_Z s' = (result =? 0) /\
  get_flag FLAG_H s' =
    match kind with
    | INC => Z.land old 0x0F =? 0x0F
    | DEC => Z.land old 0x0F =? 0
    end /\
  get_flag FLAG_N s' = match kind with INC => false | DEC => true end /\
  get_flag FLAG_C s' = get_flag FLAG_C s /\
  (operand_writable r s = true -> operand_value r s' = result).
Proof.
  intros Hh Hop Hin old result s'.
  subst old result s'.
  rewrite cpu_execute_instruction_fetched by exact Hh. rewrite Hop. clear Hop.
  pose proof (fetched_cpu rev s) as Hcpu.
  pose proof (fetched_memory_read rev s) as Hmem.
  set (s1 := fetched rev s) in *. clearbody s1.
  unfold inc_dec_opcodes in Hin. cbn [In] in Hin.
  repeat (destruct Hin as [Hin | Hin]; [injection Hin as <- <- <- |]); try contradiction.
  - inc_reg s Hcpu.
  - dec_reg s Hcpu.
  - inc_reg s Hcpu.
  - dec_reg s Hcpu.
  - inc_reg s Hcpu.
  - dec_reg s Hcpu.
  - inc_reg s Hcpu.
  - dec_reg s Hcpu.
  - inc_reg s Hcpu.
  - dec_reg s Hcpu.
  - inc_reg s Hcpu.
  - (* DEC (HL) *)
    cbv beta iota zeta delta [execute_opcode].
    assert (Hhl : get_hl s1 = get_hl s).
    { unfold get_hl. rewrite Hcpu. reflexivity. }
    unfold get_flag, operand_value, operand_writable.
    rewrite Hhl, Hmem.
    pose proof (dec_flags (f (cpu s)) (u8 (memory_read s (get_hl s)))) as H.
    cbv zeta in H. rewrite u8_idem in H.
    set (value := u8 (memory_read s (get_hl s))) in *.
    destruct (u8 (value - 1) =? 0);
      rewrite ?get_hl_memory_write, ?get_hl_set_f, ?Hhl;
      rewrite !memory_write_cpu; inc_dec_simpl Hcpu;
      destruct H as (HZ & HH & HN & HC);
      (repeat split; [exact HZ | exact HH | exact HN | exact HC |]);
      intros Hw; apply Z.leb_le in Hw;
      pose proof (u16_range (Z.lor (Z.shiftl (h (cpu s)) 8) (l (cpu s)))) as Hr;
      fold (get_hl s) in Hr;
      rewrite memory_read_write_same by lia; apply u8_idem.
  - dec_reg s Hcpu.
Qed.

Lemma C1_witness :
  let s := set_b 0x0F (set_pc 0xC000 (memory_write 0xC000 0x04 (cpu_init cpu_c power_on))) in
  halted (cpu s) = false /\
  u8 (memory_read s (pc (cpu s))) = 0x04 /\
  In (0x04, (INC, Reg_B)) inc_dec_opcodes /\
  get_flag FLAG_H (cpu_execute_instruction cpu_c s) = true /\
  b (cpu (cpu_execute_instruction cpu_c s)) = 0x10.
Proof.
  intros s.
  assert (Hh : halted (cpu s) = false) by reflexivity.
  assert (Hop : u8 (memory_read s (pc (cpu s))) = 0x04) by reflexivity.
  assert (Hin : In (0x04, (INC, Reg_B)) inc_dec_opcodes) by (left; reflexivity).
  destruct (C1_inc_dec_flags cpu_c s 0x04 INC Reg_B Hh Hop Hin) as (_ & HH & _ & _ & Hb).
  split; [exact Hh |]. split; [exact Hop |]. split; [exact Hin |].
  split; [rewrite HH; reflexivity | exact (Hb eq_refl)].
Defined.

(** ** The CPU: conditional jumps and calls that are not taken *)

Lemma u16_add_3 x : u16 (u16 (u16 (x + 1) + 1) + 1) = u16 (x + 3).
Proof.
  rewrite (u16_add_l (u16 (x + 1) + 1) 1).
  replace (u16 (x + 1) + 1 + 1) with (u16 (x + 1) + 2) by lia.
  rewrite u16_add_l. f_equal. lia.
Qed.

Lemma fetched_timer_state rev s : timer_state (fetched rev s) = timer_state s.
Proof.
  unfold fetched. cbv zeta. destruct rev; [| reflexivity].
  unfold logger_log. cbn [log_file set_pc set_cpu].
  destruct (log_file s); reflexivity.
Qed.

Lemma fetched_ppu rev s : ppu (fetched rev s) = ppu s.
Proof.
  unfold fetched. cbv zeta. destruct rev; [| reflexivity].
  unfold logger_log. cbn [log_file set_pc set_cpu].
  destruct (log_file s); reflexivity.
Qed.

(** C10.  A conditional absolute jump or call whose condition is false
    still fetches its two operand bytes: [pc] ends three bytes past the
    opcode (modulo 65536).  Every other register, the flags, [sp], the
    memory and everything else but the debug log are as before. *)
Theorem C10_conditional_jump_not_taken rev s opcode cc :
  halted (cpu s) = false ->
  u8 (memory_read s (pc (cpu s))) = opcode ->
  In (opcode, cc) conditional_jump_opcodes ->
  condition_holds cc s = false ->
  let s' := cpu_execute_instruction rev s in
  cpu s' = cpu (set_pc (u16 (pc (cpu s) + 3)) s) /\
  memory s' = memory s /\
  current_cartridge s' = current_cartridge s /\
  timer_state s' = timer_state s /\
  ppu s' = ppu s /\
  stdout s' = stdout s.
Proof.
  intros Hh Hop Hin Hcc s'. subst s'.
  rewrite cpu_execute_instruction_fetched by exact Hh. rewrite Hop. clear Hop.
  pose proof (fetched_cpu rev s) as Hcpu.
  pose proof (fetched_memory rev s) as Hmem.
  pose proof (fetched_cartridge rev s) as Hcart.
  pose proof (fetched_stdout rev s) as Hout.
  pose proof (fetched_timer_state rev s) as Htim.
  pose proof (fetched_ppu rev s) as Hppu.
  set (s1 := fetched rev s) in *. clearbody s1.
  unfold conditional_jump_opcodes in Hin. cbn [In] in Hin.
  unfold condition_holds, get_flag in Hcc.
  repeat (destruct Hin as [Hin | Hin]; [injection Hin as <- <- |]); try contradiction.
  all: cbv beta iota zeta delta [execute_opcode]; unfold_fetch;
    unfold get_flag; cbn [cpu f set_pc set_cpu]; rewrite Hcpu; cbn [cpu f set_pc set_cpu];
    match type of Hcc with
    | negb _ = false => apply negb_false_iff in Hcc
    | _ => idtac
    end; rewrite Hcc; cbn [negb];
    cbn [cpu memory current_cartridge timer_state ppu stdout set_pc set_cpu pc];
    rewrite Hcpu; cbn [cpu pc set_pc set_cpu a f b c d e h l sp halted interrupts_enabled];
    rewrite u16_add_3, Hmem, Hcart, Hout, Htim, Hppu; repeat split; reflexivity.
Qed.

Lemma C10_witness :
  let s := set_pc 0xC000 (memory_write 0xC000 0xC2 (cpu_init cpu_c power_on)) in
  halted (cpu s) = false /\
  u8 (memory_read s (pc (cpu s))) = 0xC2 /\
  In (0xC2, Cond_NZ) conditional_jump_opcodes /\
  condition_holds Cond_NZ s = false /\
  pc (cpu (cpu_execute_instruction cpu_c s)) = 0xC003.
Proof.
  intros s.
  assert (Hh : halted (cpu s) = false) by reflexivity.
  assert (Hop : u8 (memory_read s (pc (cpu s))) = 0xC2) by reflexivity.
  assert (Hin : In (0xC2, Cond_NZ) conditional_jump_opcodes) by (left; reflexivity).
  assert (Hcc : condition_holds Cond_NZ s = false) by reflexivity.
  destruct (C10_conditional_jump_not_taken cpu_c s 0xC2 Cond_NZ Hh Hop Hin Hcc)
    as (Hcpu & _).
  split; [exact Hh |]. split; [exact Hop |]. split; [exact Hin |].
  split; [exact Hcc |].
  rewrite Hcpu. reflexivity.
Defined.

(** ** The CPU: PUSH and POP *)

Lemma memory_read_write_other address value m i :
  0 <= address < 65536 -> u16 i <> address -> u16 i <> address - 0x2000 ->
  memory_read (memory_write address value m) i = memory_read m i.
Proof.
  intros Ha H1 H2. apply memory_read_ext.
  - apply memory_write_cartridge.
  - apply memory_write_other; assumption.
Qed.

Lemma byte_high_bits x i : 0 <= x < 256 -> 8 <= i -> Z.testbit x i = false.
Proof.
  intros Hx Hi. rewrite <- (Z.mod_small x (2 ^ 8)) by (change (2 ^ 8) with 256; lia).
  apply Z.mod_pow2_bits_high. lia.
Qed.

(** A register pair written with [set_de] from two bytes holds them. *)
Lemma pair_bytes hi lo :
  0 <= hi < 256 -> 0 <= lo < 256 ->
  let value := u16 ((hi << 8) .| lo) in
  u8 (value >> 8) = hi /\ u8 (value .& 0xFF) = lo.
Proof.
  intros Hhi Hlo value. subst value.
  unfold u8, u16. change 256 with (2 ^ 8). change 65536 with (2 ^ 16).
  change 0xFF with (Z.ones 8).
  split; apply Z.bits_inj'; intros i Hi.
  - rewrite Z.testbit_mod_pow2 by lia.
    destruct (Z.ltb_spec i 8) as [Hlt | Hge]; cbn [andb].
    + rewrite Z.shiftr_spec by lia. rewrite Z.testbit_mod_pow2 by lia.
      destruct (Z.ltb_spec (i + 8) 16); [| lia]. cbn [andb].
      rewrite Z.lor_spec, Z.shiftl_spec by lia.
      rewrite (byte_high_bits lo (i + 8)) by lia.
      rewrite orb_false_r. f_equal. lia.
    + symmetry. apply byte_high_bits; assumption.
  - rewrite Z.testbit_mod_pow2 by lia.
    destruct (Z.ltb_spec i 8) as [Hlt | Hge]; cbn [andb].
    + rewrite Z.land_spec, Z.testbit_ones_nonneg by lia.
      destruct (Z.ltb_spec i 8); [| lia]. rewrite andb_true_r.
      rewrite Z.testbit_mod_pow2 by lia.
      destruct (Z.ltb_spec i 16); [| lia]. cbn [andb].
      rewrite Z.lor_spec, Z.shiftl_spec by lia.
      rewrite (Z.testbit_neg_r hi (i - 8)) by lia. reflexivity.
    + symmetry. apply byte_high_bits; assumption.
Qed.

Lemma fetched_halted rev s : halted (cpu (fetched rev s)) = halted (cpu s).
Proof. rewrite fetched_cpu. reflexivity. Qed.

(** PUSH: [sp] drops by two; the machine is the one obtained by writing
    the high register at sp-1 and then the low register at sp-2 through
    [memory_write]. *)
Lemma push_effect rev s opcode rp :
  halted (cpu s) = false ->
  u8 (memory_read s (pc (cpu s))) = opcode ->
  In (opcode, rp) push_opcodes ->
  let s1 := fetched rev s in
  let sp1 := u16 (sp (cpu s) - 1) in
  let sp2 := u16 (sp (cpu s) - 2) in
  cpu_execute_instruction rev s
  = memory_write sp2 (pair_low rp s)
      (set_sp sp2 (memory_write sp1 (pair_high rp s) (set_sp sp1 s1))).
Proof.
  intros Hh Hop Hin s1 sp1 sp2.
  rewrite cpu_execute_instruction_fetched by exact Hh. rewrite Hop.
  fold s1. pose proof (fetched_cpu rev s) as Hcpu. fold s1 in Hcpu.
  assert (Hsp2 : u16 (sp1 - 1) = sp2).
  { subst sp1 sp2. rewrite u16_sub_l. f_equal. lia. }
  unfold push_opcodes in Hin. cbn [In] in Hin.
  repeat (destruct Hin as [Hin | Hin]; [injection Hin as <- <- |]); try contradiction.
  all: cbv beta iota zeta delta [execute_opcode];
    rewrite !memory_write_cpu; cbn [cpu sp a f b c d e h l set_sp set_cpu];
    rewrite !memory_write_cpu; cbn [cpu sp a f b c d e h l set_sp set_cpu];
    rewrite Hcpu; cbn [cpu sp a f b c d e h l set_pc set_cpu pair_low pair_high];
    fold sp1; rewrite Hsp2; reflexivity.
Qed.

(** POP: the low register is read at sp, then the high register at sp+1;
    [sp] rises by two. *)
Lemma pop_effect rev s opcode rp :
  halted (cpu s) = false ->
  u8 (memory_read s (pc (cpu s))) = opcode ->
  In (opcode, rp) pop_opcodes ->
  let s' := cpu_execute_instruction rev s in
  let low := u8 (memory_read s (sp (cpu s))) in
  let high := u8 (memory_read s (u16 (sp (cpu s) + 1))) in
  pair_low rp s' = u8 (u16 ((high << 8) .| low) .& 0xFF) /\
  pair_high rp s' = u8 (u16 ((high << 8) .| low) >> 8) /\
  sp (cpu s') = u16 (u16 (sp (cpu s) + 1) + 1) /\
  memory s' = memory s.
Proof.
  intros Hh Hop Hin s' low high. subst s'.
  rewrite cpu_execute_instruction_fetched by exact Hh. rewrite Hop.
  pose proof (fetched_cpu rev s) as Hcpu.
  pose proof (fetched_memory rev s) as Hmem.
  pose proof (fetched_memory_read rev s) as Hrd.
  set (s1 := fetched rev s) in *. clearbody s1.
  unfold pop_opcodes in Hin. cbn [In] in Hin.
  repeat (destruct Hin as [Hin | Hin]; [injection Hin as <- <- |]); try contradiction.
  all: cbv beta iota zeta delta [execute_opcode]; unfold_fetch;
    unfold set_bc, set_de, set_hl; cbv zeta;
    cbn [cpu b c d e h l sp set_b set_c set_d set_e set_h set_l set_sp set_cpu memory
         pair_low pair_high];
    change (memory_read (set_sp (u16 (sp (cpu s1) + 1)) s1)) with (memory_read s1);
    rewrite !Hrd, Hcpu, Hmem; cbn [cpu sp set_pc set_cpu];
    fold low high; repeat split; reflexivity.
Qed.

(** C6 as stated fails when the stack lies below 0x8000: the bus
    discards both writes of PUSH BC and POP DE reads the cartridge area,
    here 0xFF twice as no cartridge is loaded.  The program is the two
    bytes C5 D1 at 0xC000. *)
Lemma C6_counterexample :
  let s := set_sp 0x4000 (set_pc 0xC000 (set_bc 0x1234
             (memory_write 0xC001 0xD1
                (memory_write 0xC000 0xC5 (cpu_init cpu_c power_on))))) in
  let pushed := cpu_execute_instruction cpu_c s in
  let popped := cpu_execute_instruction cpu_c pushed in
  get_bc s = 0x1234 /\
  u8 (memory_read s (pc (cpu s))) = 0xC5 /\
  u8 (memory_read pushed (pc (cpu pushed))) = 0xD1 /\
  sp (cpu popped) = sp (cpu s) /\
  get_de popped = 0xFFFF /\
  get_de popped <> 0x1234.
Proof.
  cbv zeta. repeat split; try reflexivity.
  vm_compute. discriminate.
Qed.

(** C6, amended.  A PUSH writes the high register of its pair at sp-1
    and then the low register at sp-2, and leaves [sp] two lower; a POP
    reads the low register at sp and then the high register at sp+1, and
    leaves [sp] two higher.  When both stack bytes lie at or above
    0x8000, where the bus stores what is written, a PUSH followed by a
    POP leaves the popped pair equal to the pushed one and [sp] at its
    value before the PUSH; for PUSH BC with BC = 0x1234 followed by
    POP DE, DE = 0x1234. *)
Theorem C6_push_pop rev s push_opcode pushed_pair pop_opcode popped_pair :
  halted (cpu s) = false ->
  0 <= pair_high pushed_pair s < 256 ->
  0 <= pair_low pushed_pair s < 256 ->
  0 <= sp (cpu s) < 65536 ->
  u8 (memory_read s (pc (cpu s))) = push_opcode ->
  In (push_opcode, pushed_pair) push_opcodes ->
  let pushed := cpu_execute_instruction rev s in
  u8 (memory_read pushed (pc (cpu pushed))) = pop_opcode ->
  In (pop_opcode, popped_pair) pop_opcodes ->
  0x8000 <= u16 (sp (cpu s) - 1) -> 0x8000 <= u16 (sp (cpu s) - 2) ->
  let popped := cpu_execute_instruction rev pushed in
  (* PUSH *)
  pushed = memory_write (u16 (sp (cpu s) - 2)) (pair_low pushed_pair s)
             (set_sp (u16 (sp (cpu s) - 2))
                (memory_write (u16 (sp (cpu s) - 1)) (pair_high pushed_pair s)
                   (set_sp (u16 (sp (cpu s) - 1)) (fetched rev s)))) /\
  sp (cpu pushed) = u16 (sp (cpu s) - 2) /\
  memory_read pushed (sp (cpu s) - 1) = pair_high pushed_pair s /\
  memory_read pushed (sp (cpu s) - 2) = pair_low pushed_pair s /\
  (* POP *)
  pair_low popped_pair popped = memory_read pushed (sp (cpu pushed)) /\
  pair_high popped_pair popped = memory_read pushed (sp (cpu pushed) + 1) /\
  sp (cpu popped) = u16 (sp (cpu pushed) + 2) /\
  (* PUSH; POP *)
  pair_value popped_pair popped = pair_value pushed_pair s /\
  sp (cpu popped) = sp (cpu s).
Proof.
  intros Hh Hb Hc Hsp Hop Hin pushed Hop2 Hin2 Hw1 Hw2 popped.
  pose proof (push_effect rev s push_opcode pushed_pair Hh Hop Hin) as Hpush.
  cbv zeta in Hpush. fold pushed in Hpush.
  pose proof (u16_range (sp (cpu s) - 1)) as Hr1.
  pose proof (u16_range (sp (cpu s) - 2)) as Hr2.
  set (sp1 := u16 (sp (cpu s) - 1)) in *.
  set (sp2 := u16 (sp (cpu s) - 2)) in *.
  set (hi := pair_high pushed_pair s) in *.
  set (lo := pair_low pushed_pair s) in *.
  assert (Hnext : u16 (sp2 + 1) = sp1).
  { subst sp1 sp2. rewrite u16_add_l. f_equal. lia. }
  assert (Hback : u16 (sp1 + 1) = sp (cpu s)).
  { subst sp1. rewrite u16_add_l. replace (sp (cpu s) - 1 + 1) with (sp (cpu s)) by lia.
    apply u16_small. exact Hsp. }
  assert (Hne : sp1 <> sp2 /\ sp1 <> sp2 - 0x2000).
  { subst sp1 sp2. unfold u16 in *. Z.div_mod_to_equations. lia. }
  assert (Hcpu : cpu pushed = cpu (set_sp sp2 (set_pc (u16 (pc (cpu s) + 1)) s))).
  { rewrite Hpush. rewrite memory_write_cpu. cbn [cpu set_sp set_cpu].
    rewrite memory_write_cpu. cbn [cpu set_sp set_cpu]. rewrite fetched_cpu.
    reflexivity. }
  assert (Hrd1 : memory_read pushed sp1 = hi).
  { rewrite Hpush.
    rewrite memory_read_write_other by (rewrite ?u16_small by lia; lia).
    change (memory_read (set_sp sp2 ?m)) with (memory_read m).
    rewrite memory_read_write_same by lia. apply u8_small. exact Hb. }
  assert (Hrd2 : memory_read pushed sp2 = lo).
  { rewrite Hpush. rewrite memory_read_write_same by lia. apply u8_small. exact Hc. }
  assert (Hh2 : halted (cpu pushed) = false).
  { rewrite Hcpu. exact Hh. }
  pose proof (pop_effect rev pushed pop_opcode popped_pair Hh2 Hop2 Hin2) as Hpop.
  cbv zeta in Hpop. fold popped in Hpop.
  assert (Hsp2 : sp (cpu pushed) = sp2) by (rewrite Hcpu; reflexivity).
  rewrite Hsp2, Hnext, Hrd1, Hrd2 in Hpop.
  rewrite (u8_small hi), (u8_small lo) in Hpop by assumption.
  destruct (pair_bytes hi lo Hb Hc) as [Hd He].
  cbv zeta in Hd, He. rewrite Hd, He in Hpop.
  destruct Hpop as (He' & Hd' & Hsp' & _).
  split; [exact Hpush |]. split; [exact Hsp2 |].
  split.
  { unfold memory_read. fold (u16 (sp (cpu s) - 1)). fold sp1.
    rewrite <- Hrd1. unfold memory_read. rewrite (u16_small sp1) by lia. reflexivity. }
  split.
  { unfold memory_read. fold (u16 (sp (cpu s) - 2)). fold sp2.
    rewrite <- Hrd2. unfold memory_read. rewrite (u16_small sp2) by lia. reflexivity. }
  rewrite Hsp2.
  split; [rewrite He', Hrd2; reflexivity |].
  split.
  { rewrite Hd'. unfold memory_read. fold (u16 (sp2 + 1)). rewrite Hnext.
    rewrite <- Hrd1. unfold memory_read. rewrite (u16_small sp1) by lia. reflexivity. }
  split.
  { rewrite Hsp'. subst sp1 sp2. rewrite !u16_add_l. f_equal. lia. }
  split.
  { unfold pair_value. rewrite Hd', He'. reflexivity. }
  rewrite Hsp', Hback. reflexivity.
Qed.

Lemma C6_witness :
  let s := set_bc 0x1234 (set_pc 0xC000
             (memory_write 0xC001 0xD1
                (memory_write 0xC000 0xC5 (cpu_init cpu_c power_on)))) in
  let popped := cpu_execute_instruction cpu_c (cpu_execute_instruction cpu_c s) in
  halted (cpu s) = false /\
  0x8000 <= u16 (sp (cpu s) - 1) /\ 0x8000 <= u16 (sp (cpu s) - 2) /\
  get_de popped = 0x1234 /\
  sp (cpu popped) = 0xFFFE.
Proof.
  intros s popped.
  assert (Hh : halted (cpu s) = false) by reflexivity.
  assert (Hb : 0 <= pair_high BC s < 256)
    by (split; [apply Z.leb_le | apply Z.ltb_lt]; reflexivity).
  assert (Hc : 0 <= pair_low BC s < 256)
    by (split; [apply Z.leb_le | apply Z.ltb_lt]; reflexivity).
  assert (Hsp : 0 <= sp (cpu s) < 65536)
    by (split; [apply Z.leb_le | apply Z.ltb_lt]; reflexivity).
  assert (Hop : u8 (memory_read s (pc (cpu s))) = 0xC5) by reflexivity.
  assert (Hin : In (0xC5, BC) push_opcodes) by (left; reflexivity).
  assert (Hop2 : u8 (memory_read (cpu_execute_instruction cpu_c s)
                       (pc (cpu (cpu_execute_instruction cpu_c s)))) = 0xD1)
    by reflexivity.
  assert (Hin2 : In (0xD1, DE) pop_opcodes) by (right; left; reflexivity).
  assert (Hw1 : 0x8000 <= u16 (sp (cpu s) - 1)) by (apply Z.leb_le; reflexivity).
  assert (Hw2 : 0x8000 <= u16 (sp (cpu s) - 2)) by (apply Z.leb_le; reflexivity).
  destruct (C6_push_pop cpu_c s 0xC5 BC 0xD1 DE Hh Hb Hc Hsp Hop Hin Hop2 Hin2 Hw1 Hw2)
    as (_ & _ & _ & _ & _ & _ & _ & Hde & Hsp').
  split; [exact Hh |]. split; [exact Hw1 |]. split; [exact Hw2 |].
  unfold popped.
  split; [exact Hde | rewrite Hsp'; reflexivity].
Defined.

(** ** The CPU: opcodes without a case *)

(** An opcode without a case falls out of the switch in cpu.c, which has
    no [default]; in part_001 it reaches the [default] and is printed
    with [cpu.pc - 1]. *)
Lemma execute_opcode_unknown rev opcode s :
  implemented rev opcode = false ->
  execute_opcode rev opcode s
  = match rev with
    | part_001 => printf (Unimplemented_opcode opcode (pc (cpu s) - 1)) s
    | cpu_c => s
    end.
Proof.
  unfold execute_opcode. split_opcode; intros H;
    first [reflexivity | vm_compute in H; discriminate H].
Qed.

Lemma execute_cb_unknown cb_opcode s :
  implemented_cb cb_opcode = false ->
  execute_cb cb_opcode s = printf (Unimplemented_CB_opcode cb_opcode (pc (cpu s) - 2)) s.
Proof.
  unfold execute_cb. split_opcode; intros H;
    first [reflexivity | vm_compute in H; discriminate H].
Qed.

(** The whole step on an opcode without a case: the byte is consumed,
    nothing else in the CPU or the memory changes, and the next step
    runs as usual. *)
Lemma cpu_execute_instruction_unknown rev s :
  halted (cpu s) = false ->
  implemented rev (u8 (memory_read s (pc (cpu s)))) = false ->
  let s' := cpu_execute_instruction rev s in
  cpu s' = cpu (set_pc (u16 (pc (cpu s) + 1)) s) /\
  memory s' = memory s /\
  current_cartridge s' = current_cartridge s /\
  stdout s' =
    match rev with
    | part_001 =>
        Unimplemented_opcode (u8 (memory_read s (pc (cpu s)))) (u16 (pc (cpu s) + 1) - 1)
        :: stdout s
    | cpu_c => stdout s
    end.
Proof.
  intros Hh Hun s'. subst s'.
  rewrite cpu_execute_instruction_fetched by exact Hh.
  rewrite execute_opcode_unknown by exact Hun.
  destruct rev.
  - rewrite fetched_cpu, fetched_memory, fetched_cartridge, fetched_stdout.
    repeat split; reflexivity.
  - repeat split; reflexivity.
Qed.

(** The same for a CB-prefixed second byte without a case: both bytes
    are consumed and the [default] of the inner switch prints
    [cpu.pc - 2]. *)
Lemma cpu_execute_instruction_unknown_cb rev s :
  halted (cpu s) = false ->
  u8 (memory_read s (pc (cpu s))) = 0xCB ->
  implemented_cb (u8 (memory_read s (u16 (pc (cpu s) + 1)))) = false ->
  let s' := cpu_execute_instruction rev s in
  cpu s' = cpu (set_pc (u16 (pc (cpu s) + 2)) s) /\
  memory s' = memory s /\
  current_cartridge s' = current_cartridge s /\
  stdout s' =
    Unimplemented_CB_opcode (u8 (memory_read s (u16 (pc (cpu s) + 1))))
      (u16 (pc (cpu s) + 2) - 2)
    :: stdout s.
Proof.
  intros Hh Hop Hun s'. subst s'.
  rewrite cpu_execute_instruction_fetched by exact Hh. rewrite Hop.
  pose proof (fetched_cpu rev s) as Hcpu.
  pose proof (fetched_memory rev s) as Hmem.
  pose proof (fetched_cartridge rev s) as Hcart.
  pose proof (fetched_stdout rev s) as Hout.
  pose proof (fetched_memory_read rev s) as Hrd.
  set (s1 := fetched rev s) in *. clearbody s1.
  cbv beta iota zeta delta [execute_opcode]. unfold_fetch.
  assert (Hpc : pc (cpu s1) = u16 (pc (cpu s) + 1)) by (rewrite Hcpu; reflexivity).
  rewrite Hrd, Hpc.
  rewrite execute_cb_unknown by exact Hun.
  cbn [cpu memory current_cartridge stdout printf set_stdout set_pc set_cpu pc].
  rewrite Hcpu, Hmem, Hcart, Hout.
  cbn [cpu pc set_pc set_cpu a f b c d e h l sp halted interrupts_enabled].
  replace (u16 (u16 (pc (cpu s) + 1) + 1)) with (u16 (pc (cpu s) + 2))
    by (rewrite u16_add_l; f_equal; lia).
  repeat split; reflexivity.
Qed.

(** cpu.c names such an opcode "UNKNOWN" in its debug line. *)
Lemma get_opcode_name_unknown opcode :
  implemented cpu_c opcode = false -> get_opcode_name opcode = "UNKNOWN"%string.
Proof.
  unfold get_opcode_name. split_opcode; intros H;
    first [reflexivity | vm_compute in H; discriminate H].
Qed.

(** C8.  cpu.c reports nothing for an opcode without a case.  At reset
    with no cartridge the opcode byte at 0x0100 reads 0xFF, for which the
    switch has no case and no [default]: the byte is consumed, nothing is
    printed, and the debug line is dropped because the log file is not
    open.  In part_001 the [default] prints [cpu.pc - 1], which for an
    opcode fetched at 0xFFFF is -1 and not the address of the fetch. *)
Theorem C8_unknown_opcode_not_reported :
  let s := cpu_init cpu_c power_on in
  let s' := cpu_execute_instruction cpu_c s in
  let t := set_pc 0xFFFF (memory_write 0xFFFF 0xFF (cpu_init part_001 power_on)) in
  halted (cpu s) = false /\
  u8 (memory_read s (pc (cpu s))) = 0xFF /\
  implemented cpu_c 0xFF = false /\
  pc (cpu s') = 0x0101 /\
  stdout s' = [] /\
  log_file s' = None /\
  stdout (cpu_execute_instruction part_001 t) = [Unimplemented_opcode 0xFF (-1)].
Proof.
  cbv zeta. repeat split; reflexivity.
Qed.

(** * Further properties of the code *)

(** ** memory.c: the bus *)

Lemma memory_write_echo_mirror_any address value m :
  0xE000 <= address < 0xFE00 ->
  memory_read (memory_write address value m) (address - 0x2000) = u8 value.
Proof.
  intros H. rewrite memory_read_ram by lia.
  unfold memory_write. rewrite u16_small by lia.
  destruct (Z.ltb_spec address 0x8000); [lia |].
  destruct (Z.geb_spec address 0xE000); [| lia].
  destruct (Z.ltb_spec address 0xFE00); [| lia].
  cbn [andb memory set_memory]. unfold store.
  rewrite Z.eqb_refl. reflexivity.
Qed.

(** X1.  Reading after a write, for any two 16-bit addresses.  The read
    sees the byte written exactly when the write was at or above 0x8000
    and the address read is the address written or, for a write into
    echo RAM (0xE000..0xFDFF), the address 0x2000 below it; every other
    read is what it was before the write. *)
Theorem X1_read_after_write address value m i :
  0 <= address < 65536 -> 0 <= i < 65536 ->
  memory_read (memory_write address value m) i
  = if (0x8000 <=? address)
       && ((i =? address)
           || ((0xE000 <=? address) && (address <? 0xFE00) && (i =? address - 0x2000)))
    then u8 value
    else memory_read m i.
Proof.
  intros Ha Hi.
  destruct (Z.leb_spec 0x8000 address) as [Hram | Hrom]; cbn [andb].
  2: { rewrite memory_write_rom by lia. reflexivity. }
  destruct (Z.eqb_spec i address) as [-> | Hne]; cbn [orb].
  { apply memory_read_write_same. lia. }
  destruct (Z.leb_spec 0xE000 address) as [He1 | He1]; cbn [andb].
  - destruct (Z.ltb_spec address 0xFE00) as [He2 | He2]; cbn [andb].
    + destruct (Z.eqb_spec i (address - 0x2000)) as [-> | Hne2].
      * apply (memory_write_echo_mirror_any address value m). lia.
      * apply memory_read_write_other; rewrite ?u16_small by lia; lia.
    + rewrite memory_write_io by lia.
      apply memory_read_ext; [reflexivity |].
      cbn [memory set_memory]. unfold store. rewrite u16_small by lia.
      destruct (Z.eqb_spec i address); [contradiction | reflexivity].
  - apply memory_read_ext; [apply memory_write_cartridge |].
    rewrite u16_small by lia.
    unfold memory_write. rewrite u16_small by lia.
    destruct (Z.ltb_spec address 0x8000); [lia |].
    destruct (Z.geb_spec address 0xE000); [lia |].
    cbn [andb memory set_memory]. unfold store.
    destruct (Z.eqb_spec i address); [contradiction | reflexivity].
Qed.

Lemma X1_witness :
  let m := memory_write 0xE010 0xAB (memory_init power_on) in
  0 <= 0xE010 < 65536 /\ 0 <= 0xC010 < 65536 /\
  memory_read m 0xC010 = 0xAB /\ memory_read m 0xD010 = 0.
Proof.
  intros m. split; [lia |]. split; [lia |]. split.
  - unfold m. rewrite (X1_read_after_write 0xE010 0xAB (memory_init power_on) 0xC010) by lia.
    reflexivity.
  - unfold m. rewrite (X1_read_after_write 0xE010 0xAB (memory_init power_on) 0xD010) by lia.
    reflexivity.
Defined.
(** ** cartridge.c: loading *)

Lemma c_string_nul l r : c_string (l ++ 0 :: r) = c_string l.
Proof.
  induction l as [| x l IH]; cbn [c_string app].
  - reflexivity.
  - destruct (x =? 0); [reflexivity | now rewrite IH].
Qed.

Lemma c_string_store_nul j l r :
  (List.length l <= j)%nat -> c_string (array_store j 0 (l ++ 0 :: r)) = c_string l.
Proof.
  revert j. induction l as [| x l IH]; intros j H; cbn [List.length] in H.
  - destruct j; reflexivity.
  - destruct j as [| k]; [lia |].
    cbn [app array_store c_string]. rewrite IH by lia. reflexivity.
Qed.

Lemma array_store_app i value array :
  (i < List.length array)%nat ->
  array_store i value array = firstn i array ++ value :: skipn (S i) array.
Proof.
  revert i. induction array as [| x rest IH]; intros i H; cbn [List.length] in H.
  - lia.
  - destruct i as [| k]; cbn [array_store firstn skipn app].
    + reflexivity.
    + rewrite IH by lia. reflexivity.
Qed.

Lemma array_store_length i value array :
  List.length (array_store i value array) = List.length array.
Proof.
  revert i. induction array as [| x rest IH]; intros [| k]; cbn [array_store List.length];
    try reflexivity.
  now rewrite IH.
Qed.

Lemma nth_array_store i value array :
  (i < List.length array)%nat -> nth i (array_store i value array) 0 = value.
Proof.
  revert i. induction array as [| x rest IH]; intros i H; cbn [List.length] in H.
  - lia.
  - destruct i as [| k]; cbn [array_store nth]; [reflexivity | apply IH; lia].
Qed.

Lemma firstn_S_array_store i value array :
  (i < List.length array)%nat ->
  firstn (S i) (array_store i value array) = firstn i array ++ [value].
Proof.
  revert i. induction array as [| x rest IH]; intros i H; cbn [List.length] in H.
  - lia.
  - destruct i as [| k]; cbn [array_store firstn app].
    + reflexivity.
    + f_equal. apply IH. lia.
Qed.

Lemma skipn_cons_nth (n : nat) (rom : list Z) :
  (n < List.length rom)%nat -> skipn n rom = nth n rom 0 :: skipn (S n) rom.
Proof.
  revert n. induction rom as [| x rest IH]; intros n H; cbn [List.length] in H.
  - lia.
  - destruct n as [| k]; [reflexivity |].
    change (skipn k rest = nth k rest 0 :: skipn (S k) rest). apply IH. lia.
Qed.

Lemma copy_title_length rom remaining i title_buf :
  List.length (copy_title rom remaining i title_buf) = List.length title_buf.
Proof.
  revert i title_buf. induction remaining as [| k IH]; intros i title_buf;
    cbn [copy_title]; [reflexivity |].
  destruct (_ =? 0).
  - apply array_store_length.
  - rewrite IH. apply array_store_length.
Qed.

(** The loop from index [i] on: the string in the buffer afterwards is
    what the buffer held below [i] followed by the next [remaining] bytes
    of the header. *)
Lemma copy_title_string rom remaining i title_buf :
  (i + remaining = 15)%nat -> List.length title_buf = 16%nat ->
  (0x134 + 15 <= List.length rom)%nat ->
  c_string (array_store 15 0 (copy_title rom remaining i title_buf))
  = c_string (firstn i title_buf ++ firstn remaining (skipn (0x134 + i) rom)).
Proof.
  set (base := 0x134%nat).
  revert i title_buf. induction remaining as [| k IH]; intros i title_buf Hi Hlen Hrom.
  - cbn [copy_title firstn]. rewrite app_nil_r.
    assert (i = 15%nat) as -> by lia.
    rewrite array_store_app by lia. apply c_string_nul.
  - cbn [copy_title]. fold base.
    rewrite nth_array_store by lia.
    rewrite (skipn_cons_nth (base + i)) by lia.
    cbn [firstn].
    destruct (Z.eqb_spec (nth (base + i) rom 0) 0) as [Hz | Hz].
    + rewrite Hz.
      rewrite (array_store_app i) by lia.
      rewrite c_string_store_nul by (rewrite length_firstn; lia).
      rewrite c_string_nul. reflexivity.
    + rewrite IH by (rewrite ?array_store_length; lia).
      rewrite firstn_S_array_store by lia.
      rewrite <- app_assoc. cbn [app].
      replace (base + S i)%nat with (S (base + i)) by lia.
      reflexivity.
Qed.

(** X2.  A ROM image that was read completely is what the bus shows below
    0x8000: [cartridge_load] returns true, and a read at an address of
    the ROM area gives the byte of the file at that offset, or 0xFF past
    the end of the file.  The state of the machine before the load and
    the contents of the block [malloc] returned do not matter. *)
Theorem X2_load_then_read bytes fresh_title fresh_type m address :
  0 <= address < 0x8000 ->
  let '(ok, _, m') := cartridge_load (Read_succeeds bytes) fresh_title fresh_type m in
  ok = true
  /\ memory_read m' address
     = if address <? Z.of_nat (List.length bytes)
       then nth (Z.to_nat address) bytes 0 else 0xFF.
Proof.
  intros H. unfold cartridge_load.
  destruct (Z.of_nat (List.length bytes) >=? 0x150);
    (split; [reflexivity |]);
    rewrite memory_read_rom by lia;
    unfold cartridge_read; rewrite u16_small by lia;
    cbn [current_cartridge set_current_cartridge]; unfold size; cbn [data];
    destruct (Z.geb_spec address (Z.of_nat (List.length bytes)));
    destruct (Z.ltb_spec address (Z.of_nat (List.length bytes))); try lia; reflexivity.
Qed.

Lemma X2_witness :
  0 <= 2 < 0x8000
  /\ (let '(ok, _, m') := cartridge_load (Read_succeeds [0x31; 0xFE; 0xFF]) [] 0 power_on in
      ok = true /\ memory_read m' 2 = 0xFF /\ memory_read m' 3 = 0xFF).
Proof.
  split; [lia |].
  generalize (X2_load_then_read [0x31; 0xFE; 0xFF] [] 0 power_on 2 ltac:(lia)).
  generalize (X2_load_then_read [0x31; 0xFE; 0xFF] [] 0 power_on 3 ltac:(lia)).
  destruct (cartridge_load (Read_succeeds [0x31; 0xFE; 0xFF]) [] 0 power_on) as [[ok msgs] m'].
  intros [_ H3] [Hok H2]. split; [exact Hok |]. split; [exact H2 | exact H3].
Defined.

(** X3.  The header of an image of at least 0x150 bytes.  Whatever the
    16-byte title buffer held before, the title afterwards, read as a C
    string, is the bytes of the image from 0x134 up to the first NUL, at
    most 15 of them; the buffer is still 16 bytes long; the type is the
    byte at 0x147; and the line printed shows exactly this title and
    type. *)
Theorem X3_load_header bytes fresh_title fresh_type m :
  0x150 <= Z.of_nat (List.length bytes) ->
  List.length fresh_title = 16%nat ->
  exists cart,
    cartridge_load (Read_succeeds bytes) fresh_title fresh_type m
    = (true,
       [Loaded_rom (c_string (firstn 15 (skipn 0x134 bytes))) (nth 0x147 bytes 0)],
       set_current_cartridge (Some cart) m)
    /\ data cart = bytes
    /\ c_string (title cart) = c_string (firstn 15 (skipn 0x134 bytes))
    /\ List.length (title cart) = 16%nat
    /\ type cart = nth 0x147 bytes 0.
Proof.
  intros Hsize Hlen. unfold cartridge_load.
  destruct (Z.geb_spec (Z.of_nat (List.length bytes)) 0x150); [| lia].
  assert (Hs : c_string (array_store 15 0 (copy_title bytes 15 0 fresh_title))
               = c_string (firstn 15 (skipn 0x134 bytes))).
  { rewrite (copy_title_string bytes 15 0 fresh_title); [reflexivity | lia | assumption |].
    apply Nat2Z.inj_le. rewrite Nat2Z.inj_add. 
    change (Z.of_nat 0x134) with 0x134. change (Z.of_nat 15) with 15. lia. }
  eexists. split; [rewrite Hs; reflexivity |].
  cbn [data title type]. split; [reflexivity |]. split; [exact Hs |].
  split; [| reflexivity].
  rewrite array_store_length, copy_title_length. exact Hlen.
Qed.

Lemma X3_witness :
  let bytes := repeat 0 0x134 ++ [84; 69; 84; 82; 73; 83] ++ repeat 0 13 ++ [1] ++ repeat 0 8 in
  let fresh_title := repeat 0xAA 16 in
  0x150 <= Z.of_nat (List.length bytes)
  /\ List.length fresh_title = 16%nat
  /\ exists cart,
       cartridge_load (Read_succeeds bytes) fresh_title 0xAA power_on
       = (true, [Loaded_rom [84; 69; 84; 82; 73; 83] 1],
          set_current_cartridge (Some cart) power_on)
       /\ data cart = bytes
       /\ c_string (title cart) = [84; 69; 84; 82; 73; 83]
       /\ List.length (title cart) = 16%nat
       /\ type cart = 1.
Proof.
  intros bytes fresh_title.
  assert (H1 : 0x150 <= Z.of_nat (List.length bytes)) by (vm_compute; discriminate).
  assert (H2 : List.length fresh_title = 16%nat) by reflexivity.
  split; [exact H1 |]. split; [exact H2 |].
  exact (X3_load_header bytes fresh_title 0xAA power_on H1 H2).
Defined.

(** X4.  A load that returns false had not read the file; it printed one
    line and touched nothing but the cartridge pointer.  When the file
    could not be opened the machine is as before (a cartridge loaded
    earlier stays); after any later failure no cartridge is loaded, and
    every read of the ROM area gives 0xFF. *)
Theorem X4_load_failure outcome fresh_title fresh_type m :
  fst (fst (cartridge_load outcome fresh_title fresh_type m)) = false ->
  let '(_, msgs, m') := cartridge_load outcome fresh_title fresh_type m in
  (forall bytes, outcome <> Read_succeeds bytes)
  /\ List.length msgs = 1%nat
  /\ m' = (if match outcome with Open_fails => true | _ => false end
           then m else set_current_cartridge None m)
  /\ (outcome <> Open_fails ->
      forall address, 0 <= address < 0x8000 -> memory_read m' address = 0xFF).
Proof.
  destruct outcome; cbn [cartridge_load fst]; intros Hok.
  1-4: split; [discriminate |]; split; [reflexivity |]; split;
       [try reflexivity | intros Hne address Ha; try congruence;
        rewrite memory_read_rom by lia; unfold cartridge_read;
        reflexivity].
  destruct (Z.of_nat (List.length bytes) >=? 0x150); discriminate Hok.
Qed.

Lemma X4_witness :
  let m := set_current_cartridge (Some (mkCartridge [0x31] [] 0)) power_on in
  fst (fst (cartridge_load Read_fails [] 0 m)) = false
  /\ memory_read m 0 = 0x31
  /\ (let '(_, msgs, m') := cartridge_load Read_fails [] 0 m in
      msgs = [Failed_to_read_rom_data] /\ memory_read m' 0 = 0xFF).
Proof.
  intros m. split; [reflexivity |]. split; [reflexivity |].
  generalize (X4_load_failure Read_fails [] 0 m eq_refl).
  destruct (cartridge_load Read_fails [] 0 m) as [[ok msgs] m'] eqn:E.
  intros (_ & _ & _ & Hread). split.
  - injection E as _ E _. symmetry. exact E.
  - apply Hread; [discriminate | lia].
Defined.
(** ** timer.c: the counters over many calls *)

(** One call, as a rewriting rule for the proofs about runs. *)
Lemma timer_update_effect n m :
  0 <= n < 65536 ->
  let m' := timer_update n m in
  let tac := u8 (memory_read m 0xFF07) in
  let tima := u8 (memory_read m 0xFF05) in
  let acc := u16 (divider_cycles (timer_state m) + n) in
  let tacc := u16 (timer_cycles (timer_state m) + n) in
  divider_cycles (timer_state m') = (if 256 <=? acc then acc - 256 else acc) /\
  memory_read m' 0xFF04 =
    (if 256 <=? acc then u8 (memory_read m 0xFF04 + 1) else memory_read m 0xFF04) /\
  (if Z.testbit tac 2 then
     timer_cycles (timer_state m') =
       (if tima_period tac <=? tacc then tacc - tima_period tac else tacc) /\
     memory_read m' 0xFF05 =
       (if tima_period tac <=? tacc then tima_tick (memory_read m 0xFF06) tima
        else memory_read m 0xFF05)
   else
     timer_cycles (timer_state m') = timer_cycles (timer_state m) /\
     memory_read m' 0xFF05 = memory_read m 0xFF05) /\
  (forall i, 0 <= i < 65536 -> i <> 0xFF04 -> i <> 0xFF05 ->
     memory_read m' i = memory_read m i).
Proof.
  intros Hn m' tac tima acc tacc. subst m' tac tima. unfold tima_tick.
  unfold timer_update. rewrite (u16_small n) by assumption.
  cbv zeta.
  unfold set_divider_cycles, set_timer_cycles.
  cbn [timer_state set_timer_state divider_cycles timer_cycles].
  fold acc.
  rewrite !memory_write_io by lia.
  pose proof (u16_range (divider_cycles (timer_state m) + n)) as Hacc. fold acc in Hacc.
  pose proof (u16_range (timer_cycles (timer_state m) + n)) as Htacc. fold tacc in Htacc.
  assert (Hper : 0 < tima_period (u8 (memory m 0xFF07)) <= 1024).
  { unfold tima_period.
    pose proof (Z.mod_pos_bound (u8 (memory m 0xFF07)) 4 ltac:(lia)) as Hb.
    assert (Hc : u8 (memory m 0xFF07) mod 4 = 0 \/ u8 (memory m 0xFF07) mod 4 = 1 \/
                 u8 (memory m 0xFF07) mod 4 = 2 \/ u8 (memory m 0xFF07) mod 4 = 3) by lia.
    destruct Hc as [-> | [-> | [-> | ->]]]; unfold tima_periods; simpl; lia. }
  change 0x04 with (2 ^ 2).
  destruct (Z.geb_spec acc 256) as [Hd | Hd];
    (destruct (Z.leb_spec 256 acc); [| try lia]; try lia); timer_simpl;
    rewrite nonzero_land_pow2 by lia;
    (destruct (Z.testbit (u8 (memory m 65287)) 2) eqn:Hen);
    rewrite ?timer_threshold_period; fold tacc;
    try (destruct (Z.geb_spec tacc (tima_period (u8 (memory m 65287)))) as [Ht | Ht];
         (destruct (Z.leb_spec (tima_period (u8 (memory m 65287))) tacc); [| try lia]; try lia));
    try (destruct (Z.eqb_spec (u8 (memory m 65285)) 255) as [He | He]);
    timer_simpl.
  all: repeat split; try timer_frame.
  all: rewrite ?u8_idem, ?u16_small by lia; try reflexivity.
  all: try apply u8_add_l.
  all: apply u8_small; pose proof (u8_range (memory m 65285)); lia.
Qed.

Lemma iterate_add {A : Type} (step : A -> A) (j k : nat) (x : A) :
  iterate step (j + k) x = iterate step k (iterate step j x).
Proof.
  revert x. induction j as [| j IH]; intros x; cbn [iterate Nat.add]; [reflexivity | apply IH].
Qed.

Lemma tima_period_cases tac :
  tima_period tac = 1024 \/ tima_period tac = 16 \/ tima_period tac = 64 \/ tima_period tac = 256.
Proof.
  unfold tima_period.
  pose proof (Z.mod_pos_bound tac 4 ltac:(lia)) as Hb.
  assert (Hc : tac mod 4 = 0 \/ tac mod 4 = 1 \/ tac mod 4 = 2 \/ tac mod 4 = 3) by lia.
  destruct Hc as [-> | [-> | [-> | ->]]]; cbn; auto.
Qed.

(** X5.  The divider over a run of the main loop's [update_timer] calls.
    From an accumulator below 256, after [k] calls the accumulator is
    the cycles counted so far modulo 256, and DIV (0xFF04) has advanced,
    as a byte, by the number of whole 256-cycle periods: one increment
    every 64 calls, whatever the timer control register says. *)
Theorem X5_divider_run k m :
  0 <= divider_cycles (timer_state m) < 256 ->
  let m' := iterate update_timer k m in
  let total := divider_cycles (timer_state m) + 4 * Z.of_nat k in
  divider_cycles (timer_state m') = total mod 256
  /\ u8 (memory_read m' 0xFF04) = u8 (memory_read m 0xFF04 + total / 256).
Proof.
  revert m. induction k as [| k IH]; intros m Hd; cbv zeta.
  - cbn [iterate]. replace (divider_cycles (timer_state m) + 4 * Z.of_nat 0)
      with (divider_cycles (timer_state m)) by lia.
    rewrite Z.mod_small, Z.div_small by lia. rewrite Z.add_0_r. auto.
  - cbn [iterate]. change (update_timer m) with (timer_update 4 m).
    destruct (timer_update_effect 4 m ltac:(lia)) as (Hacc & Hdiv & _ & _).
    rewrite (u16_small (divider_cycles (timer_state m) + 4)) in Hacc, Hdiv by lia.
    set (m1 := timer_update 4 m) in *.
    assert (Hd1 : 0 <= divider_cycles (timer_state m1) < 256).
    { rewrite Hacc. destruct (Z.leb_spec 256 (divider_cycles (timer_state m) + 4)); lia. }
    destruct (IH m1 Hd1) as [IHa IHb]. rewrite IHa, IHb, Hacc, Hdiv.
    rewrite Nat2Z.inj_succ.
    destruct (Z.leb_spec 256 (divider_cycles (timer_state m) + 4)).
    + split.
      * Z.div_mod_to_equations. lia.
      * rewrite u8_add_l. unfold u8. f_equal.
        Z.div_mod_to_equations. lia.
    + split.
      * f_equal. lia.
      * unfold u8. f_equal. Z.div_mod_to_equations. lia.
Qed.

Lemma X5_witness :
  let m := timer_init power_on in
  0 <= divider_cycles (timer_state m) < 256
  /\ divider_cycles (timer_state (iterate update_timer 100 m)) = 144
  /\ u8 (memory_read (iterate update_timer 100 m) 0xFF04) = 1.
Proof.
  intros m.
  assert (H : 0 <= divider_cycles (timer_state m) < 256) by (cbn; lia).
  split; [exact H |]. exact (X5_divider_run 100 m H).
Defined.

Lemma tima_tick_range tma tima : 0 <= tima < 256 -> 0 <= tima_tick tma tima < 256.
Proof.
  intros H. unfold tima_tick. destruct (Z.eqb_spec tima 0xFF).
  - apply u8_range.
  - lia.
Qed.

(** X6.  TIMA over a run of [update_timer] calls, with the control
    register left alone.  With bit 2 of TAC set and the accumulator below
    the period selected by TAC, after [k] calls the accumulator is the
    cycles counted modulo the period and TIMA (0xFF05) has ticked once
    per whole period, each tick adding one or, from 0xFF, reloading TMA.
    With bit 2 clear the accumulator and TIMA stay as they were.  TAC and
    TMA are never changed. *)
Theorem X6_tima_run k m :
  let tac := u8 (memory_read m 0xFF07) in
  let period := tima_period tac in
  0 <= timer_cycles (timer_state m) < period ->
  let m' := iterate update_timer k m in
  let total := timer_cycles (timer_state m) + 4 * Z.of_nat k in
  memory_read m' 0xFF07 = memory_read m 0xFF07
  /\ memory_read m' 0xFF06 = memory_read m 0xFF06
  /\ if Z.testbit tac 2 then
       timer_cycles (timer_state m') = total mod period
       /\ u8 (memory_read m' 0xFF05)
          = iterate (tima_tick (memory_read m 0xFF06)) (Z.to_nat (total / period))
              (u8 (memory_read m 0xFF05))
     else
       timer_cycles (timer_state m') = timer_cycles (timer_state m)
       /\ memory_read m' 0xFF05 = memory_read m 0xFF05.
Proof.
  revert m. induction k as [| k IH]; intros m; cbv zeta; intros Ht.
  - cbn [iterate]. split; [reflexivity |]. split; [reflexivity |].
    destruct (Z.testbit _ 2); [| auto].
    replace (timer_cycles (timer_state m) + 4 * Z.of_nat 0)
      with (timer_cycles (timer_state m)) by lia.
    rewrite Z.mod_small, Z.div_small by lia. auto.
  - cbn [iterate]. change (update_timer m) with (timer_update 4 m).
    destruct (timer_update_effect 4 m ltac:(lia)) as (_ & _ & Htima & Hframe).
    cbv zeta in Htima.
    pose proof (Hframe 0xFF07 ltac:(lia) ltac:(lia) ltac:(lia)) as Htac.
    pose proof (Hframe 0xFF06 ltac:(lia) ltac:(lia) ltac:(lia)) as Htma.
    set (m1 := timer_update 4 m) in *.
    specialize (IH m1). cbv zeta in IH. rewrite Htac, Htma in IH.
    set (tac := u8 (memory_read m 0xFF07)) in *.
    set (period := tima_period tac) in *.
    set (t := timer_cycles (timer_state m)) in *.
    assert (Hp : period = 1024 \/ period = 16 \/ period = 64 \/ period = 256)
      by apply tima_period_cases.
    assert (Hu : u16 (t + 4) = t + 4) by (apply u16_small; lia).
    rewrite Hu in Htima.
    rewrite Nat2Z.inj_succ.
    destruct (Z.testbit tac 2).
    + destruct Htima as [Ht1 Hv1].
      assert (Ht1' : 0 <= timer_cycles (timer_state m1) < period).
      { rewrite Ht1. destruct (Z.leb_spec period (t + 4)); lia. }
      destruct (IH Ht1') as (IHtac & IHtma & IHt & IHv).
      split; [exact IHtac |]. split; [exact IHtma |].
      rewrite IHt, IHv, Ht1, Hv1.
      destruct (Z.leb_spec period (t + 4)) as [Hge | Hlt].
      * split.
        -- destruct Hp as [Hp | [Hp | [Hp | Hp]]]; rewrite Hp in *;
             Z.div_mod_to_equations; lia.
        -- rewrite (u8_small (tima_tick _ _))
             by (apply tima_tick_range, u8_range).
           replace (Z.to_nat ((t + 4 * Z.succ (Z.of_nat k)) / period))
             with (S (Z.to_nat ((t + 4 - period + 4 * Z.of_nat k) / period))).
           ++ reflexivity.
           ++ rewrite <- Z2Nat.inj_succ.
              ** f_equal.
                 destruct Hp as [Hp | [Hp | [Hp | Hp]]]; rewrite Hp in *;
                   Z.div_mod_to_equations; lia.
              ** apply Z.div_pos; lia.
      * split.
        -- f_equal. lia.
        -- do 2 f_equal. f_equal. lia.
    + destruct Htima as [Ht1 Hv1].
      assert (Ht1' : 0 <= timer_cycles (timer_state m1) < period) by (rewrite Ht1; lia).
      destruct (IH Ht1') as (IHtac & IHtma & IHt & IHv).
      split; [exact IHtac |]. split; [exact IHtma |].
      split; congruence.
Qed.

Lemma X6_witness :
  let m := memory_write 0xFF05 0xFE
             (memory_write 0xFF06 0xF0 (memory_write 0xFF07 0x05 (timer_init power_on))) in
  0 <= timer_cycles (timer_state m) < tima_period (u8 (memory_read m 0xFF07))
  /\ timer_cycles (timer_state (iterate update_timer 13 m)) = 4
  /\ u8 (memory_read (iterate update_timer 13 m) 0xFF05) = 0xF1.
Proof.
  intros m.
  assert (H : 0 <= timer_cycles (timer_state m) < tima_period (u8 (memory_read m 0xFF07)))
    by (split; [apply Z.leb_le | apply Z.ltb_lt]; reflexivity).
  split; [exact H |].
  destruct (X6_tima_run 13 m H) as (_ & _ & Hrun).
  exact Hrun.
Defined.
(** ** ppu.c: what holds in every state *)

Ltac timing_cases cy md ln n :=
  destruct md as [| p | p];
  [ destruct (Z.geb_spec (u16 (cy + u16 n)) 204);
    [ destruct (Z.eqb_spec (u8 (ln + 1)) 144) |]
  | destruct p as [[p | p |] | [p | p |] |];
    [ | | destruct (Z.geb_spec (u16 (cy + u16 n)) 172)
      | | | destruct (Z.geb_spec (u16 (cy + u16 n)) 80)
      | destruct (Z.geb_spec (u16 (cy + u16 n)) 456);
        [ destruct (Z.gtb_spec (u8 (ln + 1)) 153) |] ]
  | ].

Lemma timing_update_invariant n t :
  timing_invariant t -> timing_invariant (timing_update n t).
Proof.
  destruct t as [[[cy md] ln] fr]. unfold timing_invariant, timing_update.
  unfold VBlank, HBlank, OAMScan, PixelTransfer.
  intros [Hcy Hml].
  pose proof (u16_range (cy + u16 n)).
  timing_cases cy md ln n;
    (split; [try apply u16_range; try lia |]);
    try (rewrite u8_small in * by lia); lia.
Qed.

Lemma timing_invariant_clock t1 t2 :
  clock t1 = clock t2 -> timing_invariant t1 -> timing_invariant t2.
Proof.
  destruct t1 as [[[cy1 md1] ln1] fr1], t2 as [[[cy2 md2] ln2] fr2].
  cbn [clock]. intros H. injection H as -> -> ->. exact (fun H => H).
Qed.

Lemma mode_line_invariant_timing m :
  mode_line_invariant m <-> timing_invariant (timing_of m).
Proof. reflexivity. Qed.

Lemma lcd_enabled_cases m : lcd_enabled m = true \/ Z.testbit (memory_read m LCDC) 7 = false.
Proof. unfold lcd_enabled. destruct (Z.testbit _ 7); auto. Qed.

Lemma ppu_c_update_lcd_off n m :
  Z.testbit (memory_read m LCDC) 7 = false -> ppu_c.ppu_update n m = m.
Proof.
  intros Hoff. unfold ppu_c.ppu_update. cbv zeta.
  rewrite nonzero_land_0x80, Hoff. reflexivity.
Qed.

Lemma ppu_c_update_invariant n m :
  mode_line_invariant m -> mode_line_invariant (ppu_c.ppu_update n m).
Proof.
  intros H. destruct (lcd_enabled_cases m) as [Hon | Hoff].
  - destruct (ppu_c_update_timing n m Hon) as [Hc _].
    apply mode_line_invariant_timing.
    apply (timing_invariant_clock (timing_update n (timing_of m))); [now symmetry |].
    apply timing_update_invariant. exact H.
  - rewrite ppu_c_update_lcd_off by exact Hoff. exact H.
Qed.

Lemma renderer_update_invariant n m :
  mode_line_invariant m -> mode_line_invariant (ppu_renderer.ppu_update n m).
Proof.
  intros H. destruct (lcd_enabled_cases m) as [Hon | Hoff].
  - destruct (ppu_update_timing n m Hon) as [Ht _].
    apply mode_line_invariant_timing. rewrite Ht.
    apply timing_update_invariant. exact H.
  - rewrite renderer_ppu_update_lcd_off by exact Hoff.
    destruct H as [_ H]. split; [apply u16_range | exact H].
Qed.

Lemma mode_line_invariant_ppu m m' :
  ppu m' = ppu m -> mode_line_invariant m -> mode_line_invariant m'.
Proof. unfold mode_line_invariant. intros ->. exact (fun H => H). Qed.

(** X7.  In both revisions of the PPU the mode and the line counter stay
    paired: however many cycles each [ppu_update] is given, whether the
    LCD is on or off, and whatever the program writes to memory in
    between (LCDC, LY and STAT included), the PPU is in mode 1 with the
    line in 144..153 or in mode 0, 2 or 3 with the line in 0..143, and
    the cycle accumulator is a 16-bit value. *)
Theorem X7_mode_line_invariant writable m :
  ppu_reachable ppu_c.ppu_init ppu_c.ppu_update writable m
  \/ ppu_reachable ppu_renderer.ppu_init ppu_renderer.ppu_update writable m ->
  mode_line_invariant m.
Proof.
  intros [H | H]; induction H as [m0 | n m H IH | address value m Hw H IH].
  - unfold ppu_c.ppu_init. cbv zeta.
    repeat (eapply mode_line_invariant_ppu; [apply memory_write_ppu |]).
    unfold mode_line_invariant, HBlank. cbn. lia.
  - apply ppu_c_update_invariant. exact IH.
  - eapply mode_line_invariant_ppu; [apply memory_write_ppu | exact IH].
  - unfold ppu_renderer.ppu_init. cbv zeta.
    repeat (eapply mode_line_invariant_ppu; [apply memory_write_ppu |]).
    unfold mode_line_invariant, HBlank. cbn. lia.
  - apply renderer_update_invariant. exact IH.
  - eapply mode_line_invariant_ppu; [apply memory_write_ppu | exact IH].
Qed.

Lemma X7_witness :
  let m := ppu_renderer.ppu_update 65535
             (ppu_renderer.ppu_update 300
                (memory_write LY 200 (ppu_renderer.ppu_init power_on))) in
  (ppu_reachable ppu_c.ppu_init ppu_c.ppu_update (fun _ => True) m
   \/ ppu_reachable ppu_renderer.ppu_init ppu_renderer.ppu_update (fun _ => True) m)
  /\ mode_line_invariant m.
Proof.
  intros m.
  assert (H : ppu_reachable ppu_renderer.ppu_init ppu_renderer.ppu_update (fun _ => True) m).
  { apply reach_update, reach_update, reach_write; [exact I | apply reach_init]. }
  split; [right; exact H |].
  apply (X7_mode_line_invariant (fun _ => True) m). right. exact H.
Defined.
Lemma memory_write_u16 address value m :
  memory_write (u16 address) value m = memory_write address value m.
Proof. unfold memory_write. rewrite u16_idem. reflexivity. Qed.

Lemma memory_read_write_away address value m i :
  0x8000 <= i < 65536 -> u16 address <> i -> u16 address - 0x2000 <> i ->
  memory_read (memory_write address value m) i = memory_read m i.
Proof.
  intros Hi H1 H2. rewrite <- memory_write_u16.
  apply memory_read_write_other.
  - apply u16_range.
  - rewrite u16_small by lia. congruence.
  - rewrite u16_small by lia. congruence.
Qed.

Lemma stat_mode_bits stat md :
  0 <= md <= 3 -> Z.land (u8 (Z.lor (u8 (Z.land stat 0xF8)) md)) 0x07 = md.
Proof.
  intros H.
  assert (Hlow : forall k, 0 <= k < 3 ->
            Z.testbit (u8 (Z.lor (u8 (Z.land stat 0xF8)) md)) k = Z.testbit md k).
  { intros k Hk. rewrite testbit_u8, Z.lor_spec, testbit_u8, Z.land_spec by lia.
    assert (k = 0 \/ k = 1 \/ k = 2) as [-> | [-> | ->]] by lia;
      cbn [Z.testbit Pos.testbit]; rewrite andb_false_r; reflexivity. }
  apply Z.bits_inj'. intros k Hk. rewrite Z.land_spec.
  destruct (Z.ltb_spec k 3) as [Hlt | Hge].
  - rewrite Hlow by lia.
    assert (k = 0 \/ k = 1 \/ k = 2) as [-> | [-> | ->]] by lia;
      cbn [Z.testbit Pos.testbit]; apply andb_true_r.
  - replace (Z.testbit 0x07 k) with false
      by (symmetry; change 7 with (Z.ones 3); apply Z.ones_spec_high; lia).
    rewrite andb_false_r. symmetry.
    apply Z.bits_above_log2; [lia |].
    destruct (Z.eq_dec md 0) as [-> | Hnz]; [cbn; lia |].
    apply Z.lt_le_trans with 2; [| lia].
    apply Z.log2_lt_pow2; [lia | cbn; lia].
Qed.
Lemma renderer_update_registers n m :
  mode_line_invariant m -> registers_agree m ->
  registers_agree (ppu_renderer.ppu_update n m).
Proof.
  intros Hinv Hreg. destruct (lcd_enabled_cases m) as [Hon | Hoff].
  2: { rewrite renderer_ppu_update_lcd_off by exact Hoff. exact Hreg. }
  unfold lcd_enabled in Hon.
  unfold ppu_renderer.ppu_update. cbv zeta.
  change (memory_read (set_cycles (u16 (cycles (ppu m) + u16 n)) m) LCDC)
    with (memory_read m LCDC).
  rewrite nonzero_land_0x80, Hon. cbn [negb].
  destruct m as [cp mem cart tim [cy md ln fb fr fc] out lg].
  destruct Hinv as [Hcy Hml]. destruct Hreg as [Hly Hstat].
  unfold registers_agree.
  unfold LY, STAT in *. rewrite memory_read_ram in Hly, Hstat by lia.
  cbn [ppu cycles mode line memory] in *.
  unfold set_cycles, set_line, set_mode, set_frame_ready.
  cbn [ppu set_ppu cycles mode line framebuffer frame_ready frame_count].
  rewrite !memory_write_io by lia.
  repeat match goal with
         | |- context [ppu_renderer.render_scanline ?ln' ?mm] =>
             let fb' := fresh "fb" in
             destruct (render_scanline_frame ln' mm) as [fb' ->]
         end.
  unfold set_framebuffer.
  cbn [ppu set_ppu set_memory memory cycles mode line framebuffer frame_ready frame_count].
  unfold VBlank, HBlank, OAMScan, PixelTransfer in Hml.
  timing_cases cy md ln n; try lia;
    rewrite ?memory_write_io by lia;
    cbn [ppu set_ppu set_memory memory cycles mode line framebuffer frame_ready frame_count];
    rewrite !memory_read_ram by lia;
    cbn [ppu set_ppu set_memory memory cycles mode line framebuffer frame_ready frame_count];
    unfold store; cbn [Z.eqb Pos.eqb];
    (split; [rewrite ?u8_idem, ?(u8_small 0) by lia; try reflexivity; try assumption
            | rewrite ?u8_idem; apply stat_mode_bits; lia]).
Qed.

Lemma ppu_c_update_registers n m :
  mode_line_invariant m -> registers_agree m ->
  registers_agree (ppu_c.ppu_update n m).
Proof.
  intros Hinv Hreg. destruct (lcd_enabled_cases m) as [Hon | Hoff].
  2: { rewrite ppu_c_update_lcd_off by exact Hoff. exact Hreg. }
  unfold lcd_enabled in Hon.
  unfold ppu_c.ppu_update. cbv zeta.
  rewrite nonzero_land_0x80, Hon. cbn [negb].
  destruct m as [cp mem cart tim [cy md ln fb fr fc] out lg].
  destruct Hinv as [Hcy Hml]. destruct Hreg as [Hly Hstat].
  unfold registers_agree.
  unfold LY, STAT in *. rewrite memory_read_ram in Hly, Hstat by lia.
  cbn [ppu cycles mode line memory] in *.
  unfold set_cycles, set_line, set_mode.
  cbn [ppu set_ppu cycles mode line framebuffer frame_ready frame_count].
  unfold VBlank, HBlank, OAMScan, PixelTransfer in Hml.
  timing_cases cy md ln n; try lia;
    cbn [ppu set_ppu cycles mode line framebuffer frame_ready frame_count];
    rewrite ?memory_write_io by lia;
    cbn [ppu set_ppu set_memory memory cycles mode line framebuffer frame_ready frame_count];
    rewrite !memory_read_ram by lia;
    cbn [ppu set_ppu set_memory memory cycles mode line framebuffer frame_ready frame_count];
    unfold store; cbn [Z.eqb Pos.eqb];
    (split; [rewrite ?u8_idem, ?(u8_small 0) by lia; try reflexivity; try assumption
            | rewrite ?u8_idem; apply stat_mode_bits; lia]).
Qed.

Lemma registers_agree_write address value m :
  u16 address <> LY -> u16 address <> STAT ->
  registers_agree m -> registers_agree (memory_write address value m).
Proof.
  unfold registers_agree, LY, STAT. intros H1 H2 [Hly Hstat].
  pose proof (u16_range address).
  rewrite memory_write_ppu.
  rewrite !memory_read_write_away by lia. auto.
Qed.

Lemma registers_agree_init_writes m :
  line (ppu m) = 0 -> mode (ppu m) = 0 ->
  registers_agree
    (memory_write LYC 0x00
       (memory_write LY 0x00
          (memory_write SCX 0x00
             (memory_write SCY 0x00
                (memory_write STAT 0x00 (memory_write LCDC 0x91 m)))))).
Proof.
  intros Hl Hm. unfold registers_agree, LYC, LY, SCX, SCY, STAT, LCDC.
  rewrite !memory_write_ppu, Hl, Hm.
  rewrite !memory_write_io by lia.
  rewrite !memory_read_ram by lia.
  cbn [memory set_memory]. unfold store. cbn [Z.eqb Pos.eqb]. split; reflexivity.
Qed.

(** X8.  The registers show the state.  As long as the program does not
    write LY (0xFF44) or STAT (0xFF41) itself, in both revisions LY reads
    as the line counter and the low three bits of STAT as the mode, after
    [ppu_init] and after every [ppu_update], with the LCD on or off.  In
    particular [ppu_update] always clears bit 2 of STAT, the LY = LYC
    flag. *)
Theorem X8_registers_agree writable m :
  (forall address, writable address -> address <> LY /\ address <> STAT) ->
  ppu_reachable ppu_c.ppu_init ppu_c.ppu_update writable m
  \/ ppu_reachable ppu_renderer.ppu_init ppu_renderer.ppu_update writable m ->
  registers_agree m.
Proof.
  intros Hw Hreach.
  enough (mode_line_invariant m /\ registers_agree m) by tauto.
  destruct Hreach as [H | H]; induction H as [m0 | n m H IH | address value m Ha H IH].
  - split.
    + unfold ppu_c.ppu_init. cbv zeta.
      repeat (eapply mode_line_invariant_ppu; [apply memory_write_ppu |]).
      unfold mode_line_invariant, HBlank. cbn. lia.
    + unfold ppu_c.ppu_init. cbv zeta. apply registers_agree_init_writes; reflexivity.
  - destruct IH. split; [apply ppu_c_update_invariant | apply ppu_c_update_registers]; auto.
  - destruct IH. destruct (Hw _ Ha). split.
    + eapply mode_line_invariant_ppu; [apply memory_write_ppu | assumption].
    + apply registers_agree_write; assumption.
  - split.
    + unfold ppu_renderer.ppu_init. cbv zeta.
      repeat (eapply mode_line_invariant_ppu; [apply memory_write_ppu |]).
      unfold mode_line_invariant, HBlank. cbn. lia.
    + unfold ppu_renderer.ppu_init. cbv zeta.
      apply registers_agree_write; [unfold BGP, LY; cbn; lia | unfold BGP, STAT; cbn; lia |].
      apply registers_agree_init_writes; reflexivity.
  - destruct IH.
    split; [apply renderer_update_invariant | apply renderer_update_registers]; auto.
  - destruct IH. destruct (Hw _ Ha). split.
    + eapply mode_line_invariant_ppu; [apply memory_write_ppu | assumption].
    + apply registers_agree_write; assumption.
Qed.

Lemma X8_witness :
  let writable := fun address => address = SCX \/ address = 0xC000 in
  let m := ppu_c.ppu_update 300
             (memory_write SCX 7 (ppu_c.ppu_update 80 (ppu_c.ppu_update 204
                (ppu_c.ppu_init power_on)))) in
  (forall address, writable address -> address <> LY /\ address <> STAT)
  /\ (ppu_reachable ppu_c.ppu_init ppu_c.ppu_update writable m
      \/ ppu_reachable ppu_renderer.ppu_init ppu_renderer.ppu_update writable m)
  /\ memory_read m LY = 1 /\ Z.land (memory_read m STAT) 0x07 = 0 /\ mode (ppu m) = 0.
Proof.
  intros writable m.
  assert (Hw : forall address, writable address -> address <> LY /\ address <> STAT).
  { intros address [-> | ->]; split; discriminate. }
  assert (H : ppu_reachable ppu_c.ppu_init ppu_c.ppu_update writable m).
  { apply reach_update, reach_write; [left; reflexivity |].
    apply reach_update, reach_update, reach_init. }
  split; [exact Hw |]. split; [left; exact H |].
  destruct (X8_registers_agree writable m Hw (or_introl H)) as [Hly Hstat].
  split; [exact Hly |]. split; [exact Hstat | reflexivity].
Defined.
Lemma pixel_chars_shade color :
  fst (ppu_renderer.pixel_chars color) = snd (ppu_renderer.pixel_chars color)
  /\ In (fst (ppu_renderer.pixel_chars color)) shades.
Proof.
  unfold ppu_renderer.pixel_chars, shades.
  destruct color as [| [[] | [] |] |]; cbn; auto 6.
Qed.

Lemma fb_store_pixel_picture row pixel ch fb :
  0 <= row < 144 -> 0 <= pixel < 160 -> In ch shades ->
  picture_invariant fb ->
  picture_invariant
    (ppu_renderer.fb_store row (pixel * 2 + 1) ch (ppu_renderer.fb_store row (pixel * 2) ch fb)).
Proof.
  intros Hrow Hpixel Hch [Hout Hin]. unfold ppu_renderer.fb_store. split.
  - intros y x Hyx.
    destruct (Z.eqb_spec y row); destruct (Z.eqb_spec x (pixel * 2 + 1));
      destruct (Z.eqb_spec x (pixel * 2)); cbn [andb]; try lia; apply Hout; exact Hyx.
  - intros y q Hy Hq.
    destruct (Z.eqb_spec y row) as [-> | Hne]; cbn [andb].
    + destruct (Z.eq_dec q pixel) as [-> | Hqp].
      * rewrite !Z.eqb_refl.
        destruct (Z.eqb_spec (pixel * 2) (pixel * 2 + 1)); [lia |]. auto.
      * destruct (Z.eqb_spec (q * 2 + 1) (pixel * 2 + 1)); [lia |].
        destruct (Z.eqb_spec (q * 2 + 1) (pixel * 2)); [lia |].
        destruct (Z.eqb_spec (q * 2) (pixel * 2 + 1)); [lia |].
        destruct (Z.eqb_spec (q * 2) (pixel * 2)); [lia |].
        apply Hin; assumption.
    + apply Hin; assumption.
Qed.

Lemma render_pixel_picture row scroll_x palette bg_map_addr tdu tdb tile_row tile_y m pixel :
  0 <= row < 144 -> 0 <= pixel < 160 ->
  picture_invariant (framebuffer (ppu m)) ->
  picture_invariant
    (framebuffer (ppu (ppu_renderer.render_pixel row scroll_x palette bg_map_addr tdu tdb
                         tile_row tile_y m pixel))).
Proof.
  intros Hrow Hpixel Hinv. unfold ppu_renderer.render_pixel. cbv zeta.
  match goal with
  | |- context [ppu_renderer.pixel_chars ?color] =>
      destruct (pixel_chars_shade color) as [Heq Hshade]; rewrite <- Heq;
      generalize dependent (fst (ppu_renderer.pixel_chars color))
  end.
  intros ch _ Hch.
  unfold set_framebuffer.
  cbn [ppu set_ppu framebuffer].
  apply fb_store_pixel_picture; assumption.
Qed.

Lemma render_pixels_picture row scroll_x palette bg_map_addr tdu tdb tile_row tile_y pixels :
  0 <= row < 144 -> Forall (fun pixel => 0 <= pixel < 160) pixels ->
  forall m,
    picture_invariant (framebuffer (ppu m)) ->
    picture_invariant
      (framebuffer (ppu (fold_left (ppu_renderer.render_pixel row scroll_x palette bg_map_addr
                                      tdu tdb tile_row tile_y) pixels m))).
Proof.
  intros Hrow Hpixels. induction Hpixels as [| pixel pixels Hp _ IH]; intros m Hinv;
    cbn [fold_left].
  - exact Hinv.
  - apply IH. apply render_pixel_picture; assumption.
Qed.

Lemma render_scanline_picture row m :
  0 <= row < 144 ->
  picture_invariant (framebuffer (ppu m)) ->
  picture_invariant (framebuffer (ppu (ppu_renderer.render_scanline row m))).
Proof.
  intros Hrow Hinv. unfold ppu_renderer.render_scanline. cbv zeta.
  rewrite (u8_small row) by lia.
  match goal with |- context [if ?c then _ else _] => destruct c end; [exact Hinv |].
  apply render_pixels_picture; [exact Hrow | | exact Hinv].
  apply Forall_forall. intros pixel Hin.
  apply in_map_iff in Hin. destruct Hin as (k & <- & Hk).
  apply in_seq in Hk. unfold ppu_renderer.GB_SCREEN_WIDTH in Hk.
  change (Z.to_nat 160) with 160%nat in Hk. lia.
Qed.
Lemma renderer_update_picture n m :
  mode_line_invariant m ->
  picture_invariant (framebuffer (ppu m)) ->
  picture_invariant (framebuffer (ppu (ppu_renderer.ppu_update n m))).
Proof.
  intros Hinv Hpic. destruct (lcd_enabled_cases m) as [Hon | Hoff].
  2: { rewrite renderer_ppu_update_lcd_off by exact Hoff. exact Hpic. }
  unfold lcd_enabled in Hon.
  unfold ppu_renderer.ppu_update. cbv zeta.
  change (memory_read (set_cycles (u16 (cycles (ppu m) + u16 n)) m) LCDC)
    with (memory_read m LCDC).
  rewrite nonzero_land_0x80, Hon. cbn [negb].
  rewrite memory_write_ppu.
  destruct m as [cp mem cart tim [cy md ln fb fr fc] out lg].
  destruct Hinv as [Hcy Hml].
  cbn [ppu cycles mode line framebuffer] in *.
  unfold set_cycles, set_line, set_mode, set_frame_ready.
  cbn [ppu set_ppu cycles mode line framebuffer frame_ready frame_count].
  unfold VBlank, HBlank, OAMScan, PixelTransfer in Hml.
  timing_cases cy md ln n; try lia;
    repeat match goal with
           | |- context [if ?c then _ else _] => destruct c
           end;
    rewrite ?memory_write_ppu;
    cbn [ppu set_ppu cycles mode line framebuffer frame_ready frame_count];
    rewrite ?memory_write_ppu;
    cbn [ppu set_ppu cycles mode line framebuffer frame_ready frame_count];
    try exact Hpic.
  all: apply render_scanline_picture;
    [ rewrite u8_small by lia; lia | rewrite memory_write_ppu; exact Hpic ].
Qed.

Lemma cleared_framebuffer_picture : picture_invariant ppu_renderer.cleared_framebuffer.
Proof.
  split.
  - reflexivity.
  - intros y pixel Hy Hp. unfold ppu_renderer.cleared_framebuffer, ppu_renderer.GB_SCREEN_WIDTH.
    destruct (Z.eqb_spec (pixel * 2) (160 * 2)); [lia |].
    destruct (Z.eqb_spec (pixel * 2 + 1) (160 * 2)); [lia |].
    rewrite !andb_false_r. split; [reflexivity | left; reflexivity].
Qed.

(** X9.  The picture buffer of the renderer revision,
    [framebuffer[144][321]].  From [ppu_init] on, under any calls of
    [ppu_update] and any writes of the program to memory, no cell outside
    the 144 rows of 320 picture cells is ever written (the row drawn after
    an H-Blank is always one of the 144, and the NUL that ends each row
    stays), every picture cell holds one of the four characters of
    [pixel_chars], and the two cells of a pixel hold the same character. *)
Theorem X9_picture_invariant m :
  ppu_reachable ppu_renderer.ppu_init ppu_renderer.ppu_update (fun _ => True) m ->
  picture_invariant (framebuffer (ppu m)).
Proof.
  intros Hreach.
  enough (mode_line_invariant m /\ picture_invariant (framebuffer (ppu m))) by tauto.
  induction Hreach as [m0 | n m H IH | address value m Ha H IH].
  - unfold ppu_renderer.ppu_init. cbv zeta. rewrite !memory_write_ppu. split.
    + repeat (eapply mode_line_invariant_ppu; [apply memory_write_ppu |]).
      unfold mode_line_invariant, HBlank. cbn. lia.
    + apply cleared_framebuffer_picture.
  - destruct IH.
    split; [apply renderer_update_invariant | apply renderer_update_picture]; assumption.
  - destruct IH. rewrite memory_write_ppu. split; [| assumption].
    eapply mode_line_invariant_ppu; [apply memory_write_ppu | assumption].
Qed.

Lemma X9_witness :
  let m := ppu_renderer.ppu_update 204 (ppu_renderer.ppu_init power_on) in
  ppu_reachable ppu_renderer.ppu_init ppu_renderer.ppu_update (fun _ => True) m
  /\ line (ppu m) = 1
  /\ framebuffer (ppu m) 0 320 = Ascii.zero
  /\ framebuffer (ppu m) 144 0 = " "%char
  /\ framebuffer (ppu m) 0 6 = framebuffer (ppu m) 0 7.
Proof.
  intros m.
  assert (H : ppu_reachable ppu_renderer.ppu_init ppu_renderer.ppu_update (fun _ => True) m)
    by apply reach_update, reach_init.
  split; [exact H |]. split; [reflexivity |].
  destruct (X9_picture_invariant m H) as [Hout Hin].
  split; [| split].
  - rewrite (Hout 0 320) by lia. reflexivity.
  - rewrite (Hout 144 0) by lia. reflexivity.
  - apply (Hin 0 3); lia.
Defined.
(** ** input.c *)

(** Checking a decidable property of a byte (or nibble, or word) by
    running it on every value. *)
Lemma range_forall (P : Z -> bool) (n : nat) :
  forallb P (map Z.of_nat (seq 0 n)) = true ->
  forall x, 0 <= x < Z.of_nat n -> P x = true.
Proof.
  intros H x Hx. rewrite forallb_forall in H. apply H.
  apply in_map_iff. exists (Z.to_nat x). split; [lia |].
  apply in_seq. lia.
Qed.

Lemma press_nibble bit x :
  In bit [1; 2; 4; 8] -> 0 <= x < 16 ->
  0 <= press bit x < 16 /\ press bit x = Z.clearbit x (Z.log2 bit).
Proof.
  intros Hbit Hx. revert x Hx.
  enough (forall x, 0 <= x < Z.of_nat 16 ->
            (0 <=? press bit x) && (press bit x <? 16)
            && (press bit x =? Z.clearbit x (Z.log2 bit)) = true) as H.
  { intros x Hx. specialize (H x Hx).
    apply andb_prop in H. destruct H as [H H3]. apply andb_prop in H. destruct H as [H1 H2].
    apply Z.leb_le in H1. apply Z.ltb_lt in H2. apply Z.eqb_eq in H3. lia. }
  apply range_forall.
  cbn [In] in Hbit. destruct Hbit as [<- | [<- | [<- | [<- | []]]]]; vm_compute; reflexivity.
Qed.

Lemma release_nibble bit x :
  In bit [1; 2; 4; 8] -> 0 <= x < 16 ->
  0 <= release bit x < 16 /\ release bit x = Z.setbit x (Z.log2 bit).
Proof.
  intros Hbit Hx. revert x Hx.
  enough (forall x, 0 <= x < Z.of_nat 16 ->
            (0 <=? release bit x) && (release bit x <? 16)
            && (release bit x =? Z.setbit x (Z.log2 bit)) = true) as H.
  { intros x Hx. specialize (H x Hx).
    apply andb_prop in H. destruct H as [H H3]. apply andb_prop in H. destruct H as [H1 H2].
    apply Z.leb_le in H1. apply Z.ltb_lt in H2. apply Z.eqb_eq in H3. lia. }
  apply range_forall.
  cbn [In] in Hbit. destruct Hbit as [<- | [<- | [<- | [<- | []]]]]; vm_compute; reflexivity.
Qed.

Lemma process_key_invariant ch st :
  input_invariant st -> input_invariant (process_key ch st).
Proof.
  intros [Hb Hd]. unfold process_key, input_invariant.
  unfold DPAD_UP, DPAD_DOWN, DPAD_LEFT, DPAD_RIGHT,
    BUTTON_A, BUTTON_B, BUTTON_SELECT, BUTTON_START.
  split_opcode; cbn [buttons directions];
    (split; try assumption);
    first [ apply press_nibble | apply release_nibble ]; cbn [In]; auto 6.
Qed.

Lemma range_forall2 (P : Z -> Z -> bool) (n1 n2 : nat) :
  forallb (fun x => forallb (P x) (map Z.of_nat (seq 0 n2))) (map Z.of_nat (seq 0 n1)) = true ->
  forall x y, 0 <= x < Z.of_nat n1 -> 0 <= y < Z.of_nat n2 -> P x y = true.
Proof.
  intros H x y Hx Hy.
  apply (range_forall (P x) n2); [| exact Hy].
  apply (range_forall (fun x => forallb (P x) (map Z.of_nat (seq 0 n2))) n1); assumption.
Qed.

Lemma joypad_group joypad group :
  0 <= joypad < 256 -> 0 <= group < 16 ->
  Z.land (u8 (Z.lor (Z.land joypad 0xF0) group)) 0xF0 = Z.land joypad 0xF0
  /\ Z.land (u8 (Z.lor (Z.land joypad 0xF0) group)) 0x0F = group.
Proof.
  intros Hj Hg.
  pose proof (range_forall2
    (fun joypad group =>
       (Z.land (u8 (Z.lor (Z.land joypad 0xF0) group)) 0xF0 =? Z.land joypad 0xF0)
       && (Z.land (u8 (Z.lor (Z.land joypad 0xF0) group)) 0x0F =? group))
    256 16 ltac:(vm_compute; reflexivity) joypad group Hj Hg) as H.
  cbv beta in H. apply andb_prop in H. destruct H as [H1 H2].
  split; apply Z.eqb_eq; assumption.
Qed.

Lemma joypad_none joypad :
  0 <= joypad < 256 ->
  Z.land (u8 (Z.lor joypad 0x0F)) 0xF0 = Z.land joypad 0xF0
  /\ Z.land (u8 (Z.lor joypad 0x0F)) 0x0F = 0x0F.
Proof.
  intros Hj.
  pose proof (range_forall
    (fun joypad =>
       (Z.land (u8 (Z.lor joypad 0x0F)) 0xF0 =? Z.land joypad 0xF0)
       && (Z.land (u8 (Z.lor joypad 0x0F)) 0x0F =? 0x0F))
    256 ltac:(vm_compute; reflexivity) joypad Hj) as H.
  cbv beta in H. apply andb_prop in H. destruct H as [H1 H2].
  split; apply Z.eqb_eq; assumption.
Qed.

(** X10.  [input_update] and the joypad register (0xFF00), for any key
    read or none.  The key state stays two nibbles.  The register keeps
    its upper four bits (the select bits 4 and 5 among them) and gets as
    its lower four bits the directions when bit 4 is clear, else the
    buttons when bit 5 is clear, else 1111; with both select bits clear
    the buttons are not seen.  No other byte of memory changes. *)
Theorem X10_joypad_register ch st m :
  input_invariant st ->
  let '(st', m') := input_update ch (st, m) in
  let before := u8 (memory_read m JOYPAD_REG) in
  let after := memory_read m' JOYPAD_REG in
  input_invariant st'
  /\ 0 <= after < 256
  /\ Z.land after 0xF0 = Z.land before 0xF0
  /\ Z.land after 0x0F
     = (if negb (Z.testbit before 4) then directions st'
        else if negb (Z.testbit before 5) then buttons st'
        else 0x0F)
  /\ (forall i, 0 <= i < 65536 -> i <> JOYPAD_REG -> memory_read m' i = memory_read m i).
Proof.
  intros Hst. unfold input_update. cbv zeta.
  set (st' := match ch with Some ch => process_key ch st | None => st end).
  assert (Hst' : input_invariant st').
  { subst st'. destruct ch; [apply process_key_invariant |]; exact Hst. }
  destruct Hst' as [Hb Hd].
  split; [split; assumption |].
  unfold JOYPAD_REG.
  set (before := u8 (memory_read m 0xFF00)).
  pose proof (u8_range (memory_read m 0xFF00)) as Hbefore. fold before in Hbefore.
  change 0x10 with (2 ^ 4). change 0x20 with (2 ^ 5).
  rewrite !nonzero_land_pow2 by lia.
  rewrite memory_read_write_same by lia.
  split; [apply u8_range |].
  assert (Hframe : forall v i, 0 <= i < 65536 -> i <> 0xFF00 ->
            memory_read (memory_write 0xFF00 v m) i = memory_read m i).
  { intros v i Hi Hne. apply memory_read_write_io_other; [lia |].
    rewrite u16_small by lia. exact Hne. }
  destruct (Z.testbit before 4); cbn [negb]; [destruct (Z.testbit before 5); cbn [negb] |];
    rewrite u8_idem.
  - destruct (joypad_none before Hbefore). auto.
  - destruct (joypad_group before (buttons st') Hbefore Hb). auto.
  - destruct (joypad_group before (directions st') Hbefore Hd). auto.
Qed.

Lemma X10_witness :
  let st := mkInput 0x0F 0x0F in
  let m := memory_write JOYPAD_REG 0xDF (memory_init power_on) in
  input_invariant st
  /\ (let '(st', m') := input_update (Some 107) (st, m) in
      buttons st' = 0x0E /\ directions st' = 0x0F
      /\ Z.land (memory_read m' JOYPAD_REG) 0xF0 = 0xD0
      /\ Z.land (memory_read m' JOYPAD_REG) 0x0F = 0x0E).
Proof.
  intros st m.
  assert (H : input_invariant st) by (unfold input_invariant; cbn; lia).
  split; [exact H |].
  generalize (X10_joypad_register (Some 107) st m H).
  destruct (input_update (Some 107) (st, m)) as [st' m'] eqn:E.
  cbv zeta. intros (_ & Hrange & Hhigh & Hlow & _).
  injection E as Est Em.
  assert (Hb : buttons st' = 0x0E) by (rewrite <- Est; reflexivity).
  split; [exact Hb |]. split; [rewrite <- Est; reflexivity |].
  change (u8 (memory_read m JOYPAD_REG)) with 0xDF in Hhigh, Hlow.
  cbn [Z.testbit negb Pos.testbit] in Hlow. rewrite Hb in Hlow.
  split; [exact Hhigh | exact Hlow].
Defined.
Lemma process_key_other ch st :
  (forall down up is_direction k,
     In (down, up, is_direction, k) key_bindings -> ch <> down /\ ch <> up) ->
  process_key ch st = st.
Proof.
  intros H.
  assert (Hne : forall down up is_direction k,
            In (down, up, is_direction, k) key_bindings ->
            (ch =? down) = false /\ (ch =? up) = false).
  { intros down up is_direction k Hin. destruct (H _ _ _ _ Hin).
    split; apply Z.eqb_neq; assumption. }
  unfold key_bindings in Hne.
  destruct (Hne 119 87 true 2) as [H1 H2]; [cbn [In]; auto 10 |].
  destruct (Hne 115 83 true 3) as [H3 H4]; [cbn [In]; auto 10 |].
  destruct (Hne 97 65 true 1) as [H5 H6]; [cbn [In]; auto 10 |].
  destruct (Hne 100 68 true 0) as [H7 H8]; [cbn [In]; auto 10 |].
  destruct (Hne 106 74 false 1) as [H9 H10]; [cbn [In]; auto 10 |].
  destruct (Hne 107 75 false 0) as [H11 H12]; [cbn [In]; auto 10 |].
  destruct (Hne 110 78 false 2) as [H13 H14]; [cbn [In]; auto 10 |].
  destruct (Hne 109 77 false 3) as [H15 H16]; [cbn [In]; auto 10 |].
  clear H Hne. unfold process_key.
  split_opcode; try reflexivity; discriminate.
Qed.

(** X11.  The keys of the first revision.  Each of the eight bindings
    has a lower-case key that clears exactly its bit of its group
    (pressed reads 0) and an upper-case key that sets exactly that bit,
    leaving the other group alone; every other character, and no
    character, leaves the key state as it was.  When the group of the key
    is the one the joypad register selects, the bit of the key reads 0 in
    the register right after the press. *)
Theorem X11_key_bindings down up is_direction k st m :
  In (down, up, is_direction, k) key_bindings ->
  input_invariant st ->
  let group st := if is_direction : bool then directions st else buttons st in
  let other st := if is_direction : bool then buttons st else directions st in
  let pressed := input_update (Some down) (st, m) in
  let released := input_update (Some up) (st, m) in
  let before := u8 (memory_read m JOYPAD_REG) in
  group (fst pressed) = Z.clearbit (group st) k
  /\ other (fst pressed) = other st
  /\ group (fst released) = Z.setbit (group st) k
  /\ other (fst released) = other st
  /\ (Z.testbit before 4 = negb is_direction ->
      (is_direction = false -> Z.testbit before 5 = false) ->
      Z.testbit (input_get_joypad pressed) k = false)
  /\ (forall ch,
        (forall down up is_direction k,
           In (down, up, is_direction, k) key_bindings -> ch <> down /\ ch <> up) ->
        fst (input_update (Some ch) (st, m)) = st)
  /\ fst (input_update None (st, m)) = st.
Proof.
  intros Hin [Hb Hd]. cbv zeta.
  unfold input_get_joypad, input_update. cbn [fst snd].
  unfold JOYPAD_REG. rewrite memory_read_write_same by lia.
  set (before := u8 (memory_read m 0xFF00)).
  pose proof (u8_range (memory_read m 0xFF00)) as Hbefore. fold before in Hbefore.
  change 0x10 with (2 ^ 4). change 0x20 with (2 ^ 5).
  rewrite !nonzero_land_pow2 by lia.
  assert (Hk : forall g, 0 <= g < 16 -> 0 <= k < 4 ->
            Z.testbit (u8 (u8 (u8 (Z.lor (Z.land before 0xF0) (Z.clearbit g k))))) k = false).
  { intros g Hg Hk4. rewrite !u8_idem, testbit_u8 by lia.
    rewrite Z.lor_spec, Z.land_spec, Z.clearbit_eq by lia.
    assert (k = 0 \/ k = 1 \/ k = 2 \/ k = 3) as [-> | [-> | [-> | ->]]] by lia;
      cbn [Z.testbit Pos.testbit]; rewrite andb_false_r; reflexivity. }
  unfold key_bindings in Hin. cbn [In] in Hin.
  unfold DPAD_UP, DPAD_DOWN, DPAD_LEFT, DPAD_RIGHT,
    BUTTON_A, BUTTON_B, BUTTON_SELECT, BUTTON_START in *.
  repeat match type of Hin with
         | _ \/ _ => destruct Hin as [Hin | Hin]
         end;
    try contradiction; injection Hin as <- <- <- <-;
    cbn [process_key buttons directions negb];
    unfold DPAD_UP, DPAD_DOWN, DPAD_LEFT, DPAD_RIGHT,
      BUTTON_A, BUTTON_B, BUTTON_SELECT, BUTTON_START.
  all: match goal with
       | |- context [press ?bit ?x] =>
           destruct (press_nibble bit x) as [_ Hp]; [cbn [In]; auto 6 | assumption |];
           destruct (release_nibble bit x) as [_ Hr]; [cbn [In]; auto 6 | assumption |];
           cbn [Z.log2 Pos.size Z.succ Pos.succ Z.pred Z.pos_sub Pos.pred_double Z.add Z.opp Z.pred_double Z.succ_double] in Hp, Hr
       end.
  all: split; [exact Hp |]; split; [reflexivity |]; split; [exact Hr |];
       split; [reflexivity |]; split; [| split; [| reflexivity]].
  all: try (intros ch Hch; f_equal; apply process_key_other; exact Hch).
  all: intros H4 H5; rewrite H4; cbn [negb]; rewrite ?H5 by reflexivity; cbn [negb];
       rewrite Hp; apply Hk; [assumption | lia].
Qed.

Lemma X11_witness :
  let st := mkInput 0x0F 0x0F in
  let m := memory_write JOYPAD_REG 0xDF (memory_init power_on) in
  In (107, 75, false, 0) key_bindings
  /\ input_invariant st
  /\ buttons (fst (input_update (Some 107) (st, m))) = 0x0E
  /\ Z.testbit (input_get_joypad (input_update (Some 107) (st, m))) 0 = false.
Proof.
  intros st m.
  assert (Hin : In (107, 75, false, 0) key_bindings) by (cbn; auto 10).
  assert (H : input_invariant st) by (unfold input_invariant; cbn; lia).
  split; [exact Hin |]. split; [exact H |].
  destruct (X11_key_bindings 107 75 false 0 st m Hin H) as (Hp & _ & _ & _ & Hbit & _).
  split; [exact Hp |].
  apply Hbit; [reflexivity | intros _; reflexivity].
Defined.
(** ** cpu.c: what no instruction touches *)

Lemma devices_kept_refl s : devices_kept s s.
Proof. repeat split. Qed.

Lemma untouched_refl s : untouched s s.
Proof. repeat split. Qed.

Lemma untouched_set_a s0 x s : untouched s0 s -> untouched s0 (set_a x s).
Proof. exact (fun H => H). Qed.
Lemma untouched_set_f s0 x s : untouched s0 s -> untouched s0 (set_f x s).
Proof. exact (fun H => H). Qed.
Lemma untouched_set_b s0 x s : untouched s0 s -> untouched s0 (set_b x s).
Proof. exact (fun H => H). Qed.
Lemma untouched_set_c s0 x s : untouched s0 s -> untouched s0 (set_c x s).
Proof. exact (fun H => H). Qed.
Lemma untouched_set_d s0 x s : untouched s0 s -> untouched s0 (set_d x s).
Proof. exact (fun H => H). Qed.
Lemma untouched_set_e s0 x s : untouched s0 s -> untouched s0 (set_e x s).
Proof. exact (fun H => H). Qed.
Lemma untouched_set_h s0 x s : untouched s0 s -> untouched s0 (set_h x s).
Proof. exact (fun H => H). Qed.
Lemma untouched_set_l s0 x s : untouched s0 s -> untouched s0 (set_l x s).
Proof. exact (fun H => H). Qed.
Lemma untouched_set_pc s0 x s : untouched s0 s -> untouched s0 (set_pc x s).
Proof. exact (fun H => H). Qed.
Lemma untouched_set_sp s0 x s : untouched s0 s -> untouched s0 (set_sp x s).
Proof. exact (fun H => H). Qed.
Lemma untouched_set_interrupts_enabled s0 x s :
  untouched s0 s -> untouched s0 (set_interrupts_enabled x s).
Proof. exact (fun H => H). Qed.
Lemma untouched_set_bc s0 x s : untouched s0 s -> untouched s0 (set_bc x s).
Proof. exact (fun H => H). Qed.
Lemma untouched_set_de s0 x s : untouched s0 s -> untouched s0 (set_de x s).
Proof. exact (fun H => H). Qed.
Lemma untouched_set_hl s0 x s : untouched s0 s -> untouched s0 (set_hl x s).
Proof. exact (fun H => H). Qed.

Lemma untouched_memory_write s0 address value s :
  untouched s0 s -> untouched s0 (memory_write address value s).
Proof.
  unfold untouched, devices_kept.
  rewrite memory_write_ppu, memory_write_timer_state, memory_write_cartridge,
    memory_write_cpu.
  exact (fun H => H).
Qed.

Lemma untouched_printf s0 x s : untouched s0 s -> untouched s0 (printf x s).
Proof. exact (fun H => H). Qed.

Lemma untouched_logger_log s0 x s : untouched s0 s -> untouched s0 (logger_log x s).
Proof. unfold logger_log. destruct (log_file s); exact (fun H => H). Qed.

Lemma untouched_if s0 (cond : bool) s s' :
  untouched s0 s -> untouched s0 s' -> untouched s0 (if cond then s else s').
Proof. destruct cond; auto. Qed.

Create HintDb gb_frame.
#[local] Hint Resolve
  untouched_set_a untouched_set_f untouched_set_b untouched_set_c
  untouched_set_d untouched_set_e untouched_set_h untouched_set_l
  untouched_set_pc untouched_set_sp
  untouched_set_interrupts_enabled untouched_set_bc untouched_set_de
  untouched_set_hl untouched_memory_write untouched_printf
  untouched_logger_log untouched_if : gb_frame.

Lemma execute_cb_untouched s0 cb_opcode s :
  untouched s0 s -> untouched s0 (execute_cb cb_opcode s).
Proof.
  intros Hs. unfold execute_cb.
  split_opcode; unfold_fetch; auto 12 with gb_frame.
Qed.

#[local] Hint Resolve execute_cb_untouched : gb_frame.

(** Only HALT, which only part_001 has, sets the halt flag. *)
Lemma execute_opcode_untouched s0 rev opcode s :
  rev = cpu_c \/ opcode <> 0x76 ->
  untouched s0 s -> untouched s0 (execute_opcode rev opcode s).
Proof.
  intros Hrev Hs. unfold execute_opcode.
  split_opcode; unfold_fetch; auto 12 with gb_frame.
  all: try (destruct Hrev as [Hrev | Hrev]; [discriminate Hrev | contradiction Hrev; reflexivity]).
  all: repeat match goal with
         | |- context [if ?cond then _ else _] => destruct cond
         end; auto 12 with gb_frame.
Qed.

Lemma execute_opcode_halt s : execute_opcode part_001 0x76 s = set_halted true s.
Proof. reflexivity. Qed.

Lemma fetched_untouched rev s : untouched s (fetched rev s).
Proof.
  unfold fetched. cbv zeta. destruct rev; auto using untouched_refl with gb_frame.
Qed.

Lemma cpu_execute_instruction_cases rev s :
  (rev = part_001 /\ halted (cpu s) = true /\ cpu_execute_instruction rev s = s)
  \/ cpu_execute_instruction rev s
     = execute_opcode rev (u8 (memory_read s (pc (cpu s)))) (fetched rev s).
Proof.
  unfold cpu_execute_instruction, fetched.
  destruct rev; [right; reflexivity |].
  destruct (halted (cpu s)); [left; auto | right; reflexivity].
Qed.

Lemma execute_opcode_devices rev opcode s :
  devices_kept s (execute_opcode rev opcode (fetched rev s)).
Proof.
  destruct (Z.eq_dec opcode 0x76) as [-> | Hne].
  - destruct rev.
    + apply execute_opcode_untouched; [left; reflexivity | apply fetched_untouched].
    + rewrite execute_opcode_halt. apply (fetched_untouched part_001 s).
  - apply execute_opcode_untouched; [right; exact Hne | apply fetched_untouched].
Qed.

Lemma cpu_execute_instruction_devices rev s :
  devices_kept s (cpu_execute_instruction rev s).
Proof.
  destruct (cpu_execute_instruction_cases rev s) as [(_ & _ & ->) | ->].
  - apply devices_kept_refl.
  - apply execute_opcode_devices.
Qed.

Lemma execute_cpu_cycle_devices rev s :
  devices_kept s (execute_cpu_cycle rev s).
Proof.
  unfold execute_cpu_cycle. destruct rev.
  - destruct (halted (cpu s)); [apply devices_kept_refl |].
    apply cpu_execute_instruction_devices.
  - apply cpu_execute_instruction_devices.
Qed.

(** X12.  What the CPU cannot touch.  Whatever byte is at [pc] and in
    whatever state, one [execute_cpu_cycle] leaves the state of the PPU
    (mode, line, cycle count, picture buffer, frame flag), the
    accumulators of the timer and the cartridge as they were, and every
    address below 0x8000 reads as before: no instruction writes the
    ROM. *)
Theorem X12_cpu_frame rev s :
  let s' := execute_cpu_cycle rev s in
  ppu s' = ppu s
  /\ timer_state s' = timer_state s
  /\ current_cartridge s' = current_cartridge s
  /\ (forall address, 0 <= address < 0x8000 -> memory_read s' address = memory_read s address).
Proof.
  destruct (execute_cpu_cycle_devices rev s) as (Hppu & Htimer & Hcart).
  cbv zeta. repeat split; try assumption.
  intros address Ha. rewrite !memory_read_rom by exact Ha.
  unfold cartridge_read. rewrite Hcart. reflexivity.
Qed.
(** ** cpu.c: HALT *)

Lemma execute_cpu_cycle_halted rev s :
  halted (cpu s) = true -> execute_cpu_cycle rev s = s.
Proof.
  intros Hh. unfold execute_cpu_cycle, cpu_execute_instruction. rewrite Hh.
  destruct rev; reflexivity.
Qed.

Lemma iterate_fixed {A : Type} (step : A -> A) (n : nat) (x : A) :
  step x = x -> iterate step n x = x.
Proof.
  intros H. induction n as [| n IH]; cbn [iterate]; [reflexivity |].
  rewrite H. exact IH.
Qed.

(** X14.  cpu.c never halts.  Its switch has no HALT case and no other
    instruction writes the flag, so in every state met after [cpu_init]
    the halt flag is clear and the test in [execute_cpu_cycle] never
    stops the CPU. *)
Theorem X14_cpu_c_never_halts s :
  reachable cpu_c s ->
  halted (cpu s) = false
  /\ execute_cpu_cycle cpu_c s = cpu_execute_instruction cpu_c s.
Proof.
  intros Hr.
  assert (Hh : halted (cpu s) = false).
  { induction Hr as [m | s Hr IH | s s' Hr IH Hcpu].
    - rewrite cpu_init_registers. reflexivity.
    - unfold execute_cpu_cycle. rewrite IH.
      rewrite cpu_execute_instruction_fetched by exact IH.
      destruct (execute_opcode_untouched s cpu_c (u8 (memory_read s (pc (cpu s))))
                  (fetched cpu_c s) (or_introl eq_refl) (fetched_untouched cpu_c s))
        as [_ Hkept].
      rewrite Hkept. exact IH.
    - rewrite Hcpu. exact IH. }
  split; [exact Hh |].
  unfold execute_cpu_cycle. rewrite Hh. reflexivity.
Qed.

Lemma X14_witness :
  let rom := set_current_cartridge (Some (mkCartridge (repeat 0x76 0x200) [] 0)) power_on in
  let s := execute_cpu_cycle cpu_c (execute_cpu_cycle cpu_c (cpu_init cpu_c rom)) in
  reachable cpu_c s /\ halted (cpu s) = false /\ pc (cpu s) = 0x0102.
Proof.
  intros rom s.
  assert (Hr : reachable cpu_c s) by apply reachable_step, reachable_step, reachable_reset.
  split; [exact Hr |].
  destruct (X14_cpu_c_never_halts s Hr) as [Hh _].
  split; [exact Hh | reflexivity].
Defined.
(** ** cpu.c: arithmetic *)

(** Turning a goal made of equations on numbers and booleans into one
    boolean that can be run on every byte. *)
Lemma reflect_and (P Q : Prop) (b1 b2 : bool) :
  (b1 = true -> P) -> (b2 = true -> Q) -> b1 && b2 = true -> P /\ Q.
Proof. intros H1 H2 H. apply andb_prop in H. destruct H. auto. Qed.

Lemma reflect_impl (P : Prop) (cond b : bool) :
  (b = true -> P) -> (if cond then b else true) = true -> cond = true -> P.
Proof. intros H Hi Hc. rewrite Hc in Hi. auto. Qed.

Lemma reflect_eq_Z (x y : Z) : (x =? y) = true -> x = y.
Proof. apply Z.eqb_eq. Qed.

Lemma reflect_eq_bool (x y : bool) : Bool.eqb x y = true -> x = y.
Proof. apply Bool.eqb_prop. Qed.

Ltac reflect_goal :=
  lazymatch goal with
  | |- _ -> _ /\ _ => refine (reflect_and _ _ _ _ _ _); reflect_goal
  | |- _ -> @eq Z _ _ => refine (reflect_eq_Z _ _)
  | |- _ -> @eq bool _ _ => refine (reflect_eq_bool _ _)
  | |- _ -> (_ = true) -> _ => refine (reflect_impl _ _ _ _); reflect_goal
  end.

(** [by_bytes x y Hx Hy]: the goal, a conjunction of equations in the two
    bytes [x] and [y], holds because it holds for all 65536 pairs. *)
Ltac by_bytes x y Hx Hy :=
  let Hb := fresh "Hb" in
  eenough (Hb : _ = true);
  [ revert Hb; reflect_goal
  | lazymatch goal with
    | |- ?B = true =>
        lazymatch eval pattern x, y in B with
        | ?F _ _ => exact (range_forall2 F 256 256 ltac:(vm_compute; reflexivity) x y Hx Hy)
        end
    end ].

Ltac by_byte x Hx :=
  let Hb := fresh "Hb" in
  eenough (Hb : _ = true);
  [ revert Hb; reflect_goal
  | lazymatch goal with
    | |- ?B = true =>
        lazymatch eval pattern x in B with
        | ?F _ => exact (range_forall F 256 ltac:(vm_compute; reflexivity) x Hx)
        end
    end ].

Ltac exec_opcode rev s Hh Hop :=
  rewrite (cpu_execute_instruction_fetched rev s Hh); rewrite Hop;
  cbv beta iota zeta delta [execute_opcode]; unfold_fetch;
  unfold get_flag;
  cbn [cpu a f b c d e h l pc sp halted interrupts_enabled
       set_a set_f set_b set_c set_d set_e set_h set_l set_pc set_sp set_cpu fst snd];
  rewrite ?fetched_cpu, ?fetched_memory_read;
  cbn [cpu a f b c d e h l pc sp halted interrupts_enabled
       set_a set_f set_b set_c set_d set_e set_h set_l set_pc set_sp set_cpu fst snd].

Lemma memory_read_cpu_only s s' address :
  memory s' = memory s -> current_cartridge s' = current_cartridge s ->
  memory_read s' address = memory_read s address.
Proof. intros Hm Hc. apply memory_read_ext; [exact Hc | rewrite Hm; reflexivity]. Qed.

Lemma pc_plus_2 x : u16 (u16 (x + 1) + 1) = u16 (x + 2).
Proof. rewrite u16_add_l. f_equal. lia. Qed.

Ltac cpu_simpl :=
  cbn [cpu a f b c d e h l pc sp halted interrupts_enabled
       set_a set_f set_b set_c set_d set_e set_h set_l set_pc set_sp set_cpu fst snd];
  rewrite ?fetched_cpu;
  cbn [cpu a f b c d e h l pc sp halted interrupts_enabled
       set_a set_f set_b set_c set_d set_e set_h set_l set_pc set_sp set_cpu fst snd].

Ltac same_memory rev s :=
  let address := fresh "address" in
  intros address;
  transitivity (memory_read (fetched rev s) address);
  [reflexivity | apply fetched_memory_read].

Lemma daa_effect rev s :
  halted (cpu s) = false ->
  u8 (memory_read s (pc (cpu s))) = 0x27 ->
  cpu (cpu_execute_instruction rev s)
  = with_a_f_pc (alu_daa (a (cpu s)) (f (cpu s))) (u16 (pc (cpu s) + 1)) (cpu s)
  /\ (forall address,
        memory_read (cpu_execute_instruction rev s) address = memory_read s address).
Proof.
  intros Hh Hop. exec_opcode rev s Hh Hop.
  unfold alu_daa, with_a_f_pc. cbv zeta.
  destruct (nonzero (f (cpu s) .& u8 FLAG_N));
    destruct (nonzero (f (cpu s) .& u8 FLAG_C) || _);
    destruct (nonzero (f (cpu s) .& u8 FLAG_H) || _);
    cpu_simpl;
    match goal with
    | |- context [?x =? 0] => destruct (x =? 0)
    end;
    (split; [cpu_simpl; reflexivity | same_memory rev s]).
Qed.

Lemma add_d8_effect rev s opcode with_carry :
  halted (cpu s) = false ->
  In (opcode, with_carry) add_d8_opcodes ->
  u8 (memory_read s (pc (cpu s))) = opcode ->
  cpu (cpu_execute_instruction rev s)
  = with_a_f_pc
      (alu_add (a (cpu s)) (u8 (memory_read s (u16 (pc (cpu s) + 1))))
         (if with_carry && get_flag FLAG_C s then 1 else 0))
      (u16 (pc (cpu s) + 2)) (cpu s)
  /\ (forall address,
        memory_read (cpu_execute_instruction rev s) address = memory_read s address).
Proof.
  intros Hh Hin Hop. cbn [add_d8_opcodes In] in Hin.
  destruct Hin as [Hin | [Hin | []]]; injection Hin as <- <-;
    exec_opcode rev s Hh Hop; unfold alu_add, with_a_f_pc, get_flag; cbv zeta;
    cbn [andb]; rewrite ?Z.add_0_r, pc_plus_2; cbn [fst snd];
    (split; [reflexivity | same_memory rev s]).
Qed.

Lemma sub_d8_effect rev s opcode with_carry :
  halted (cpu s) = false ->
  In (opcode, with_carry) sub_d8_opcodes ->
  u8 (memory_read s (pc (cpu s))) = opcode ->
  cpu (cpu_execute_instruction rev s)
  = with_a_f_pc
      (alu_sub (a (cpu s)) (u8 (memory_read s (u16 (pc (cpu s) + 1))))
         (if with_carry && get_flag FLAG_C s then 1 else 0))
      (u16 (pc (cpu s) + 2)) (cpu s)
  /\ (forall address,
        memory_read (cpu_execute_instruction rev s) address = memory_read s address).
Proof.
  intros Hh Hin Hop. cbn [sub_d8_opcodes In] in Hin.
  destruct Hin as [Hin | [Hin | []]]; injection Hin as <- <-;
    exec_opcode rev s Hh Hop; unfold alu_sub, with_a_f_pc, get_flag; cbv zeta;
    cbn [andb]; rewrite ?Z.add_0_r, ?Z.sub_0_r, pc_plus_2; cbn [fst snd];
    (split; [reflexivity | same_memory rev s]).
Qed.

Lemma flag_of_nibble (cond : bool) : (if cond then 1 else 0) = Z.b2z cond.
Proof. destruct cond; reflexivity. Qed.

(** X15.  Decimal addition.  ADD A,d8 or ADC A,d8 followed by DAA, on
    two bytes that each hold two decimal digits, leaves in A the two
    low decimal digits of their sum (plus the carry flag, for ADC), sets
    the carry flag exactly when the sum is 100 or more and the zero flag
    exactly when the two digits are 00, and clears N and H: chained with
    ADC it adds decimal numbers of any length. *)
Theorem X15_bcd_addition rev s opcode with_carry :
  halted (cpu s) = false ->
  In (opcode, with_carry) add_d8_opcodes ->
  u8 (memory_read s (pc (cpu s))) = opcode ->
  u8 (memory_read s (u16 (pc (cpu s) + 2))) = 0x27 ->
  let x := a (cpu s) in
  let y := u8 (memory_read s (u16 (pc (cpu s) + 1))) in
  0 <= x < 256 -> bcd_digits x = true -> bcd_digits y = true ->
  let carry_in := if with_carry && get_flag FLAG_C s then 1 else 0 in
  let total := bcd_value x + bcd_value y + carry_in in
  let s' := cpu_execute_instruction rev (cpu_execute_instruction rev s) in
  pc (cpu s') = u16 (pc (cpu s) + 3)
  /\ bcd_digits (a (cpu s')) = true
  /\ bcd_value (a (cpu s')) = total mod 100
  /\ get_flag FLAG_C s' = (100 <=? total)
  /\ get_flag FLAG_Z s' = (total mod 100 =? 0)
  /\ get_flag FLAG_N s' = false
  /\ get_flag FLAG_H s' = false.
Proof.
  intros Hh Hin Hop Hdaa x y Hx Hbx Hby carry_in total s'.
  destruct (add_d8_effect rev s opcode with_carry Hh Hin Hop) as [Hcpu1 Hmem1].
  fold x y carry_in in Hcpu1.
  set (s1 := cpu_execute_instruction rev s) in *.
  assert (Hh1 : halted (cpu s1) = false) by (rewrite Hcpu1; exact Hh).
  assert (Hop1 : u8 (memory_read s1 (pc (cpu s1))) = 0x27).
  { rewrite Hmem1, Hcpu1. exact Hdaa. }
  destruct (daa_effect rev s1 Hh1 Hop1) as [Hcpu2 _].
  subst s'. unfold get_flag. rewrite Hcpu2, Hcpu1.
  cbn [with_a_f_pc a f pc].
  split; [rewrite u16_add_l; f_equal; lia |].
  assert (Hy : 0 <= y < 256) by apply u8_range.
  change 256 with (Z.of_nat 256) in Hx, Hy.
  subst total. revert Hbx Hby. clearbody x y. clear Hcpu1 Hcpu2.
  assert (Hc : carry_in = 0 \/ carry_in = 1).
  { subst carry_in. destruct (with_carry && get_flag FLAG_C s); auto. }
  clearbody carry_in.
  destruct Hc as [-> | ->]; by_bytes x y Hx Hy.
Qed.

Lemma X15_witness :
  let s := set_pc 0xC000
             (memory_write 0xC002 0x27
                (memory_write 0xC001 0x99
                   (memory_write 0xC000 0xC6 (cpu_init cpu_c power_on)))) in
  let s' := cpu_execute_instruction cpu_c (cpu_execute_instruction cpu_c s) in
  halted (cpu s) = false
  /\ In (0xC6, false) add_d8_opcodes
  /\ u8 (memory_read s (pc (cpu s))) = 0xC6
  /\ u8 (memory_read s (u16 (pc (cpu s) + 2))) = 0x27
  /\ 0 <= a (cpu s) < 256
  /\ bcd_digits (a (cpu s)) = true
  /\ bcd_digits (u8 (memory_read s (u16 (pc (cpu s) + 1)))) = true
  /\ bcd_value (a (cpu s')) = (1 + 99) mod 100
  /\ get_flag FLAG_C s' = true.
Proof.
  intros s s'.
  assert (Hin : In (0xC6, false) add_d8_opcodes) by (left; reflexivity).
  assert (Hx : 0 <= a (cpu s) < 256)
    by (split; [apply Z.leb_le | apply Z.ltb_lt]; reflexivity).
  do 7 (split; [first [exact Hin | exact Hx | reflexivity] |]).
  destruct (X15_bcd_addition cpu_c s 0xC6 false eq_refl Hin eq_refl eq_refl Hx eq_refl eq_refl)
    as (_ & _ & Hvalue & Hcarry & _).
  split; [exact Hvalue | exact Hcarry].
Defined.

(** X16.  Decimal subtraction.  SUB d8 or SBC A,d8 followed by DAA, on
    two bytes that each hold two decimal digits, leaves in A the two
    decimal digits of the difference modulo 100 (less the carry flag,
    for SBC), sets the carry flag exactly when it had to borrow and the
    zero flag exactly when the digits are 00, keeps N set and clears
    H. *)
Theorem X16_bcd_subtraction rev s opcode with_carry :
  halted (cpu s) = false ->
  In (opcode, with_carry) sub_d8_opcodes ->
  u8 (memory_read s (pc (cpu s))) = opcode ->
  u8 (memory_read s (u16 (pc (cpu s) + 2))) = 0x27 ->
  let x := a (cpu s) in
  let y := u8 (memory_read s (u16 (pc (cpu s) + 1))) in
  0 <= x < 256 -> bcd_digits x = true -> bcd_digits y = true ->
  let carry_in := if with_carry && get_flag FLAG_C s then 1 else 0 in
  let total := bcd_value x - bcd_value y - carry_in in
  let s' := cpu_execute_instruction rev (cpu_execute_instruction rev s) in
  pc (cpu s') = u16 (pc (cpu s) + 3)
  /\ bcd_digits (a (cpu s')) = true
  /\ bcd_value (a (cpu s')) = total mod 100
  /\ get_flag FLAG_C s' = (total <? 0)
  /\ get_flag FLAG_Z s' = (total mod 100 =? 0)
  /\ get_flag FLAG_N s' = true
  /\ get_flag FLAG_H s' = false.
Proof.
  intros Hh Hin Hop Hdaa x y Hx Hbx Hby carry_in total s'.
  destruct (sub_d8_effect rev s opcode with_carry Hh Hin Hop) as [Hcpu1 Hmem1].
  fold x y carry_in in Hcpu1.
  set (s1 := cpu_execute_instruction rev s) in *.
  assert (Hh1 : halted (cpu s1) = false) by (rewrite Hcpu1; exact Hh).
  assert (Hop1 : u8 (memory_read s1 (pc (cpu s1))) = 0x27).
  { rewrite Hmem1, Hcpu1. exact Hdaa. }
  destruct (daa_effect rev s1 Hh1 Hop1) as [Hcpu2 _].
  subst s'. unfold get_flag. rewrite Hcpu2, Hcpu1.
  cbn [with_a_f_pc a f pc].
  split; [rewrite u16_add_l; f_equal; lia |].
  assert (Hy : 0 <= y < 256) by apply u8_range.
  change 256 with (Z.of_nat 256) in Hx, Hy.
  subst total. revert Hbx Hby. clearbody x y. clear Hcpu1 Hcpu2.
  assert (Hc : carry_in = 0 \/ carry_in = 1).
  { subst carry_in. destruct (with_carry && get_flag FLAG_C s); auto. }
  clearbody carry_in.
  destruct Hc as [-> | ->]; by_bytes x y Hx Hy.
Qed.

Lemma X16_witness :
  let s := set_pc 0xC000
             (memory_write 0xC002 0x27
                (memory_write 0xC001 0x02
                   (memory_write 0xC000 0xDE (cpu_init cpu_c power_on)))) in
  let s' := cpu_execute_instruction cpu_c (cpu_execute_instruction cpu_c s) in
  halted (cpu s) = false
  /\ In (0xDE, true) sub_d8_opcodes
  /\ u8 (memory_read s (pc (cpu s))) = 0xDE
  /\ u8 (memory_read s (u16 (pc (cpu s) + 2))) = 0x27
  /\ 0 <= a (cpu s) < 256
  /\ bcd_digits (a (cpu s)) = true
  /\ bcd_digits (u8 (memory_read s (u16 (pc (cpu s) + 1)))) = true
  /\ bcd_value (a (cpu s')) = (1 - 2 - 1) mod 100
  /\ get_flag FLAG_C s' = true.
Proof.
  intros s s'.
  assert (Hin : In (0xDE, true) sub_d8_opcodes) by (right; left; reflexivity).
  assert (Hx : 0 <= a (cpu s) < 256)
    by (split; [apply Z.leb_le | apply Z.ltb_lt]; reflexivity).
  do 7 (split; [first [exact Hin | exact Hx | reflexivity] |]).
  destruct (X16_bcd_subtraction cpu_c s 0xDE true eq_refl Hin eq_refl eq_refl Hx eq_refl eq_refl)
    as (_ & _ & Hvalue & Hcarry & _).
  split; [exact Hvalue | exact Hcarry].
Defined.
(** ** cpu.c: the name table *)

(** X17.  The two switches of cpu.c agree on every byte:
    [get_opcode_name] answers "UNKNOWN" exactly for the opcodes that
    [cpu_execute_instruction] has no case for, so the debug log names
    every instruction the CPU can execute and only those. *)
Theorem X17_names_match_cases opcode :
  0 <= opcode < 256 ->
  get_opcode_name opcode = "UNKNOWN"%string <-> implemented cpu_c opcode = false.
Proof.
  intros H. change 256 with (Z.of_nat 256) in H.
  pose proof (range_forall
    (fun opcode => Bool.eqb (String.eqb (get_opcode_name opcode) "UNKNOWN")
                     (negb (implemented cpu_c opcode)))
    256 ltac:(vm_compute; reflexivity) opcode H) as Hb.
  cbv beta in Hb. apply Bool.eqb_prop in Hb.
  rewrite <- String.eqb_eq, Hb. apply negb_true_iff.
Qed.

Lemma X17_witness :
  0 <= 0x76 < 256
  /\ get_opcode_name 0x76 = "UNKNOWN"%string
  /\ implemented part_001 0x76 = true.
Proof.
  split; [lia |]. split; [| reflexivity].
  apply (X17_names_match_cases 0x76); [lia | reflexivity].
Defined.

(** ** cpu.c: compare and logic *)

Lemma get_hl_fetched rev s : get_hl (fetched rev s) = get_hl s.
Proof. unfold get_hl. rewrite fetched_cpu. reflexivity. Qed.

Lemma get_bc_fetched rev s : get_bc (fetched rev s) = get_bc s.
Proof. unfold get_bc. rewrite fetched_cpu. reflexivity. Qed.

Lemma get_de_fetched rev s : get_de (fetched rev s) = get_de s.
Proof. unfold get_de. rewrite fetched_cpu. reflexivity. Qed.

(** X18.  Compare.  CP d8 and CP (HL) leave A, every other register and
    the memory alone and set the flags to the outcome of comparing the
    accumulator with the operand as unsigned bytes: Z exactly when they
    are equal, C exactly when A is the smaller, H exactly when the low
    nibble of A is the smaller, and N. *)
Theorem X18_compare rev s opcode src :
  halted (cpu s) = false ->
  In (opcode, src) compare_opcodes ->
  u8 (memory_read s (pc (cpu s))) = opcode ->
  let x := a (cpu s) in
  let y := u8 (source_value src s) in
  0 <= x < 256 ->
  let s' := cpu_execute_instruction rev s in
  cpu s' = with_f (f (cpu s')) (with_pc (u16 (pc (cpu s) + source_length src)) (cpu s))
  /\ (forall address, memory_read s' address = memory_read s address)
  /\ get_flag FLAG_Z s' = (x =? y)
  /\ get_flag FLAG_C s' = (x <? y)
  /\ get_flag FLAG_H s' = (x mod 16 <? y mod 16)
  /\ get_flag FLAG_N s' = true.
Proof.
  intros Hh Hin Hop x y Hx s'.
  assert (Hy : 0 <= y < 256) by apply u8_range.
  change 256 with (Z.of_nat 256) in Hx, Hy.
  cbn [compare_opcodes In] in Hin.
  destruct Hin as [Hin | [Hin | []]]; injection Hin as <- <-;
    subst s'; unfold get_flag; exec_opcode rev s Hh Hop;
    rewrite ?get_hl_fetched;
    cbn [source_value source_length operand_value] in *; fold x y;
    (split; [unfold with_f, with_pc; cbn [a f b c d e h l pc sp halted interrupts_enabled];
             rewrite ?pc_plus_2; reflexivity |]);
    (split; [same_memory rev s |]);
    clearbody x y; by_bytes x y Hx Hy.
Qed.

Lemma X18_witness :
  let s := set_pc 0xC000
             (memory_write 0xC001 0x90 (memory_write 0xC000 0xFE (cpu_init cpu_c power_on))) in
  let s' := cpu_execute_instruction cpu_c s in
  halted (cpu s) = false
  /\ In (0xFE, Immediate) compare_opcodes
  /\ u8 (memory_read s (pc (cpu s))) = 0xFE
  /\ 0 <= a (cpu s) < 256
  /\ a (cpu s') = 0x01
  /\ get_flag FLAG_Z s' = false
  /\ get_flag FLAG_C s' = true.
Proof.
  intros s s'.
  assert (Hin : In (0xFE, Immediate) compare_opcodes) by (left; reflexivity).
  assert (Hx : 0 <= a (cpu s) < 256)
    by (split; [apply Z.leb_le | apply Z.ltb_lt]; reflexivity).
  do 4 (split; [first [exact Hin | exact Hx | reflexivity] |]).
  destruct (X18_compare cpu_c s 0xFE Immediate eq_refl Hin eq_refl Hx)
    as (Hcpu & _ & Hz & Hc & _).
  split; [| split; [exact Hz | exact Hc]].
  fold s' in Hcpu. rewrite Hcpu. reflexivity.
Defined.
Lemma u8_land_255 x : u8 x = Z.land x 255.
Proof. unfold u8. change 255 with (Z.ones 8). rewrite Z.land_ones by lia. reflexivity. Qed.

Lemma byte_land_255 x : 0 <= x < 256 -> Z.land x 255 = x.
Proof. intros H. rewrite <- u8_land_255. apply u8_small. exact H. Qed.

Lemma u8_land_byte x v : 0 <= x < 256 -> u8 (Z.land x v) = Z.land x (u8 v).
Proof.
  intros H. rewrite !u8_land_255, <- Z.land_assoc. reflexivity.
Qed.

Lemma u8_lor_byte x v : 0 <= x < 256 -> u8 (Z.lor x v) = Z.lor x (u8 v).
Proof.
  intros H. rewrite !u8_land_255, Z.land_lor_distr_l, byte_land_255 by exact H. reflexivity.
Qed.

Lemma u8_lxor_byte x v : 0 <= x < 256 -> u8 (Z.lxor x v) = Z.lxor x (u8 v).
Proof.
  intros H. rewrite !u8_land_255. rewrite <- (byte_land_255 x H) at 2.
  apply Z.bits_inj'. intros k Hk.
  rewrite !Z.land_spec, !Z.lxor_spec, !Z.land_spec.
  destruct (Z.testbit x k), (Z.testbit v k), (Z.testbit 255 k); reflexivity.
Qed.

(** X19.  The logic instructions (AND C, AND A, AND d8, XOR C, XOR (HL),
    XOR A, OR B, OR C, OR A) on a byte in A: A becomes the bitwise
    result with the operand, Z is set exactly when that is zero, H is
    set by AND alone, N and C are cleared; [pc] moves past the
    instruction and nothing else changes. *)
Theorem X19_logic rev s opcode op src :
  halted (cpu s) = false ->
  In (opcode, (op, src)) logic_opcodes ->
  u8 (memory_read s (pc (cpu s))) = opcode ->
  let x := a (cpu s) in
  let y := u8 (source_value src s) in
  0 <= x < 256 ->
  let s' := cpu_execute_instruction rev s in
  cpu s' = with_a (logic_value op x y)
             (with_f (f (cpu s')) (with_pc (u16 (pc (cpu s) + source_length src)) (cpu s)))
  /\ (forall address, memory_read s' address = memory_read s address)
  /\ get_flag FLAG_Z s' = (logic_value op x y =? 0)
  /\ get_flag FLAG_H s' = match op with AND => true | _ => false end
  /\ get_flag FLAG_N s' = false
  /\ get_flag FLAG_C s' = false.
Proof.
  intros Hh Hin Hop x y Hx s'.
  pose proof (u8_land_byte x) as Hand.
  pose proof (u8_lor_byte x) as Hor.
  pose proof (u8_lxor_byte x) as Hxor.
  cbn [logic_opcodes In] in Hin.
  repeat (destruct Hin as [Hin | Hin]; [injection Hin as <- <- <- |]); try contradiction.
  all: subst s'; unfold get_flag;
    rewrite (cpu_execute_instruction_fetched rev s Hh); rewrite Hop;
    cbv beta iota zeta delta [execute_opcode]; unfold_fetch; unfold get_hl; cpu_simpl;
    rewrite ?fetched_memory_read;
    cbn [source_value source_length operand_value logic_value] in *;
    unfold get_hl in *; fold x;
    rewrite ?Hand, ?Hor, ?Hxor by exact Hx; rewrite ?u8_idem; fold y;
    try (subst y; fold x; rewrite (u8_small x Hx));
    rewrite ?Z.land_diag, ?Z.lor_diag, ?Z.lxor_nilpotent.
  all: split;
    [ unfold with_a, with_f, with_pc; cbn [a f b c d e h l pc sp halted interrupts_enabled];
      rewrite ?pc_plus_2; reflexivity |].
  all: split; [same_memory rev s |].
  all: try match goal with
           | |- context [if ?cond then _ else _] => destruct cond
           end; repeat split; reflexivity.
Qed.

Lemma X19_witness :
  let s := set_pc 0xC000
             (memory_write 0xC001 0xF0 (memory_write 0xC000 0xE6 (cpu_init cpu_c power_on))) in
  let s' := cpu_execute_instruction cpu_c s in
  halted (cpu s) = false
  /\ In (0xE6, (AND, Immediate)) logic_opcodes
  /\ u8 (memory_read s (pc (cpu s))) = 0xE6
  /\ 0 <= a (cpu s) < 256
  /\ a (cpu s') = 0
  /\ get_flag FLAG_Z s' = true
  /\ get_flag FLAG_H s' = true.
Proof.
  intros s s'.
  assert (Hin : In (0xE6, (AND, Immediate)) logic_opcodes) by (cbn; auto).
  assert (Hx : 0 <= a (cpu s) < 256)
    by (split; [apply Z.leb_le | apply Z.ltb_lt]; reflexivity).
  do 4 (split; [first [exact Hin | exact Hx | reflexivity] |]).
  destruct (X19_logic cpu_c s 0xE6 AND Immediate eq_refl Hin eq_refl Hx)
    as (Hcpu & _ & Hz & Hhalf & _).
  split; [| split; [exact Hz | exact Hhalf]].
  fold s' in Hcpu. rewrite Hcpu. reflexivity.
Defined.
(** ** cpu.c: the CB prefix *)

Lemma bit_flags f0 (bit_set : bool) :
  let f' := u8 (((f0 .& FLAG_C) .| FLAG_H) .| (if bit_set then 0 else FLAG_Z)) in
  nonzero (f' .& u8 FLAG_Z) = negb bit_set
  /\ nonzero (f' .& u8 FLAG_H) = true
  /\ nonzero (f' .& u8 FLAG_N) = false
  /\ nonzero (f' .& u8 FLAG_C) = nonzero (f0 .& u8 FLAG_C).
Proof.
  cbv zeta.
  change (u8 FLAG_C) with (2 ^ 4). change FLAG_C with (2 ^ 4).
  rewrite !(land_pow2 f0 4) by lia.
  destruct (Z.testbit f0 4); destruct bit_set; repeat split; reflexivity.
Qed.

(** X20.  BIT b,r.  For each of the 64 opcodes 0x40..0x7F after the CB
    prefix, bits 3..5 of the opcode give the bit number and bits 0..2 the
    operand in the order B, C, D, E, H, L, (HL), A; the instruction sets
    Z exactly when that bit of the operand is 0, sets H, clears N, keeps
    C, moves [pc] by two and changes nothing else.  The separate case the
    switch has for BIT 7,H follows the same rule. *)
Theorem X20_bit_test rev s cb_opcode :
  halted (cpu s) = false ->
  u8 (memory_read s (pc (cpu s))) = 0xCB ->
  u8 (memory_read s (u16 (pc (cpu s) + 1))) = cb_opcode ->
  0x40 <= cb_opcode < 0x80 ->
  let bit := (cb_opcode - 0x40) / 8 in
  let r := nth (Z.to_nat ((cb_opcode - 0x40) mod 8)) bit_operands Reg_B in
  let s' := cpu_execute_instruction rev s in
  cpu s' = with_f (f (cpu s')) (with_pc (u16 (pc (cpu s) + 2)) (cpu s))
  /\ (forall address, memory_read s' address = memory_read s address)
  /\ get_flag FLAG_Z s' = negb (Z.testbit (u8 (operand_value r s)) bit)
  /\ get_flag FLAG_H s' = true
  /\ get_flag FLAG_N s' = false
  /\ get_flag FLAG_C s' = get_flag FLAG_C s.
Proof.
  intros Hh Hop Hcb Hrange bit r s'.
  assert (Hcases : In cb_opcode (map Z.of_nat (seq 64 64))).
  { apply in_map_iff. exists (Z.to_nat cb_opcode). split; [lia |]. apply in_seq. lia. }
  subst s' r bit. unfold get_flag.
  rewrite (cpu_execute_instruction_fetched rev s Hh). rewrite Hop.
  cbv beta iota zeta delta [execute_opcode]. unfold_fetch.
  rewrite fetched_memory_read, fetched_cpu.
  cbn [cpu pc set_pc set_cpu]. rewrite Hcb. clear Hcb Hrange.
  cbn in Hcases.
  repeat (destruct Hcases as [<- | Hcases]); try contradiction.
  all: cbv beta iota zeta delta [execute_cb];
    repeat match goal with
           | |- context [u8 ((Zpos ?p - 64) / 8)] =>
               let v := eval vm_compute in (u8 ((Zpos p - 64) / 8)) in
               change (u8 ((Zpos p - 64) / 8)) with v
           | |- context [u8 ((Zpos ?p - 64) mod 8)] =>
               let v := eval vm_compute in (u8 ((Zpos p - 64) mod 8)) in
               change (u8 ((Zpos p - 64) mod 8)) with v
           | |- context [(Zpos ?p - 64) / 8] =>
               let v := eval vm_compute in ((Zpos p - 64) / 8) in
               change ((Zpos p - 64) / 8) with v
           | |- context [Z.to_nat ((Zpos ?p - 64) mod 8)] =>
               let v := eval vm_compute in (Z.to_nat ((Zpos p - 64) mod 8)) in
               change (Z.to_nat ((Zpos p - 64) mod 8)) with v
           end;
    cbn [nth bit_operands operand_value];
    unfold get_hl; cpu_simpl;
    repeat match goal with
           | |- context [memory_read (set_pc ?x ?m) ?address] =>
               change (memory_read (set_pc x m) address) with (memory_read m address)
           end;
    rewrite ?fetched_memory_read; cpu_simpl;
    rewrite ?pc_plus_2;
    (split; [reflexivity |]);
    (split; [same_memory rev s |]);
    try (rewrite (nonzero_land_0x80 (h (cpu s))), <- (testbit_u8 (h (cpu s)) 7) by lia);
    repeat match goal with
           | |- context [nonzero (?v .& Z.shiftl 1 ?k)] =>
               change (Z.shiftl 1 k) with (2 ^ k);
               rewrite (nonzero_land_pow2 v k) by lia
           end;
    match goal with
    | |- context [if Z.testbit ?v ?k then 0 else FLAG_Z] =>
        exact (bit_flags (f (cpu s)) (Z.testbit v k))
    end.
Qed.

Lemma X20_witness :
  let s := set_pc 0xC000
             (memory_write 0xC001 0x7C (memory_write 0xC000 0xCB (cpu_init cpu_c power_on))) in
  let s' := cpu_execute_instruction cpu_c s in
  halted (cpu s) = false
  /\ u8 (memory_read s (pc (cpu s))) = 0xCB
  /\ u8 (memory_read s (u16 (pc (cpu s) + 1))) = 0x7C
  /\ 0x40 <= 0x7C < 0x80
  /\ get_flag FLAG_Z s' = negb (Z.testbit (u8 (h (cpu s))) 7)
  /\ get_flag FLAG_C s' = get_flag FLAG_C s.
Proof.
  intros s s'.
  assert (Hr : 0x40 <= 0x7C < 0x80) by lia.
  do 4 (split; [first [exact Hr | reflexivity] |]).
  destruct (X20_bit_test cpu_c s 0x7C eq_refl eq_refl eq_refl Hr) as (_ & _ & Hz & _ & _ & Hc).
  split; [exact Hz | exact Hc].
Defined.
(** ** cpu.c: 16-bit arithmetic *)

(** A 16-bit value split into two bytes and joined again. *)
Lemma word_bytes v :
  0 <= v < 65536 ->
  u16 ((u8 (v >> 8) << 8) .| u8 (v .& 0xFF)) = v.
Proof.
  intros Hv. unfold u8, u16. change 256 with (2 ^ 8). change 65536 with (2 ^ 16) in *.
  change 0xFF with (Z.ones 8).
  apply Z.bits_inj'. intros i Hi.
  rewrite Z.testbit_mod_pow2 by lia.
  destruct (Z.ltb_spec i 16) as [Hlt | Hge]; cbn [andb].
  - rewrite Z.lor_spec, Z.shiftl_spec by lia.
    rewrite !Z.testbit_mod_pow2 by lia.
    rewrite Z.land_spec.
    destruct (Z.ltb_spec i 8) as [Hlt8 | Hge8]; cbn [andb].
    + rewrite (Z.testbit_neg_r _ (i - 8)) by lia.
      rewrite Z.testbit_ones_nonneg by lia.
      destruct (Z.ltb_spec i 8); [| lia]. rewrite andb_true_r.
      destruct (Z.ltb_spec (i - 8) 8); reflexivity.
    + rewrite orb_false_r.
      destruct (Z.ltb_spec (i - 8) 8); [| lia]. cbn [andb].
      rewrite Z.shiftr_spec by lia. f_equal. lia.
  - symmetry. apply Z.bits_above_log2; [lia |].
    destruct (Z.eq_dec v 0) as [-> | Hnz]; [cbn; lia |].
    apply Z.lt_le_trans with 16; [| lia].
    apply Z.log2_lt_pow2; lia.
Qed.

Lemma pair_value_range rp s : 0 <= pair_value rp s < 65536.
Proof. apply u16_range. Qed.

Lemma land_4095_mod x : Z.land x 0x0FFF = x mod 4096.
Proof. change 0x0FFF with (Z.ones 12). rewrite Z.land_ones by lia. reflexivity. Qed.

Lemma land_65535_mod x : Z.land x 0xFFFF = x mod 65536.
Proof. change 0xFFFF with (Z.ones 16). rewrite Z.land_ones by lia. reflexivity. Qed.

Lemma add_hl_flags f0 (carry half : bool) :
  let f' := u8 (((f0 .& FLAG_Z) .| (if carry then FLAG_C else 0))
                .| (if half then FLAG_H else 0)) in
  nonzero (f' .& u8 FLAG_Z) = nonzero (f0 .& u8 FLAG_Z)
  /\ nonzero (f' .& u8 FLAG_C) = carry
  /\ nonzero (f' .& u8 FLAG_H) = half
  /\ nonzero (f' .& u8 FLAG_N) = false.
Proof.
  cbv zeta.
  change (u8 FLAG_Z) with (2 ^ 7). change FLAG_Z with (2 ^ 7).
  rewrite !(land_pow2 f0 7) by lia.
  destruct (Z.testbit f0 7); destruct carry; destruct half; repeat split; reflexivity.
Qed.

(** X21.  INC and DEC of a register pair (INC BC, DEC BC, INC DE, DEC DE,
    INC HL): the 16-bit value of the pair moves by one modulo 65536, the
    carry out of the low byte going into the high byte; the flags, A,
    [sp], the other pairs and the memory stay as they were. *)
Theorem X21_inc_dec16 rev s opcode kind rp :
  halted (cpu s) = false ->
  In (opcode, (kind, rp)) inc_dec16_opcodes ->
  u8 (memory_read s (pc (cpu s))) = opcode ->
  let s' := cpu_execute_instruction rev s in
  pair_value rp s'
  = u16 (pair_value rp s + match kind with INC => 1 | DEC => -1 end)
  /\ (forall other, other <> rp -> other <> AF ->
        pair_high other s' = pair_high other s /\ pair_low other s' = pair_low other s)
  /\ a (cpu s') = a (cpu s)
  /\ f (cpu s') = f (cpu s)
  /\ sp (cpu s') = sp (cpu s)
  /\ pc (cpu s') = u16 (pc (cpu s) + 1)
  /\ (forall address, memory_read s' address = memory_read s address).
Proof.
  intros Hh Hin Hop s'. subst s'.
  cbn [inc_dec16_opcodes In] in Hin.
  repeat (destruct Hin as [Hin | Hin]; [injection Hin as <- <- <- |]); try contradiction.
  all: rewrite (cpu_execute_instruction_fetched rev s Hh); rewrite Hop;
    cbv beta iota zeta delta [execute_opcode];
    rewrite ?get_bc_fetched, ?get_de_fetched, ?get_hl_fetched;
    unfold set_bc, set_de, set_hl, pair_value; cbv zeta; cpu_simpl;
    cbn [pair_high pair_low cpu a f b c d e h l pc sp set_b set_c set_d set_e set_h set_l set_cpu];
    rewrite ?fetched_cpu;
    cbn [pair_high pair_low cpu a f b c d e h l pc sp set_pc set_cpu].
  all: split; [apply word_bytes; apply u16_range |].
  all: split; [intros [] H1 H2; try contradiction;
               cbn [pair_high pair_low]; cpu_simpl; split; reflexivity |].
  all: repeat (split; [reflexivity |]).
  all: same_memory rev s.
Qed.

Lemma X21_witness :
  let s := set_pc 0xC000 (memory_write 0xC000 0x0B (cpu_init cpu_c power_on)) in
  let s' := cpu_execute_instruction cpu_c s in
  halted (cpu s) = false
  /\ In (0x0B, (DEC, BC)) inc_dec16_opcodes
  /\ u8 (memory_read s (pc (cpu s))) = 0x0B
  /\ pair_value BC s = 0x0013
  /\ pair_value BC s' = 0x0012
  /\ f (cpu s') = 0xB0.
Proof.
  intros s s'.
  assert (Hin : In (0x0B, (DEC, BC)) inc_dec16_opcodes) by (cbn; auto).
  do 4 (split; [first [exact Hin | reflexivity] |]).
  destruct (X21_inc_dec16 cpu_c s 0x0B DEC BC eq_refl Hin eq_refl)
    as (Hvalue & _ & _ & Hf & _).
  split; [exact Hvalue | exact Hf].
Defined.

Lemma add_hl_arith x y :
  0 <= x < 65536 -> 0 <= y < 65536 ->
  u16 (u32 (x + y) .& 0xFFFF) = u16 (x + y)
  /\ (u32 (x + y) >? 0xFFFF) = (65536 <=? x + y)
  /\ (x .& 0x0FFF + y .& 0x0FFF >? 0x0FFF) = (4096 <=? x mod 4096 + y mod 4096).
Proof.
  intros Hx Hy. split; [| split].
  - rewrite land_65535_mod. unfold u32, u16.
    rewrite (Z.mod_small (x + y) 4294967296) by lia.
    rewrite Z.mod_mod by lia. reflexivity.
  - unfold u32. rewrite Z.mod_small by lia.
    destruct (Z.gtb_spec (x + y) 0xFFFF); destruct (Z.leb_spec 65536 (x + y)); lia.
  - rewrite !land_4095_mod.
    destruct (Z.gtb_spec (x mod 4096 + y mod 4096) 0x0FFF);
      destruct (Z.leb_spec 4096 (x mod 4096 + y mod 4096)); lia.
Qed.

(** X22.  ADD HL,rr (rr one of BC, DE, HL): HL becomes the 16-bit sum
    modulo 65536; C is set exactly when the sum does not fit in 16 bits,
    H exactly when the low 12 bits carry into bit 12; N is cleared and Z
    keeps its value; the other registers and the memory stay as they
    were. *)
Theorem X22_add_hl rev s opcode rp :
  halted (cpu s) = false ->
  In (opcode, rp) add_hl_opcodes ->
  u8 (memory_read s (pc (cpu s))) = opcode ->
  let x := pair_value HL s in
  let y := pair_value rp s in
  let s' := cpu_execute_instruction rev s in
  pair_value HL s' = u16 (x + y)
  /\ get_flag FLAG_C s' = (65536 <=? x + y)
  /\ get_flag FLAG_H s' = (4096 <=? x mod 4096 + y mod 4096)
  /\ get_flag FLAG_N s' = false
  /\ get_flag FLAG_Z s' = get_flag FLAG_Z s
  /\ (forall other, other <> HL ->
        pair_high other s' = pair_high other s
        /\ (other <> AF -> pair_low other s' = pair_low other s))
  /\ sp (cpu s') = sp (cpu s)
  /\ pc (cpu s') = u16 (pc (cpu s) + 1)
  /\ (forall address, memory_read s' address = memory_read s address).
Proof.
  intros Hh Hin Hop. cbv zeta.
  unfold get_flag.
  cbn [add_hl_opcodes In] in Hin.
  repeat (destruct Hin as [Hin | Hin]; [injection Hin as <- <- |]); try contradiction.
  all: rewrite (cpu_execute_instruction_fetched rev s Hh); rewrite Hop;
    cbv beta iota zeta delta [execute_opcode];
    rewrite ?get_bc_fetched, ?get_de_fetched, ?get_hl_fetched;
    change (get_hl s) with (pair_value HL s);
    change (get_bc s) with (pair_value BC s);
    change (get_de s) with (pair_value DE s);
    unfold set_hl; cbv zeta; cpu_simpl;
    match goal with
    | |- context [u32 (?x + ?y)] =>
        destruct (add_hl_arith x y (pair_value_range _ s) (pair_value_range _ s))
          as (Hsum & Hcarry & Hhalf);
        rewrite Hcarry, Hhalf;
        destruct (add_hl_flags (f (cpu s)) (65536 <=? x + y)
                    (4096 <=? x mod 4096 + y mod 4096)) as (Hz & Hc & Hhf & Hn)
    end;
    unfold pair_value at 1;
    cbn [pair_high pair_low]; cpu_simpl;
    (split; [rewrite word_bytes by apply u16_range; exact Hsum |]);
    (split; [exact Hc |]); (split; [exact Hhf |]); (split; [exact Hn |]);
    (split; [exact Hz |]);
    (split; [intros [] H1; try contradiction; cbn [pair_high pair_low]; cpu_simpl;
             (split; [reflexivity | intros H2; try contradiction; reflexivity]) |]);
    (split; [reflexivity |]); (split; [reflexivity |]);
    same_memory rev s.
Qed.

Lemma X22_witness :
  let s := set_pc 0xC000 (memory_write 0xC000 0x29 (cpu_init cpu_c power_on)) in
  let s' := cpu_execute_instruction cpu_c s in
  halted (cpu s) = false
  /\ In (0x29, HL) add_hl_opcodes
  /\ u8 (memory_read s (pc (cpu s))) = 0x29
  /\ pair_value HL s = 0x014D
  /\ pair_value HL s' = 0x029A
  /\ get_flag FLAG_C s' = false
  /\ get_flag FLAG_Z s' = true.
Proof.
  intros s s'.
  assert (Hin : In (0x29, HL) add_hl_opcodes) by (cbn; auto).
  do 4 (split; [first [exact Hin | reflexivity] |]).
  destruct (X22_add_hl cpu_c s 0x29 HL eq_refl Hin eq_refl)
    as (Hvalue & Hc & _ & _ & Hz & _).
  split; [exact Hvalue |]. split; [exact Hc | exact Hz].
Defined.
(** ** cpu.c: calls and returns *)

(** A taken call: the address of the next instruction is written high
    byte first at sp-1 and sp-2 through [memory_write], [sp] drops by
    two and [pc] is the operand. *)
Lemma call_effect rev s opcode cc :
  halted (cpu s) = false ->
  u8 (memory_read s (pc (cpu s))) = opcode ->
  In (opcode, cc) call_opcodes ->
  taken cc s = true ->
  let next := u16 (pc (cpu s) + 3) in
  let sp1 := u16 (sp (cpu s) - 1) in
  let sp2 := u16 (sp (cpu s) - 2) in
  cpu_execute_instruction rev s
  = set_pc (operand16 s)
      (memory_write sp2 (next .& 0xFF)
         (set_sp sp2 (memory_write sp1 (next >> 8)
                        (set_sp sp1 (set_pc next (fetched rev s)))))).
Proof.
  intros Hh Hop Hin Htaken next sp1 sp2.
  rewrite cpu_execute_instruction_fetched by exact Hh. rewrite Hop.
  pose proof (fetched_cpu rev s) as Hcpu.
  pose proof (fetched_memory_read rev s) as Hrd.
  assert (Hsp2 : u16 (sp1 - 1) = sp2).
  { subst sp1 sp2. rewrite u16_sub_l. f_equal. lia. }
  unfold call_opcodes in Hin. cbn [In] in Hin.
  unfold taken, condition_holds, get_flag in Htaken.
  repeat (destruct Hin as [Hin | Hin]; [injection Hin as <- <- |]); try contradiction.
  all: cbv beta iota zeta delta [execute_opcode]; unfold_fetch; unfold get_flag;
    cbn [cpu f set_pc set_cpu]; rewrite ?Hcpu; cbn [cpu f set_pc set_cpu];
    rewrite ?Htaken; cbn [negb];
    rewrite !memory_write_cpu; cbn [cpu sp pc set_sp set_pc set_cpu];
    rewrite !memory_write_cpu; cbn [cpu sp pc set_sp set_pc set_cpu];
    rewrite ?Hcpu; cbn [cpu sp pc set_pc set_cpu];
    change (memory_read (set_pc ?x (fetched rev s))) with (memory_read (fetched rev s));
    rewrite !Hrd, ?u16_add_3, ?pc_plus_2; fold next sp1; rewrite Hsp2;
    reflexivity.
Qed.

(** A taken return: [pc] is read low byte first at sp and sp+1; [sp]
    rises by two. *)
Lemma ret_effect rev s opcode cc :
  halted (cpu s) = false ->
  u8 (memory_read s (pc (cpu s))) = opcode ->
  In (opcode, cc) ret_opcodes ->
  taken cc s = true ->
  let low := u8 (memory_read s (sp (cpu s))) in
  let high := u8 (memory_read s (u16 (sp (cpu s) + 1))) in
  cpu (cpu_execute_instruction rev s)
  = cpu (set_pc (u16 ((high << 8) .| low)) (set_sp (u16 (sp (cpu s) + 2)) s))
  /\ (forall address,
        memory_read (cpu_execute_instruction rev s) address = memory_read s address).
Proof.
  intros Hh Hop Hin Htaken low high.
  rewrite cpu_execute_instruction_fetched by exact Hh. rewrite Hop.
  pose proof (fetched_cpu rev s) as Hcpu.
  pose proof (fetched_memory_read rev s) as Hrd.
  unfold ret_opcodes in Hin. cbn [In] in Hin.
  unfold taken, condition_holds, get_flag in Htaken.
  repeat (destruct Hin as [Hin | Hin]; [injection Hin as <- <- |]); try contradiction.
  all: cbv beta iota zeta delta [execute_opcode]; unfold_fetch; unfold get_flag;
    rewrite ?Hcpu; cbn [cpu f set_pc set_cpu];
    rewrite ?Htaken; cbn [negb];
    (split; [| same_memory rev s]);
    cbn [cpu sp pc set_sp set_pc set_cpu];
    change (memory_read (set_sp ?x (fetched rev s))) with (memory_read (fetched rev s));
    rewrite !Hrd, Hcpu; cbn [cpu sp pc a f b c d e h l set_sp set_pc set_cpu halted
                                 interrupts_enabled];
    fold low high; rewrite pc_plus_2; reflexivity.
Qed.

(** X23.  Call and return.  A taken call (CALL a16, or CALL Z / NC / C
    with its condition true) continues at its operand with the address
    of the instruction after it on the stack, high byte at sp-1 and low
    byte at sp-2.  When both stack bytes lie at or above 0x8000, where
    the bus stores what is written, a taken return (RET, or RET NZ / Z /
    NC / C with its condition true) executed at the target continues
    right after the call, three bytes past its opcode, with [sp] and
    every other register as before the call. *)
Theorem X23_call_return rev s call_opcode call_cc ret_opcode ret_cc :
  halted (cpu s) = false ->
  0 <= sp (cpu s) < 65536 ->
  u8 (memory_read s (pc (cpu s))) = call_opcode ->
  In (call_opcode, call_cc) call_opcodes ->
  taken call_cc s = true ->
  let called := cpu_execute_instruction rev s in
  u8 (memory_read called (pc (cpu called))) = ret_opcode ->
  In (ret_opcode, ret_cc) ret_opcodes ->
  taken ret_cc s = true ->
  0x8000 <= u16 (sp (cpu s) - 1) -> 0x8000 <= u16 (sp (cpu s) - 2) ->
  let returned := cpu_execute_instruction rev called in
  let next := u16 (pc (cpu s) + 3) in
  (* the call *)
  pc (cpu called) = operand16 s
  /\ sp (cpu called) = u16 (sp (cpu s) - 2)
  /\ memory_read called (u16 (sp (cpu s) - 1)) = next / 256
  /\ memory_read called (u16 (sp (cpu s) - 2)) = next mod 256
  (* the return *)
  /\ cpu returned = cpu (set_pc next s).
Proof.
  intros Hh Hsp Hop Hin Htaken called Hop2 Hin2 Htaken2 Hw1 Hw2 returned next.
  pose proof (call_effect rev s call_opcode call_cc Hh Hop Hin Htaken) as Hcall.
  cbv zeta in Hcall. fold called next in Hcall.
  pose proof (u16_range (sp (cpu s) - 1)) as Hr1.
  pose proof (u16_range (sp (cpu s) - 2)) as Hr2.
  pose proof (u16_range (pc (cpu s) + 3)) as Hnext. fold next in Hnext.
  set (sp1 := u16 (sp (cpu s) - 1)) in *.
  set (sp2 := u16 (sp (cpu s) - 2)) in *.
  assert (Hnext1 : u16 (sp2 + 1) = sp1).
  { subst sp1 sp2. rewrite u16_add_l. f_equal. lia. }
  assert (Hback : u16 (sp2 + 2) = sp (cpu s)).
  { subst sp2. rewrite u16_add_l. replace (sp (cpu s) - 2 + 2) with (sp (cpu s)) by lia.
    apply u16_small. exact Hsp. }
  assert (Hne : sp1 <> sp2 /\ sp1 <> sp2 - 0x2000).
  { subst sp1 sp2. unfold u16 in *. Z.div_mod_to_equations. lia. }
  assert (Hcpu : cpu called = cpu (set_pc (operand16 s) (set_sp sp2 s))).
  { rewrite Hcall. cbn [cpu set_pc set_cpu]. rewrite memory_write_cpu.
    cbn [cpu set_sp set_cpu]. rewrite memory_write_cpu. cbn [cpu set_sp set_pc set_cpu].
    rewrite fetched_cpu. reflexivity. }
  assert (Hhigh : u8 (next >> 8) = next / 256).
  { rewrite Z.shiftr_div_pow2 by lia. change (2 ^ 8) with 256.
    apply u8_small. Z.div_mod_to_equations. lia. }
  assert (Hlow : u8 (next .& 0xFF) = next mod 256).
  { rewrite <- u8_land_255. apply u8_idem. }
  assert (Hrd1 : memory_read called sp1 = next / 256).
  { rewrite Hcall.
    change (memory_read (set_pc ?x ?m)) with (memory_read m).
    rewrite memory_read_write_other by (rewrite ?u16_small by lia; lia).
    change (memory_read (set_sp sp2 ?m)) with (memory_read m).
    rewrite memory_read_write_same by lia. exact Hhigh. }
  assert (Hrd2 : memory_read called sp2 = next mod 256).
  { rewrite Hcall.
    change (memory_read (set_pc ?x ?m)) with (memory_read m).
    rewrite memory_read_write_same by lia. exact Hlow. }
  assert (Hh2 : halted (cpu called) = false) by (rewrite Hcpu; exact Hh).
  assert (Htaken2' : taken ret_cc called = true).
  { rewrite <- Htaken2. destruct ret_cc as [[] |]; cbn [taken condition_holds];
      unfold get_flag; rewrite ?Hcpu; reflexivity. }
  destruct (ret_effect rev called ret_opcode ret_cc Hh2 Hop2 Hin2 Htaken2') as [Hret _].
  cbv zeta in Hret. fold returned in Hret.
  assert (Hsp2 : sp (cpu called) = sp2) by (rewrite Hcpu; reflexivity).
  rewrite Hsp2, Hnext1, Hrd1, Hrd2, Hback in Hret.
  split; [rewrite Hcpu; reflexivity |].
  split; [exact Hsp2 |].
  split; [exact Hrd1 |].
  split; [exact Hrd2 |].
  rewrite Hret. cbn [cpu set_pc set_sp set_cpu]. rewrite Hcpu.
  cbn [cpu set_pc set_sp set_cpu a f b c d e h l sp pc halted interrupts_enabled].
  assert (Hjoin : u16 ((u8 (next / 256) << 8) .| u8 (next mod 256)) = next).
  { rewrite <- Hhigh, <- Hlow, !u8_idem. apply word_bytes. exact Hnext. }
  rewrite Hjoin.
  destruct (cpu s) as [? ? ? ? ? ? ? ? ? sp0 ? ?]. cbn [sp] in *.
  reflexivity.
Qed.

Lemma X23_witness :
  let s := set_pc 0xC000
             (memory_write 0xD000 0xC9
                (memory_write 0xC002 0xD0
                   (memory_write 0xC001 0x00
                      (memory_write 0xC000 0xCD (cpu_init cpu_c power_on))))) in
  let called := cpu_execute_instruction cpu_c s in
  let returned := cpu_execute_instruction cpu_c called in
  halted (cpu s) = false
  /\ 0 <= sp (cpu s) < 65536
  /\ 0x8000 <= u16 (sp (cpu s) - 1)
  /\ 0x8000 <= u16 (sp (cpu s) - 2)
  /\ pc (cpu called) = 0xD000
  /\ sp (cpu called) = 0xFFFC
  /\ pc (cpu returned) = 0xC003
  /\ sp (cpu returned) = 0xFFFE.
Proof.
  intros s called returned.
  assert (Hh : halted (cpu s) = false) by reflexivity.
  assert (Hsp : 0 <= sp (cpu s) < 65536)
    by (split; [apply Z.leb_le | apply Z.ltb_lt]; reflexivity).
  assert (Hin : In (0xCD, None) call_opcodes) by (left; reflexivity).
  assert (Hin2 : In (0xC9, None) ret_opcodes) by (left; reflexivity).
  assert (Hw1 : 0x8000 <= u16 (sp (cpu s) - 1)) by (apply Z.leb_le; reflexivity).
  assert (Hw2 : 0x8000 <= u16 (sp (cpu s) - 2)) by (apply Z.leb_le; reflexivity).
  assert (Hop2 : u8 (memory_read (cpu_execute_instruction cpu_c s)
                       (pc (cpu (cpu_execute_instruction cpu_c s)))) = 0xC9)
    by reflexivity.
  destruct (X23_call_return cpu_c s 0xCD None 0xC9 None Hh Hsp eq_refl Hin eq_refl
              Hop2 Hin2 eq_refl Hw1 Hw2) as (Hpc & Hsp' & _ & _ & Hret).
  split; [exact Hh |]. split; [exact Hsp |]. split; [exact Hw1 |]. split; [exact Hw2 |].
  split; [exact Hpc |]. split; [exact Hsp' |].
  unfold returned, called. rewrite Hret. split; reflexivity.
Defined.
(** ** cpu.c: rotations *)

Ltac exec_cb rev s Hh Hop Hcb :=
  rewrite (cpu_execute_instruction_fetched rev s Hh); rewrite Hop;
  cbv beta iota zeta delta [execute_opcode]; unfold_fetch;
  rewrite ?fetched_memory_read, ?fetched_cpu; cbn [cpu pc set_pc set_cpu];
  rewrite ?Hcb;
  cbv beta iota zeta delta [execute_cb];
  unfold get_flag; cpu_simpl.

Lemma code_at_app s address first second :
  code_at s address (first ++ second)
  <-> code_at s address first /\ code_at s (address + Z.of_nat (List.length first)) second.
Proof.
  revert address. induction first as [| byte rest IH]; intros address; cbn [app code_at List.length].
  - rewrite Z.add_0_r. tauto.
  - rewrite IH, Nat2Z.inj_succ.
    replace (address + 1 + Z.of_nat (List.length rest))
      with (address + Z.succ (Z.of_nat (List.length rest))) by lia.
    tauto.
Qed.

(** X24.  Rotations that undo each other.  For RLCA then RRCA, RLA then
    RRA, CPL twice, and with the CB prefix RLC A then RRC A, RL A then
    RR A, SWAP A twice (and each pair the other way round), executing
    the two instructions one after the other on a byte in A leaves A as
    it was; the pairs that rotate through the carry flag leave the carry
    flag as it was too.  Nothing but A, F and [pc] is written. *)
Theorem X24_inverse_rotations rev s first second restores_carry :
  halted (cpu s) = false ->
  In (first, second, restores_carry) inverse_pairs ->
  code_at s (pc (cpu s)) (first ++ second) ->
  0 <= a (cpu s) < 256 ->
  0 <= pc (cpu s) < 65536 ->
  let s' := cpu_execute_instruction rev (cpu_execute_instruction rev s) in
  cpu s'
  = with_f (f (cpu s'))
      (with_pc (u16 (pc (cpu s) + Z.of_nat (List.length (first ++ second)))) (cpu s))
  /\ (restores_carry = true -> get_flag FLAG_C s' = get_flag FLAG_C s)
  /\ (forall address, memory_read s' address = memory_read s address).
Proof.
  intros Hh Hin Hcode Hx Hpc s'.
  set (s1 := cpu_execute_instruction rev s) in *.
  change 256 with (Z.of_nat 256) in Hx.
  unfold get_flag.
  cbn [inverse_pairs In] in Hin.
  repeat (destruct Hin as [Hin | Hin]; [injection Hin as <- <- <- |]); try contradiction.
  all: cbn [code_at app] in Hcode; rewrite ?u16_add_l in Hcode;
    rewrite (u16_small (pc (cpu s))) in Hcode by exact Hpc;
    try replace (pc (cpu s) + 1 + 1 + 1) with (pc (cpu s) + 3) in Hcode by lia;
    try replace (pc (cpu s) + 1 + 1) with (pc (cpu s) + 2) in Hcode by lia;
    cbn [List.length app Z.of_nat Pos.of_succ_nat Pos.succ].
  1-5: destruct Hcode as (Hop1 & Hop2 & _);
    eassert (Hcpu1 : cpu s1 = _)
      by (subst s1; exec_opcode rev s Hh Hop1; reflexivity);
    assert (Hmem1 : forall address, memory_read s1 address = memory_read s address)
      by (subst s1; exec_opcode rev s Hh Hop1; same_memory rev s);
    assert (Hh1 : halted (cpu s1) = false) by (rewrite Hcpu1; exact Hh);
    assert (Hop1' : u8 (memory_read s1 (pc (cpu s1))) = u8 (memory_read s (u16 (pc (cpu s) + 1))))
      by (rewrite Hmem1, Hcpu1; reflexivity);
    rewrite Hop2 in Hop1';
    assert (Hmem2 : forall address, memory_read s' address = memory_read s1 address)
      by (subst s'; exec_opcode rev s1 Hh1 Hop1'; same_memory rev s1);
    (split; [| split; [| intros address; rewrite Hmem2; apply Hmem1]]);
    subst s'; exec_opcode rev s1 Hh1 Hop1'; rewrite Hcpu1;
    cbn [a f b c d e h l pc sp halted interrupts_enabled].
  11-15: destruct Hcode as (Hop1 & Hcb1 & Hop2 & Hcb2 & _);
    eassert (Hcpu1 : cpu s1 = _)
      by (subst s1; exec_cb rev s Hh Hop1 Hcb1; reflexivity);
    assert (Hmem1 : forall address, memory_read s1 address = memory_read s address)
      by (subst s1; exec_cb rev s Hh Hop1 Hcb1; same_memory rev s);
    assert (Hh1 : halted (cpu s1) = false) by (rewrite Hcpu1; exact Hh);
    assert (Hop1' : u8 (memory_read s1 (pc (cpu s1))) = u8 (memory_read s (u16 (pc (cpu s) + 2))))
      by (rewrite Hmem1, Hcpu1; cbn [pc]; rewrite pc_plus_2; reflexivity);
    assert (Hcb1' : u8 (memory_read s1 (u16 (pc (cpu s1) + 1)))
                    = u8 (memory_read s (u16 (pc (cpu s) + 3))))
      by (rewrite Hmem1, Hcpu1; cbn [pc]; rewrite u16_add_3; reflexivity);
    rewrite Hop2 in Hop1'; rewrite Hcb2 in Hcb1';
    assert (Hmem2 : forall address, memory_read s' address = memory_read s1 address)
      by (subst s'; exec_cb rev s1 Hh1 Hop1' Hcb1'; same_memory rev s1);
    (split; [| split; [| intros address; rewrite Hmem2; apply Hmem1]]);
    subst s'; exec_cb rev s1 Hh1 Hop1' Hcb1'; rewrite Hcpu1;
    cbn [a f b c d e h l pc sp halted interrupts_enabled].
  all: unfold with_f, with_pc; cbn [a f b c d e h l pc sp halted interrupts_enabled];
    rewrite ?u16_add_3, ?pc_plus_2.
  all: try (intros Hrc; try discriminate Hrc; clear Hrc).
  all: clear Hcpu1 Hmem1 Hh1 Hop1' Hmem2; try clear Hcb1'; clearbody s1.
  all: repeat match goal with
         | |- context [nonzero (f (cpu ?s0) .& ?m)] =>
             generalize (nonzero (f (cpu s0) .& m)); intros [|]
         end.
  all: try f_equal.
  all: try (rewrite !u16_add_l; f_equal; lia).
  all: revert Hx; generalize (a (cpu s)); intros x Hx; by_byte x Hx.
Qed.

Lemma X24_witness :
  let s := set_pc 0xC000
             (memory_write 0xC001 0x1F (memory_write 0xC000 0x17 (cpu_init cpu_c power_on))) in
  let s' := cpu_execute_instruction cpu_c (cpu_execute_instruction cpu_c s) in
  halted (cpu s) = false
  /\ In ([0x17], [0x1F], true) inverse_pairs
  /\ code_at s (pc (cpu s)) ([0x17] ++ [0x1F])
  /\ 0 <= a (cpu s) < 256
  /\ 0 <= pc (cpu s) < 65536
  /\ a (cpu (cpu_execute_instruction cpu_c s)) = 0x03
  /\ a (cpu s') = 0x01
  /\ get_flag FLAG_C s' = true.
Proof.
  intros s s'.
  assert (Hin : In ([0x17], [0x1F], true) inverse_pairs) by (cbn; auto).
  assert (Hcode : code_at s (pc (cpu s)) ([0x17] ++ [0x1F])) by (cbn; auto).
  assert (Hx : 0 <= a (cpu s) < 256)
    by (split; [apply Z.leb_le | apply Z.ltb_lt]; reflexivity).
  assert (Hpc : 0 <= pc (cpu s) < 65536)
    by (split; [apply Z.leb_le | apply Z.ltb_lt]; reflexivity).
  do 6 (split; [first [exact Hin | exact Hcode | exact Hx | exact Hpc | reflexivity] |]).
  destruct (X24_inverse_rotations cpu_c s [0x17] [0x1F] true eq_refl Hin Hcode Hx Hpc)
    as (Hcpu & Hcarry & _).
  split; [fold s' in Hcpu; rewrite Hcpu; reflexivity | exact (Hcarry eq_refl)].
Defined.
(** ** main.c: the emulation loop *)

Lemma renderer_update_others n m :
  cpu (ppu_renderer.ppu_update n m) = cpu m
  /\ timer_state (ppu_renderer.ppu_update n m) = timer_state m
  /\ current_cartridge (ppu_renderer.ppu_update n m) = current_cartridge m.
Proof.
  destruct (lcd_enabled_cases m) as [Hon | Hoff].
  2: { rewrite renderer_ppu_update_lcd_off by exact Hoff. repeat split. }
  unfold lcd_enabled in Hon.
  unfold ppu_renderer.ppu_update. cbv zeta.
  change (memory_read (set_cycles (u16 (cycles (ppu m) + u16 n)) m) LCDC)
    with (memory_read m LCDC).
  rewrite nonzero_land_0x80, Hon. cbn [negb].
  rewrite memory_write_cpu, memory_write_timer_state, memory_write_cartridge.
  destruct m as [cp mem cart tim [cy md ln fb fr fc] out lg].
  unfold set_cycles, set_line, set_mode, set_frame_ready.
  cbn [ppu set_ppu cycles mode line framebuffer frame_ready frame_count].
  unfold LY. rewrite !memory_write_io by lia.
  repeat match goal with
         | |- context [ppu_renderer.render_scanline ?ln' ?mm] =>
             let fb' := fresh "fb" in
             destruct (render_scanline_frame ln' mm) as [fb' ->]
         end.
  unfold set_framebuffer.
  cbn [ppu set_ppu set_memory memory cycles mode line framebuffer frame_ready frame_count].
  timing_cases cy md ln n; repeat split; try reflexivity.
  all: unfold ppu_renderer.GB_SCREEN_HEIGHT;
    repeat match goal with
           | |- context [if ?cond then _ else _] => destruct cond
           end; reflexivity.
Qed.

Lemma timer_update_others n m :
  cpu (timer_update n m) = cpu m
  /\ ppu (timer_update n m) = ppu m
  /\ current_cartridge (timer_update n m) = current_cartridge m.
Proof.
  unfold timer_update. cbv zeta.
  unfold set_divider_cycles, set_timer_cycles.
  repeat match goal with
         | |- context [if ?cond then _ else _] => destruct cond
         end;
    rewrite ?memory_write_cpu, ?memory_write_ppu, ?memory_write_cartridge;
    repeat split; reflexivity.
Qed.

Lemma update_timer_ranges m :
  0 <= divider_cycles (timer_state m) < 256 ->
  0 <= timer_cycles (timer_state m) < 1024 ->
  0 <= divider_cycles (timer_state (update_timer m)) < 256
  /\ 0 <= timer_cycles (timer_state (update_timer m)) < 1024.
Proof.
  intros Hd Ht. unfold update_timer.
  destruct (timer_update_effect 4 m ltac:(lia)) as (Hacc & _ & Htima & _).
  cbv zeta in Htima.
  rewrite (u16_small (divider_cycles (timer_state m) + 4)) in Hacc by lia.
  rewrite (u16_small (timer_cycles (timer_state m) + 4)) in Htima by lia.
  split.
  - rewrite Hacc. destruct (Z.leb_spec 256 (divider_cycles (timer_state m) + 4)); lia.
  - destruct (Z.testbit (u8 (memory_read m 65287)) 2).
    + destruct Htima as [-> _].
      pose proof (tima_period_cases (u8 (memory_read m 65287))) as Hp.
      destruct (Z.leb_spec (tima_period (u8 (memory_read m 65287)))
                  (timer_cycles (timer_state m) + 4)); lia.
    + destruct Htima as [-> _]. exact Ht.
Qed.

Lemma input_update_others ch st m :
  cpu (snd (input_update ch (st, m))) = cpu m
  /\ ppu (snd (input_update ch (st, m))) = ppu m
  /\ timer_state (snd (input_update ch (st, m))) = timer_state m
  /\ current_cartridge (snd (input_update ch (st, m))) = current_cartridge m.
Proof.
  unfold input_update. cbn [snd].
  rewrite memory_write_cpu, memory_write_ppu, memory_write_timer_state, memory_write_cartridge.
  repeat split.
Qed.

Lemma input_update_invariant ch st m :
  input_invariant st -> input_invariant (fst (input_update ch (st, m))).
Proof.
  intros H. unfold input_update. cbn [fst].
  destruct ch; [apply process_key_invariant |]; exact H.
Qed.

Lemma execute_cpu_cycle_invariant rev m :
  cpu_invariant m -> cpu_invariant (execute_cpu_cycle rev m).
Proof.
  intros H. unfold execute_cpu_cycle. destruct rev.
  - destruct (halted (cpu m)); [exact H |].
    apply cpu_execute_instruction_invariant. exact H.
  - apply cpu_execute_instruction_invariant. exact H.
Qed.

Lemma cpu_invariant_cpu m m' : cpu m' = cpu m -> cpu_invariant m -> cpu_invariant m'.
Proof. unfold cpu_invariant. intros ->. exact (fun H => H). Qed.

Lemma emulation_step_invariant rev ch s :
  console_invariant s -> console_invariant (emulation_step rev ch s).
Proof.
  destruct s as [st m]. unfold console_invariant, emulation_step.
  intros (Hcpu & Hml & Hpic & Hin & Hd & Ht).
  set (m1 := execute_cpu_cycle rev m).
  destruct (execute_cpu_cycle_devices rev m) as (Hppu1 & Htim1 & _). fold m1 in Hppu1, Htim1.
  assert (Hcpu1 : cpu_invariant m1) by (apply execute_cpu_cycle_invariant; exact Hcpu).
  assert (Hml1 : mode_line_invariant m1)
    by (apply (mode_line_invariant_ppu m); assumption).
  set (m2 := ppu_renderer.update_ppu m1).
  destruct (renderer_update_others 4 m1) as (Hcpu2 & Htim2 & _).
  fold (ppu_renderer.update_ppu m1) in Hcpu2, Htim2. fold m2 in Hcpu2, Htim2.
  assert (Hml2 : mode_line_invariant m2) by (apply renderer_update_invariant; exact Hml1).
  assert (Hpic2 : picture_invariant (framebuffer (ppu m2))).
  { apply renderer_update_picture; [exact Hml1 | rewrite Hppu1; exact Hpic]. }
  unfold handle_input.
  destruct (input_update_others ch st m2) as (Hcpu3 & Hppu3 & Htim3 & _).
  pose proof (input_update_invariant ch st m2 Hin) as Hin3.
  destruct (input_update ch (st, m2)) as [st3 m3]. cbn [fst snd] in *.
  destruct (timer_update_others 4 m3) as (Hcpu4 & Hppu4 & _).
  fold (update_timer m3) in Hcpu4, Hppu4.
  destruct (update_timer_ranges m3) as [Hd4 Ht4]; [congruence | congruence |].
  split; [apply (cpu_invariant_cpu m1); [congruence | exact Hcpu1] |].
  split; [apply (mode_line_invariant_ppu m2); [congruence | exact Hml2] |].
  split; [rewrite Hppu4, Hppu3; exact Hpic2 |].
  auto.
Qed.

Lemma main_iteration_invariant rev ch s :
  console_invariant s -> console_invariant (main_iteration rev ch s).
Proof.
  intros H. unfold main_iteration.
  pose proof (emulation_step_invariant rev ch s H) as Hstep.
  destruct (emulation_step rev ch s) as [st m].
  destruct (ppu_renderer.ppu_is_frame_ready m); [| exact Hstep].
  exact Hstep.
Qed.

Lemma emulate_invariant rev keys : forall s,
  console_invariant s -> console_invariant (emulate rev keys s).
Proof.
  unfold emulate. induction keys as [| ch keys IH]; intros s H; cbn [fold_left].
  - exact H.
  - apply IH. apply main_iteration_invariant. exact H.
Qed.

Lemma memory_write_stdout address value m :
  stdout (memory_write address value m) = stdout m.
Proof.
  unfold memory_write.
  destruct (u16 address <? 0x8000); [reflexivity |].
  destruct ((u16 address >=? 0xE000) && (u16 address <? 0xFE00)); reflexivity.
Qed.

Lemma memory_write_io_memory address value m :
  0xFE00 <= address < 65536 ->
  memory (memory_write address value m) = store address (u8 value) (memory m).
Proof. intros H. rewrite memory_write_io by exact H. reflexivity. Qed.

Ltac through_writes :=
  repeat first
    [ rewrite memory_write_cpu
    | rewrite memory_write_ppu
    | rewrite memory_write_timer_state
    | rewrite memory_write_cartridge
    | rewrite memory_write_stdout
    | rewrite memory_write_io_memory by (cbv; split; [discriminate | reflexivity]) ].

Lemma timer_init_effect m :
  cpu (timer_init m) = cpu m
  /\ ppu (timer_init m) = ppu m
  /\ timer_state (timer_init m) = mkTimer 0 0
  /\ memory (timer_init m)
     = store 0xFF07 0 (store 0xFF06 0 (store 0xFF05 0 (store 0xFF04 0 (memory m))))
  /\ current_cartridge (timer_init m) = current_cartridge m
  /\ stdout (timer_init m) = stdout m.
Proof.
  unfold timer_init. cbv zeta. through_writes. repeat split.
Qed.

Lemma ppu_init_effect m :
  cpu (ppu_renderer.ppu_init m) = cpu m
  /\ ppu (ppu_renderer.ppu_init m) = mkPPU 0 0 0 ppu_renderer.cleared_framebuffer false 0
  /\ timer_state (ppu_renderer.ppu_init m) = timer_state m
  /\ memory (ppu_renderer.ppu_init m)
     = store BGP 0xFC (store LYC 0 (store LY 0 (store SCX 0 (store SCY 0
         (store STAT 0 (store LCDC 0x91 (memory m)))))))
  /\ current_cartridge (ppu_renderer.ppu_init m) = current_cartridge m
  /\ stdout (ppu_renderer.ppu_init m) = stdout m.
Proof.
  unfold ppu_renderer.ppu_init. cbv zeta. through_writes. repeat split.
Qed.

Lemma cpu_init_effect rev m :
  cpu (cpu_init rev m)
  = mkCPU 0x01 0xB0 0x00 0x13 0x00 0xD8 0x01 0x4D 0x0100 0xFFFE false false
  /\ ppu (cpu_init rev m) = ppu m
  /\ timer_state (cpu_init rev m) = timer_state m
  /\ memory (cpu_init rev m) = memory m
  /\ current_cartridge (cpu_init rev m) = current_cartridge m
  /\ stdout (cpu_init rev m) = stdout m.
Proof.
  unfold cpu_init. cbv zeta. destruct rev; [| repeat split].
  unfold logger_log. cbn [log_file set_cpu]. destruct (log_file m); repeat split.
Qed.

Lemma emulator_init_effect rev st0 m0 :
  let '(st, m) := emulator_init rev (st0, m0) in
  st = mkInput 0x0F 0x0F
  /\ cpu m = mkCPU 0x01 0xB0 0x00 0x13 0x00 0xD8 0x01 0x4D 0x0100 0xFFFE false false
  /\ ppu m = mkPPU 0 0 0 ppu_renderer.cleared_framebuffer false 0
  /\ timer_state m = mkTimer 0 0
  /\ (forall i, memory m i
                = if i =? LCDC then 0x91
                  else if i =? BGP then 0xFC
                  else if i =? JOYPAD_REG then 0xFF
                  else 0)
  /\ current_cartridge m = current_cartridge m0
  /\ stdout m = stdout m0.
Proof.
  unfold emulator_init, init_input, input_init. cbn [snd].
  set (m1 := memory_init m0).
  destruct (cpu_init_effect rev m1) as (Hc2 & Hp2 & Ht2 & Hm2 & Hk2 & Ho2).
  set (m2 := cpu_init rev m1) in *.
  destruct (ppu_init_effect m2) as (Hc3 & Hp3 & Ht3 & Hm3 & Hk3 & Ho3).
  set (m3 := ppu_renderer.ppu_init m2) in *.
  destruct (timer_init_effect m3) as (Hc4 & Hp4 & Ht4 & Hm4 & Hk4 & Ho4).
  set (m4 := timer_init m3) in *.
  unfold JOYPAD_REG. through_writes.
  split; [reflexivity |].
  split; [congruence |].
  split; [congruence |].
  split; [congruence |].
  split; [| split; [rewrite Hk4, Hk3, Hk2; reflexivity | rewrite Ho4, Ho3, Ho2; reflexivity]].
  intros i. rewrite Hm4, Hm3, Hm2. subst m1. cbn [memory_init set_memory memory].
  unfold store, BGP, LYC, LY, SCX, SCY, STAT, LCDC.
  repeat match goal with
         | |- context [i =? ?k] => destruct (Z.eqb_spec i k); [subst i; try reflexivity |]
         end.
  all: try lia.
  all: reflexivity.
Qed.

(** X25.  What start-up leaves behind.  Whatever the state before, after
    the five initialisers of [main] the key state is all released, the
    registers hold the values the boot ROM would leave, the PPU is at
    cycle 0 of line 0 in mode 0 with a blank picture and no frame
    ready, the timer accumulators are 0, and the whole memory array is 0
    except LCDC = 0x91, BGP = 0xFC and the joypad register = 0xFF: no
    initialiser undoes what an earlier one set up.  The cartridge and
    what was printed are untouched. *)
Theorem X25_boot_state rev st0 m0 :
  let '(st, m) := emulator_init rev (st0, m0) in
  st = mkInput 0x0F 0x0F
  /\ cpu m = mkCPU 0x01 0xB0 0x00 0x13 0x00 0xD8 0x01 0x4D 0x0100 0xFFFE false false
  /\ ppu m = mkPPU 0 0 0 ppu_renderer.cleared_framebuffer false 0
  /\ timer_state m = mkTimer 0 0
  /\ (forall i, memory m i
                = if i =? LCDC then 0x91
                  else if i =? BGP then 0xFC
                  else if i =? JOYPAD_REG then 0xFF
                  else 0)
  /\ current_cartridge m = current_cartridge m0
  /\ stdout m = stdout m0.
Proof. exact (emulator_init_effect rev st0 m0). Qed.


Lemma cartridge_load_others outcome fresh_title fresh_type m :
  let m' := snd (cartridge_load outcome fresh_title fresh_type m) in
  cpu m' = cpu m /\ ppu m' = ppu m /\ timer_state m' = timer_state m /\ memory m' = memory m.
Proof.
  destruct outcome; cbn [cartridge_load snd]; try (repeat split; reflexivity).
  destruct (Z.of_nat (List.length bytes) >=? 0x150); repeat split; reflexivity.
Qed.

(** X26.  The emulator as a whole.  Once [main] has initialised the
    components and loaded a ROM, whatever the ROM contains and whatever
    keys arrive, after any number of passes through the emulation loop
    (CPU, PPU, input, timer, and the frame being drawn when one is
    ready) the flags register has its low nibble clear and [pc] and [sp]
    are 16-bit values, the PPU mode matches its line, no cell outside
    the picture has been written and every pixel is a pair of valid
    characters, the key state is two nibbles, and the timer accumulators
    are below 256 and 1024. *)
Theorem X26_console_invariant rev outcome fresh_title fresh_type s0 keys s :
  emulator_start rev outcome fresh_title fresh_type s0 = Some s ->
  console_invariant (emulate rev keys s).
Proof.
  intros Hstart. apply emulate_invariant.
  unfold emulator_start in Hstart. destruct s0 as [st0 m0].
  pose proof (emulator_init_effect rev st0 m0) as Hinit.
  destruct (emulator_init rev (st0, m0)) as [st m].
  destruct Hinit as (Hst & Hcpu & Hppu & Htimer & _).
  unfold load_cartridge in Hstart.
  pose proof (cartridge_load_others outcome fresh_title fresh_type m) as Hload.
  destruct (cartridge_load outcome fresh_title fresh_type m) as [[ok msgs] m'].
  cbn [snd] in Hload. destruct Hload as (Hcpu' & Hppu' & Htimer' & _).
  destruct ok; [| discriminate Hstart]. injection Hstart as <-.
  unfold console_invariant, cpu_invariant, mode_line_invariant, input_invariant.
  rewrite Hcpu', Hppu', Htimer', Hcpu, Hppu, Htimer, Hst.
  cbn [f pc sp cycles mode line framebuffer buttons directions divider_cycles timer_cycles].
  split; [split; [reflexivity | lia] |].
  split; [unfold HBlank, OAMScan, PixelTransfer, VBlank; lia |].
  split; [apply cleared_framebuffer_picture |].
  lia.
Qed.

Lemma X26_witness :
  let rom := [0x3E; 0x42; 0x18; 0xFE] in
  let keys := [None; Some 119; Some 87; None] in
  exists s,
    emulator_start part_001 (Read_succeeds rom) (repeat 0 16) 0
      (mkInput 0 0, power_on) = Some s
    /\ console_invariant (emulate part_001 keys s).
Proof.
  intros rom keys. eexists. split; [reflexivity |].
  apply (X26_console_invariant part_001 (Read_succeeds rom) (repeat 0 16) 0
           (mkInput 0 0, power_on) keys).
  reflexivity.
Defined.
(** ** ppu.c: the two revisions *)

(** X27.  The two revisions of [ppu_update] against each other.  With
    the LCD on they are the same machine as far as the program can see:
    after a call with the same cycles from the same state, the cycle
    accumulator, the mode and the line are equal and every address reads
    the same (LY and STAT included), so the renderer revision adds the
    picture and the frame-ready flag and changes nothing else.  With the
    LCD off they differ: ppu.c leaves the accumulator alone, the
    renderer revision still adds the cycles to it. *)
Theorem X27_revisions_agree n m :
  (lcd_enabled m = true ->
   clock (timing_of (ppu_c.ppu_update n m))
   = clock (timing_of (ppu_renderer.ppu_update n m))
   /\ (forall address,
         memory_read (ppu_c.ppu_update n m) address
         = memory_read (ppu_renderer.ppu_update n m) address))
  /\ (lcd_enabled m = false ->
      cycles (ppu (ppu_c.ppu_update n m)) = cycles (ppu m)
      /\ cycles (ppu (ppu_renderer.ppu_update n m)) = u16 (cycles (ppu m) + u16 n)).
Proof.
  split.
  - intros Hon.
    destruct (ppu_c_update_timing n m Hon) as [Hc _].
    destruct (ppu_update_timing n m Hon) as [Hr _].
    split; [rewrite Hc, Hr; reflexivity |].
    intros address.
    unfold lcd_enabled in Hon.
    unfold ppu_c.ppu_update, ppu_renderer.ppu_update. cbv zeta.
    change (memory_read (set_cycles (u16 (cycles (ppu m) + u16 n)) m) LCDC)
      with (memory_read m LCDC).
    rewrite nonzero_land_0x80, Hon. cbn [negb].
    apply memory_read_ext.
    + rewrite !memory_write_cartridge.
      destruct m as [cp mem cart tim [cy md ln fb fr fc] out lg].
      unfold set_cycles, set_line, set_mode, set_frame_ready.
      cbn [ppu set_ppu cycles mode line framebuffer frame_ready frame_count].
      unfold LY. rewrite ?memory_write_io by lia.
      repeat match goal with
             | |- context [ppu_renderer.render_scanline ?ln' ?mm] =>
                 let fb' := fresh "fb" in
                 destruct (render_scanline_frame ln' mm) as [fb' ->]
             end.
      timing_cases cy md ln n;
        repeat match goal with
               | |- context [if ?cond then _ else _] => destruct cond
               end;
        rewrite ?memory_write_cartridge; reflexivity.
    + unfold STAT. rewrite !memory_write_io by lia.
      destruct m as [cp mem cart tim [cy md ln fb fr fc] out lg].
      unfold set_cycles, set_line, set_mode, set_frame_ready.
      cbn [ppu set_ppu cycles mode line framebuffer frame_ready frame_count].
      unfold LY. rewrite ?memory_write_io by lia.
      repeat match goal with
             | |- context [ppu_renderer.render_scanline ?ln' ?mm] =>
                 let fb' := fresh "fb" in
                 destruct (render_scanline_frame ln' mm) as [fb' ->]
             end.
      unfold set_framebuffer.
      cbn [ppu set_ppu set_memory memory cycles mode line framebuffer frame_ready frame_count].
      timing_cases cy md ln n;
        repeat match goal with
               | |- context [if ?cond then _ else _] => destruct cond eqn:?
               end;
        rewrite ?memory_write_io by lia;
        cbn [ppu set_ppu set_memory memory cycles mode line framebuffer frame_ready frame_count];
        rewrite ?memory_read_ram by lia;
        cbn [ppu set_ppu set_memory memory cycles mode line framebuffer frame_ready frame_count];
        unfold store; cbn [Z.eqb Pos.eqb];
        repeat match goal with
               | |- context [u16 address =? ?k] => destruct (u16 address =? k)
               end;
        try reflexivity; try congruence.
  - intros Hoff. unfold lcd_enabled in Hoff.
    rewrite ppu_c_update_lcd_off, renderer_ppu_update_lcd_off by exact Hoff.
    split; reflexivity.
Qed.

Lemma X27_witness :
  let on := ppu_renderer.ppu_init power_on in
  let off := memory_write LCDC 0x11 on in
  lcd_enabled on = true
  /\ clock (timing_of (ppu_c.ppu_update 204 on))
     = clock (timing_of (ppu_renderer.ppu_update 204 on))
  /\ lcd_enabled off = false
  /\ cycles (ppu (ppu_c.ppu_update 204 off)) = 0
  /\ cycles (ppu (ppu_renderer.ppu_update 204 off)) = 204.
Proof.
  intros on off.
  destruct (X27_revisions_agree 204 on) as [Hon _].
  destruct (X27_revisions_agree 204 off) as [_ Hoff].
  split; [reflexivity |].
  split; [exact (proj1 (Hon eq_refl)) |].
  split; [reflexivity |].
  exact (Hoff eq_refl).
Defined.
(** ** ppu.c (renderer): what a scanline shows *)

Lemma render_pixel_effect row scroll_x palette bg_map_addr tdu tdb tile_row tile_y m pixel :
  ppu_renderer.render_pixel row scroll_x palette bg_map_addr tdu tdb tile_row tile_y m pixel
  = let ch := ppu_renderer.pixel_chars
                (pixel_shade scroll_x palette bg_map_addr tdu tdb tile_row tile_y m pixel) in
    set_framebuffer
      (ppu_renderer.fb_store row (pixel * 2 + 1) (snd ch)
         (ppu_renderer.fb_store row (pixel * 2) (fst ch) (framebuffer (ppu m)))) m.
Proof. reflexivity. Qed.

Lemma pixel_shade_set_framebuffer scroll_x palette bg_map_addr tdu tdb tile_row tile_y fb m pixel :
  pixel_shade scroll_x palette bg_map_addr tdu tdb tile_row tile_y (set_framebuffer fb m) pixel
  = pixel_shade scroll_x palette bg_map_addr tdu tdb tile_row tile_y m pixel.
Proof. reflexivity. Qed.

Lemma pixel_chars_pair color :
  snd (ppu_renderer.pixel_chars color) = fst (ppu_renderer.pixel_chars color).
Proof. symmetry. apply pixel_chars_shade. Qed.

(** The pixel loop from pixel [start] on: the cells of the pixels it has
    gone through hold their shades, every other cell is as before. *)
Lemma render_pixels_effect row scroll_x palette bg_map_addr tdu tdb tile_row tile_y count :
  forall start m,
    exists fb,
      fold_left (ppu_renderer.render_pixel row scroll_x palette bg_map_addr tdu tdb
                   tile_row tile_y)
        (map Z.of_nat (seq start count)) m
      = set_framebuffer fb m
      /\ forall y x,
           fb y x
           = if (y =? row) && (2 * Z.of_nat start <=? x) && (x <? 2 * Z.of_nat (start + count))
             then fst (ppu_renderer.pixel_chars
                         (pixel_shade scroll_x palette bg_map_addr tdu tdb tile_row tile_y
                            m (x / 2)))
             else framebuffer (ppu m) y x.
Proof.
  induction count as [| count IH]; intros start m.
  - exists (framebuffer (ppu m)). split.
    + cbn [seq map fold_left]. symmetry. apply set_framebuffer_same.
    + intros y x. rewrite Nat.add_0_r.
      destruct (Z.leb_spec (2 * Z.of_nat start) x); destruct (Z.ltb_spec x (2 * Z.of_nat start));
        try lia; rewrite ?andb_false_r; reflexivity.
  - cbn [seq map fold_left]. rewrite render_pixel_effect. cbv zeta.
    rewrite pixel_chars_pair.
    set (ch := fst (ppu_renderer.pixel_chars (pixel_shade scroll_x palette bg_map_addr tdu tdb
                      tile_row tile_y m (Z.of_nat start)))).
    set (fb1 := ppu_renderer.fb_store row (Z.of_nat start * 2 + 1) ch
                  (ppu_renderer.fb_store row (Z.of_nat start * 2) ch (framebuffer (ppu m)))).
    destruct (IH (S start) (set_framebuffer fb1 m)) as (fb & Hfold & Hfb).
    exists fb. split.
    + rewrite Hfold. apply set_framebuffer_twice.
    + intros y x. rewrite Hfb. clear Hfb Hfold.
      change (framebuffer (ppu (set_framebuffer fb1 m))) with fb1.
      rewrite pixel_shade_set_framebuffer.
      replace (start + S count)%nat with (S start + count)%nat by lia.
      destruct (Z.eqb_spec y row) as [-> | Hy]; cbn [andb]; [| subst fb1].
      * destruct (Z.ltb_spec x (2 * Z.of_nat (S start + count))); rewrite ?andb_false_r, ?andb_true_r.
        -- destruct (Z.leb_spec (2 * Z.of_nat (S start)) x);
             destruct (Z.leb_spec (2 * Z.of_nat start) x); try lia; try reflexivity.
           ++ subst fb1. unfold ppu_renderer.fb_store. rewrite Z.eqb_refl. cbn [andb].
              assert (Hx : x = Z.of_nat start * 2 \/ x = Z.of_nat start * 2 + 1) by lia.
              assert (Hdiv : x / 2 = Z.of_nat start)
                by (destruct Hx; subst x; Z.div_mod_to_equations; lia).
              rewrite Hdiv. fold ch.
              destruct (Z.eqb_spec x (Z.of_nat start * 2 + 1)); [reflexivity |].
              destruct (Z.eqb_spec x (Z.of_nat start * 2)); [reflexivity | lia].
           ++ subst fb1. unfold ppu_renderer.fb_store. rewrite Z.eqb_refl. cbn [andb].
              destruct (Z.eqb_spec x (Z.of_nat start * 2 + 1)); [lia |].
              destruct (Z.eqb_spec x (Z.of_nat start * 2)); [lia | reflexivity].
        -- destruct (Z.leb_spec (2 * Z.of_nat (S start)) x); cbn [andb];
             subst fb1; unfold ppu_renderer.fb_store; rewrite Z.eqb_refl; cbn [andb];
             (destruct (Z.eqb_spec x (Z.of_nat start * 2 + 1)); [lia |]);
             (destruct (Z.eqb_spec x (Z.of_nat start * 2)); [lia | reflexivity]).
      * unfold ppu_renderer.fb_store.
        destruct (Z.eqb_spec y row); [contradiction |]. reflexivity.
Qed.
Lemma int8_plus_128 x : 0 <= x < 256 -> int8_t x + 128 = (x + 128) mod 256.
Proof.
  intros H. unfold int8_t. cbv zeta. rewrite (u8_small x H).
  destruct (Z.ltb_spec x 128); Z.div_mod_to_equations; lia.
Qed.

Lemma land_shiftr_1 x k : 0 <= k -> Z.land (Z.shiftr x k) 0x01 = Z.b2z (Z.testbit x k).
Proof.
  intros Hk. change 0x01 with (Z.ones 1). rewrite Z.land_ones by lia.
  change (2 ^ 1) with 2. rewrite <- Z.bit0_mod. rewrite Z.shiftr_spec by lia.
  reflexivity.
Qed.

Lemma get_color_arith palette (high low : bool) :
  0 <= palette < 256 ->
  ppu_renderer.get_color palette
    (u8 (Z.lor (u8 (Z.shiftl (Z.b2z high) 1)) (Z.b2z low)))
  = (palette / 4 ^ (2 * Z.b2z high + Z.b2z low)) mod 4.
Proof.
  intros H. unfold ppu_renderer.get_color. cbv zeta.
  rewrite (u8_small palette H).
  change 0x03 with (Z.ones 2).
  destruct high, low; cbn [Z.b2z];
    match goal with
    | |- context [u8 (Z.lor ?a ?b)] =>
        let v := eval vm_compute in (u8 (u8 (Z.lor a b)) * 2) in
        change (u8 (u8 (Z.lor a b)) * 2) with v
    end;
    rewrite Z.land_ones, Z.shiftr_div_pow2 by lia;
    cbn [Z.mul Z.add Pos.mul Pos.add Z.pow Z.pow_pos Pos.iter];
    (apply u8_small; Z.div_mod_to_equations; lia).
Qed.

(** The shade the loop computes, in terms of the registers. *)
Lemma pixel_shade_background m row pixel :
  0 <= row < 256 -> 0 <= pixel < 256 ->
  let lcdc := u8 (memory_read m LCDC) in
  let scroll_y := u8 (memory_read m SCY) in
  let tile_data_unsigned := nonzero (Z.land lcdc 0x10) in
  let bg_y := u8 (Z.land (row + scroll_y) 0xFF) in
  pixel_shade (u8 (memory_read m SCX)) (u8 (memory_read m BGP))
    (if nonzero (Z.land lcdc 0x08) then ppu_renderer.BG_MAP_1 else ppu_renderer.BG_MAP_0)
    tile_data_unsigned
    (if tile_data_unsigned then ppu_renderer.TILE_DATA_TABLE_0
     else ppu_renderer.TILE_DATA_TABLE_2)
    (u8 (bg_y / 8)) (u8 (bg_y mod 8)) m pixel
  = background_shade m row pixel.
Proof.
  intros Hrow Hpixel. cbv zeta. unfold pixel_shade, background_shade. cbv zeta.
  replace (nonzero (Z.land (u8 (memory_read m LCDC)) 0x10))
    with (Z.testbit (u8 (memory_read m LCDC)) 4)
    by (symmetry; apply (nonzero_land_pow2 _ 4); lia).
  replace (nonzero (Z.land (u8 (memory_read m LCDC)) 0x08))
    with (Z.testbit (u8 (memory_read m LCDC)) 3)
    by (symmetry; apply (nonzero_land_pow2 _ 3); lia).
  rewrite <- !u8_land_255, !u8_idem.
  pose proof (u8_range (memory_read m SCX)) as Hsx.
  pose proof (u8_range (memory_read m SCY)) as Hsy.
  pose proof (u8_range (memory_read m BGP)) as Hbgp.
  set (sx := u8 (memory_read m SCX)) in *.
  set (sy := u8 (memory_read m SCY)) in *.
  set (lcdc := u8 (memory_read m LCDC)).
  change (u8 (pixel + sx)) with ((pixel + sx) mod 256).
  change (u8 (row + sy)) with ((row + sy) mod 256).
  pose proof (Z.mod_pos_bound (pixel + sx) 256 ltac:(lia)) as Hx.
  pose proof (Z.mod_pos_bound (row + sy) 256 ltac:(lia)) as Hy.
  set (bg_x := (pixel + sx) mod 256) in *.
  set (bg_y := (row + sy) mod 256) in *.
  assert (Hx8 : 0 <= bg_x / 8 < 32) by (Z.div_mod_to_equations; lia).
  assert (Hy8 : 0 <= bg_y / 8 < 32) by (Z.div_mod_to_equations; lia).
  assert (Hxm : 0 <= bg_x mod 8 < 8) by (apply Z.mod_pos_bound; lia).
  assert (Hym : 0 <= bg_y mod 8 < 8) by (apply Z.mod_pos_bound; lia).
  rewrite (u8_small (bg_x / 8)), (u8_small (bg_y / 8)), (u8_small (bg_x mod 8)),
    (u8_small (bg_y mod 8)), (u8_small (7 - bg_x mod 8)) by lia.
  unfold ppu_renderer.BG_MAP_1, ppu_renderer.BG_MAP_0,
    ppu_renderer.TILE_DATA_TABLE_0, ppu_renderer.TILE_DATA_TABLE_2.
  set (map_base := if Z.testbit lcdc 3 then 0x9C00 else 0x9800).
  assert (Hbase : map_base = 0x9C00 \/ map_base = 0x9800)
    by (subst map_base; destruct (Z.testbit lcdc 3); auto).
  rewrite (u16_small (map_base + bg_y / 8 * 32 + bg_x / 8)) by lia.
  replace (map_base + bg_y / 8 * 32 + bg_x / 8) with (map_base + 32 * (bg_y / 8) + bg_x / 8)
    by lia.
  pose proof (u8_range (memory_read m (map_base + 32 * (bg_y / 8) + bg_x / 8))) as Ht.
  set (tile_num := u8 (memory_read m (map_base + 32 * (bg_y / 8) + bg_x / 8))) in *.
  pose proof (Z.mod_pos_bound (tile_num + 128) 256 ltac:(lia)) as Hsigned.
  set (tile_addr := if Z.testbit lcdc 4 then 0x8000 + 16 * tile_num
                    else 0x9000 + 16 * ((tile_num + 128) mod 256)).
  assert (Hrange : 0x8000 <= tile_addr < 0xA000)
    by (subst tile_addr; destruct (Z.testbit lcdc 4); lia).
  match goal with
  | |- context [if Z.testbit lcdc 4 then u16 ?x else u16 ?y] =>
      replace (if Z.testbit lcdc 4 then u16 x else u16 y) with tile_addr
  end.
  2: { subst tile_addr. destruct (Z.testbit lcdc 4).
       - rewrite u16_small by lia. lia.
       - rewrite int8_plus_128 by exact Ht. rewrite u16_small by lia. lia. }
  rewrite (u16_small (tile_addr + bg_y mod 8 * 2)) by lia.
  replace (tile_addr + bg_y mod 8 * 2) with (tile_addr + 2 * (bg_y mod 8)) by lia.
  rewrite !land_shiftr_1 by lia.
  apply get_color_arith. exact Hbgp.
Qed.

(** X28.  What [render_scanline] draws.  With the LCD and the background
    on (bits 7 and 0 of LCDC) a call for a visible row changes the frame
    buffer and nothing else, and in it exactly the 320 cells of that row:
    cells 2p and 2p+1 hold the character of the shade of pixel p, which is
    read off the registers as follows.  The pixel is at (p + SCX) mod 256,
    (row + SCY) mod 256 of the background; the tile number comes from the
    32 x 32 map at 0x9C00 or 0x9800 (bit 3 of LCDC); the two bytes of the
    tile's row are at 0x8000 + 16 n for bit 4 of LCDC set, and at
    0x9000 + 16 ((n + 128) mod 256) for bit 4 clear; the bit 7 - x mod 8 of
    the high and the low byte give the colour number, and BGP maps it to
    the shade.  With either bit clear the call changes nothing. *)
Theorem X28_scanline row m :
  0 <= row < ppu_renderer.GB_SCREEN_HEIGHT ->
  let lcdc := u8 (memory_read m LCDC) in
  (Z.testbit lcdc 7 && Z.testbit lcdc 0 = true ->
   exists fb,
     ppu_renderer.render_scanline row m = set_framebuffer fb m
     /\ forall y x,
          fb y x
          = if (y =? row) && (0 <=? x) && (x <? 2 * ppu_renderer.GB_SCREEN_WIDTH)
            then fst (ppu_renderer.pixel_chars (background_shade m row (x / 2)))
            else framebuffer (ppu m) y x)
  /\ (Z.testbit lcdc 7 && Z.testbit lcdc 0 = false ->
      ppu_renderer.render_scanline row m = m).
Proof.
  intros Hrow lcdc.
  unfold ppu_renderer.GB_SCREEN_HEIGHT in Hrow. unfold ppu_renderer.GB_SCREEN_WIDTH.
  assert (Hbits : negb (nonzero (Z.land lcdc 0x80)) || negb (nonzero (Z.land lcdc 0x01))
                  = negb (Z.testbit lcdc 7 && Z.testbit lcdc 0)).
  { change (Z.land lcdc 0x80) with (Z.land lcdc (2 ^ 7)).
    change (Z.land lcdc 0x01) with (Z.land lcdc (2 ^ 0)).
    rewrite (nonzero_land_pow2 lcdc 7), (nonzero_land_pow2 lcdc 0) by lia.
    destruct (Z.testbit lcdc 7), (Z.testbit lcdc 0); reflexivity. }
  unfold ppu_renderer.render_scanline. cbv zeta. fold lcdc. rewrite Hbits.
  rewrite (u8_small row) by lia.
  split; intros Hon; rewrite Hon; cbn [negb]; [| reflexivity].
  match goal with
  | |- context [fold_left (ppu_renderer.render_pixel row ?sx ?pal ?map ?tdu ?tdb ?tr ?ty)] =>
      destruct (render_pixels_effect row sx pal map tdu tdb tr ty 160 0%nat m)
        as (fb & Hfold & Hfb)
  end.
  exists fb. split; [exact Hfold |].
  intros y x. rewrite Hfb. clear Hfb Hfold.
  change (2 * Z.of_nat 0) with 0. change (2 * Z.of_nat (0 + 160)) with (2 * 160).
  destruct ((y =? row) && (0 <=? x) && (x <? 2 * 160)) eqn:Hin; [| reflexivity].
  apply andb_prop in Hin. destruct Hin as [Hin Hhi].
  apply andb_prop in Hin. destruct Hin as [_ Hlo].
  apply Z.leb_le in Hlo. apply Z.ltb_lt in Hhi.
  do 2 f_equal.
  apply pixel_shade_background; [lia |].
  Z.div_mod_to_equations; lia.
Qed.

Lemma X28_witness :
  let m := memory_write 0x8000 0xFF (ppu_renderer.ppu_init power_on) in
  0 <= 0 < ppu_renderer.GB_SCREEN_HEIGHT
  /\ framebuffer (ppu m) 0 5 = " "%char
  /\ framebuffer (ppu (ppu_renderer.render_scanline 0 m)) 0 5 = "@"%char
  /\ framebuffer (ppu (ppu_renderer.render_scanline 0 m)) 1 5 = " "%char.
Proof.
  intros m.
  assert (Hrow : 0 <= 0 < ppu_renderer.GB_SCREEN_HEIGHT) by (split; reflexivity).
  split; [exact Hrow |]. split; [reflexivity |].
  destruct (X28_scanline 0 m Hrow) as [Hon _].
  destruct (Hon eq_refl) as (fb & Heq & Hfb).
  rewrite Heq. change (framebuffer (ppu (set_framebuffer fb m))) with fb.
  rewrite !Hfb. split; reflexivity.
Defined.

(** ** cpu.c: relative jumps *)

Lemma displacement_range s : -128 <= displacement s < 128.
Proof.
  unfold displacement, int8_t. cbv zeta.
  pose proof (u8_range (memory_read s (u16 (pc (cpu s) + 1)))) as H.
  destruct (Z.ltb_spec (u8 (memory_read s (u16 (pc (cpu s) + 1)))) 128); lia.
Qed.

(** JR, JR NZ and JR Z: the operand is consumed in both cases; a taken
    jump adds it, as a signed byte, to the address after it. *)
Lemma jr_effect rev s opcode cc :
  halted (cpu s) = false ->
  u8 (memory_read s (pc (cpu s))) = opcode ->
  In (opcode, cc) jr_opcodes ->
  let s' := cpu_execute_instruction rev s in
  cpu s'
  = with_pc (u16 (pc (cpu s) + 2 + (if taken cc s then displacement s else 0))) (cpu s)
  /\ (forall address, memory_read s' address = memory_read s address).
Proof.
  intros Hh Hop Hin s'. subst s'.
  unfold jr_opcodes in Hin. cbn [In] in Hin.
  repeat (destruct Hin as [Hin | Hin]; [injection Hin as <- <- |]); try contradiction.
  all: exec_opcode rev s Hh Hop; unfold taken, condition_holds, get_flag, displacement.
  all: repeat match goal with
         | |- context [if ?cond then _ else _] =>
             lazymatch cond with
             | context [Z.land] => destruct cond eqn:?
             end
         end; cbn [negb].
  all: split;
    [ cpu_simpl; unfold with_pc; cbn [a f b c d e h l pc sp halted interrupts_enabled];
      rewrite ?pc_plus_2, ?u16_add_l; do 2 f_equal; lia
    | intros address;
      try change (memory_read (set_pc ?x ?m) address) with (memory_read m address);
      apply fetched_memory_read ].
Qed.

Lemma with_pc_same r : with_pc (pc r) r = r.
Proof. destruct r. reflexivity. Qed.

(** A taken relative jump with operand 0xFE goes back to itself for ever. *)
Lemma jr_loop rev opcode cc n :
  In (opcode, cc) jr_opcodes ->
  forall s,
    halted (cpu s) = false ->
    u8 (memory_read s (pc (cpu s))) = opcode ->
    taken cc s = true -> displacement s = -2 -> 0 <= pc (cpu s) < 65536 ->
    cpu (iterate (cpu_execute_instruction rev) n s) = cpu s
    /\ (forall address,
          memory_read (iterate (cpu_execute_instruction rev) n s) address
          = memory_read s address).
Proof.
  intros Hin. induction n as [| n IH]; intros s Hh Hop Htaken Hback Hpc.
  - split; reflexivity.
  - cbn [iterate].
    destruct (jr_effect rev s opcode cc Hh Hop Hin) as [Hcpu Hmem]. cbv zeta in Hcpu, Hmem.
    rewrite Htaken, Hback in Hcpu.
    replace (pc (cpu s) + 2 + -2) with (pc (cpu s)) in Hcpu by lia.
    rewrite (u16_small _ Hpc), with_pc_same in Hcpu.
    set (s1 := cpu_execute_instruction rev s) in *.
    destruct (IH s1) as [Hcpu' Hmem'].
    + rewrite Hcpu. exact Hh.
    + rewrite Hcpu, Hmem. exact Hop.
    + rewrite <- Htaken. destruct cc as [[] |]; cbn [taken condition_holds];
        unfold get_flag; rewrite ?Hcpu; reflexivity.
    + rewrite <- Hback. unfold displacement. rewrite Hcpu, Hmem. reflexivity.
    + rewrite Hcpu. exact Hpc.
    + split; [rewrite Hcpu'; exact Hcpu |].
      intros address. rewrite Hmem'. apply Hmem.
Qed.

(** X29.  Relative jumps.  JR, JR NZ and JR Z read their operand as a
    signed byte, from -128 to 127.  Taken (always, or with Z clear, or
    with Z set), the jump continues that many bytes from the address
    after the two-byte instruction, modulo 65536; not taken, right after
    it.  No other register, no flag and no byte of memory changes.  As a
    consequence a taken jump with operand 0xFE (that is -2) is an idle
    loop: after any number of instructions the registers and the memory
    are as at the start. *)
Theorem X29_relative_jump rev s opcode cc :
  halted (cpu s) = false ->
  u8 (memory_read s (pc (cpu s))) = opcode ->
  In (opcode, cc) jr_opcodes ->
  let s' := cpu_execute_instruction rev s in
  -128 <= displacement s < 128
  /\ cpu s'
     = with_pc (u16 (pc (cpu s) + 2 + (if taken cc s then displacement s else 0))) (cpu s)
  /\ (forall address, memory_read s' address = memory_read s address)
  /\ (taken cc s = true -> displacement s = -2 -> 0 <= pc (cpu s) < 65536 ->
      forall n,
        cpu (iterate (cpu_execute_instruction rev) n s) = cpu s
        /\ (forall address,
              memory_read (iterate (cpu_execute_instruction rev) n s) address
              = memory_read s address)).
Proof.
  intros Hh Hop Hin s'.
  split; [apply displacement_range |].
  destruct (jr_effect rev s opcode cc Hh Hop Hin) as [Hcpu Hmem].
  split; [exact Hcpu |]. split; [exact Hmem |].
  intros Htaken Hback Hpc n.
  exact (jr_loop rev opcode cc n Hin s Hh Hop Htaken Hback Hpc).
Qed.

Lemma X29_witness :
  let s := set_pc 0xC000
             (memory_write 0xC001 0xFE (memory_write 0xC000 0x18 (cpu_init cpu_c power_on))) in
  halted (cpu s) = false
  /\ u8 (memory_read s (pc (cpu s))) = 0x18
  /\ In (0x18, None) jr_opcodes
  /\ displacement s = -2
  /\ pc (cpu (cpu_execute_instruction cpu_c s)) = 0xC000
  /\ cpu (iterate (cpu_execute_instruction cpu_c) 1000 s) = cpu s.
Proof.
  intros s.
  assert (Hin : In (0x18, None) jr_opcodes) by (left; reflexivity).
  do 4 (split; [first [exact Hin | reflexivity] |]).
  destruct (X29_relative_jump cpu_c s 0x18 None eq_refl eq_refl Hin)
    as (_ & Hcpu & _ & Hloop).
  split.
  - rewrite Hcpu. reflexivity.
  - apply Hloop; [reflexivity | reflexivity |].
    split; [apply Z.leb_le | apply Z.ltb_lt]; reflexivity.
Defined.

(** ** cpu.c: the register loads *)

Lemma get_hl_range s : 0 <= get_hl s < 65536.
Proof. unfold get_hl. apply u16_range. Qed.

Lemma get_hl_u16 s : u16 (get_hl s) = get_hl s.
Proof. apply u16_small, get_hl_range. Qed.

(** X30.  The register loads against their encoding.  Every case of the
    switch in the block 0x40 .. 0x7F moves the operand numbered by the low
    three bits of its opcode into the operand numbered by bits 3 to 5, in
    the order B, C, D, E, H, L, (HL), A, as a byte.  It changes no other
    register, no flag and not the stack pointer, it moves [pc] by one,
    and it leaves the memory alone, except that LD (HL), A, with HL at
    or above 0x8000 where the bus stores what is written, writes the
    byte at HL (and its mirror, below an echo address). *)
Theorem X30_register_loads rev s opcode :
  halted (cpu s) = false ->
  u8 (memory_read s (pc (cpu s))) = opcode ->
  In opcode load_opcodes ->
  let dst := operand_of_index (opcode / 8 mod 8) in
  let src := operand_of_index (opcode mod 8) in
  (dst = Mem_HL -> 0x8000 <= u16 (get_hl s)) ->
  let s' := cpu_execute_instruction rev s in
  u8 (operand_value dst s') = u8 (operand_value src s)
  /\ (forall r, r <> dst -> r <> Mem_HL -> operand_value r s' = operand_value r s)
  /\ (forall address,
        dst <> Mem_HL
        \/ (u16 address <> u16 (get_hl s) /\ u16 address <> u16 (get_hl s) - 0x2000) ->
        memory_read s' address = memory_read s address)
  /\ f (cpu s') = f (cpu s)
  /\ sp (cpu s') = sp (cpu s)
  /\ pc (cpu s') = u16 (pc (cpu s) + 1).
Proof.
  intros Hh Hop Hin dst src Hw s'. subst s' dst src.
  unfold load_opcodes in Hin. cbn [In] in Hin.
  repeat (destruct Hin as [<- | Hin]); try contradiction.
  all: exec_opcode rev s Hh Hop; rewrite ?get_hl_fetched;
    match goal with
    | |- context [operand_of_index ?i] =>
        let v := eval vm_compute in (operand_of_index i) in
        change (operand_of_index i) with v
    end;
    match goal with
    | |- context [operand_of_index ?i] =>
        let v := eval vm_compute in (operand_of_index i) in
        change (operand_of_index i) with v
    end;
    match type of Hw with
    | context [operand_of_index ?i] =>
        let v := eval vm_compute in (operand_of_index i) in
        change (operand_of_index i) with v in Hw
    end.
  all: rewrite ?memory_write_cpu; cpu_simpl.
  all: split;
    [ cbn [operand_value]; rewrite ?memory_write_cpu; cpu_simpl; unfold get_hl;
      rewrite ?memory_write_cpu; cpu_simpl; rewrite ?u8_idem;
      try reflexivity
    | split;
      [ intros r Hr Hr'; destruct r; try contradiction; cbn [operand_value];
        rewrite ?memory_write_cpu; cpu_simpl; reflexivity
      | split;
        [ intros address Haway
        | repeat split; rewrite ?memory_write_cpu; cpu_simpl; reflexivity ] ] ].
  all: try (transitivity (memory_read (fetched rev s) address);
            [reflexivity | apply fetched_memory_read]).
  (* LD (HL), A: the byte written, and the bytes away from it *)
  - fold (get_hl s).
    rewrite memory_read_write_same
      by (specialize (Hw eq_refl); rewrite get_hl_u16 in Hw;
          pose proof (get_hl_range s); lia).
    apply u8_idem.
  - destruct Haway as [Hne | [H1 H2]]; [contradiction Hne; reflexivity |].
    rewrite get_hl_u16 in H1, H2.
    rewrite memory_read_write_other by (first [apply get_hl_range | assumption]).
    apply fetched_memory_read.
Qed.

Lemma X30_witness :
  let s := set_pc 0xC000
             (memory_write 0xC002 0x77
                (memory_write 0xC001 0x67
                   (memory_write 0xC000 0x7B (cpu_init cpu_c power_on)))) in
  let s2 := iterate (cpu_execute_instruction cpu_c) 2 s in
  let s3 := cpu_execute_instruction cpu_c s2 in
  halted (cpu s2) = false
  /\ u8 (memory_read s2 (pc (cpu s2))) = 0x77
  /\ In 0x77 load_opcodes
  /\ 0x8000 <= u16 (get_hl s2)
  /\ get_hl s3 = 0xD84D
  /\ u8 (memory_read s3 (get_hl s3)) = 0xD8.
Proof.
  intros s s2 s3.
  assert (Hh : halted (cpu s2) = false) by (vm_compute; reflexivity).
  assert (Hop : u8 (memory_read s2 (pc (cpu s2))) = 0x77) by (vm_compute; reflexivity).
  assert (Hin : In 0x77 load_opcodes) by (cbn; tauto).
  assert (Hw : 0x8000 <= u16 (get_hl s2)) by (apply Z.leb_le; vm_compute; reflexivity).
  do 4 (split; [assumption |]).
  destruct (X30_register_loads cpu_c s2 0x77 Hh Hop Hin (fun _ => Hw)) as (Hv & Hr & _).
  assert (Hhl : get_hl s3 = 0xD84D).
  { fold s3 in Hr. unfold get_hl.
    change (h (cpu s3)) with (operand_value Reg_H s3).
    change (l (cpu s3)) with (operand_value Reg_L s3).
    rewrite (Hr Reg_H), (Hr Reg_L) by discriminate.
    vm_compute. reflexivity. }
  split; [exact Hhl |].
  etransitivity; [exact Hv |]. vm_compute. reflexivity.
Defined.

(** ** main.c: a halted CPU in the loop *)

(** Once the CPU is halted a pass through the loop is a pass of the
    PPU, the joypad and the timer alone. *)
Lemma emulation_step_halted rev ch st m :
  halted (cpu m) = true ->
  emulation_step rev ch (st, m)
  = (let '(st', m') := handle_input ch (st, ppu_renderer.update_ppu m) in
     (st', update_timer m')).
Proof.
  intros Hh. unfold emulation_step. rewrite (execute_cpu_cycle_halted rev m Hh). reflexivity.
Qed.

Lemma main_iteration_cpu rev ch st m :
  halted (cpu m) = true -> cpu (snd (main_iteration rev ch (st, m))) = cpu m.
Proof.
  intros Hh. unfold main_iteration. rewrite (emulation_step_halted rev ch st m Hh).
  unfold handle_input.
  destruct (renderer_update_others 4 m) as (Hppu & _).
  fold (ppu_renderer.update_ppu m) in Hppu.
  pose proof (input_update_others ch st (ppu_renderer.update_ppu m)) as (Hin & _).
  destruct (input_update ch (st, ppu_renderer.update_ppu m)) as [st' m'].
  cbn [snd] in Hin.
  destruct (timer_update_others 4 m') as (Htim & _). fold (update_timer m') in Htim.
  destruct (ppu_renderer.ppu_is_frame_ready (update_timer m')); cbn [snd];
    unfold ppu_renderer.ppu_render_frame, set_frame_ready, set_frame_count;
    cbn [cpu set_ppu]; congruence.
Qed.

Lemma emulate_cpu_halted rev keys : forall st m,
  halted (cpu m) = true -> cpu (snd (emulate rev keys (st, m))) = cpu m.
Proof.
  unfold emulate. induction keys as [| ch keys IH]; intros st m Hh; cbn [fold_left].
  - reflexivity.
  - pose proof (main_iteration_cpu rev ch st m Hh) as Hcpu.
    destruct (main_iteration rev ch (st, m)) as [st1 m1]. cbn [snd] in Hcpu.
    rewrite IH by (rewrite Hcpu; exact Hh). exact Hcpu.
Qed.

(** X13.  HALT in part_001.  The instruction 0x76 moves [pc] past itself
    and sets the halt flag, and changes nothing else.  From then on
    [execute_cpu_cycle] does nothing, however often it is called, and
    nothing in the loop of [main] clears the flag: after any number of
    passes through the loop, whatever keys arrive, every register of the
    CPU, [pc] and the halt flag are as the HALT left them, and each pass
    is a pass of the PPU, the joypad and the timer alone, which go
    on. *)
Theorem X13_halt_is_final s :
  halted (cpu s) = false ->
  u8 (memory_read s (pc (cpu s))) = 0x76 ->
  let s' := execute_cpu_cycle part_001 s in
  s' = set_halted true (set_pc (u16 (pc (cpu s) + 1)) s)
  /\ (forall n, iterate (execute_cpu_cycle part_001) n s' = s')
  /\ (forall keys st,
        let m := snd (emulate part_001 keys (st, s')) in
        cpu m = cpu s'
        /\ halted (cpu m) = true
        /\ (forall ch st',
              emulation_step part_001 ch (st', m)
              = (let '(st'', m') := handle_input ch (st', ppu_renderer.update_ppu m) in
                 (st'', update_timer m')))).
Proof.
  intros Hh Hop. cbv zeta.
  assert (Hs' : execute_cpu_cycle part_001 s
                = set_halted true (set_pc (u16 (pc (cpu s) + 1)) s)).
  { unfold execute_cpu_cycle.
    rewrite cpu_execute_instruction_fetched by exact Hh.
    rewrite Hop. reflexivity. }
  assert (Hhalted : halted (cpu (execute_cpu_cycle part_001 s)) = true)
    by (rewrite Hs'; reflexivity).
  split; [exact Hs' |]. split.
  - intros n. apply iterate_fixed. apply execute_cpu_cycle_halted. exact Hhalted.
  - intros keys st.
    pose proof (emulate_cpu_halted part_001 keys st _ Hhalted) as Hcpu.
    assert (Hm : halted (cpu (snd (emulate part_001 keys (st, execute_cpu_cycle part_001 s))))
                 = true) by (rewrite Hcpu; exact Hhalted).
    split; [exact Hcpu |]. split; [exact Hm |].
    intros ch st'. apply emulation_step_halted. exact Hm.
Qed.

Lemma X13_witness :
  let st := mkInput 0x0F 0x0F in
  let s := set_pc 0xC000
             (memory_write 0xC000 0x76 (snd (emulator_init part_001 (st, power_on)))) in
  let s' := execute_cpu_cycle part_001 s in
  let m := snd (emulate part_001 (repeat (Some 119) 1000) (st, s')) in
  let m1 := snd (emulate part_001 [Some 119] (st, s')) in
  halted (cpu s) = false
  /\ u8 (memory_read s (pc (cpu s))) = 0x76
  /\ pc (cpu m) = 0xC001
  /\ halted (cpu m) = true
  /\ cycles (ppu s') = 0 /\ cycles (ppu m1) = 4
  /\ divider_cycles (timer_state s') = 0 /\ divider_cycles (timer_state m1) = 4.
Proof.
  intros st s s' m m1.
  assert (Hh : halted (cpu s) = false) by reflexivity.
  assert (Hop : u8 (memory_read s (pc (cpu s))) = 0x76) by reflexivity.
  split; [exact Hh |]. split; [exact Hop |].
  destruct (X13_halt_is_final s Hh Hop) as (Hs' & _ & Hloop).
  destruct (Hloop (repeat (Some 119) 1000) st) as (Hcpu & Hm & _).
  fold s' in Hcpu, Hm, Hs'. fold m in Hcpu, Hm.
  split; [rewrite Hcpu, Hs'; reflexivity |].
  split; [exact Hm |].
  repeat split; reflexivity.
Defined.
